(** * PREDSTORM: the SatData container, its frame conversions and L1
    corrections (predstorm/data.py) and the sliding-window analogue search
    (predstorm_l1.py)

    The development embeds the Python code shallowly:
    - a float64 is a real number or one of the IEEE special values (rounding,
      overflow and the sign of zero are not represented);
    - a numpy 1-D array is a list, the 2-D [SatData.data] a list of rows;
    - exceptions are values of [result]; logging and in-place mutation are
      threaded through a state-and-error monad whose state survives a raise. *)

From Stdlib Require Import Reals Lra Lia RNsatz List String Bool Arith ZArith.
Import ListNotations.
Local Open Scope R_scope.

(* ===================================================================== *)
(** ** Floating-point values *)
(* ===================================================================== *)

Module NpFloat.

(** A float64 as numpy sees it: a finite value, an infinity or NaN. *)
Inductive npfloat : Type :=
| Fin (r : R)
| PInf
| NInf
| NaN.

(** Result chosen by the sign of a real: used where IEEE arithmetic looks at
    the sign of a finite operand next to an infinity or a zero divisor. *)
Definition by_sign (r : R) (pos neg zero : npfloat) : npfloat :=
  if Rlt_dec 0 r then pos else if Rlt_dec r 0 then neg else zero.

Definition fneg (x : npfloat) : npfloat :=
  match x with
  | Fin r => Fin (- r)
  | PInf => NInf
  | NInf => PInf
  | NaN => NaN
  end.

Definition fadd (x y : npfloat) : npfloat :=
  match x, y with
  | NaN, _ | _, NaN => NaN
  | Fin a, Fin b => Fin (a + b)
  | PInf, NInf | NInf, PInf => NaN
  | PInf, _ | _, PInf => PInf
  | NInf, _ | _, NInf => NInf
  end.

Definition fsub (x y : npfloat) : npfloat := fadd x (fneg y).

Definition fmul (x y : npfloat) : npfloat :=
  match x, y with
  | NaN, _ | _, NaN => NaN
  | Fin a, Fin b => Fin (a * b)
  | Fin a, PInf | PInf, Fin a => by_sign a PInf NInf NaN
  | Fin a, NInf | NInf, Fin a => by_sign a NInf PInf NaN
  | PInf, PInf | NInf, NInf => PInf
  | PInf, NInf | NInf, PInf => NInf
  end.

Definition fdiv (x y : npfloat) : npfloat :=
  match x, y with
  | NaN, _ | _, NaN => NaN
  | Fin a, Fin b =>
      if Req_dec_T b 0 then by_sign a PInf NInf NaN else Fin (a / b)
  | Fin _, _ => Fin 0
  | PInf, Fin b => if Rlt_dec b 0 then NInf else PInf
  | NInf, Fin b => if Rlt_dec b 0 then PInf else NInf
  | _, _ => NaN
  end.

Definition fsqrt (x : npfloat) : npfloat :=
  match x with
  | Fin a => if Rlt_dec a 0 then NaN else Fin (sqrt a)
  | PInf => PInf
  | _ => NaN
  end.

Definition fabs (x : npfloat) : npfloat :=
  match x with
  | Fin a => Fin (Rabs a)
  | PInf | NInf => PInf
  | NaN => NaN
  end.

Definition fcos (x : npfloat) : npfloat :=
  match x with Fin a => Fin (cos a) | _ => NaN end.

Definition fsin (x : npfloat) : npfloat :=
  match x with Fin a => Fin (sin a) | _ => NaN end.

(** [np.arctan2 y x], quadrant-aware. *)
Definition atan2 (y x : R) : R :=
  if Rlt_dec 0 x then atan (y / x)
  else if Rlt_dec x 0 then
         (if Rlt_dec y 0 then atan (y / x) - PI else atan (y / x) + PI)
       else if Rlt_dec 0 y then PI / 2
            else if Rlt_dec y 0 then - (PI / 2) else 0.

Definition farctan2 (y x : npfloat) : npfloat :=
  match y, x with
  | NaN, _ | _, NaN => NaN
  | Fin a, Fin b => Fin (atan2 a b)
  | Fin a, PInf => Fin 0
  | Fin a, NInf => if Rlt_dec a 0 then Fin (- PI) else Fin PI
  | PInf, Fin _ => Fin (PI / 2)
  | NInf, Fin _ => Fin (- (PI / 2))
  | PInf, PInf => Fin (PI / 4)
  | PInf, NInf => Fin (3 * PI / 4)
  | NInf, PInf => Fin (- (PI / 4))
  | NInf, NInf => Fin (- (3 * PI / 4))
  end.

(** [x ** 2] and [x ** -2] on float64. *)
Definition fsquare (x : npfloat) : npfloat := fmul x x.
Definition fpow_neg2 (x : npfloat) : npfloat := fdiv (Fin 1) (fmul x x).

(** Comparisons: every comparison with NaN is false. *)
Definition flt (x y : npfloat) : bool :=
  match x, y with
  | NaN, _ | _, NaN => false
  | Fin a, Fin b => if Rlt_dec a b then true else false
  | Fin _, PInf | NInf, Fin _ | NInf, PInf => true
  | _, _ => false
  end.

Definition fle (x y : npfloat) : bool :=
  match x, y with
  | NaN, _ | _, NaN => false
  | Fin a, Fin b => if Rle_dec a b then true else false
  | NInf, _ | _, PInf => true
  | _, _ => false
  end.

Definition isnan (x : npfloat) : bool :=
  match x with NaN => true | _ => false end.

Definition of_nat (n : nat) : npfloat := Fin (INR n).

End NpFloat.
Export NpFloat.

(* ===================================================================== *)
(** ** Exceptions, logging and the method monad *)
(* ===================================================================== *)

Module Py.

Inductive exn : Type :=
| Exception (msg : string)
| NotImplementedError (msg : string)
| ValueError (msg : string)
| AttributeError (msg : string)
| IndexError (msg : string)
| KeyError (msg : string)
| TypeError (msg : string)
| ZeroDivisionError (msg : string).

Inductive result (A : Type) : Type :=
| Ok (a : A)
| Raise (e : exn).
Arguments Ok {A} a.
Arguments Raise {A} e.

Definition rbind {A B : Type} (r : result A) (k : A -> result B) : result B :=
  match r with
  | Ok a => k a
  | Raise e => Raise e
  end.

(** The records the module-level [logger] receives.  A numeric field of a
    format string stays a placeholder in [text]; its value is kept beside. *)
Inductive level : Type := INFO | WARNING | ERROR.

Record log_record : Type := mkLog {
  lvl : level;
  text : string;
  numbers : list npfloat
}.

(** Computations over a state [S] that may raise; the state reached when
    the exception is raised is kept, as it is for a mutated Python object. *)
Definition M (S A : Type) : Type := S -> result A * S.

Definition ret {S A : Type} (a : A) : M S A := fun s => (Ok a, s).

Definition bind {S A B : Type} (m : M S A) (k : A -> M S B) : M S B :=
  fun s =>
    match m s with
    | (Ok a, s') => k a s'
    | (Raise e, s') => (Raise e, s')
    end.

Definition raise {S A : Type} (e : exn) : M S A := fun s => (Raise e, s).

Definition get {S : Type} : M S S := fun s => (Ok s, s).

Definition put {S : Type} (s : S) : M S unit := fun _ => (Ok tt, s).

Definition lift {S A : Type} (r : result A) : M S A := fun s => (r, s).

(** [for x in xs: body x] *)
Fixpoint for_each {S A : Type} (xs : list A) (body : A -> M S unit) : M S unit :=
  match xs with
  | [] => ret tt
  | x :: rest => bind (body x) (fun _ => for_each rest body)
  end.

(** A list comprehension whose element expression may raise. *)
Fixpoint mapM {A B : Type} (f : A -> result B) (xs : list A) : result (list B) :=
  match xs with
  | [] => Ok []
  | x :: rest =>
      rbind (f x) (fun y => rbind (mapM f rest) (fun ys => Ok (y :: ys)))
  end.

End Py.
Export Py.

Declare Scope py_scope.
Delimit Scope py_scope with py.
Notation "x <- m ;; k" := (bind m (fun x => k))
  (at level 61, m at next level, right associativity) : py_scope.
Notation "m ;;; k" := (bind m (fun _ => k))
  (at level 61, right associativity) : py_scope.
Notation "x <~ r ;; k" := (rbind r (fun x => k))
  (at level 61, r at next level, right associativity) : py_scope.
Open Scope py_scope.

(* ===================================================================== *)
(** ** numpy arrays *)
(* ===================================================================== *)

Module Np.

Definition array : Type := list npfloat.

Definition np_zeros (n : nat) : array := repeat (Fin 0) n.

Fixpoint zip_with (f : npfloat -> npfloat -> npfloat) (a b : array) : array :=
  match a, b with
  | x :: a', y :: b' => f x y :: zip_with f a' b'
  | _, _ => []
  end.

(** An elementwise binary operator on two 1-D arrays: equal shapes pair up,
    a one-element operand is stretched, anything else is refused. *)
Definition broadcast2 (f : npfloat -> npfloat -> npfloat) (a b : array)
  : result array :=
  if Nat.eqb (List.length a) (List.length b) then Ok (zip_with f a b)
  else match a, b with
       | [x], _ => Ok (map (f x) b)
       | _, [y] => Ok (map (fun x => f x y) a)
       | _, _ => Raise (ValueError "operands could not be broadcast together")
       end.

(** [np.sum]: accumulation from zero, left to right. *)
Definition np_sum (a : array) : npfloat := fold_left fadd a (Fin 0).

(** [a[i:j]] for non-negative bounds: out-of-range bounds are clipped. *)
Definition slice {A : Type} (a : list A) (i j : nat) : list A :=
  firstn (j - i) (skipn i a).

(** [a[-1]] *)
Definition last_item {A : Type} (a : list A) : result A :=
  match rev a with
  | x :: _ => Ok x
  | [] => Raise (IndexError "index -1 is out of bounds for axis 0 with size 0")
  end.

(** [a[i]] for a non-negative index. *)
Definition item {A : Type} (a : list A) (i : nat) : result A :=
  match nth_error a i with
  | Some x => Ok x
  | None => Raise (IndexError "index out of bounds")
  end.

(** [row[...] = value]: the value must have the row's length or one element. *)
Definition assign_row (row value : array) : result array :=
  if Nat.eqb (List.length value) (List.length row) then Ok value
  else match value with
       | [x] => Ok (repeat x (List.length row))
       | _ => Raise (ValueError "could not broadcast input array")
       end.

(** Replace element [i] of a list (the index is in range at every use). *)
Fixpoint set_nth {A : Type} (l : list A) (i : nat) (x : A) : list A :=
  match l, i with
  | [], _ => []
  | _ :: l', O => x :: l'
  | y :: l', S i' => y :: set_nth l' i' x
  end.

(** [np.asarray] of a list of rows: the rows must agree in length. *)
Definition np_asarray2 (rows : list array) : result (list array) :=
  match rows with
  | [] => Ok []
  | r :: _ =>
      if forallb (fun r' => Nat.eqb (List.length r') (List.length r)) rows
      then Ok rows
      else Raise (ValueError "inhomogeneous shape")
  end.

End Np.
Export Np.

(* ===================================================================== *)
(** ** Small string helpers (str methods used by the module) *)
(* ===================================================================== *)

Module Str.

Local Open Scope string_scope.

Definition mem (k : string) (l : list string) : bool :=
  existsb (String.eqb k) l.

(** [l.index(k)]; the length of [l] when [k] is absent (every use is
    guarded by a membership test). *)
Fixpoint index_of (k : string) (l : list string) : nat :=
  match l with
  | [] => O
  | x :: l' => if String.eqb k x then O else S (index_of k l')
  end.

(** [l.remove(k)]: drops the first occurrence. *)
Fixpoint remove_first (k : string) (l : list string) : list string :=
  match l with
  | [] => []
  | x :: l' => if String.eqb k x then l' else x :: remove_first k l'
  end.

Definition lower_ascii (c : Ascii.ascii) : Ascii.ascii :=
  let n := Ascii.nat_of_ascii c in
  if (Nat.leb 65 n && Nat.leb n 90)%bool then Ascii.ascii_of_nat (n + 32) else c.

Fixpoint lower (s : string) : string :=
  match s with
  | EmptyString => EmptyString
  | String c s' => String (lower_ascii c) (lower s')
  end.

(** [s.startswith(p)] *)
Fixpoint starts_with (p s : string) : bool :=
  match p, s with
  | EmptyString, _ => true
  | String a p', String b s' => Ascii.eqb a b && starts_with p' s'
  | _, _ => false
  end.

Fixpoint drop (n : nat) (s : string) : string :=
  match n, s with
  | O, _ => s
  | S n', String _ s' => drop n' s'
  | S _, EmptyString => EmptyString
  end.

(** [s.replace(old, new)] for a non-empty [old]: non-overlapping occurrences,
    left to right.  [fuel] bounds the scan by the length of [s]. *)
Fixpoint replace_fuel (fuel : nat) (old new s : string) : string :=
  match fuel with
  | O => s
  | S fuel' =>
      match s with
      | EmptyString => EmptyString
      | String c s' =>
          if starts_with old s
          then new ++ replace_fuel fuel' old new (drop (String.length old) s)
          else String c (replace_fuel fuel' old new s')
      end
  end.

Definition replace (old new s : string) : string :=
  replace_fuel (String.length s) old new s.

End Str.
Export Str.

(* ===================================================================== *)
(** ** Headers and position data *)
(* ===================================================================== *)

Module Header.

Local Open Scope string_scope.

(** Values found in the metadata dicts. *)
Inductive hval : Type :=
| HStr (s : string)
| HNum (x : npfloat)
| HNone
| HList (l : list string)
| HDict (d : list (string * string))
| HObj (name : string).

(** A metadata dict, in insertion order. *)
Definition header : Type := list (string * hval).

Fixpoint h_get (k : string) (h : header) : option hval :=
  match h with
  | [] => None
  | (k', v) :: h' => if String.eqb k k' then Some v else h_get k h'
  end.

(** [h[k] = v] *)
Fixpoint h_set (k : string) (v : hval) (h : header) : header :=
  match h with
  | [] => [(k, v)]
  | (k', v') :: h' =>
      if String.eqb k k' then (k, v) :: h' else (k', v') :: h_set k v h'
  end.

(** [h[k]] *)
Definition h_item (k : string) (h : header) : result hval :=
  match h_get k h with
  | Some v => Ok v
  | None => Raise (KeyError k)
  end.

(** [h[k]] where the code goes on to use the value as a string. *)
Definition h_str (k : string) (h : header) : result string :=
  v <~ h_item k h ;;
  match v with
  | HStr s => Ok s
  | _ => Raise (TypeError "header value is not a str")
  end.

End Header.
Export Header.

Module PositionData.

Local Open Scope string_scope.

Record t : Type := mk {
  positions : list array;
  h : header;
  coors : list string
}.

Definition empty_header : header :=
  [("ReferenceFrame", HStr ""); ("CoordinateSystem", HStr "");
   ("Units", HStr ""); ("Object", HStr "")].

Definition __init__ (posdata : list array) (postype : string)
           (hd : option header) : result t :=
  if negb (mem (lower postype) ["xyz"; "rlonlat"])
  then Raise (Exception
         "PositionData __init__: postype must be either 'xyz' or 'rlonlat'!")
  else
    rows <~ np_asarray2 posdata ;;
    let h0 := match hd with None => empty_header | Some h' => h' end in
    Ok {| positions := rows;
          h := h_set "CoordinateSystem" (HStr (lower postype)) h0;
          coors := if String.eqb postype "xyz"
                   then ["x"; "y"; "z"] else ["r"; "lon"; "lat"] |}.

(** [pos[var]] for a component name. *)
Definition __getitem__ (p : t) (var : string) : result array :=
  if mem var (coors p)
  then item (positions p) (index_of var (coors p))
  else Raise (Exception
         ("PositionData object does not contain data under the key '"
            ++ var ++ "'!")).

(** [pos[i]] for an integer: the column [positions[:, i]]. *)
Definition column (p : t) (i : nat) : result (list npfloat) :=
  mapM (fun row => item row i) (positions p).

End PositionData.

(* ===================================================================== *)
(** ** class SatData *)
(* ===================================================================== *)

Module SatData.

Local Open Scope string_scope.

Definition default_keys : list string :=
  ["time";
   "speed"; "speedx"; "density"; "temp"; "pdyn";
   "bx"; "by"; "bz"; "btot";
   "br"; "bt"; "bn";
   "dst"; "kp"; "aurora"; "ec"; "ae"].

Definition empty_header : header :=
  [("DataSource", HStr ""); ("SourceURL", HStr ""); ("SamplingRate", HNone);
   ("ReferenceFrame", HStr ""); ("FileVersion", HDict []);
   ("Instruments", HList [])].

Record t : Type := mk {
  data : list array;
  state : list (option string);
  source : option string;
  h : header;
  pos : option PositionData.t;
  vars : list string
}.

Definition set_data (d : t) (x : list array) : t :=
  mk x (state d) (source d) (h d) (pos d) (vars d).
Definition set_vars (d : t) (x : list string) : t :=
  mk (data d) (state d) (source d) (h d) (pos d) x.
Definition set_h (d : t) (x : header) : t :=
  mk (data d) (state d) (source d) x (pos d) (vars d).
Definition set_pos (d : t) (x : option PositionData.t) : t :=
  mk (data d) (state d) (source d) (h d) x (vars d).

(** The object a method runs on, with the records logged so far. *)
Record world : Type := mkWorld {
  self : t;
  logged : list log_record
}.

Definition logger (l : level) (s : string) (nums : list npfloat)
  : M (list log_record) unit :=
  fun lg => (Ok tt, (lg ++ [mkLog l s nums])%list).

(** Run a computation that only logs inside a method. *)
Definition in_log {A : Type} (m : M (list log_record) A) : M world A :=
  fun w => let (r, lg) := m (logged w) in (r, mkWorld (self w) lg).

Definition get_self : M world t := fun w => (Ok (self w), w).
Definition put_self (d : t) : M world unit :=
  fun w => (Ok tt, mkWorld d (logged w)).

(** An input dict: the items in insertion order. *)
Definition dict : Type := list (string * array).

Fixpoint d_get (k : string) (d : dict) : option array :=
  match d with
  | [] => None
  | (k', v) :: d' => if String.eqb k k' then Some v else d_get k d'
  end.

(** The first loop of the constructor: every key must be a default key. *)
Fixpoint check_keys (ks : list string) : result unit :=
  match ks with
  | [] => Ok tt
  | k :: ks' =>
      if negb (mem k default_keys)
      then Raise (NotImplementedError
                    ("Key " ++ k ++ " not implemented in SatData class!"))
      else check_keys ks'
  end.

(** [SatData(input_dict, source, header)] *)
Definition __init__ (input_dict : dict) (src : option string)
           (hd : option header) : M (list log_record) t :=
  let ks := map fst input_dict in
  lift (check_keys ks) ;;;
  match d_get "time" input_dict with
  | None => raise (Exception "Time variable is required for SatData object!")
  | Some time =>
      let dt := filter (fun x => mem x ks) default_keys in
      (if Nat.eqb (List.length time) 0
       then logger WARNING
              "SatData.__init__: Inititating empty array! Is the data missing?" []
       else ret tt) ;;;
      let rows :=
        map (fun x => if mem x dt
                      then match d_get x input_dict with
                           | Some a => a
                           | None => []
                           end
                      else np_zeros (List.length time)) default_keys in
      arr <- lift (np_asarray2 rows) ;;
      ret {| data := arr;
             state := repeat None (List.length (nth 0 arr []));
             source := src;
             h := match hd with None => empty_header | Some h' => h' end;
             pos := None;
             vars := remove_first "time" dt |}
  end.

(** [len(d)]: the length of the time row. *)
Definition __len__ (d : t) : nat := List.length (nth 0 (data d) []).

(** [d[var]] for a key. *)
Definition __getitem__ (d : t) (var : string) : result array :=
  if mem var (vars d ++ ["time"])%list
  then item (data d) (index_of var default_keys)
  else Raise (Exception
         ("SatData object does not contain data under the key '"
            ++ var ++ "'!")).

(** [self.data[i] = value] *)
Definition store_row (d : t) (i : nat) (value : array) : result t :=
  row <~ item (data d) i ;;
  row' <~ assign_row row value ;;
  Ok (set_data d (set_nth (data d) i row')).

(** [d[var] = value] for a key. *)
Definition __setitem__ (var : string) (value : array) : M world unit :=
  d <- get_self ;;
  if mem var (vars d) then
    d' <- lift (store_row d (index_of var default_keys) value) ;;
    put_self d'
  else if mem var default_keys && negb (mem var (vars d)) then
    d' <- lift (store_row d (index_of var default_keys) value) ;;
    put_self d' ;;;
    put_self (set_vars d' (vars d' ++ [var])%list)
  else raise (Exception
         ("SatData object does not contain the key '" ++ var ++ "'!")).

End SatData.

(* ===================================================================== *)
(** ** External collaborators *)
(* ===================================================================== *)

(** What the module takes from numpy, matplotlib.dates, astropy, heliosat
    and [config.constants]; none of it is defined in the repository. *)
Record externals : Type := mkExternals {
  (** [np.interp(x, xp, fp)] *)
  np_interp : array -> array -> array -> result array;
  (** [obj.trajectory(times, frame, units, observer)]: one row per time *)
  trajectory : string -> list R -> string -> string -> string
               -> result (list (npfloat * npfloat * npfloat));
  (** [astropy.time.Time(num2date(t), ...).jd] *)
  julian_date : R -> R;
  (** hour + minute/60 + second/3600 of [num2date(t)] *)
  ut_hours : R -> R;
  (** [datetime.strftime(num2date(t), "%Y-%m-%d %H:%M:%S")] *)
  strftime : R -> string;
  (** [config.constants.AU] and [config.constants.dist_to_L1] *)
  AU : R;
  dist_to_L1 : R
}.

(** [num2date(t)]: refuses a value that is not finite. *)
Definition num2date (t : npfloat) : result R :=
  match t with
  | Fin r => Ok r
  | NaN => Raise (ValueError "cannot convert float NaN to integer")
  | _ => Raise (ValueError "cannot convert float infinity to integer")
  end.

(* ===================================================================== *)
(** ** Vectors and rotation matrices *)
(* ===================================================================== *)

Module Linalg.

Definition vec3 : Type := (R * R * R)%type.
Definition mat3 : Type := (vec3 * vec3 * vec3)%type.
Definition fvec3 : Type := (npfloat * npfloat * npfloat)%type.

Definition dot3 (u v : vec3) : R :=
  let '(a, b, c) := u in let '(x, y, z) := v in a * x + b * y + c * z.

Definition col (m : mat3) (j : nat) : vec3 :=
  let '((a, b, c), (d, e, f), (g, h, i)) := m in
  match j with
  | O => (a, d, g)
  | S O => (b, e, h)
  | _ => (c, f, i)
  end.

Definition transpose (m : mat3) : mat3 := (col m 0, col m 1, col m 2).

(** [np.dot] of two 3x3 matrices. *)
Definition mmul (p q : mat3) : mat3 :=
  let '(r0, r1, r2) := p in
  let row r := (dot3 r (col q 0), dot3 r (col q 1), dot3 r (col q 2)) in
  (row r0, row r1, row r2).

(** [np.dot] of a 3x3 matrix and a vector of Python floats. *)
Definition mvec (m : mat3) (v : vec3) : vec3 :=
  let '(r0, r1, r2) := m in (dot3 r0 v, dot3 r1 v, dot3 r2 v).

(** [np.dot] of a 3x3 matrix and a column of stored samples. *)
Definition fdot3 (r : vec3) (v : fvec3) : npfloat :=
  let '(a, b, c) := r in let '(x, y, z) := v in
  fadd (fadd (fmul (Fin a) x) (fmul (Fin b) y)) (fmul (Fin c) z).

Definition mvec_f (m : mat3) (v : fvec3) : fvec3 :=
  let '(r0, r1, r2) := m in (fdot3 r0 v, fdot3 r1 v, fdot3 r2 v).

(** The two matrix shapes the conversions write out. *)
Definition rot_z (a : R) : mat3 :=
  ((cos a, sin a, 0), (- sin a, cos a, 0), (0, 0, 1)).

Definition rot_x (a : R) : mat3 :=
  ((1, 0, 0), (0, cos a, sin a), (0, - sin a, cos a)).

(** [np.linalg.norm], [np.cross], scalar times vector, vector sum,
    vector over scalar, [np.dot] of two vectors: all on stored samples. *)
Definition fnorm (v : fvec3) : npfloat :=
  let '(x, y, z) := v in
  fsqrt (fadd (fadd (fmul x x) (fmul y y)) (fmul z z)).

Definition fcross (u v : fvec3) : fvec3 :=
  let '(a0, a1, a2) := u in let '(b0, b1, b2) := v in
  (fsub (fmul a1 b2) (fmul a2 b1),
   fsub (fmul a2 b0) (fmul a0 b2),
   fsub (fmul a0 b1) (fmul a1 b0)).

Definition fscale (s : npfloat) (v : fvec3) : fvec3 :=
  let '(x, y, z) := v in (fmul s x, fmul s y, fmul s z).

Definition fvadd (u v : fvec3) : fvec3 :=
  let '(a0, a1, a2) := u in let '(b0, b1, b2) := v in
  (fadd a0 b0, fadd a1 b1, fadd a2 b2).

Definition fvdiv (v : fvec3) (s : npfloat) : fvec3 :=
  let '(x, y, z) := v in (fdiv x s, fdiv y s, fdiv z s).

Definition fvdot (u v : fvec3) : npfloat :=
  let '(a0, a1, a2) := u in let '(b0, b1, b2) := v in
  fadd (fadd (fmul a0 b0) (fmul a1 b1)) (fmul a2 b2).

(** [int(x)]: truncation towards zero. *)
Definition py_int (x : R) : Z :=
  if Rle_dec 0 x then Zfloor x else Zceil x.

(** [np.mod(x, y)] for a positive [y]: the remainder has the sign of [y]. *)
Definition np_mod (x y : R) : R := x - IZR (Zfloor (x / y)) * y.

End Linalg.
Export Linalg.

(* ===================================================================== *)
(** ** SatData: coordinate conversions *)
(* ===================================================================== *)

Module Convert.

Import SatData.
Local Open Scope string_scope.

(** [self[var][i]] *)
Definition sample (d : SatData.t) (var : string) (i : nat) : result npfloat :=
  a <~ __getitem__ d var ;; item a i.

Definition fst3 {A B C : Type} (p : A * B * C) : A := fst (fst p).
Definition snd3 {A B C : Type} (p : A * B * C) : B := snd (fst p).
Definition thd3 {A B C : Type} (p : A * B * C) : C := snd p.

(** *** Angles of Hapgood (1992), shared by both conversions *)

Definition mjd_of (jd : R) : R := IZR (py_int (jd - 2400000.5)).
Definition T00_of (mjd : R) : R := (mjd - 51544.5) / 36525.0.
Definition LAMBDA_of (T00 UT : R) : R := 280.460 + 36000.772 * T00 + 0.04107 * UT.
Definition M_of (T00 UT : R) : R := 357.528 + 35999.050 * T00 + 0.04107 * UT.
Definition lt2_of (T00 UT : R) : R :=
  (LAMBDA_of T00 UT
   + (1.915 - 0.0048 * T00) * sin (M_of T00 UT * PI / 180)
   + 0.020 * sin (2 * M_of T00 UT * PI / 180)) * PI / 180.

(** *** GSE to GSM *)

Definition pgeo_of (mjd : R) : R := 78.8 + 4.283 * ((mjd - 46066) / 365.25) * 0.01.
Definition lgeo_of (mjd : R) : R := 289.1 - 1.413 * ((mjd - 46066) / 365.25) * 0.01.

Definition Qg_of (mjd : R) : vec3 :=
  let pgeo := pgeo_of mjd in
  let lgeo := lgeo_of mjd in
  (cos (pgeo * PI / 180) * cos (lgeo * PI / 180),
   cos (pgeo * PI / 180) * sin (lgeo * PI / 180),
   sin (pgeo * PI / 180)).

Definition zeta_of (T00 UT : R) : R :=
  (100.461 + 36000.770 * T00 + 15.04107 * UT) * PI / 180.

Definition et2_of (T00 : R) : R := (23.439 - 0.013 * T00) * PI / 180.

(** The geomagnetic pole [Qe = T2 * T1^T * Qg] at one timestamp. *)
Definition Qe_of (mjd UT : R) : vec3 :=
  let T00 := T00_of mjd in
  let T1 := rot_z (zeta_of T00 UT) in
  let t2z := rot_z (lt2_of T00 UT) in
  let t2x := rot_x (et2_of T00) in
  let T2 := mmul t2z t2x in
  let T2T1t := mmul T2 (transpose T1) in
  mvec T2T1t (Qg_of mjd).

(** [psigsm = arctan(Qe.item(1) / Qe.item(2))]: a quotient of Python floats. *)
Definition psigsm_of (mjd UT : R) : result R :=
  let '(_, qy, qz) := Qe_of mjd UT in
  if Req_dec_T qz 0 then Raise (ZeroDivisionError "float division by zero")
  else Ok (atan (qy / qz)).

(** One pass of the loop body of [convert_GSE_to_GSM]. *)
Definition gse_to_gsm_sample (E : externals) (d : SatData.t) (i : nat)
  : result fvec3 :=
  t <~ sample d "time" i ;;
  tnum <~ num2date t ;;
  let mjd := mjd_of (julian_date E tnum) in
  let UT := ut_hours E tnum in
  psigsm <~ psigsm_of mjd UT ;;
  let T3 := rot_x (- psigsm) in
  bx <~ sample d "bx" i ;;
  by_ <~ sample d "by" i ;;
  bz <~ sample d "bz" i ;;
  Ok (mvec_f T3 (bx, by_, bz)).

(** [self.h['ReferenceFrame'].replace('GSE', 'GSM')] as an expression
    statement: the string that [replace] returns is not stored. *)
Definition replace_reference_frame (hd : header) : result unit :=
  v <~ h_item "ReferenceFrame" hd ;;
  match v with
  | HStr s => let _ := replace "GSE" "GSM" s in Ok tt
  | _ => Raise (AttributeError "object has no attribute 'replace'")
  end.

Definition convert_GSE_to_GSM (E : externals) : M world unit :=
  in_log (logger INFO "Converting GSE magn. values to GSM" []) ;;;
  d <- get_self ;;
  time <- lift (__getitem__ d "time") ;;
  out <- lift (mapM (gse_to_gsm_sample E d) (seq 0 (List.length time))) ;;
  __setitem__ "bx" (map fst3 out) ;;;
  __setitem__ "by" (map snd3 out) ;;;
  __setitem__ "bz" (map thd3 out) ;;;
  d' <- get_self ;;
  lift (replace_reference_frame (h d')).

(** *** RTN to GSE *)

Definition AU_km : R := 149597870.700.

Definition sphere2cart (r phi theta : npfloat) : fvec3 :=
  (fmul (fmul r (fcos theta)) (fcos phi),
   fmul (fmul r (fcos theta)) (fsin phi),
   fmul r (fsin theta)).

(** [np.where(cond)[-1][-1]]: the last index whose element satisfies [f]. *)
Fixpoint last_index_from (f : npfloat -> bool) (a : array) (i : nat)
         (found : option nat) : option nat :=
  match a with
  | [] => found
  | x :: a' => last_index_from f a' (S i) (if f x then Some i else found)
  end.

Definition last_index_where (f : npfloat -> bool) (a : array) : result nat :=
  match last_index_from f a 0 None with
  | Some i => Ok i
  | None => Raise (IndexError "index -1 is out of bounds for axis 0 with size 0")
  end.

(** The spacecraft position used for sample [i], in AU for the attached
    position data and as given for positions passed as arguments. *)
Definition rtn_position (d : SatData.t) (pos_obj : list array)
           (pos_tnum : array) (i : nat) : result fvec3 :=
  if Nat.ltb 0 (List.length pos_obj) && Nat.ltb 0 (List.length pos_tnum) then
    t <~ sample d "time" i ;;
    idx <~ last_index_where (fun p => flt p t) pos_tnum ;;
    r0 <~ item pos_obj 0 ;; r <~ item r0 idx ;;
    r1 <~ item pos_obj 1 ;; lon <~ item r1 idx ;;
    r2 <~ item pos_obj 2 ;; lat <~ item r2 idx ;;
    Ok (sphere2cart r lon lat)
  else
    match pos d with
    | None => Raise (AttributeError "'NoneType' object has no attribute 'h'")
    | Some p =>
        cs <~ h_item "CoordinateSystem" (PositionData.h p) ;;
        match cs with
        | HStr "rlonlat" =>
            r <~ PositionData.__getitem__ p "r" ;; ri <~ item r i ;;
            lon <~ PositionData.__getitem__ p "lon" ;; loni <~ item lon i ;;
            lat <~ PositionData.__getitem__ p "lat" ;; lati <~ item lat i ;;
            Ok (fvdiv (sphere2cart ri loni lati) (Fin AU_km))
        | _ =>
            c <~ PositionData.column p i ;;
            match c with
            | [xa; ya; za] => Ok (fvdiv (xa, ya, za) (Fin AU_km))
            | _ => Raise (ValueError "wrong number of values to unpack")
            end
        end
    end.

Definition X_heeq : fvec3 := (Fin 1, Fin 0, Fin 0).
Definition Y_heeq : fvec3 := (Fin 0, Fin 1, Fin 0).
Definition Z_heeq : fvec3 := (Fin 0, Fin 0, Fin 1).

(** The projection of one RTN sample onto the HEEQ axes. *)
Definition rtn_basis_project (p : fvec3) (br bt bn : npfloat) : fvec3 :=
  let Xrtn := fvdiv p (fnorm p) in
  let Yrtn := fvdiv (fcross Z_heeq Xrtn) (fnorm (fcross Z_heeq Xrtn)) in
  let Zrtn := fvdiv (fcross Xrtn Yrtn) (fnorm (fcross Xrtn Yrtn)) in
  let v := fvadd (fvadd (fscale br Xrtn) (fscale bt Yrtn)) (fscale bn Zrtn) in
  (fvdot v X_heeq, fvdot v Y_heeq, fvdot v Z_heeq).

(** One pass of the first loop of [convert_RTN_to_GSE]. *)
Definition rtn_to_heeq_sample (d : SatData.t) (pos_obj : list array)
           (pos_tnum : array) (i : nat) : result fvec3 :=
  p <~ rtn_position d pos_obj pos_tnum i ;;
  br <~ sample d "br" i ;;
  bt <~ sample d "bt" i ;;
  bn <~ sample d "bn" i ;;
  Ok (rtn_basis_project p br bt bn).

Definition omega_node_of (mjd : R) : R :=
  (73.6667 + 0.013958 * ((mjd + 3242) / 365.25)) * PI / 180.

Definition inclination_ecl : R := 7.25 * PI / 180.

(** [theta_node] as first computed, and the two angles in degrees that the
    quadrant test compares. *)
Definition theta_node_of (lt2 omega_node : R) : R :=
  atan (cos inclination_ecl * tan (lt2 - omega_node)).

Definition lambda_omega_deg_of (lt2 omega_node : R) : R :=
  np_mod (lt2 - omega_node) (2 * PI) * 180 / PI.

Definition theta_node_deg_of (theta_node : R) : R := theta_node * 180 / PI.

(** [if abs(lambda_omega_deg - theta_node_deg) < 180: theta_node = theta_node + np.pi] *)
Definition theta_node_corrected (lt2 omega_node : R) : R :=
  let theta_node := theta_node_of lt2 omega_node in
  if Rlt_dec (Rabs (lambda_omega_deg_of lt2 omega_node
                    - theta_node_deg_of theta_node)) 180
  then theta_node + PI else theta_node.

Definition S2_theta_of (lt2 omega_node : R) : mat3 :=
  rot_z (- theta_node_corrected lt2 omega_node).

Definition HEEQ_to_HEE_matrix (mjd UT : R) : mat3 :=
  let T00 := T00_of mjd in
  let lt2 := lt2_of T00 UT in
  let S1 := rot_z (lt2 + PI) in
  let omega_node := omega_node_of mjd in
  let S2_omega := rot_z (- omega_node) in
  let S2_incl := rot_x (- inclination_ecl) in
  let S2_theta := S2_theta_of lt2 omega_node in
  let S2 := mmul (mmul S2_omega S2_incl) S2_theta in
  mmul S1 S2.

(** One pass of the second loop of [convert_RTN_to_GSE]. *)
Definition heeq_to_gse_sample (E : externals) (d : SatData.t) (i : nat)
           (heeq : fvec3) : result fvec3 :=
  t <~ sample d "time" i ;;
  tnum <~ num2date t ;;
  let mjd := mjd_of (julian_date E tnum) in
  let UT := ut_hours E tnum in
  let '(hx, hy, hz) := mvec_f (HEEQ_to_HEE_matrix mjd UT) heeq in
  Ok (fneg hx, fneg hy, hz).

(** [self.h['ReferenceFrame'] += '-GSE'] *)
Definition append_reference_frame (hd : header) : result header :=
  v <~ h_item "ReferenceFrame" hd ;;
  match v with
  | HStr s => Ok (h_set "ReferenceFrame" (HStr (s ++ "-GSE")) hd)
  | HList l => Ok (h_set "ReferenceFrame" (HList (l ++ ["-"; "G"; "S"; "E"])%list) hd)
  | _ => Raise (TypeError "unsupported operand type(s) for +=")
  end.

Definition convert_RTN_to_GSE (E : externals) (pos_obj : list array)
           (pos_tnum : array) : M world unit :=
  in_log (logger INFO "Converting RTN magn. values to GSE" []) ;;;
  d <- get_self ;;
  time <- lift (__getitem__ d "time") ;;
  (if Nat.eqb (List.length pos_obj) 0 && Nat.eqb (List.length pos_tnum) 0
   then match pos d with
        | None => raise (Exception
            "Load position data (SatData.load_position_data()) before calling convert_RTN_to_GSE()!")
        | Some _ => ret tt
        end
   else ret tt) ;;;
  let idxs := seq 0 (List.length time) in
  heeq <- lift (mapM (rtn_to_heeq_sample d pos_obj pos_tnum) idxs) ;;
  gse <- lift (mapM (fun ih => heeq_to_gse_sample E d (fst ih) (snd ih))
                    (combine idxs heeq)) ;;
  __setitem__ "bx" (map fst3 gse) ;;;
  __setitem__ "by" (map snd3 gse) ;;;
  __setitem__ "bz" (map thd3 gse) ;;;
  d' <- get_self ;;
  hd <- lift (append_reference_frame (h d')) ;;
  put_self (set_h d' hd).

End Convert.

(* ===================================================================== *)
(** ** SatData: positions and the L1 corrections *)
(* ===================================================================== *)

Module L1.

Import SatData Convert.
Local Open Scope string_scope.

(** [str(self.source)] inside a format string. *)
Definition source_str (d : SatData.t) : string :=
  match source d with Some s => s | None => "None" end.

Definition cart2sphere (x y z : npfloat) : fvec3 :=
  let r := fsqrt (fadd (fadd (fsquare x) (fsquare y)) (fsquare z)) in
  let theta := farctan2 z (fsqrt (fadd (fsquare x) (fsquare y))) in
  let phi := farctan2 y x in
  (r, theta, phi).

(** Quotient of two Python floats. *)
Definition py_div (a b : R) : result R :=
  if Req_dec_T b 0 then Raise (ZeroDivisionError "float division by zero")
  else Ok (a / b).

(** Rounding to a number of decimals, ties to the even neighbour. *)
Definition round_half_even (x : R) : Z :=
  let f := Zfloor x in
  if Rlt_dec (x - IZR f) (1 / 2) then f
  else if Rlt_dec (1 / 2) (x - IZR f) then (f + 1)%Z
       else if Z.even f then f else (f + 1)%Z.

Definition round_to (decimals : nat) (x : npfloat) : npfloat :=
  match x with
  | Fin r => Fin (IZR (round_half_even (r * 10 ^ decimals)) / 10 ^ decimals)
  | _ => x
  end.

(** [np.nanmean] *)
Definition np_nanmean (a : array) : npfloat :=
  let xs := filter (fun x => negb (isnan x)) a in
  fdiv (np_sum xs) (of_nat (List.length xs)).

(** [[num2date(t).replace(tzinfo=None) for t in self['time']]] *)
Definition dates_of (d : SatData.t) : result (list R) :=
  time <~ __getitem__ d "time" ;; mapM num2date time.

(** The correction of the x position to L1 in [load_positions]. *)
Definition l1_corr_of (E : externals) (units : string) : result R :=
  match units with
  | "AU" => py_div (dist_to_L1 E) (AU E)
  | "m" => Ok (dist_to_L1 E / 1000)
  | "km" => Ok (dist_to_L1 E)
  | _ => Raise (Exception "local variable 'corr' referenced before assignment")
  end.

Definition load_positions (E : externals) (refframe units observer : string)
           (rlonlat l1_corr : bool) : M world unit :=
  d <- get_self ;;
  in_log (logger INFO ("load_positions: Loading position data into "
                         ++ source_str d ++ " data") []) ;;;
  t_traj <- lift (dates_of d) ;;
  obj <- lift (h_item "HeliosatObject" (h d)) ;;
  traj <- lift (match obj with
                | HObj name => trajectory E name t_traj refframe units observer
                | _ => Raise (AttributeError
                                "object has no attribute 'trajectory'")
                end) ;;
  let posx := map fst3 traj in
  let posy := map snd3 traj in
  let posz := map thd3 traj in
  posx <- lift (if l1_corr
                then corr <~ l1_corr_of E units ;;
                     Ok (map (fun x => fsub x (Fin corr)) posx)
                else Ok posx) ;;
  Positions <- lift (if rlonlat
                     then
                       let sph := map (fun p => cart2sphere (fst3 p) (snd3 p) (thd3 p))
                                      (combine (combine posx posy) posz) in
                       PositionData.__init__
                         [map fst3 sph; map thd3 sph; map snd3 sph] "rlonlat" None
                     else PositionData.__init__ [posx; posy; posz] "xyz" None) ;;
  let hp := h_set "Observer" (HStr observer)
              (h_set "ReferenceFrame" (HStr refframe)
                 (h_set "Units" (HStr units) (PositionData.h Positions))) in
  put_self (set_pos d (Some (PositionData.mk (PositionData.positions Positions)
                                             hp (PositionData.coors Positions)))).

(** [self.load_positions()] *)
Definition load_positions_default (E : externals) : M world unit :=
  load_positions E "HEEQ" "AU" "SUN" true false.

Definition get_l1_position (E : externals) (times : list R)
           (units refframe observer : string) : result PositionData.t :=
  Earth_traj <~ trajectory E "EARTH" times refframe units observer ;;
  let earth_r := map fst3 Earth_traj in
  let elon := map snd3 Earth_traj in
  let elat := map thd3 Earth_traj in
  q <~ py_div (dist_to_L1 E) (AU E) ;;
  let l1_r := map (fun x => fsub x (Fin q)) earth_r in
  L1Pos <~ PositionData.__init__ [l1_r; elon; elat] "rlonlat" None ;;
  Ok (PositionData.mk (PositionData.positions L1Pos)
                      (h_set "Units" (HStr units) (PositionData.h L1Pos))
                      (PositionData.coors L1Pos)).

(** [self.pos.<...>] when the attribute may still be [None]. *)
Definition pos_attr (d : SatData.t) (attr : string) : result PositionData.t :=
  match pos d with
  | Some p => Ok p
  | None => Raise (AttributeError
                     ("'NoneType' object has no attribute '" ++ attr ++ "'"))
  end.

(** [get_l1_position(dttime, units=self.pos.h['Units'],
                     refframe=self.pos.h['ReferenceFrame'])] *)
Definition l1_position_for (E : externals) (d : SatData.t) (dttime : list R)
  : result PositionData.t :=
  p <~ pos_attr d "h" ;;
  units <~ h_str "Units" (PositionData.h p) ;;
  p' <~ pos_attr d "h" ;;
  refframe <~ h_str "ReferenceFrame" (PositionData.h p') ;;
  get_l1_position E dttime units refframe "SUN".

Definition get_time_lag_wrt_earth (E : externals) (timestamp : R)
           (satname : option string) (v_mean : npfloat) (sun_syn : R)
  : result (npfloat * npfloat) :=
  SAT <~ match satname with
         | Some "STEREO-A" => Ok "STEREO-A"
         | Some "STEREO-B" => Ok "STEREO-B"
         | _ => Raise (Exception "Not a valid satellite name to find position!")
         end ;;
  traj <~ trajectory E SAT [timestamp] "HEEQ" "AU" "SUN" ;;
  p <~ item traj 0 ;;
  let '(sat_r, lat_heeq, lon_heeq) := cart2sphere (fst3 p) (snd3 p) (thd3 p) in
  let earth_r := Fin 1 in
  rate <~ py_div 360 sun_syn ;;
  let lag_l1 := fdiv (fabs (fdiv (fmul lon_heeq (Fin 180)) (Fin PI))) (Fin rate) in
  k <~ py_div 360 (sun_syn * 86400) ;;
  let diff_r_deg :=
    fdiv (fmul (Fin (- k)) (fmul (fsub sat_r earth_r) (Fin (AU E)))) v_mean in
  rate' <~ py_div 360 sun_syn ;;
  let lag_diff_r := round_to 2 (fdiv diff_r_deg (Fin rate')) in
  Ok (lag_l1, lag_diff_r).

(** [self.data[0] = value] *)
Definition store_time (value : array) : M world unit :=
  d <- get_self ;;
  d' <- lift (store_row d 0 value) ;;
  put_self d'.

Definition shift_time_to_L1 (E : externals) (sun_syn : R) (method : string)
  : M world unit :=
  if String.eqb method "old" then
    d <- get_self ;;
    time <- lift (__getitem__ d "time") ;;
    tlast <- lift (last_item time) ;;
    timestamp <- lift (num2date tlast) ;;
    speed <- lift (__getitem__ d "speed") ;;
    lags <- lift (get_time_lag_wrt_earth E timestamp (source d)
                    (np_nanmean speed) sun_syn) ;;
    let '(lag_l1, lag_r) := lags in
    in_log (logger INFO "shift_time_to_L1: Shifting time by {:.2f} hours"
                   [fmul (fadd lag_l1 lag_r) (Fin 24)]) ;;;
    row0 <- lift (item (data d) 0) ;;
    store_time (map (fun t => fadd (fadd t lag_l1) lag_r) row0)
  else if String.eqb method "new" then
    d0 <- get_self ;;
    match pos d0 with
    | None =>
        in_log (logger WARNING
          "Loading position data (SatData.load_positions()) for shift_time_to_L1()!" []) ;;;
        load_positions_default E
    | Some _ => ret tt
    end ;;;
    d <- get_self ;;
    dttime <- lift (dates_of d) ;;
    L1Pos <- lift (l1_position_for E d dttime) ;;
    L1_r <- lift (PositionData.__getitem__ L1Pos "r") ;;
    p <- lift (pos_attr d "__getitem__") ;;
    lon <- lift (PositionData.__getitem__ p "lon") ;;
    rate <- lift (py_div 360 sun_syn) ;;
    let timelag_L1 :=
      map (fun x => fdiv (fabs (fdiv (fmul x (Fin 180)) (Fin PI))) (Fin rate)) lon in
    timelag_diff_r <- lift (mapM (fun i =>
        k <~ py_div (- 360) (sun_syn * 86400) ;;
        r <~ PositionData.__getitem__ p "r" ;; ri <~ item r i ;;
        l1i <~ item L1_r i ;;
        vi <~ sample d "speed" i ;;
        let diff_r_deg := fdiv (fmul (Fin k) (fsub ri l1i)) vi in
        rate' <~ py_div 360 sun_syn ;;
        Ok (round_to 3 (fdiv diff_r_deg (Fin rate')))) (seq 0 (List.length L1_r))) ;;
    row0 <- lift (item (data d) 0) ;;
    s1 <- lift (broadcast2 fadd row0 timelag_L1) ;;
    s2 <- lift (broadcast2 fadd s1 timelag_diff_r) ;;
    store_time s2 ;;;
    lag <- lift (broadcast2 fadd timelag_L1 timelag_diff_r) ;;
    first <- lift (item lag 0) ;;
    last <- lift (last_item lag) ;;
    in_log (logger INFO "shift_time_to_L1: Shifting time by {:.1f}-{:.1f} hours"
                   [fmul first (Fin 24); fmul last (Fin 24)])
  else ret tt.

Definition shift_var_list : list string :=
  ["btot"; "br"; "bt"; "bn"; "bx"; "by"; "bz"; "density"].

Definition shift_wind_to_L1 (E : externals) : M world unit :=
  d <- get_self ;;
  dttime <- lift (dates_of d) ;;
  L1Pos <- lift (l1_position_for E d dttime) ;;
  l1r <- lift (PositionData.__getitem__ L1Pos "r") ;;
  p <- lift (pos_attr d "__getitem__") ;;
  r <- lift (PositionData.__getitem__ p "r") ;;
  ratio <- lift (broadcast2 fdiv l1r r) ;;
  let corr_factor := map fpow_neg2 ratio in
  let shift_vars := filter (fun v => mem v (vars d)) shift_var_list in
  for_each shift_vars (fun var =>
    cur <- get_self ;;
    x <- lift (__getitem__ cur var) ;;
    y <- lift (broadcast2 fmul x corr_factor) ;;
    __setitem__ var y) ;;;
  in_log (logger INFO
    "shift_wind_to_L1: Extrapolated B and density values to L1 distance" []).

End L1.

(* ===================================================================== *)
(** ** Interpolation and merging *)
(* ===================================================================== *)

Module Resample.

Import SatData Convert L1.
Local Open Scope string_scope.

(** [dict[k] = v] on an input dict. *)
Fixpoint d_set (k : string) (v : array) (d : dict) : dict :=
  match d with
  | [] => [(k, v)]
  | (k', v') :: d' =>
      if String.eqb k k' then (k, v) :: d' else (k', v') :: d_set k v d'
  end.

(** Indices where a mask holds ([mask.nonzero()[0]]), as floats. *)
Fixpoint nonzero_from (mask : list bool) (i : nat) : array :=
  match mask with
  | [] => []
  | b :: m' => if b then of_nat i :: nonzero_from m' (S i)
               else nonzero_from m' (S i)
  end.

(** [a[mask]] *)
Fixpoint select (a : array) (mask : list bool) : array :=
  match a, mask with
  | x :: a', b :: m' => if b then x :: select a' m' else select a' m'
  | _, _ => []
  end.

(** [a[mask] = vals] with as many values as the mask selects. *)
Fixpoint mask_fill (a : array) (mask : list bool) (vals : array) : array :=
  match a, mask with
  | x :: a', b :: m' =>
      if b then match vals with
                | v :: vals' => v :: mask_fill a' m' vals'
                | [] => x :: mask_fill a' m' []
                end
      else x :: mask_fill a' m' vals
  | _, _ => a
  end.

Definition mask_assign (a : array) (mask : list bool) (vals : array)
  : result array :=
  let n := List.length (filter (fun b => b) mask) in
  if Nat.eqb (List.length vals) n then Ok (mask_fill a mask vals)
  else match vals with
       | [v] => Ok (mask_fill a mask (repeat v n))
       | _ => Raise (ValueError "shape mismatch in boolean index assignment")
       end.

(** The keys [interp_nans] walks over. *)
Definition interp_nans_keys (d : SatData.t) (keys : option (list string))
  : list string :=
  match keys with
  | None => vars d
  | Some ks => ks
  end.

(** The loop of [interp_nans]; [return self] inside it ends the walk. *)
Fixpoint interp_nans_loop (E : externals) (keys : list string) : M world unit :=
  match keys with
  | [] => ret tt
  | k :: rest =>
      d <- get_self ;;
      a <- lift (__getitem__ d k) ;;
      let inds := map isnan a in
      if Nat.eqb (List.length inds) 0 then ret tt
      else
        vals <- lift (np_interp E (nonzero_from inds 0)
                                (nonzero_from (map negb inds) 0)
                                (select a (map negb inds))) ;;
        a' <- lift (mask_assign a inds vals) ;;
        put_self (set_data d (set_nth (data d) (index_of k default_keys) a')) ;;;
        interp_nans_loop E rest
  end.

Definition interp_nans (E : externals) (keys : option (list string))
  : M world unit :=
  d <- get_self ;;
  in_log (logger INFO ("interp_nans: Interpolating nans in "
                         ++ source_str d ++ " data") []) ;;;
  interp_nans_loop E (interp_nans_keys d keys).

(** [PositionData.interp_to_time] *)
Definition pos_interp_to_time (E : externals) (p : PositionData.t)
           (t_orig t_new : array) : result PositionData.t :=
  na <~ mapM (fun k => a <~ PositionData.__getitem__ p k ;;
                       np_interp E t_new t_orig a) (PositionData.coors p) ;;
  cs <~ h_str "CoordinateSystem" (PositionData.h p) ;;
  PositionData.__init__ na cs (Some (PositionData.h p)).

(** The dict that [interp_to_time] fills while walking over [self.vars]. *)
Fixpoint interp_to_time_dict (E : externals) (d : SatData.t) (tarray : array)
         (ks : list string) (acc : dict) : result dict :=
  match ks with
  | [] => Ok acc
  | k :: rest =>
      time <~ __getitem__ d "time" ;;
      a <~ __getitem__ d k ;;
      na <~ np_interp E tarray time a ;;
      interp_to_time_dict E d tarray rest (d_set k na acc)
  end.

(** [self.interp_to_time(tarray)]: a new object; [self] is left alone. *)
Definition interp_to_time (E : externals) (d : SatData.t) (tarray : array)
  : M (list log_record) SatData.t :=
  t1 <- lift (item tarray 1) ;;
  t0 <- lift (item tarray 0) ;;
  let resolution := fsub t1 t0 in
  time <- lift (__getitem__ d "time") ;;
  lift (item time 0) ;;;
  data_dict <- lift (interp_to_time_dict E d tarray (vars d) [("time", tarray)]) ;;
  newData <- __init__ data_dict (source d) (Some (h d)) ;;
  let newData := set_h newData (h_set "SamplingRate" (HNum resolution) (h newData)) in
  match pos d with
  | Some p =>
      newPos <- lift (pos_interp_to_time E p time tarray) ;;
      ret (set_pos newData (Some newPos))
  | None => ret newData
  end.

(** [np.arange(start, stop, step)] on floats: its length. *)
Definition arange_len (start stop step : npfloat) : result nat :=
  match step with
  | Fin s =>
      if Req_dec_T s 0 then Raise (ZeroDivisionError "division by zero")
      else match fdiv (fsub stop start) step with
           | Fin q => Ok (Z.to_nat (Zceil q))
           | _ => Raise (ValueError "arange: cannot compute length")
           end
  | _ => Raise (ValueError "arange: cannot compute length")
  end.

(** [{**a, **b}] *)
Fixpoint dict_update (a b : list (string * string)) : list (string * string) :=
  match b with
  | [] => a
  | (k, v) :: b' =>
      dict_update
        ((fix put (l : list (string * string)) : list (string * string) :=
            match l with
            | [] => [(k, v)]
            | (k', v') :: l' =>
                if String.eqb k k' then (k, v) :: l' else (k', v') :: put l'
            end) a) b'
  end.

(** The timestep [merge_Data] takes from the first header. *)
Definition merge_timestep (h1 : header) : result npfloat :=
  sr <~ h_item "SamplingRate" h1 ;;
  match sr with
  | HNum x =>
      if flt (fsub x (Fin (1 / 24))) (Fin 0.0001) then Ok (Fin (1 / 24))
      else if flt (fsub x (Fin (1 / 24 / 60))) (Fin 0.0001)
           then Ok (Fin (1 / 24 / 60))
           else Ok x
  | _ => Raise (TypeError "unsupported operand type(s) for -")
  end.

(** The keys checked against the second data set. *)
Fixpoint check_merge_keys (keys vars2 : list string)
  : M (list log_record) unit :=
  match keys with
  | [] => ret tt
  | k :: rest =>
      if negb (mem k vars2) then
        logger ERROR ("merge_Data: Dataset1 contains key (" ++ k
                        ++ ") not available in Dataset2!") [] ;;;
        raise (Exception ("Dataset1 contains key (" ++ k
                            ++ ") not available in Dataset2!"))
      else check_merge_keys rest vars2
  end.

Fixpoint merge_dict (E : externals) (satdata1 satdata2 : SatData.t)
         (new_time : array) (keys : list string) (acc : dict) : result dict :=
  match keys with
  | [] => Ok acc
  | k :: rest =>
      time2 <~ __getitem__ satdata2 "time" ;;
      a2 <~ __getitem__ satdata2 k ;;
      int_var <~ np_interp E new_time time2 a2 ;;
      a1 <~ __getitem__ satdata1 k ;;
      merge_dict E satdata1 satdata2 new_time rest (d_set k (a1 ++ int_var)%list acc)
  end.

Definition str_list (l : list string) : string :=
  "[" ++ String.concat ", " (map (fun s => "'" ++ s ++ "'") l) ++ "]".

(** [str(v)] of a header value inside a format string; a number stays a
    placeholder. *)
Definition hval_str (v : hval) : string :=
  match v with
  | HStr s => s
  | HNum _ => "{}"
  | HNone => "None"
  | HList l => str_list l
  | HDict _ => "{...}"
  | HObj name => name
  end.

Definition merge_Data (E : externals) (satdata1 satdata2 : SatData.t)
           (keys : option (list string)) : M (list log_record) SatData.t :=
  logger INFO ("merge_Data: Will merge data from " ++ source_str satdata1
                 ++ " and " ++ source_str satdata2 ++ "...") [] ;;;
  keys <- match keys with
          | None =>
              let ks := nodup string_dec
                          (filter (fun k => mem k (vars satdata2)) (vars satdata1)) in
              logger INFO ("merge_Data: No keys defined, using common keys: "
                             ++ str_list ks) [] ;;;
              ret ks
          | Some ks => ret ks
          end ;;
  check_merge_keys keys (vars satdata2) ;;;
  timestep <- lift (merge_timestep (h satdata1)) ;;
  time1 <- lift (__getitem__ satdata1 "time") ;;
  last1 <- lift (last_item time1) ;;
  time2 <- lift (__getitem__ satdata2 "time") ;;
  last2 <- lift (last_item time2) ;;
  n_timesteps <- lift (arange_len (fadd last1 timestep) last2 timestep) ;;
  let new_time :=
    map (fun k => fadd last1 (fmul (of_nat k) timestep)) (seq 1 (n_timesteps - 1)) in
  let datadict := [("time", (time1 ++ new_time)%list)] in
  datadict <- lift (merge_dict E satdata1 satdata2 new_time keys datadict) ;;
  src <- lift (match source satdata1, source satdata2 with
               | Some s1, Some s2 => Ok (s1 ++ "+" ++ s2)
               | _, _ => Raise (TypeError "unsupported operand type(s) for +")
               end) ;;
  MergedData <- __init__ datadict (Some src) None ;;
  ds1 <- lift (v <~ h_item "DataSource" (h satdata1) ;; Ok (hval_str v)) ;;
  first1 <- lift (item time1 0) ;;
  f1 <- lift (num2date first1) ;;
  l1 <- lift (num2date last1) ;;
  ds2 <- lift (v <~ h_item "DataSource" (h satdata2) ;; Ok (hval_str v)) ;;
  nfirst <- lift (item new_time 0) ;;
  nf <- lift (num2date nfirst) ;;
  nlast <- lift (last_item new_time) ;;
  nl <- lift (num2date nlast) ;;
  let hm := h_set "DataSource"
              (HStr (ds1 ++ " (" ++ strftime E f1 ++ " - " ++ strftime E l1
                       ++ ") & " ++ ds2 ++ " (" ++ strftime E nf ++ " - "
                       ++ strftime E nl ++ ")")) (h MergedData) in
  let hm := h_set "SamplingRate" (HNum timestep) hm in
  rf <- lift (h_item "ReferenceFrame" (h satdata1)) ;;
  let hm := h_set "ReferenceFrame" rf hm in
  i1 <- lift (h_item "Instruments" (h satdata1)) ;;
  i2 <- lift (h_item "Instruments" (h satdata2)) ;;
  ins <- lift (match i1, i2 with
               | HList a, HList b => Ok (HList (a ++ b)%list)
               | HStr a, HStr b => Ok (HStr (a ++ b))
               | _, _ => Raise (TypeError "unsupported operand type(s) for +")
               end) ;;
  let hm := h_set "Instruments" ins hm in
  v1 <- lift (h_item "FileVersion" (h satdata1)) ;;
  v2 <- lift (h_item "FileVersion" (h satdata2)) ;;
  fv <- lift (match v1, v2 with
              | HDict a, HDict b => Ok (HDict (dict_update a b))
              | _, _ => Raise (TypeError "object is not a mapping")
              end) ;;
  let hm := h_set "FileVersion" fv hm in
  logger INFO "merge_Data: Finished merging data." [] ;;;
  ret (set_h MergedData hm).

End Resample.

(* ===================================================================== *)
(** ** predstorm_l1.py: the sliding-window search *)
(* ===================================================================== *)

Module Forecast.

Import SatData.
Local Open Scope string_scope.

(** The "now-wind" arrays of the script. *)
Record now_wind : Type := mkNow {
  btotn : array;
  bzgsmn : array;
  bygsmn : array;
  bxn : array;
  speedn : array;
  denn : array
}.

(** The distance arrays filled by the loop. *)
Record distances : Type := mkDist {
  dist_count_b : array;
  dist_count_bz : array;
  dist_count_by : array;
  dist_count_bx : array;
  dist_count_v : array;
  dist_count_n : array
}.

(** [np.sqrt(np.sum((now - hist[inds:inds+deltat+1])**2)) / np.size(now)] *)
Definition window_distance (now hist : array) (inds deltat : nat)
  : result npfloat :=
  let window := slice hist inds (inds + deltat + 1) in
  diff <~ broadcast2 fsub now window ;;
  Ok (fdiv (fsqrt (np_sum (map fsquare diff))) (of_nat (List.length now))).

(** The body of the loop for one [i]. *)
Definition sliding_step (omni : SatData.t) (now : now_wind)
           (startindex deltat i : nat)
  : result (npfloat * npfloat * npfloat * npfloat * npfloat * npfloat) :=
  let inds := (startindex + i)%nat in
  btot <~ __getitem__ omni "btot" ;;
  db <~ window_distance (btotn now) btot inds deltat ;;
  bz <~ __getitem__ omni "bz" ;;
  dbz <~ window_distance (bzgsmn now) bz inds deltat ;;
  by_ <~ __getitem__ omni "by" ;;
  dby <~ window_distance (bygsmn now) by_ inds deltat ;;
  bx <~ __getitem__ omni "bx" ;;
  dbx <~ window_distance (bxn now) bx inds deltat ;;
  speed <~ __getitem__ omni "speed" ;;
  dv <~ window_distance (speedn now) speed inds deltat ;;
  density <~ __getitem__ omni "density" ;;
  dn <~ window_distance (denn now) density inds deltat ;;
  Ok (db, dbz, dby, dbx, dv, dn).

(** [for i in np.arange(0, trainsize): ...] *)
Definition sliding_window (omni : SatData.t) (now : now_wind)
           (startindex deltat trainsize : nat) : result distances :=
  rows <~ mapM (sliding_step omni now startindex deltat) (seq 0 trainsize) ;;
  Ok {| dist_count_b := map (fun r => fst (fst (fst (fst (fst r))))) rows;
        dist_count_bz := map (fun r => snd (fst (fst (fst (fst r))))) rows;
        dist_count_by := map (fun r => snd (fst (fst (fst r)))) rows;
        dist_count_bx := map (fun r => snd (fst (fst r))) rows;
        dist_count_v := map (fun r => snd (fst r)) rows;
        dist_count_n := map (fun r => snd r) rows |}.

(** [np.max(np.where(bound > time)) + 1] *)
Definition index_after (bound : npfloat) (time : array) : result nat :=
  match Convert.last_index_from (fun t => flt t bound) time 0 None with
  | Some i => Ok (S i)
  | None => Raise (ValueError "zero-size array to reduction operation maximum")
  end.

(** [np.min]: NaN wins over every number. *)
Definition fmin (a b : npfloat) : npfloat :=
  if isnan a then a else if isnan b then b else if flt b a then b else a.

Definition np_min (a : array) : result npfloat :=
  match a with
  | [] => Raise (ValueError "zero-size array to reduction operation minimum")
  | x :: a' => Ok (fold_left fmin a' x)
  end.

(** [np.nanmin]: the minimum of the entries that are not NaN, NaN when
    there is none. *)
Definition np_nanmin (a : array) : result npfloat :=
  match a with
  | [] => Raise (ValueError "zero-size array to reduction operation fmin")
  | _ => match filter (fun x => negb (isnan x)) a with
         | [] => Ok NaN
         | x :: xs => Ok (fold_left fmin xs x)
         end
  end.

(** [np.argmin]: the first index of the minimum, the first NaN if any. *)
Fixpoint argmin_from (a : array) (i : nat) (best : nat) (bestv : npfloat) : nat :=
  match a with
  | [] => best
  | x :: a' =>
      if isnan bestv then best
      else if isnan x || flt x bestv then argmin_from a' (S i) i x
           else argmin_from a' (S i) best bestv
  end.

Definition np_argmin (a : array) : result nat :=
  match a with
  | [] => Raise (ValueError "attempt to get argmin of an empty sequence")
  | x :: a' => Ok (argmin_from a' 1 0 x)
  end.

(** The selection made for one variable after the loop: the minimum
    distance, its position and the training window that follows it. *)
Record selection : Type := mkSel {
  maxval : npfloat;
  maxpos : nat;
  predicted : array
}.

Definition select_with (minimum : array -> result npfloat) (dist : array)
           (omni : SatData.t) (var : string) (startindex deltat : nat)
  : result selection :=
  v <~ minimum dist ;;
  p <~ np_argmin dist ;;
  let indp := (startindex + p + deltat)%nat in
  a <~ __getitem__ omni var ;;
  Ok {| maxval := v; maxpos := p;
        predicted := slice a indp (indp + deltat + 1) |}.

(** [maxval_b] is taken with [np.min], the other five with [np.nanmin]. *)
Definition select_b := select_with np_min.
Definition select_nan := select_with np_nanmin.

End Forecast.

(* ===================================================================== *)
(** ** Notions the properties are stated with *)
(* ===================================================================== *)

Module Props.

Import SatData.

(** The storage invariant of a container: one row per default key, every
    row as long as the time axis. *)
Definition wf (d : SatData.t) : Prop :=
  List.length (data d) = 18%nat /\
  forall r, In r (data d) -> List.length r = __len__ d.

(** The vector made of the [i]-th samples of three arrays. *)
Definition sample_at (a b c : array) (i : nat) : fvec3 :=
  (nth i a NaN, nth i b NaN, nth i c NaN).

(** Squared Euclidean length of a real vector. *)
Definition norm2 (v : vec3) : R := dot3 v v.

(** A matrix that keeps the length of every vector. *)
Definition keeps_length (m : mat3) : Prop :=
  forall v : vec3, norm2 (mvec m v) = norm2 v.

(** The magnitude [sqrt(bx^2 + by^2 + bz^2)] of one sample. *)
Definition magnitude (v : fvec3) : npfloat :=
  let '(x, y, z) := v in
  fsqrt (fadd (fadd (fsquare x) (fsquare y)) (fsquare z)).

(** Sum of a list of reals. *)
Definition Rsum (l : list R) : R := fold_right Rplus 0 l.

(** Sum of the squared differences between [xs] and the stretch of [ys]
    that starts at [off], over the [n] matching relative offsets. *)
Definition sum_sq_diff (xs ys : list R) (off n : nat) : R :=
  Rsum (map (fun k => (nth k xs 0 - nth (off + k) ys 0)
                      * (nth k xs 0 - nth (off + k) ys 0)) (seq 0 n)).

(** Root-mean-square deviation: the sum of squared differences divided by
    the window length, then square-rooted. *)
Definition rms_deviation (xs ys : list R) (off n : nat) : R :=
  sqrt (sum_sq_diff xs ys off n / INR n).

(** The square root of the sum of squared differences, divided by the
    window length afterwards. *)
Definition root_sum_over_size (xs ys : list R) (off n : nat) : R :=
  sqrt (sum_sq_diff xs ys off n) / INR n.

(** Six real-valued series, one per variable of the search: total field,
    bz, by, bx, speed and density. *)
Record series6 : Type := mkSeries6 {
  s_btot : list R;
  s_bz : list R;
  s_by : list R;
  s_bx : list R;
  s_speed : list R;
  s_density : list R
}.

Definition each6 (P : list R -> Prop) (s : series6) : Prop :=
  P (s_btot s) /\ P (s_bz s) /\ P (s_by s) /\ P (s_bx s) /\
  P (s_speed s) /\ P (s_density s).

(** The now-wind made of finite values. *)
Definition now_of (s : series6) : Forecast.now_wind :=
  Forecast.mkNow (map Fin (s_btot s)) (map Fin (s_bz s)) (map Fin (s_by s))
                 (map Fin (s_bx s)) (map Fin (s_speed s)) (map Fin (s_density s)).

(** The training container holds the six series, all values finite. *)
Definition holds_series (omni : SatData.t) (s : series6) : Prop :=
  SatData.__getitem__ omni "btot" = Ok (map Fin (s_btot s)) /\
  SatData.__getitem__ omni "bz" = Ok (map Fin (s_bz s)) /\
  SatData.__getitem__ omni "by" = Ok (map Fin (s_by s)) /\
  SatData.__getitem__ omni "bx" = Ok (map Fin (s_bx s)) /\
  SatData.__getitem__ omni "speed" = Ok (map Fin (s_speed s)) /\
  SatData.__getitem__ omni "density" = Ok (map Fin (s_density s)).

(** The number of points [a + k * step], [k = 1, 2, ...], that lie
    strictly after [a] and up to [b]. *)
Definition continuation_count (a b step : R) : nat :=
  Z.to_nat (Zfloor ((b - a) / step)).

(** A distance that leaves out every pair with a NaN on either side and
    divides by the number of pairs that remain. *)
Definition nan_excluded_distance (now window : array) : npfloat :=
  let valid := filter (fun p => negb (isnan (fst p)) && negb (isnan (snd p)))
                      (combine now window) in
  fdiv (fsqrt (np_sum (map (fun p => fsquare (fsub (fst p) (snd p))) valid)))
       (of_nat (List.length valid)).

(** The direction of an angle given in degrees: its value mod 360. *)
Definition direction_deg (a : R) : R := np_mod a 360.

(** The sector of the circle, [w] degrees wide and counted from 0, that the
    direction of an angle falls in: with [w = 90] the four quadrants, with
    [w = 180] the two half-circles. *)
Definition sector_of (w a : R) : Z := Zfloor (direction_deg a / w).

Definition same_sector (w a b : R) : Prop := sector_of w a = sector_of w b.

End Props.
Export Props.

(* ===================================================================== *)
(** ** Example inputs *)
(* ===================================================================== *)

Module Examples.

Import SatData.
Local Open Scope string_scope.

(** Stand-ins for the external collaborators in the example runs: an
    interpolation that repeats the first data value (exact on constant
    data), a trajectory that stays at (1, 0, 0), the Julian date of a
    matplotlib date number, midnight as time of day. *)
Definition ex_np_interp (x xp fp : array) : result array :=
  match fp with
  | [] => Raise (ValueError "array of sample points is empty")
  | y :: _ => Ok (map (fun _ => y) x)
  end.

Definition ex_E : externals :=
  {| np_interp := ex_np_interp;
     trajectory := fun _ times _ _ _ =>
                     Ok (map (fun _ => (Fin 1, Fin 0, Fin 0)) times);
     julian_date := fun t => t + 1721424.5;
     ut_hours := fun _ => 0;
     strftime := fun _ => "";
     AU := 149597870.700;
     dist_to_L1 := 1496547.603 |}.

(** The row of an inactive variable in a container of two samples. *)
Definition ex_zero2 : array := [Fin 0; Fin 0].

(** [SatData({'time': [0, 1], 'bx': [3, 3]})] *)
Definition ex_dict : dict := [("time", [Fin 0; Fin 1]); ("bx", [Fin 3; Fin 3])].

Definition ex_d : SatData.t :=
  {| data := ([[Fin 0; Fin 1]] ++ repeat ex_zero2 5 ++ [[Fin 3; Fin 3]]
              ++ repeat ex_zero2 11)%list;
     state := [None; None];
     source := None;
     h := empty_header;
     pos := None;
     vars := ["bx"] |}.

(** A training container of four hourly samples in which the six searched
    variables are active and zero throughout. *)
Definition ex_zero4 : array := [Fin 0; Fin 0; Fin 0; Fin 0].

Definition ex_omni : SatData.t :=
  {| data := ([[Fin 0; Fin 1; Fin 2; Fin 3]] ++ repeat ex_zero4 17)%list;
     state := [None; None; None; None];
     source := Some "OMNI2";
     h := empty_header;
     pos := None;
     vars := ["speed"; "density"; "bx"; "by"; "bz"; "btot"] |}.

Definition ex_series (l : list R) : series6 := mkSeries6 l l l l l l.

(** A now-wind that is 2 at the first of four samples and 0 afterwards. *)
Definition ex_now : series6 := ex_series [2; 0; 0; 0].
Definition ex_train : series6 := ex_series [0; 0; 0; 0].

(** Two training samples whose first speed value is missing (NaN), and a
    now-wind of two samples with speed 400 and zeros elsewhere. *)
Definition ex_omni_gap : SatData.t :=
  {| data := ([[Fin 0; Fin 1]; [NaN; Fin 400]] ++ repeat ex_zero2 16)%list;
     state := [None; None];
     source := Some "OMNI2";
     h := empty_header;
     pos := None;
     vars := ["speed"; "density"; "bx"; "by"; "bz"; "btot"] |}.

Definition ex_now_gap : Forecast.now_wind :=
  Forecast.mkNow ex_zero2 ex_zero2 ex_zero2 ex_zero2 [Fin 400; Fin 400] ex_zero2.

(** A monitor with speed 400 and density 10 at two samples, carrying
    position data that puts it at twice the L1 distance. *)
Definition ex_l1 : R := 1 - dist_to_L1 ex_E / AU ex_E.

Definition ex_pos : PositionData.t :=
  {| PositionData.positions := [[Fin (2 * ex_l1); Fin (2 * ex_l1)]; ex_zero2; ex_zero2];
     PositionData.h := [("ReferenceFrame", HStr "HEEQ");
                        ("CoordinateSystem", HStr "rlonlat");
                        ("Units", HStr "AU"); ("Object", HStr "")];
     PositionData.coors := ["r"; "lon"; "lat"] |}.

Definition ex_monitor : SatData.t :=
  {| data := ([[Fin 0; Fin 1]; [Fin 400; Fin 400]; ex_zero2; [Fin 10; Fin 10]]
              ++ repeat ex_zero2 14)%list;
     state := [None; None];
     source := Some "STEREO-A";
     h := empty_header;
     pos := Some ex_pos;
     vars := ["speed"; "density"] |}.

(** The merge example: A sampled hourly at hours 0 to 10, B hourly at
    hours 5.5 to 20.5, both with bx = 1 throughout and a declared sampling
    rate of an hour (times are in days). *)
Definition hours (l : list R) : array := map (fun k => Fin (k / 24)) l.

Definition ex_hourly (src : string) (hs : list R) : SatData.t :=
  let n := List.length hs in
  {| data := ([hours hs] ++ repeat (np_zeros n) 5 ++ [repeat (Fin 1) n]
              ++ repeat (np_zeros n) 11)%list;
     state := repeat None n;
     source := Some src;
     h := h_set "SamplingRate" (HNum (Fin (1 / 24))) empty_header;
     pos := None;
     vars := ["bx"] |}.

Definition ex_A_hours : list R := [0; 1; 2; 3; 4; 5; 6; 7; 8; 9; 10].
Definition ex_B_hours : list R :=
  [5.5; 6.5; 7.5; 8.5; 9.5; 10.5; 11.5; 12.5; 13.5; 14.5; 15.5; 16.5; 17.5;
   18.5; 19.5; 20.5].

Definition ex_A : SatData.t := ex_hourly "A" ex_A_hours.
Definition ex_B : SatData.t := ex_hourly "B" ex_B_hours.

(** Two samples dated 730000 and 730001 (matplotlib date numbers) of the
    field (3, 4, 0), stored both as bx, by, bz and as br, bt, bn, labelled
    GSE, with the spacecraft 1 AU from the Sun on the x axis (positions in
    km, Cartesian). *)
Definition ex_pos_xyz : PositionData.t :=
  {| PositionData.positions :=
       [[Fin 149597870.700; Fin 149597870.700]; ex_zero2; ex_zero2];
     PositionData.h := [("ReferenceFrame", HStr "HEEQ");
                        ("CoordinateSystem", HStr "xyz");
                        ("Units", HStr "km"); ("Object", HStr "")];
     PositionData.coors := ["x"; "y"; "z"] |}.

Definition ex_field : SatData.t :=
  {| data := ([[Fin 730000; Fin 730001]] ++ repeat ex_zero2 5
              ++ [[Fin 3; Fin 3]; [Fin 4; Fin 4]; ex_zero2; ex_zero2;
                  [Fin 3; Fin 3]; [Fin 4; Fin 4]; ex_zero2]
              ++ repeat ex_zero2 5)%list;
     state := [None; None];
     source := Some "STEREO-A";
     h := h_set "ReferenceFrame" (HStr "GSE") empty_header;
     pos := Some ex_pos_xyz;
     vars := ["bx"; "by"; "bz"; "br"; "bt"; "bn"] |}.

End Examples.
Export Examples.

(* ===================================================================== *)
(** ** SatData: cutting to a time range and looking up a position *)
(* ===================================================================== *)

Module Access.

Import SatData.
Local Open Scope string_scope.

(** [np.where(mask)[0]]: the indices at which the mask holds, counted
    from [i]. *)
Fixpoint where_from (mask : list bool) (i : nat) : list nat :=
  match mask with
  | [] => []
  | b :: m' => if b then i :: where_from m' (S i) else where_from m' (S i)
  end.

(** [a[:, inds]]: the listed columns of every row. *)
Definition take_columns (rows : list array) (inds : list nat)
  : result (list array) :=
  mapM (fun row => mapM (item row) inds) rows.

(** The statements the three branches of [cut] share; [keep] is the
    comparison of the branch on one element of [self.data[0]]. *)
Definition cut_to (keep : npfloat -> bool) : M world unit :=
  d <- get_self ;;
  row0 <- lift (item (data d) 0) ;;
  let new_inds := where_from (map keep row0) 0 in
  rows <- lift (take_columns (data d) new_inds) ;;
  put_self (set_data d rows) ;;;
  match pos d with
  | Some p =>
      prows <- lift (take_columns (PositionData.positions p) new_inds) ;;
      d' <- get_self ;;
      put_self (set_pos d' (Some (PositionData.mk prows (PositionData.h p)
                                                  (PositionData.coors p))))
  | None => ret tt
  end.

(** [self.cut(starttime, endtime)]; a bound is given as the date number
    that [date2num] returns for it. *)
Definition cut (starttime endtime : option R) : M world unit :=
  match starttime, endtime with
  | Some s, None => cut_to (fun t => fle (Fin s) t)
  | None, Some e => cut_to (fun t => flt t (Fin e))
  | Some s, Some e => cut_to (fun t => fle (Fin s) t && flt t (Fin e))
  | None, None => ret tt
  end.

(** [np.where(cond)[0][0]] *)
Definition first_index_where (f : npfloat -> bool) (a : array) : result nat :=
  match where_from (map f a) 0 with
  | i :: _ => Ok i
  | [] => Raise (IndexError "index 0 is out of bounds for axis 0 with size 0")
  end.

(** [self.get_position(timestamp)], the timestamp as a date number. *)
Definition get_position (d : SatData.t) (timestamp : R)
  : result (list npfloat) :=
  match pos d with
  | None => Raise (Exception
      "Load position data (SatData.load_position_data()) before calling get_position()!")
  | Some p =>
      row0 <~ item (data d) 0 ;;
      tind <~ first_index_where (fun t => flt (Fin timestamp) t) row0 ;;
      PositionData.column p tind
  end.

(** [PositionData.__setitem__] for a component name. *)
Definition pos_setitem (p : PositionData.t) (var : string) (value : array)
  : result PositionData.t :=
  if mem var (PositionData.coors p) then
    let i := index_of var (PositionData.coors p) in
    row <~ item (PositionData.positions p) i ;;
    row' <~ assign_row row value ;;
    Ok (PositionData.mk (set_nth (PositionData.positions p) i row')
                        (PositionData.h p) (PositionData.coors p))
  else Raise (Exception
         ("PositionData object does not contain the key '" ++ var ++ "'!")).

End Access.

(* ===================================================================== *)
(** ** SatData: hourly resampling and the auroral power prediction *)
(* ===================================================================== *)

Module Products.

Import SatData Convert L1 Resample.
Local Open Scope string_scope.

(** [x % y] for a float64 [x] and a positive Python float [y]. *)
Definition fmod (x : npfloat) (y : R) : npfloat :=
  match x with
  | Fin a => Fin (np_mod a y)
  | _ => NaN
  end.

(** [self.make_hourly_data()].  [seconds_between a b] stands for
    [(num2date(a) - num2date(b)).total_seconds()]. *)
Definition make_hourly_data (E : externals) (seconds_between : R -> R -> R)
           (d : SatData.t) : M (list log_record) SatData.t :=
  time <- lift (__getitem__ d "time") ;;
  t0 <- lift (item time 0) ;;
  let stime := fsub t0 (fmod t0 (1 / 24)) in
  tl <- lift (last_item time) ;;
  a <- lift (num2date tl) ;;
  b <- lift (num2date stime) ;;
  let nhours := seconds_between a b / 60 / 60 in
  n <- lift (arange_len (Fin 0) (Fin nhours) (Fin 1)) ;;
  let time_h :=
    map (fun k => fadd stime (fmul (of_nat k) (Fin (1 / 24)))) (seq 0 n) in
  interp_to_time E d time_h.

(** [a[np.where(a < 0)] = 0.0] *)
Definition clip_negative (a : array) : array :=
  map (fun x => if flt x (Fin 0) then Fin 0 else x) a.

(** [self.make_aurora_power_prediction()]; the model function of
    [predstorm.predict] is a parameter. *)
Definition make_aurora_power_prediction
           (make_aurora_power_from_wind :
              array -> array -> array -> array -> array -> result array)
           (d : SatData.t) : M (list log_record) SatData.t :=
  logger INFO "Making auroral power prediction" [] ;;;
  btot <- lift (__getitem__ d "btot") ;;
  by_ <- lift (__getitem__ d "by") ;;
  bz <- lift (__getitem__ d "bz") ;;
  speed <- lift (__getitem__ d "speed") ;;
  density <- lift (__getitem__ d "density") ;;
  p <- lift (make_aurora_power_from_wind btot by_ bz speed density) ;;
  let aurora_power := clip_negative (map (round_to 2) p) in
  time <- lift (__getitem__ d "time") ;;
  auroraData <- __init__ [("time", time); ("aurora", aurora_power)] None None ;;
  let hd := h_set "DataSource"
              (HStr ("Auroral power prediction from " ++ source_str d ++ " data"))
              (h auroraData) in
  let hd := h_set "SamplingRate" (HNum (Fin (1 / 24))) hd in
  ret (set_h auroraData hd).

End Products.

(* ===================================================================== *)
(** ** The module-level conversion functions *)
(* ===================================================================== *)

Module Standalone.

Import Convert.

(** One pass of the loop of [convert_GSE_to_GSM(bxgse, bygse, bzgse, timegse)]. *)
Definition gse_to_gsm_step (E : externals) (bxgse bygse bzgse timegse : array)
           (i : nat) : result fvec3 :=
  t <~ item timegse i ;;
  tnum <~ num2date t ;;
  let mjd := mjd_of (julian_date E tnum) in
  let UT := ut_hours E tnum in
  psigsm <~ psigsm_of mjd UT ;;
  let T3 := rot_x (- psigsm) in
  bx <~ item bxgse i ;;
  by_ <~ item bygse i ;;
  bz <~ item bzgse i ;;
  Ok (mvec_f T3 (bx, by_, bz)).

Definition convert_GSE_to_GSM (E : externals) (bxgse bygse bzgse timegse : array)
  : result (array * array * array) :=
  out <~ mapM (gse_to_gsm_step E bxgse bygse bzgse timegse)
              (seq 0 (List.length timegse)) ;;
  Ok (map fst3 out, map snd3 out, map thd3 out).

(** One pass of the first loop of [convert_RTN_to_GSE_sta_l1]. *)
Definition rtn_to_heeq_step (cbr cbt cbn ctime : array)
           (pos_stereo_heeq : list array) (pos_time_num : array) (i : nat)
  : result fvec3 :=
  t <~ item ctime i ;;
  time_ind_pos <~ last_index_where (fun p => flt p t) pos_time_num ;;
  r0 <~ item pos_stereo_heeq 0 ;; r <~ item r0 time_ind_pos ;;
  r1 <~ item pos_stereo_heeq 1 ;; lon <~ item r1 time_ind_pos ;;
  r2 <~ item pos_stereo_heeq 2 ;; lat <~ item r2 time_ind_pos ;;
  br <~ item cbr i ;;
  bt <~ item cbt i ;;
  bn <~ item cbn i ;;
  Ok (rtn_basis_project (sphere2cart r lon lat) br bt bn).

(** One pass of its second loop. *)
Definition heeq_to_gse_step (E : externals) (ctime : array) (i : nat)
           (heeq : fvec3) : result fvec3 :=
  t <~ item ctime i ;;
  tnum <~ num2date t ;;
  let mjd := mjd_of (julian_date E tnum) in
  let UT := ut_hours E tnum in
  let '(hx, hy, hz) := mvec_f (HEEQ_to_HEE_matrix mjd UT) heeq in
  Ok (fneg hx, fneg hy, hz).

Definition convert_RTN_to_GSE_sta_l1 (E : externals) (cbr cbt cbn ctime : array)
           (pos_stereo_heeq : list array) (pos_time_num : array)
  : result (array * array * array) :=
  let idxs := seq 0 (List.length ctime) in
  heeq <~ mapM (rtn_to_heeq_step cbr cbt cbn ctime pos_stereo_heeq pos_time_num)
               idxs ;;
  gse <~ mapM (fun ih => heeq_to_gse_step E ctime (fst ih) (snd ih))
              (combine idxs heeq) ;;
  Ok (map fst3 gse, map snd3 gse, map thd3 gse).

End Standalone.

(* ===================================================================== *)
(** ** Small helpers: rounding a datetime, parsing a satellite name *)
(* ===================================================================== *)

Module TimeTools.

Local Open Scope string_scope.

(** A naive [datetime]: the proleptic Gregorian ordinal of its date and
    its time of day. *)
Record datetime : Type := mkDatetime {
  ordinal : Z;
  hour : Z;
  minute : Z;
  second : Z;
  microsecond : Z
}.

(** The largest ordinal a [datetime] can hold (9999-12-31). *)
Definition max_ordinal : Z := 3652059.

(** [dt.replace(minute=m, second=0, microsecond=0)] *)
Definition replace_minute (dt : datetime) (m : Z) : datetime :=
  mkDatetime (ordinal dt) (hour dt) m 0 0.

(** [a >= b] on two datetimes: lexicographic on date and time of day. *)
Definition dt_key (dt : datetime) : list Z :=
  [ordinal dt; hour dt; minute dt; second dt; microsecond dt].

Fixpoint lex_geb (a b : list Z) : bool :=
  match a, b with
  | x :: a', y :: b' => if Z.ltb y x then true
                        else if Z.ltb x y then false else lex_geb a' b'
  | _, _ => true
  end.

Definition dt_geb (a b : datetime) : bool := lex_geb (dt_key a) (dt_key b).

Inductive dt_result : Type :=
| DtOk (dt : datetime)
| OverflowError (msg : string).

(** [dt + timedelta(hours=1)] *)
Definition add_hour (dt : datetime) : dt_result :=
  if Z.ltb (hour dt) 23
  then DtOk (mkDatetime (ordinal dt) (hour dt + 1) (minute dt) (second dt)
                        (microsecond dt))
  else if Z.ltb (ordinal dt) max_ordinal
       then DtOk (mkDatetime (ordinal dt + 1) 0 (minute dt) (second dt)
                             (microsecond dt))
       else OverflowError "date value out of range".

Definition round_to_hour (dt : datetime) : dt_result :=
  let dt_start_of_hour := replace_minute dt 0 in
  let dt_half_hour := replace_minute dt 30 in
  if dt_geb dt dt_half_hour
  then add_hour dt_start_of_hour
  else DtOk dt_start_of_hour.

(** [parse_satellite_name(sat_str)]; [None] when no branch returns. *)
Definition parse_satellite_name (sat_str : string) : option string :=
  let sat_str_ := replace " " "" (replace "_" "" (replace "-" "" sat_str)) in
  if mem (lower sat_str_) ["sta"; "stereoa"; "stereoahead"]
  then Some "stereo-ahead"
  else if mem (lower sat_str_) ["stb"; "stereob"; "stereobehind"]
       then Some "stereo-behind"
       else None.

End TimeTools.

(* ===================================================================== *)
(** ** Notions for the further properties *)
(* ===================================================================== *)

Module MoreProps.

Import SatData.

(** The time range that [cut] keeps: from [starttime] on (inclusive) and
    before [endtime] (exclusive), each bound only if it is given. *)
Definition in_range (starttime endtime : option R) (t : npfloat) : bool :=
  match starttime with Some s => fle (Fin s) t | None => true end &&
  match endtime with Some e => flt t (Fin e) | None => true end.

(** The entries of [row] whose time stamp lies in the range. *)
Definition kept (starttime endtime : option R) (time row : array) : array :=
  map snd (filter (fun p => in_range starttime endtime (fst p))
                  (combine time row)).

(** The container that [cut] leaves: every row of data and positions
    filtered by the time range, everything else as it was. *)
Definition cut_result (s e : option R) (time : array) (d : SatData.t)
  : SatData.t :=
  SatData.mk (map (kept s e time) (data d)) (state d) (source d) (h d)
    (match pos d with
     | Some p => Some (PositionData.mk
                         (map (kept s e time) (PositionData.positions p))
                         (PositionData.h p) (PositionData.coors p))
     | None => None
     end)
    (vars d).

(** The rows of position data are as long as the data rows. *)
Definition positions_match (d : SatData.t) : Prop :=
  forall p, pos d = Some p ->
  forall r, In r (PositionData.positions p) -> List.length r = __len__ d.

(** Every sample of [d] that is not NaN is found unchanged at its place in
    [d'], and the rows keep their lengths. *)
Definition keeps_valid_samples (d d' : SatData.t) : Prop :=
  forall idx row,
    nth_error (data d) idx = Some row ->
    exists row',
      nth_error (data d') idx = Some row' /\
      List.length row' = List.length row /\
      forall i, isnan (nth i row NaN) = false -> nth i row' NaN = nth i row NaN.

(** [np.interp] returns one value per requested point whenever it is given
    data to interpolate. *)
Definition interp_one_per_point (E : externals) : Prop :=
  forall x xp fp : array,
    fp <> [] ->
    exists y, np_interp E x xp fp = Ok y /\ List.length y = List.length x.

(** The value that the loop of [interp_to_time] stores under a key. *)
Definition interpolated (E : externals) (d : SatData.t) (tarray : array)
           (k : string) : array :=
  match __getitem__ d "time"%string, __getitem__ d k with
  | Ok time, Ok a => match np_interp E tarray time a with
                     | Ok na => na
                     | Raise _ => []
                     end
  | _, _ => []
  end.

(** Microseconds from the start of the day of ordinal 0 to a datetime. *)
Definition to_microseconds (dt : TimeTools.datetime) : Z :=
  ((((TimeTools.ordinal dt * 24 + TimeTools.hour dt) * 60
     + TimeTools.minute dt) * 60 + TimeTools.second dt) * 1000000
   + TimeTools.microsecond dt)%Z.

(** The ranges of the fields of a datetime. *)
Definition valid_datetime (dt : TimeTools.datetime) : Prop :=
  (1 <= TimeTools.ordinal dt <= TimeTools.max_ordinal /\
   0 <= TimeTools.hour dt < 24 /\ 0 <= TimeTools.minute dt < 60 /\
   0 <= TimeTools.second dt < 60 /\ 0 <= TimeTools.microsecond dt < 1000000)%Z.

(** A string without the occurrences of one character. *)
Fixpoint remove_char (c : Ascii.ascii) (s : string) : string :=
  match s with
  | EmptyString => EmptyString
  | String a s' => if Ascii.eqb c a then remove_char c s'
                   else String a (remove_char c s')
  end.

End MoreProps.
Export MoreProps.

(* ===================================================================== *)
(** ** Interpolation over the time row and the radial correction: what is stated *)
(* ===================================================================== *)

Module TimeKeyProps.

(** [np.interp] evaluates, at every requested point, an interpolant
    [g xp fp] that the sample points determine. *)
Definition interp_by (E : externals)
           (g : array -> array -> npfloat -> npfloat) : Prop :=
  forall x xp fp : array,
    fp <> [] -> np_interp E x xp fp = Ok (map (g xp fp) x).

(** The places of a row that hold a value other than NaN, as numpy index
    values, and the values found there. *)
Definition valid_places (row : array) : array :=
  map of_nat (filter (fun i => negb (isnan (nth i row NaN)))
                     (seq 0 (List.length row))).

Definition valid_values (row : array) : array :=
  filter (fun x => negb (isnan x)) row.

(** [row'] is [row] with every NaN replaced by the interpolant over the
    places and values of the other samples, taken at the place of the NaN. *)
Definition nans_filled (g : array -> array -> npfloat -> npfloat)
           (row row' : array) : Prop :=
  List.length row' = List.length row /\
  forall i, (i < List.length row)%nat ->
    nth i row' NaN =
    if isnan (nth i row NaN)
    then g (valid_places row) (valid_values row) (of_nat i)
    else nth i row NaN.

End TimeKeyProps.
Export TimeKeyProps.

Module RadialProps.

Import SatData.
Local Open Scope string_scope.

(** A position in Cartesian coordinates whose components are finite. *)
Definition finite3 (v : vec3) : fvec3 :=
  let '(x, y, z) := v in (Fin x, Fin y, Fin z).

(** The distance of L1 from the observer for a position of Earth given in
    AU: L1 lies on the line from the observer to Earth, [dist_to_L1] short
    of Earth. *)
Definition l1_distance (E : externals) (earth : vec3) : R :=
  let '(x, y, z) := earth in
  sqrt (x * x + y * y + z * z) - dist_to_L1 E / AU E.

(** Euclidean length of a position. *)
Definition norm3 (v : vec3) : R :=
  let '(x, y, z) := v in sqrt (x * x + y * y + z * z).

(** Earth 1 AU from the Sun at a heliographic latitude of 6.7 degrees, at
    (144/145, 0, 17/145) in HEEQ, and every other object in the same
    direction at twice the distance of L1. *)
Definition ex_earth : vec3 := (144 / 145, 0, 17 / 145).
Definition ex_far : vec3 :=
  (2 * ex_l1 * (144 / 145), 0, 2 * ex_l1 * (17 / 145)).

Definition ex_E_tilted : externals :=
  {| np_interp := np_interp ex_E;
     trajectory := fun name times _ _ _ =>
                     Ok (map (fun _ => finite3 (if String.eqb name "EARTH"
                                                then ex_earth else ex_far))
                             times);
     julian_date := julian_date ex_E;
     ut_hours := ut_hours ex_E;
     strftime := strftime ex_E;
     AU := AU ex_E;
     dist_to_L1 := dist_to_L1 ex_E |}.

(** A monitor with speed 400, density 10 and total field 5 at two samples
    (dated 730000 and 730001); its header names the heliosat object and no
    position data is attached yet. *)
Definition ex_monitor_b : SatData.t :=
  {| data := ([[Fin 730000; Fin 730001]; [Fin 400; Fin 400]; ex_zero2;
               [Fin 10; Fin 10]]
              ++ repeat ex_zero2 5 ++ [[Fin 5; Fin 5]]
              ++ repeat ex_zero2 8)%list;
     state := [None; None];
     source := Some "STEREO-A";
     h := h_set "HeliosatObject" (HObj "STEREO-A") empty_header;
     pos := None;
     vars := ["speed"; "density"; "btot"] |}.

End RadialProps.
Export RadialProps.

(* ===================================================================== *)
(** ** Basic facts about the monad and the container *)
(* ===================================================================== *)

Section ContainerFacts.

Import SatData.

Lemma mem_filter_false (k : string) (p : string -> bool) (l : list string) :
  mem k l = false -> mem k (filter p l) = false.
Proof.
  induction l as [|x l IH]; simpl; intro H; [reflexivity|].
  apply orb_false_iff in H as [Hx Hl].
  destruct (p x); simpl; [rewrite Hx|]; auto.
Qed.

Lemma mem_filter_true (k : string) (p : string -> bool) (l : list string) :
  mem k l = true -> p k = true -> mem k (filter p l) = true.
Proof.
  intros Hm Hp. unfold mem in *. apply existsb_exists in Hm as (x & Hx & Ex).
  apply existsb_exists. exists x. split; auto.
  apply filter_In. split; auto. apply String.eqb_eq in Ex. subst; auto.
Qed.

Lemma mem_app (k : string) (l1 l2 : list string) :
  mem k (l1 ++ l2) = mem k l1 || mem k l2.
Proof. unfold mem. apply existsb_app. Qed.

Lemma set_nth_length {A : Type} (l : list A) (i : nat) (x : A) :
  List.length (set_nth l i x) = List.length l.
Proof.
  revert i; induction l as [|y l IH]; intros [|i]; simpl; auto.
Qed.

Lemma set_nth_nth_error_same {A : Type} (l : list A) (i : nat) (x : A) :
  (i < List.length l)%nat -> nth_error (set_nth l i x) i = Some x.
Proof.
  revert i; induction l as [|y l IH]; intros [|i] H; simpl in *; try lia; auto.
  apply IH; lia.
Qed.

Lemma set_nth_nth_error_other {A : Type} (l : list A) (i j : nat) (x : A) :
  i <> j -> nth_error (set_nth l i x) j = nth_error l j.
Proof.
  revert i j; induction l as [|y l IH]; intros [|i] [|j] H; simpl; auto;
    try congruence.
Qed.

Lemma set_nth_In {A : Type} (l : list A) (i : nat) (x y : A) :
  In y (set_nth l i x) -> y = x \/ In y l.
Proof.
  revert i; induction l as [|z l IH]; intros [|i]; simpl; auto.
  - intros [H|H]; auto.
  - intros [H|H]; auto. destruct (IH _ H); auto.
Qed.

Lemma item_nth_error {A : Type} (l : list A) (i : nat) (x : A) :
  nth_error l i = Some x -> item l i = Ok x.
Proof. unfold item; intros ->; reflexivity. Qed.

Lemma item_Ok_inv {A : Type} (l : list A) (i : nat) (x : A) :
  item l i = Ok x -> nth_error l i = Some x.
Proof. unfold item; destruct (nth_error l i); congruence. Qed.

Lemma assign_row_same_length (row value : array) :
  List.length value = List.length row -> assign_row row value = Ok value.
Proof. unfold assign_row; intros ->; rewrite Nat.eqb_refl; reflexivity. Qed.

(** A well-formed container has a row for every default key. *)
Lemma wf_row (d : SatData.t) (i : nat) :
  wf d -> (i < 18)%nat ->
  exists row, nth_error (data d) i = Some row /\ List.length row = __len__ d.
Proof.
  intros [Hlen Hrows] Hi.
  destruct (nth_error (data d) i) as [row|] eqn:E.
  - exists row; split; auto. apply Hrows. eapply nth_error_In; eauto.
  - apply nth_error_None in E; lia.
Qed.

Lemma index_of_default_keys_lt (var : string) :
  mem var default_keys = true -> (index_of var default_keys < 18)%nat.
Proof.
  unfold default_keys; simpl.
  repeat (destruct (String.eqb var _); [lia|]); simpl; discriminate.
Qed.

(** Storing a row of the right length keeps the invariant and the length. *)
Lemma store_row_wf (d : SatData.t) (i : nat) (value : array) :
  wf d -> (i < 18)%nat -> List.length value = __len__ d ->
  exists d', store_row d i value = Ok d' /\
             data d' = set_nth (data d) i value /\
             vars d' = vars d /\ h d' = h d /\ pos d' = pos d /\
             source d' = source d /\ state d' = state d /\
             __len__ d' = __len__ d /\ wf d'.
Proof.
  intros Hwf Hi Hv.
  destruct (wf_row d i Hwf Hi) as (row & Hrow & Hl).
  unfold store_row. rewrite (item_nth_error _ _ _ Hrow); simpl.
  rewrite assign_row_same_length by congruence; simpl.
  eexists; split; [reflexivity|].
  assert (Hlen' : __len__ (set_data d (set_nth (data d) i value)) = __len__ d).
  { unfold __len__; simpl. destruct Hwf as [H18 _].
    destruct (data d) as [|r0 rest] eqn:Ed; [simpl in H18; lia|].
    destruct i; simpl; auto. unfold __len__ in Hv; rewrite Ed in Hv; auto. }
  repeat split; auto.
  - simpl. rewrite set_nth_length. apply Hwf.
  - intros r Hr. rewrite Hlen'. simpl in Hr.
    apply set_nth_In in Hr as [->|Hr]; auto. apply Hwf; auto.
Qed.

End ContainerFacts.

Section InitFacts.

Import SatData.

Lemma np_asarray2_Ok (rows arr : list array) :
  np_asarray2 rows = Ok arr ->
  arr = rows /\
  forall r, In r rows -> List.length r = List.length (nth 0 rows []).
Proof.
  unfold np_asarray2. destruct rows as [|r0 rest]; [intros [= <-]; split; auto; intros r []|].
  destruct (forallb _ _) eqn:E; [|discriminate].
  intros [= <-]; split; auto.
  intros r Hr. rewrite forallb_forall in E. apply E in Hr.
  apply Nat.eqb_eq in Hr. exact Hr.
Qed.

Lemma remove_first_time_filter (p : string -> bool) :
  mem "time" (remove_first "time" (filter p default_keys)) = false.
Proof.
  unfold default_keys.
  match goal with |- context [filter _ (_ :: ?l)] => set (rest := l) end.
  assert (Hrest : mem "time" rest = false) by reflexivity.
  cbn [filter]. destruct (p "time"%string).
  - cbn [remove_first]. rewrite String.eqb_refl.
    apply mem_filter_false; exact Hrest.
  - assert (Hf := mem_filter_false "time" p rest Hrest).
    induction (filter p rest) as [|x l IH]; [reflexivity|].
    cbn [mem existsb] in Hf. apply orb_false_iff in Hf as [Hx Hl].
    cbn [remove_first]. rewrite Hx. cbn [mem existsb]. rewrite Hx.
    apply IH. exact Hl.
Qed.

(** What the constructor returns is well formed and does not list the
    time axis among its active variables. *)
Lemma init_wf (input_dict : dict) (src : option string) (hd : option header)
      (lg lg' : list log_record) (d : SatData.t) :
  __init__ input_dict src hd lg = (Ok d, lg') ->
  wf d /\ mem "time" (vars d) = false /\ pos d = None.
Proof.
  unfold __init__.
  unfold bind at 1. unfold lift at 1.
  destruct (check_keys (map fst input_dict)); [|discriminate].
  destruct (d_get "time" input_dict) as [time|]; [|discriminate].
  set (ks := map fst input_dict).
  set (dt := filter (fun x => mem x ks) default_keys).
  set (rows := map _ default_keys).
  unfold bind at 1.
  assert (Hw : exists lg1,
             (if Nat.eqb (List.length time) 0
              then logger WARNING
                     "SatData.__init__: Inititating empty array! Is the data missing?" []
              else ret tt) lg = (Ok tt, lg1)).
  { destruct (Nat.eqb (List.length time) 0); eexists; reflexivity. }
  destruct Hw as [lg1 ->].
  unfold bind, lift.
  destruct (np_asarray2 rows) as [arr|] eqn:Ea; [|discriminate].
  unfold ret. intros [= <- <-].
  apply np_asarray2_Ok in Ea as [-> Hrows].
  split; [split|split; [|reflexivity]].
  - cbn [data]. unfold rows. rewrite length_map. reflexivity.
  - intros r Hr. unfold __len__. cbn [data] in *. apply Hrows; exact Hr.
  - cbn [vars]. apply remove_first_time_filter.
Qed.

(** Assigning a full-length array under the key ["time"] to a container
    whose active variables do not list it. *)
Lemma setitem_time_activates (d : SatData.t) (lg : list log_record) (v : array) :
  wf d -> mem "time" (vars d) = false -> List.length v = __len__ d ->
  exists d',
    __setitem__ "time" v (mkWorld d lg) = (Ok tt, mkWorld d' lg) /\
    data d' = set_nth (data d) 0 v /\
    vars d' = (vars d ++ ["time"%string])%list /\
    h d' = h d /\ pos d' = pos d /\ wf d'.
Proof.
  intros Hwf Hfresh Hv.
  destruct (store_row_wf d 0 v Hwf ltac:(lia) Hv)
    as (d1 & Hst & Hdata & Hvars & Hh & Hpos & Hsrc & Hstate & Hlen & Hwf1).
  exists (set_vars d1 (vars d1 ++ ["time"%string])%list).
  unfold __setitem__, bind, get_self, lift, put_self; simpl.
  rewrite Hfresh; simpl.
  change (index_of "time" default_keys) with 0%nat.
  rewrite Hst; simpl.
  repeat split; auto; try (simpl; congruence).
  - apply Hwf1.
  - apply Hwf1.
Qed.

End InitFacts.

Section AccessFacts.

Import SatData Convert Resample.

Lemma getitem_time (d : SatData.t) :
  wf d ->
  exists row, __getitem__ d "time" = Ok row /\
              nth_error (data d) 0 = Some row /\
              List.length row = __len__ d.
Proof.
  intros Hwf. destruct (wf_row d 0 Hwf ltac:(lia)) as (row & Hrow & Hl).
  exists row. unfold __getitem__. rewrite mem_app.
  replace (mem "time" ["time"%string]) with true by reflexivity.
  rewrite orb_true_r.
  change (index_of "time" default_keys) with 0%nat.
  rewrite (item_nth_error _ _ _ Hrow). auto.
Qed.

Lemma getitem_var (d : SatData.t) (var : string) :
  wf d -> mem var (vars d) = true -> mem var default_keys = true ->
  exists row, __getitem__ d var = Ok row /\
              nth_error (data d) (index_of var default_keys) = Some row /\
              List.length row = __len__ d.
Proof.
  intros Hwf Hv Hk.
  destruct (wf_row d _ Hwf (index_of_default_keys_lt var Hk)) as (row & Hrow & Hl).
  exists row. unfold __getitem__. rewrite mem_app, Hv. cbn [orb].
  rewrite (item_nth_error _ _ _ Hrow). auto.
Qed.

Lemma interp_to_time_dict_app (E : externals) (d : SatData.t) (tarray : array)
      (l1 l2 : list string) (acc : dict) :
  interp_to_time_dict E d tarray (l1 ++ l2) acc =
  rbind (interp_to_time_dict E d tarray l1 acc)
        (fun acc' => interp_to_time_dict E d tarray l2 acc').
Proof.
  revert acc; induction l1 as [|k l1 IH]; intro acc; simpl; [reflexivity|].
  destruct (__getitem__ d "time"); simpl; [|reflexivity].
  destruct (__getitem__ d k); simpl; [|reflexivity].
  destruct (np_interp E tarray a a0); simpl; [|reflexivity].
  apply IH.
Qed.

End AccessFacts.

(* ===================================================================== *)
(** ** RTN to GSE without position data (C5) *)
(* ===================================================================== *)

Section MissingPositions.

Import SatData Convert.

(** C5.  With no position object attached and no position arrays passed,
    [convert_RTN_to_GSE] raises at once the exception whose message asks
    for position data to be loaded first; the container is left exactly as
    it was (nothing is converted, no variable is activated) and only the
    opening info record has been logged. *)
Theorem convert_RTN_to_GSE_needs_positions :
  forall (E : externals) (d : SatData.t) (lg : list log_record),
    wf d ->
    pos d = None ->
    convert_RTN_to_GSE E [] [] (mkWorld d lg) =
    (Raise (Exception
       "Load position data (SatData.load_position_data()) before calling convert_RTN_to_GSE()!"),
     mkWorld d (lg ++ [mkLog INFO "Converting RTN magn. values to GSE" []])%list).
Proof.
  intros E d lg Hwf Hpos.
  destruct (getitem_time d Hwf) as (row & Hget & _ & _).
  unfold convert_RTN_to_GSE, bind, in_log, logger, get_self, lift; simpl.
  rewrite Hget, Hpos. reflexivity.
Qed.

End MissingPositions.

Section ExampleRuns.

Import SatData Convert Resample.

Lemma ex_d_constructed : __init__ ex_dict None None [] = (Ok ex_d, []).
Proof. reflexivity. Qed.

Lemma ex_d_wf : wf ex_d.
Proof.
  split; [reflexivity|].
  intros r Hr. simpl in Hr.
  repeat (destruct Hr as [<-|Hr]; [reflexivity|]). destruct Hr.
Qed.

End ExampleRuns.

Lemma convert_RTN_to_GSE_needs_positions_witness :
  Convert.convert_RTN_to_GSE ex_E [] [] (SatData.mkWorld ex_d []) =
  (Raise (Exception
     "Load position data (SatData.load_position_data()) before calling convert_RTN_to_GSE()!"),
   SatData.mkWorld ex_d [mkLog INFO "Converting RTN magn. values to GSE" []]).
Proof.
  exact (convert_RTN_to_GSE_needs_positions ex_E ex_d [] ex_d_wf eq_refl).
Defined.

(* ===================================================================== *)
(** ** The sliding-window distance (C1, C9) *)
(* ===================================================================== *)

Section Distance.

Import SatData Forecast.

Lemma zip_with_fsub_Fin (xs zs : list R) :
  zip_with fsub (map Fin xs) (map Fin zs) =
  map Fin (map (fun p => fst p - snd p) (combine xs zs)).
Proof.
  revert zs; induction xs as [|x xs IH]; intros [|z zs]; simpl; auto.
  rewrite IH. reflexivity.
Qed.

Lemma map_fsquare_Fin (l : list R) :
  map fsquare (map Fin l) = map Fin (map (fun a => a * a) l).
Proof. induction l as [|a l IH]; simpl; [|rewrite IH]; reflexivity. Qed.

Lemma fold_left_fadd_Fin (l : list R) (a : R) :
  fold_left fadd (map Fin l) (Fin a) = Fin (a + Rsum l).
Proof.
  revert a; induction l as [|x l IH]; intro a; simpl.
  - f_equal; lra.
  - rewrite IH. f_equal; lra.
Qed.

Lemma np_sum_Fin (l : list R) : np_sum (map Fin l) = Fin (Rsum l).
Proof. unfold np_sum. rewrite fold_left_fadd_Fin. f_equal; lra. Qed.

Lemma Rsum_squares_nonneg (l : list R) : 0 <= Rsum (map (fun a => a * a) l).
Proof.
  induction l as [|a l IH]; simpl; [lra|].
  pose proof (Rle_0_sqr a) as H. unfold Rsqr in H. lra.
Qed.

Lemma fsqrt_Fin_nonneg (a : R) : 0 <= a -> fsqrt (Fin a) = Fin (sqrt a).
Proof. intro H. simpl. destruct (Rlt_dec a 0); [lra|reflexivity]. Qed.

Lemma fdiv_Fin_nonzero (a b : R) : b <> 0 -> fdiv (Fin a) (Fin b) = Fin (a / b).
Proof. intro H. simpl. destruct (Req_dec_T b 0); [contradiction|reflexivity]. Qed.

Lemma slice_map {A B : Type} (f : A -> B) (l : list A) (i j : nat) :
  slice (map f l) i j = map f (slice l i j).
Proof. unfold slice. rewrite skipn_map, firstn_map. reflexivity. Qed.

Lemma slice_length {A : Type} (l : list A) (i n : nat) :
  (i + n <= List.length l)%nat -> List.length (slice l i (i + n)) = n.
Proof.
  intro H. unfold slice. rewrite length_firstn, length_skipn. lia.
Qed.

(** The pairs of a list with a stretch of another, written by index. *)
Lemma combine_window (xs ys : list R) (off : nat) :
  (off + List.length xs <= List.length ys)%nat ->
  combine xs (firstn (List.length xs) (skipn off ys)) =
  map (fun k => (nth k xs 0, nth (off + k) ys 0)) (seq 0 (List.length xs)).
Proof.
  revert ys off; induction xs as [|x xs IH]; intros ys off H; [reflexivity|].
  simpl List.length in *.
  destruct (skipn off ys) as [|y rest] eqn:Es.
  { assert (Hl := length_skipn off ys). rewrite Es in Hl. simpl in Hl. lia. }
  assert (Hy : y = nth off ys 0).
  { rewrite <- (firstn_skipn off ys) at 1.
    rewrite app_nth2; rewrite length_firstn; [|lia].
    replace (off - Nat.min off (List.length ys))%nat with 0%nat by lia.
    rewrite Es. reflexivity. }
  assert (Hrest : rest = skipn (S off) ys).
  { replace (S off) with (1 + off)%nat by lia.
    rewrite <- skipn_skipn, Es. reflexivity. }
  cbn [firstn combine seq map nth].
  rewrite Nat.add_0_r, <- Hy. f_equal.
  rewrite Hrest, IH by lia.
  rewrite <- seq_shift, map_map. apply map_ext. intro k.
  replace (S off + k)%nat with (off + S k)%nat by lia. reflexivity.
Qed.

(** The loop's formula on finite data with a full window. *)
Lemma window_distance_finite (xs ys : list R) (inds deltat : nat) :
  List.length xs = S deltat ->
  (inds + deltat + 1 <= List.length ys)%nat ->
  window_distance (map Fin xs) (map Fin ys) inds deltat =
  Ok (Fin (root_sum_over_size xs ys inds (S deltat))).
Proof.
  intros Hx Hy. unfold window_distance.
  rewrite slice_map.
  assert (Hs : List.length (slice ys inds (inds + deltat + 1)) = S deltat).
  { replace (inds + deltat + 1)%nat with (inds + S deltat)%nat by lia.
    apply slice_length; lia. }
  unfold broadcast2. rewrite !length_map, Hx, Hs, Nat.eqb_refl.
  cbn [rbind]. rewrite zip_with_fsub_Fin, map_fsquare_Fin, np_sum_Fin.
  rewrite fsqrt_Fin_nonneg by apply Rsum_squares_nonneg.
  unfold of_nat.
  rewrite fdiv_Fin_nonzero by (apply not_0_INR; lia).
  do 2 f_equal. unfold root_sum_over_size, sum_sq_diff. do 3 f_equal.
  unfold slice. replace (inds + deltat + 1 - inds)%nat with (List.length xs) by lia.
  rewrite combine_window by lia. rewrite !map_map, Hx. reflexivity.
Qed.

(** Square root first and division afterwards is the RMS deviation divided
    once more by the square root of the window length. *)
Lemma root_sum_over_size_rms (xs ys : list R) (off n : nat) :
  (0 < n)%nat ->
  root_sum_over_size xs ys off n = rms_deviation xs ys off n / sqrt (INR n).
Proof.
  intro Hn. unfold root_sum_over_size, rms_deviation.
  assert (Hpos : 0 < INR n) by (apply lt_0_INR; exact Hn).
  assert (Hs : 0 <= sum_sq_diff xs ys off n).
  { unfold sum_sq_diff.
    rewrite <- (map_map (fun k => nth k xs 0 - nth (off + k) ys 0) (fun a => a * a)).
    apply Rsum_squares_nonneg. }
  assert (Hsq : 0 < sqrt (INR n)) by (apply sqrt_lt_R0; exact Hpos).
  rewrite sqrt_div_alt by exact Hpos.
  rewrite <- (sqrt_sqrt (INR n)) at 1 by lra.
  field. lra.
Qed.

End Distance.

Section SlidingWindow.

Import SatData Forecast.

Lemma mapM_ext_Ok {A B : Type} (f : A -> result B) (g : A -> B) (l : list A) :
  (forall x, In x l -> f x = Ok (g x)) -> mapM f l = Ok (map g l).
Proof.
  induction l as [|x l IH]; intro H; simpl; [reflexivity|].
  rewrite (H x) by (left; reflexivity). simpl.
  rewrite IH by (intros y Hy; apply H; right; exact Hy). reflexivity.
Qed.

Lemma nth_map_seq {B : Type} (g : nat -> B) (n i : nat) (dflt : B) :
  (i < n)%nat -> nth i (map g (seq 0 n)) dflt = g i.
Proof.
  intro H. rewrite (nth_indep _ dflt (g 0%nat)) by (rewrite length_map, length_seq; exact H).
  rewrite map_nth, seq_nth by exact H. reflexivity.
Qed.

(** C1, as the code has it.  For every start index [i] of the training
    range whose window lies inside the data, and for each of the six
    variables independently, the distance stored at [i] is the square root
    of the sum of squared differences at matching offsets, divided by the
    window length after the root has been taken; this is the RMS deviation
    divided once more by the square root of the window length. *)
Theorem sliding_window_distance_is_root_sum_over_size :
  forall (omni : SatData.t) (nw tr : series6)
         (startindex deltat trainsize : nat),
    holds_series omni tr ->
    each6 (fun xs => List.length xs = S deltat) nw ->
    each6 (fun ys => (startindex + trainsize + deltat <= List.length ys)%nat) tr ->
    exists D : distances,
      sliding_window omni (now_of nw) startindex deltat trainsize = Ok D /\
      forall i, (i < trainsize)%nat ->
        let measure xs ys := root_sum_over_size xs ys (startindex + i) (S deltat) in
        nth i (dist_count_b D) NaN = Fin (measure (s_btot nw) (s_btot tr)) /\
        nth i (dist_count_bz D) NaN = Fin (measure (s_bz nw) (s_bz tr)) /\
        nth i (dist_count_by D) NaN = Fin (measure (s_by nw) (s_by tr)) /\
        nth i (dist_count_bx D) NaN = Fin (measure (s_bx nw) (s_bx tr)) /\
        nth i (dist_count_v D) NaN = Fin (measure (s_speed nw) (s_speed tr)) /\
        nth i (dist_count_n D) NaN = Fin (measure (s_density nw) (s_density tr)) /\
        forall xs ys,
          measure xs ys =
          rms_deviation xs ys (startindex + i) (S deltat) / sqrt (INR (S deltat)).
Proof.
  intros omni nw tr startindex deltat trainsize
         (Hb & Hbz & Hby & Hbx & Hv & Hn)
         (Lb & Lbz & Lby & Lbx & Lv & Ln)
         (Cb & Cbz & Cby & Cbx & Cv & Cn).
  set (g := fun i : nat =>
              let m xs ys := Fin (root_sum_over_size xs ys (startindex + i) (S deltat)) in
              (m (s_btot nw) (s_btot tr), m (s_bz nw) (s_bz tr),
               m (s_by nw) (s_by tr), m (s_bx nw) (s_bx tr),
               m (s_speed nw) (s_speed tr), m (s_density nw) (s_density tr))).
  assert (Hstep : forall i, In i (seq 0 trainsize) ->
            sliding_step omni (now_of nw) startindex deltat i = Ok (g i)).
  { intros i Hi. apply in_seq in Hi. unfold sliding_step, now_of; cbn [btotn bzgsmn bygsmn bxn speedn denn].
    rewrite Hb; cbn [rbind]. rewrite window_distance_finite by (auto; lia); cbn [rbind].
    rewrite Hbz; cbn [rbind]. rewrite window_distance_finite by (auto; lia); cbn [rbind].
    rewrite Hby; cbn [rbind]. rewrite window_distance_finite by (auto; lia); cbn [rbind].
    rewrite Hbx; cbn [rbind]. rewrite window_distance_finite by (auto; lia); cbn [rbind].
    rewrite Hv; cbn [rbind]. rewrite window_distance_finite by (auto; lia); cbn [rbind].
    rewrite Hn; cbn [rbind]. rewrite window_distance_finite by (auto; lia); cbn [rbind].
    reflexivity. }
  unfold sliding_window. rewrite (mapM_ext_Ok _ g _ Hstep). cbn [rbind].
  eexists; split; [reflexivity|].
  intros i Hi. cbn [dist_count_b dist_count_bz dist_count_by dist_count_bx
                    dist_count_v dist_count_n].
  rewrite !map_map, !nth_map_seq by exact Hi.
  repeat split.
  intros xs ys. apply root_sum_over_size_rms. lia.
Qed.

End SlidingWindow.

Section DistanceExamples.

Import SatData Forecast.

Lemma ex_omni_holds : holds_series ex_omni ex_train.
Proof. repeat split. Qed.

Lemma ex_root_sum : root_sum_over_size [2; 0; 0; 0] [0; 0; 0; 0] 0 4 = 1 / 2.
Proof.
  unfold root_sum_over_size, sum_sq_diff. simpl.
  replace ((2 - 0) * (2 - 0) + ((0 - 0) * (0 - 0) + ((0 - 0) * (0 - 0)
            + ((0 - 0) * (0 - 0) + 0)))) with (2 * 2) by lra.
  rewrite sqrt_square by lra. lra.
Qed.

Lemma ex_rms : rms_deviation [2; 0; 0; 0] [0; 0; 0; 0] 0 4 = 1.
Proof.
  unfold rms_deviation, sum_sq_diff. simpl.
  replace (((2 - 0) * (2 - 0) + ((0 - 0) * (0 - 0) + ((0 - 0) * (0 - 0)
            + ((0 - 0) * (0 - 0) + 0)))) / (1 + 1 + 1 + 1)) with (1 * 1) by lra.
  rewrite sqrt_square by lra. reflexivity.
Qed.

End DistanceExamples.

(** C1, as stated, fails.  Now-wind (2, 0, 0, 0) against a training window
    of zeros: the loop stores sqrt(4) / 4 = 1/2, the RMS deviation is
    sqrt(4 / 4) = 1. *)
Lemma sliding_window_distance_differs_from_rms :
  exists D : Forecast.distances,
    Forecast.sliding_window ex_omni (now_of ex_now) 0 3 1 = Ok D /\
    nth 0 (Forecast.dist_count_b D) NaN = Fin (1 / 2) /\
    nth 0 (Forecast.dist_count_b D) NaN <>
      Fin (rms_deviation (s_btot ex_now) (s_btot ex_train) 0 4).
Proof.
  assert (Hw : Forecast.window_distance (map Fin [2; 0; 0; 0])
                 (map Fin [0; 0; 0; 0]) 0 3 = Ok (Fin (1 / 2))).
  { rewrite window_distance_finite by (simpl; lia). rewrite ex_root_sum. reflexivity. }
  unfold Forecast.sliding_window. cbn [seq mapM].
  unfold Forecast.sliding_step, now_of, ex_now, ex_series;
    cbn [Forecast.btotn Forecast.bzgsmn Forecast.bygsmn Forecast.bxn
         Forecast.speedn Forecast.denn s_btot s_bz s_by s_bx s_speed s_density].
  destruct ex_omni_holds as (Hb & Hbz & Hby & Hbx & Hv & Hn).
  unfold ex_train, ex_series in *;
    cbn [s_btot s_bz s_by s_bx s_speed s_density] in *.
  replace (0 + 0)%nat with 0%nat by reflexivity.
  rewrite Hb, Hbz, Hby, Hbx, Hv, Hn. cbn [rbind]. rewrite Hw. cbn [rbind].
  eexists; split; [reflexivity|]. cbn. split; [reflexivity|].
  rewrite ex_rms. intro H. injection H. lra.
Qed.

Lemma sliding_window_distance_is_root_sum_over_size_witness :
  exists D : Forecast.distances,
    Forecast.sliding_window ex_omni (now_of ex_now) 0 3 1 = Ok D /\
    nth 0 (Forecast.dist_count_v D) NaN =
      Fin (root_sum_over_size [2; 0; 0; 0] [0; 0; 0; 0] 0 4).
Proof.
  destruct (sliding_window_distance_is_root_sum_over_size ex_omni ex_now ex_train
              0 3 1 ex_omni_holds)
    as (D & HD & Hi).
  - repeat split.
  - repeat split; simpl; lia.
  - exists D. split; [exact HD|].
    destruct (Hi 0%nat ltac:(lia)) as (_ & _ & _ & _ & Hv & _). exact Hv.
Defined.

(* ===================================================================== *)
(** ** NaN in a window (C9) *)
(* ===================================================================== *)

Section NaNs.

Import SatData Forecast.

Lemma fadd_NaN_r (x : npfloat) : fadd x NaN = NaN.
Proof. destruct x; reflexivity. Qed.

Lemma fold_left_fadd_NaN (l : array) : fold_left fadd l NaN = NaN.
Proof. induction l as [|x l IH]; simpl; auto. Qed.

Lemma fold_left_fadd_In_NaN (l : array) (a : npfloat) :
  In NaN l -> fold_left fadd l a = NaN.
Proof.
  revert a; induction l as [|x l IH]; intros a H; simpl in *; [destruct H|].
  destruct H as [H|H].
  - subst x. rewrite fadd_NaN_r. apply fold_left_fadd_NaN.
  - apply IH; exact H.
Qed.

Lemma isnan_true (x : npfloat) : isnan x = true -> x = NaN.
Proof. destruct x; simpl; congruence. Qed.

Lemma fsub_NaN_r (x : npfloat) : fsub x NaN = NaN.
Proof. unfold fsub; simpl. apply fadd_NaN_r. Qed.

(** A NaN on either side of some pair puts a NaN among the squares. *)
Lemma squares_have_NaN (now window : array) (k : nat) :
  List.length now = List.length window ->
  (k < List.length now)%nat ->
  isnan (nth k now (Fin 0)) = true \/ isnan (nth k window (Fin 0)) = true ->
  In NaN (map fsquare (zip_with fsub now window)).
Proof.
  revert window k; induction now as [|x now IH]; intros [|y window] k Hl Hk Hn;
    simpl in *; try lia.
  destruct k as [|k].
  - left. destruct Hn as [Hn|Hn]; apply isnan_true in Hn; subst.
    + reflexivity.
    + rewrite fsub_NaN_r. reflexivity.
  - right. apply (IH window k); auto; lia.
Qed.

(** The distance of a window that pairs up with the now-wind and has a NaN
    on either side of some pair. *)
Lemma window_distance_NaN (now hist : array) (inds deltat k : nat) :
  List.length now = List.length (slice hist inds (inds + deltat + 1)) ->
  (k < List.length now)%nat ->
  isnan (nth k now (Fin 0)) = true \/
  isnan (nth k (slice hist inds (inds + deltat + 1)) (Fin 0)) = true ->
  window_distance now hist inds deltat = Ok NaN.
Proof.
  intros Hl Hk Hn. unfold window_distance, broadcast2.
  rewrite Hl, Nat.eqb_refl. cbn [rbind]. unfold np_sum.
  rewrite fold_left_fadd_In_NaN by (eapply squares_have_NaN; eauto).
  reflexivity.
Qed.

(** Order facts on values that are not NaN. *)
Lemma fle_refl (x : npfloat) : isnan x = false -> fle x x = true.
Proof.
  destruct x; simpl; try congruence; auto.
  intros _. destruct (Rle_dec r r); [reflexivity|lra].
Qed.

Lemma fle_trans (x y z : npfloat) :
  fle x y = true -> fle y z = true -> fle x z = true.
Proof.
  destruct x, y, z; simpl; try congruence; auto;
    repeat match goal with
           | |- context [Rle_dec ?a ?b] => destruct (Rle_dec a b)
           end; try congruence; try lra.
Qed.

Lemma fmin_spec (a b : npfloat) :
  isnan a = false -> isnan b = false ->
  (fmin a b = a \/ fmin a b = b) /\
  fle (fmin a b) a = true /\ fle (fmin a b) b = true.
Proof.
  intros Ha Hb. unfold fmin. rewrite Ha, Hb.
  destruct a, b; simpl in *; try congruence; auto;
    repeat match goal with
           | |- context [Rlt_dec ?a ?b] => destruct (Rlt_dec a b)
           | |- context [Rle_dec ?a ?b] => destruct (Rle_dec a b)
           end; simpl; auto; try (exfalso; lra);
    repeat split; auto;
    repeat match goal with
           | |- context [Rle_dec ?a ?b] => destruct (Rle_dec a b)
           end; auto; try (exfalso; lra).
Qed.

Lemma fold_fmin_spec (xs : array) (x : npfloat) :
  isnan x = false -> Forall (fun y => isnan y = false) xs ->
  let m := fold_left fmin xs x in
  isnan m = false /\ In m (x :: xs) /\
  forall y, In y (x :: xs) -> fle m y = true.
Proof.
  revert x; induction xs as [|a xs IH]; intros x Hx Hall; simpl.
  - repeat split; auto. intros y [<-|[]]. apply fle_refl; exact Hx.
  - inversion Hall as [|? ? Ha Hxs]; subst.
    destruct (fmin_spec x a Hx Ha) as (Hor & Hlx & Hla).
    assert (Hm : isnan (fmin x a) = false) by (destruct Hor as [->| ->]; auto).
    destruct (IH (fmin x a) Hm Hxs) as (Hn & Hin & Hle). simpl in *.
    repeat split; auto.
    + destruct Hin as [Hin|Hin]; auto.
      rewrite <- Hin. destruct Hor as [Hor|Hor]; rewrite Hor; auto.
    + intros y [<-|[<-|Hy]].
      * eapply fle_trans; [apply Hle; left; reflexivity|exact Hlx].
      * eapply fle_trans; [apply Hle; left; reflexivity|exact Hla].
      * apply Hle; right; exact Hy.
Qed.

(** [np.nanmin] returns the least of the distances that are not NaN. *)
Lemma np_nanmin_spec (dist : array) (x : npfloat) :
  In x dist -> isnan x = false ->
  exists m, np_nanmin dist = Ok m /\ isnan m = false /\ In m dist /\
            forall y, In y dist -> isnan y = false -> fle m y = true.
Proof.
  intros Hin Hx. unfold np_nanmin.
  destruct dist as [|d0 dist']; [destruct Hin|].
  set (dist := d0 :: dist') in *.
  assert (Hf : In x (filter (fun x => negb (isnan x)) dist)).
  { apply filter_In; split; auto. rewrite Hx; reflexivity. }
  destruct (filter (fun x => negb (isnan x)) dist) as [|a xs] eqn:Ef; [destruct Hf|].
  assert (Hall : Forall (fun y => isnan y = false) (a :: xs)).
  { apply Forall_forall. intros y Hy. rewrite <- Ef in Hy.
    apply filter_In in Hy as [_ Hy]. apply negb_true_iff in Hy. exact Hy. }
  inversion Hall as [|? ? Ha Hxs]; subst.
  destruct (fold_fmin_spec xs a Ha Hxs) as (Hn & Hm & Hle).
  eexists; split; [reflexivity|]. repeat split; auto.
  - rewrite <- Ef in Hm. apply filter_In in Hm as [Hm _]. exact Hm.
  - intros y Hy Hny. apply Hle. rewrite <- Ef. apply filter_In; split; auto.
    rewrite Hny; reflexivity.
Qed.

(** C9, as the code has it.  No sample is left out of the distance: a
    window that pairs up with the now-wind and has a NaN on either side of
    some pair gets the distance NaN (square, sum, root and the division by
    the nominal now-wind size all pass it on).  The minimum distance that
    the script reports with [np.nanmin] is the least distance that is not
    NaN, whenever there is one. *)
Theorem nan_window_distance_is_nan_and_nanmin_skips_it :
  (forall (now hist : array) (inds deltat k : nat),
      List.length now = List.length (slice hist inds (inds + deltat + 1)) ->
      (k < List.length now)%nat ->
      isnan (nth k now (Fin 0)) = true \/
      isnan (nth k (slice hist inds (inds + deltat + 1)) (Fin 0)) = true ->
      window_distance now hist inds deltat = Ok NaN) /\
  (forall (dist : array) (x : npfloat),
      In x dist -> isnan x = false ->
      exists m, np_nanmin dist = Ok m /\ isnan m = false /\ In m dist /\
                forall y, In y dist -> isnan y = false -> fle m y = true).
Proof.
  split.
  - intros; eapply window_distance_NaN; eauto.
  - intros; eapply np_nanmin_spec; eauto.
Qed.

End NaNs.

Section NaNExamples.

Import SatData Forecast.

Lemma ex_zero_distance :
  window_distance ex_zero2 ex_zero2 0 1 =
  Ok (Fin (root_sum_over_size [0; 0] [0; 0] 0 2)).
Proof.
  change ex_zero2 with (map Fin [0; 0]).
  apply window_distance_finite; simpl; lia.
Qed.

Lemma ex_gap_distance :
  window_distance [Fin 400; Fin 400] [NaN; Fin 400] 0 1 = Ok NaN.
Proof.
  apply (window_distance_NaN _ _ 0 1 0); simpl; auto.
Qed.

Lemma ex_gap_excluded :
  nan_excluded_distance [Fin 400; Fin 400] [NaN; Fin 400] = Fin 0.
Proof.
  unfold nan_excluded_distance. cbn [combine filter isnan fst snd negb andb map
                                     List.length].
  unfold np_sum, fsquare, fsub. cbn [fold_left fneg fadd fmul].
  match goal with
  | |- context [fsqrt (Fin ?e)] => replace e with 0 by lra
  end.
  rewrite fsqrt_Fin_nonneg by lra. rewrite sqrt_0.
  unfold of_nat. rewrite fdiv_Fin_nonzero by (simpl; lra).
  f_equal. simpl. lra.
Qed.

End NaNExamples.

(** C9, as stated, fails.  The first training speed is NaN; the window
    that contains it gets the distance NaN, where leaving the pair out and
    dividing by the one pair that remains would give 0. *)
Lemma nan_window_sample_is_not_excluded :
  exists D : Forecast.distances,
    Forecast.sliding_window ex_omni_gap ex_now_gap 0 1 1 = Ok D /\
    Forecast.dist_count_v D = [NaN] /\
    nan_excluded_distance [Fin 400; Fin 400] [NaN; Fin 400] = Fin 0.
Proof.
  unfold Forecast.sliding_window. cbn [seq mapM].
  unfold Forecast.sliding_step, ex_now_gap;
    cbn [Forecast.btotn Forecast.bzgsmn Forecast.bygsmn Forecast.bxn
         Forecast.speedn Forecast.denn].
  replace (0 + 0)%nat with 0%nat by reflexivity.
  change (SatData.__getitem__ ex_omni_gap "btot") with (Ok ex_zero2).
  change (SatData.__getitem__ ex_omni_gap "bz") with (Ok ex_zero2).
  change (SatData.__getitem__ ex_omni_gap "by") with (Ok ex_zero2).
  change (SatData.__getitem__ ex_omni_gap "bx") with (Ok ex_zero2).
  change (SatData.__getitem__ ex_omni_gap "density") with (Ok ex_zero2).
  change (SatData.__getitem__ ex_omni_gap "speed") with (Ok [NaN; Fin 400]).
  cbn [rbind]. rewrite ex_zero_distance, ex_gap_distance. cbn [rbind].
  eexists; split; [reflexivity|]. split; [reflexivity|]. apply ex_gap_excluded.
Qed.

Lemma nan_window_distance_is_nan_and_nanmin_skips_it_witness :
  Forecast.window_distance [Fin 400; Fin 400] [NaN; Fin 400] 0 1 = Ok NaN /\
  exists m, Forecast.np_nanmin [NaN; Fin 1] = Ok m /\ isnan m = false.
Proof.
  split.
  - apply (proj1 nan_window_distance_is_nan_and_nanmin_skips_it
             [Fin 400; Fin 400] [NaN; Fin 400] 0%nat 1%nat 0%nat).
    + reflexivity.
    + simpl; lia.
    + right; reflexivity.
  - destruct (proj2 nan_window_distance_is_nan_and_nanmin_skips_it
                [NaN; Fin 1] (Fin 1)) as (m & Hm & Hn & _).
    + right; left; reflexivity.
    + reflexivity.
    + exists m. split; assumption.
Defined.

(* ===================================================================== *)
(** ** The quadrant rule for theta (C3) *)
(* ===================================================================== *)

Section ThetaRule.

Import Convert.

Lemma sin_period_Z (x : R) (k : Z) : sin (x + 2 * IZR k * PI) = sin x.
Proof.
  destruct (Z_le_gt_dec 0 k) as [Hk|Hk].
  - rewrite <- (Z2Nat.id k Hk), <- INR_IZR_INZ. apply sin_period.
  - rewrite <- (sin_period (x + 2 * IZR k * PI) (Z.to_nat (- k))).
    f_equal. rewrite INR_IZR_INZ, Z2Nat.id by lia. rewrite opp_IZR. ring.
Qed.

Lemma cos_period_Z (x : R) (k : Z) : cos (x + 2 * IZR k * PI) = cos x.
Proof.
  destruct (Z_le_gt_dec 0 k) as [Hk|Hk].
  - rewrite <- (Z2Nat.id k Hk), <- INR_IZR_INZ. apply cos_period.
  - rewrite <- (cos_period (x + 2 * IZR k * PI) (Z.to_nat (- k))).
    f_equal. rewrite INR_IZR_INZ, Z2Nat.id by lia. rewrite opp_IZR. ring.
Qed.

Lemma tan_period_Z (x : R) (k : Z) : tan (x + 2 * IZR k * PI) = tan x.
Proof. unfold tan. rewrite sin_period_Z, cos_period_Z. reflexivity. Qed.

Lemma tan_plus_PI (x : R) : tan (x + PI) = tan x.
Proof.
  unfold tan. rewrite neg_sin, neg_cos.
  unfold Rdiv. rewrite Rinv_opp. ring.
Qed.

Lemma np_mod_bound (x y : R) : 0 < y -> 0 <= np_mod x y < y.
Proof.
  intro Hy. unfold np_mod.
  pose proof (Zfloor_bound (x / y)) as [H1 H2].
  assert (Hx : x = x / y * y) by (field; lra).
  split.
  - apply Rmult_le_compat_r with (r := y) in H1; lra.
  - apply Rmult_lt_compat_r with (r := y) in H2; lra.
Qed.

Lemma np_mod_small (x y : R) : 0 <= x < y -> np_mod x y = x.
Proof.
  intros [H0 H1]. unfold np_mod.
  rewrite (Zfloor_eq 0); [simpl; ring|].
  assert (Hy : 0 < y) by lra.
  split; simpl.
  - apply Rmult_le_reg_r with y; [lra|]. unfold Rdiv. rewrite Rmult_assoc, Rinv_l; lra.
  - apply Rmult_lt_reg_r with y; [lra|]. unfold Rdiv. rewrite Rmult_assoc, Rinv_l; lra.
Qed.

Lemma np_mod_negative (x y : R) : - y <= x < 0 -> np_mod x y = x + y.
Proof.
  intros [H0 H1]. unfold np_mod.
  rewrite (Zfloor_eq (-1)); [simpl; ring|].
  assert (Hy : 0 < y) by lra.
  split; simpl.
  - apply Rmult_le_reg_r with y; [lra|]. unfold Rdiv. rewrite Rmult_assoc, Rinv_l; lra.
  - apply Rmult_lt_reg_r with y; [lra|]. unfold Rdiv. rewrite Rmult_assoc, Rinv_l; lra.
Qed.

Lemma sector_of_between (w a : R) (q : Z) :
  0 < w -> 0 <= a < 360 -> IZR q * w <= a < (IZR q + 1) * w ->
  sector_of w a = q.
Proof.
  intros Hw Ha [H1 H2]. unfold sector_of, direction_deg.
  rewrite np_mod_small by lra.
  apply Zfloor_eq. split.
  - apply Rmult_le_reg_r with w; [lra|]. unfold Rdiv. rewrite Rmult_assoc, Rinv_l; lra.
  - apply Rmult_lt_reg_r with w; [lra|]. unfold Rdiv. rewrite Rmult_assoc, Rinv_l; lra.
Qed.

Lemma cos_inclination_bounds : 0 < cos inclination_ecl < 1.
Proof.
  pose proof PI_RGT_0 as Hpi. pose proof PI_4 as H4.
  assert (Hi : 0 < inclination_ecl < PI / 2) by (unfold inclination_ecl; lra).
  split.
  - apply cos_gt_0; lra.
  - assert (Hs : 0 < sin inclination_ecl) by (apply sin_gt_0; lra).
    assert (Hc : 0 < cos inclination_ecl) by (apply cos_gt_0; lra).
    pose proof (sin2_cos2 inclination_ecl) as H. unfold Rsqr in H. nra.
Qed.


Lemma atan_scaled_tan (c y : R) :
  0 < c < 1 -> - (PI / 2) < y < PI / 2 ->
  (0 <= y -> 0 <= atan (c * tan y) <= y) /\
  (y < 0 -> y < atan (c * tan y) < 0).
Proof.
  intros [Hc0 Hc1] Hy.
  pose proof (atan_tan y Hy) as Hat.
  split; intro H.
  - destruct (Req_dec y 0) as [->|Hne].
    + rewrite tan_0, Rmult_0_r, atan_0. lra.
    + assert (Ht : 0 < tan y) by (apply tan_gt_0; lra).
      assert (H1 : atan 0 < atan (c * tan y)) by (apply atan_increasing; nra).
      assert (H2 : atan (c * tan y) < atan (tan y)) by (apply atan_increasing; nra).
      rewrite atan_0 in H1. lra.
  - assert (Ht : tan y < 0) by (apply tan_lt_0; lra).
    assert (H1 : atan (c * tan y) < atan 0) by (apply atan_increasing; nra).
    assert (H2 : atan (tan y) < atan (c * tan y)) by (apply atan_increasing; nra).
    rewrite atan_0 in H1. lra.
Qed.

(** The angle that the code compares with theta is the direction of
    [lt2 - omega_node], and theta has the tangent of that direction scaled
    by the cosine of the inclination. *)
Lemma theta_node_of_direction (lt2 omega_node : R) :
  let x := np_mod (lt2 - omega_node) (2 * PI) in
  0 <= x < 2 * PI /\
  lambda_omega_deg_of lt2 omega_node = x * 180 / PI /\
  theta_node_of lt2 omega_node = atan (cos inclination_ecl * tan x).
Proof.
  intro x. pose proof PI_RGT_0 as Hpi.
  split; [apply np_mod_bound; lra|]. split; [reflexivity|].
  unfold theta_node_of. do 2 f_equal.
  replace (lt2 - omega_node)
    with (x + 2 * IZR (Zfloor ((lt2 - omega_node) / (2 * PI))) * PI)
    by (unfold x, np_mod; ring).
  apply tan_period_Z.
Qed.

(** Theta against the direction of the node-corrected longitude, quadrant
    by quadrant (radians). *)
Lemma theta_by_quadrant (x : R) :
  let theta := atan (cos inclination_ecl * tan x) in
  (0 <= x < PI / 2 -> 0 <= theta <= x) /\
  (PI / 2 < x < PI -> x - PI < theta < 0) /\
  (PI <= x < 3 * PI / 2 -> 0 <= theta <= x - PI) /\
  (3 * PI / 2 < x < 2 * PI -> x - 2 * PI < theta < 0).
Proof.
  intro theta. pose proof PI_RGT_0 as Hpi.
  pose proof cos_inclination_bounds as Hc.
  assert (Hpi1 : tan x = tan (x - PI)).
  { rewrite <- (tan_plus_PI (x - PI)). f_equal. ring. }
  assert (Hpi2 : tan x = tan (x - 2 * PI)).
  { rewrite <- (tan_period_Z (x - 2 * PI) 1). f_equal. ring. }
  split; [|split; [|split]]; intro H.
  - apply (atan_scaled_tan _ x Hc); lra.
  - unfold theta. rewrite Hpi1. apply (atan_scaled_tan _ (x - PI) Hc); lra.
  - unfold theta. rewrite Hpi1. apply (atan_scaled_tan _ (x - PI) Hc); lra.
  - unfold theta. rewrite Hpi2. apply (atan_scaled_tan _ (x - 2 * PI) Hc); lra.
Qed.

Lemma sector_of_negative (w t : R) (q : Z) :
  0 < w -> -360 <= t < 0 -> IZR q * w <= t + 360 < (IZR q + 1) * w ->
  sector_of w t = q.
Proof.
  intros Hw Ht [H1 H2]. unfold sector_of, direction_deg.
  rewrite np_mod_negative by lra.
  apply Zfloor_eq. split.
  - apply Rmult_le_reg_r with w; [lra|]. unfold Rdiv. rewrite Rmult_assoc, Rinv_l; lra.
  - apply Rmult_lt_reg_r with w; [lra|]. unfold Rdiv. rewrite Rmult_assoc, Rinv_l; lra.
Qed.

(** C3.  What the quadrant test of the HEEQ-to-HEE step does, for every
    time stamp.  The node-corrected longitude is taken mod 360 degrees,
    but theta comes from the arc tangent and lies between -90 and 90
    degrees; the test [abs(lambda_omega_deg - theta_node_deg) < 180]
    compares the two numbers without reducing theta to a direction.  With
    the longitude in the first or third quadrant the outcome agrees with
    the rule (same sector, 180 degrees added; opposite sectors, nothing
    added).  With the longitude in the fourth quadrant theta points into
    the fourth quadrant as well, yet nothing is added; with the longitude
    in the second quadrant theta points into the fourth, the opposite one,
    yet 180 degrees are added.  The rotation matrix S2_theta is built from
    the angle that the test leaves.  Sectors are taken 90 degrees wide
    (quadrants) and 180 degrees wide (half-circles) alike. *)
Theorem theta_quadrant_test_compares_unreduced_angles :
  forall lt2 omega_node : R,
    let a := lambda_omega_deg_of lt2 omega_node in
    let theta := theta_node_of lt2 omega_node in
    let t := theta_node_deg_of theta in
    let added := theta_node_corrected lt2 omega_node = theta + PI /\
                 S2_theta_of lt2 omega_node = rot_z (- (theta + PI)) in
    let kept := theta_node_corrected lt2 omega_node = theta /\
                S2_theta_of lt2 omega_node = rot_z (- theta) in
    (0 <= a < 360 /\ -90 < t < 90) /\
    (0 <= a < 90 ->
     0 <= t < 90 /\ same_sector 90 a t /\ same_sector 180 a t /\ added) /\
    (90 < a < 180 ->
     -90 < t < 0 /\ ~ same_sector 90 a t /\ ~ same_sector 180 a t /\ added) /\
    (180 <= a < 270 ->
     0 <= t < 90 /\ ~ same_sector 90 a t /\ ~ same_sector 180 a t /\ kept) /\
    (270 < a ->
     -90 < t < 0 /\ same_sector 90 a t /\ same_sector 180 a t /\ kept).
Proof.
  intros lt2 omega_node a theta t added kept.
  pose proof PI_RGT_0 as Hpi.
  destruct (theta_node_of_direction lt2 omega_node) as (Hx & Ha & Hth).
  set (x := np_mod (lt2 - omega_node) (2 * PI)) in *.
  fold a in Ha. fold theta in Hth.
  destruct (theta_by_quadrant x) as (Q1 & Q2 & Q3 & Q4).
  rewrite <- Hth in Q1, Q2, Q3, Q4.
  set (k := PI / 180).
  assert (Hk : 0 < k) by (unfold k; lra).
  assert (HPI : PI = 180 * k) by (unfold k; field).
  assert (Hxa : x = a * k) by (rewrite Ha; unfold k; field; lra).
  assert (Htt : theta = t * k)
    by (unfold t, theta_node_deg_of, k; field; lra).
  pose proof (atan_bound (cos inclination_ecl * tan (lt2 - omega_node))) as Hb.
  fold (theta_node_of lt2 omega_node) in Hb. fold theta in Hb.
  assert (Hdec : (Rabs (a - t) < 180 -> added) /\ (~ Rabs (a - t) < 180 -> kept)).
  { unfold added, kept, S2_theta_of, theta_node_corrected.
    fold theta. fold t. fold a.
    destruct (Rlt_dec (Rabs (a - t)) 180); split; intro;
      try contradiction; split; reflexivity. }
  destruct Hdec as [Hadd Hkeep].
  clearbody x theta a t k. clear Ha Hth.
  rewrite HPI in *. subst x theta.
  assert (Ha360 : 0 <= a < 360) by (split; nra).
  assert (Ht90 : -90 < t < 90) by (split; nra).
  split; [split; assumption|].
  split; [|split; [|split]]; intro Hq.
  - assert (Hq' : 0 <= t * k <= a * k) by (apply Q1; split; nra).
    assert (Ht : 0 <= t <= a) by (split; nra).
    split; [lra|]. split; [|split].
    + unfold same_sector.
      rewrite (sector_of_between 90 a 0), (sector_of_between 90 t 0);
        simpl; auto; lra.
    + unfold same_sector.
      rewrite (sector_of_between 180 a 0), (sector_of_between 180 t 0);
        simpl; auto; lra.
    + apply Hadd. unfold Rabs. destruct (Rcase_abs (a - t)); lra.
  - assert (Hq' : a * k - 180 * k < t * k < 0) by (apply Q2; split; nra).
    assert (Ht : a - 180 < t < 0) by (split; nra).
    split; [lra|]. split; [|split].
    + unfold same_sector.
      rewrite (sector_of_between 90 a 1), (sector_of_negative 90 t 3);
        simpl; try lra. discriminate.
    + unfold same_sector.
      rewrite (sector_of_between 180 a 0), (sector_of_negative 180 t 1);
        simpl; try lra. discriminate.
    + apply Hadd. unfold Rabs. destruct (Rcase_abs (a - t)); lra.
  - assert (Hq' : 0 <= t * k <= a * k - 180 * k) by (apply Q3; split; nra).
    assert (Ht : 0 <= t <= a - 180) by (split; nra).
    split; [lra|]. split; [|split].
    + unfold same_sector.
      rewrite (sector_of_between 90 a 2), (sector_of_between 90 t 0);
        simpl; try lra. discriminate.
    + unfold same_sector.
      rewrite (sector_of_between 180 a 1), (sector_of_between 180 t 0);
        simpl; try lra. discriminate.
    + apply Hkeep. unfold Rabs. destruct (Rcase_abs (a - t)); lra.
  - assert (Hq' : a * k - 2 * (180 * k) < t * k < 0) by (apply Q4; split; nra).
    assert (Ht : a - 360 < t < 0) by (split; nra).
    split; [lra|]. split; [|split].
    + unfold same_sector.
      rewrite (sector_of_between 90 a 3), (sector_of_negative 90 t 3);
        simpl; auto; lra.
    + unfold same_sector.
      rewrite (sector_of_between 180 a 1), (sector_of_negative 180 t 1);
        simpl; auto; lra.
    + apply Hkeep. unfold Rabs. destruct (Rcase_abs (a - t)); lra.
Qed.

End ThetaRule.

Section ThetaRuleExample.

Import Convert.

(** Midnight of 7 April 2000 (matplotlib date number 730217, modified
    Julian date 51641): the node-corrected longitude is near 300 degrees. *)
Lemma ex_spring_mjd : mjd_of (julian_date ex_E 730217) = 51641.
Proof.
  unfold mjd_of, py_int. cbn [julian_date ex_E].
  replace (730217 + 1721424.5 - 2400000.5) with (IZR 51641) by lra.
  destruct (Rle_dec 0 (IZR 51641)) as [_|H]; [|exfalso; apply H; lra].
  rewrite ZfloorZ. reflexivity.
Qed.

Lemma ex_spring_longitude :
  297 < lambda_omega_deg_of (lt2_of (T00_of 51641) 0) (omega_node_of 51641) < 302.
Proof.
  pose proof PI_RGT_0 as Hpi.
  unfold lambda_omega_deg_of, lt2_of, omega_node_of, T00_of, LAMBDA_of, M_of.
  set (s1 := sin _). set (s2 := sin _).
  assert (H1 : -1 <= s1 <= 1) by apply SIN_bound.
  assert (H2 : -1 <= s2 <= 1) by apply SIN_bound.
  set (D := 280.460 + 36000.772 * ((51641 - 51544.5) / 36525.0) + 0.04107 * 0
            + (1.915 - 0.0048 * ((51641 - 51544.5) / 36525.0)) * s1
            + 0.020 * s2
            - (73.6667 + 0.013958 * ((51641 + 3242) / 365.25))).
  assert (HD : 297 < D < 302) by (unfold D; split; lra).
  match goal with
  | |- _ < np_mod ?x _ * 180 / PI < _ =>
      replace x with (D * (PI / 180)) by (unfold D; field; lra)
  end.
  rewrite np_mod_small.
  - replace (D * (PI / 180) * 180 / PI) with D by (field; lra). exact HD.
  - split; nra.
Qed.

Lemma np_mod_between (x y : R) (q : Z) :
  0 < y -> IZR q * y <= x < (IZR q + 1) * y -> np_mod x y = x - IZR q * y.
Proof.
  intros Hy [H0 H1]. unfold np_mod.
  rewrite (Zfloor_eq q); [reflexivity|].
  split.
  - apply Rmult_le_reg_r with y; [lra|]. unfold Rdiv. rewrite Rmult_assoc, Rinv_l; lra.
  - apply Rmult_lt_reg_r with y; [lra|]. unfold Rdiv. rewrite Rmult_assoc, Rinv_l; lra.
Qed.

(** Midnight of 22 October 2000 (matplotlib date number 730415, modified
    Julian date 51839): the node-corrected longitude is near 135 degrees. *)
Lemma ex_autumn_mjd : mjd_of (julian_date ex_E 730415) = 51839.
Proof.
  unfold mjd_of, py_int. cbn [julian_date ex_E].
  replace (730415 + 1721424.5 - 2400000.5) with (IZR 51839) by lra.
  destruct (Rle_dec 0 (IZR 51839)) as [_|H]; [|exfalso; apply H; lra].
  rewrite ZfloorZ. reflexivity.
Qed.

Lemma ex_autumn_longitude :
  133 < lambda_omega_deg_of (lt2_of (T00_of 51839) 0) (omega_node_of 51839) < 137.
Proof.
  pose proof PI_RGT_0 as Hpi.
  unfold lambda_omega_deg_of, lt2_of, omega_node_of, T00_of, LAMBDA_of, M_of.
  set (s1 := sin _). set (s2 := sin _).
  assert (H1 : -1 <= s1 <= 1) by apply SIN_bound.
  assert (H2 : -1 <= s2 <= 1) by apply SIN_bound.
  set (D := 280.460 + 36000.772 * ((51839 - 51544.5) / 36525.0) + 0.04107 * 0
            + (1.915 - 0.0048 * ((51839 - 51544.5) / 36525.0)) * s1
            + 0.020 * s2
            - (73.6667 + 0.013958 * ((51839 + 3242) / 365.25))).
  assert (HD : 493 < D < 497) by (unfold D; split; lra).
  match goal with
  | |- _ < np_mod ?x _ * 180 / PI < _ =>
      replace x with (D * (PI / 180)) by (unfold D; field; lra)
  end.
  rewrite (np_mod_between _ _ 1) by (try split; simpl; nra).
  replace ((D * (PI / 180) - 1 * (2 * PI)) * 180 / PI) with (D - 360) by (field; lra).
  lra.
Qed.

End ThetaRuleExample.

Lemma theta_quadrant_test_compares_unreduced_angles_witness :
  (let mjd := Convert.mjd_of (julian_date ex_E 730217) in
   let lt2 := Convert.lt2_of (Convert.T00_of mjd) (ut_hours ex_E 730217) in
   let omega_node := Convert.omega_node_of mjd in
   let a := Convert.lambda_omega_deg_of lt2 omega_node in
   let theta := Convert.theta_node_of lt2 omega_node in
   let t := Convert.theta_node_deg_of theta in
   297 < a < 302 /\ -90 < t < 0 /\
   same_sector 90 a t /\ same_sector 180 a t /\
   Convert.theta_node_corrected lt2 omega_node = theta /\
   Convert.S2_theta_of lt2 omega_node = rot_z (- theta)) /\
  (let mjd := Convert.mjd_of (julian_date ex_E 730415) in
   let lt2 := Convert.lt2_of (Convert.T00_of mjd) (ut_hours ex_E 730415) in
   let omega_node := Convert.omega_node_of mjd in
   let a := Convert.lambda_omega_deg_of lt2 omega_node in
   let theta := Convert.theta_node_of lt2 omega_node in
   let t := Convert.theta_node_deg_of theta in
   133 < a < 137 /\ -90 < t < 0 /\
   ~ same_sector 90 a t /\ ~ same_sector 180 a t /\
   Convert.theta_node_corrected lt2 omega_node = theta + PI /\
   Convert.S2_theta_of lt2 omega_node = rot_z (- (theta + PI))).
Proof.
  split.
  - intros mjd lt2 omega_node a theta t.
    assert (Ha : 297 < a < 302).
    { unfold a, lt2, omega_node, mjd. rewrite ex_spring_mjd.
      exact ex_spring_longitude. }
    split; [exact Ha|].
    apply (theta_quadrant_test_compares_unreduced_angles lt2 omega_node).
    fold a. lra.
  - intros mjd lt2 omega_node a theta t.
    assert (Ha : 133 < a < 137).
    { unfold a, lt2, omega_node, mjd. rewrite ex_autumn_mjd.
      exact ex_autumn_longitude. }
    split; [exact Ha|].
    apply (theta_quadrant_test_compares_unreduced_angles lt2 omega_node).
    fold a. lra.
Defined.

(* ===================================================================== *)
(** ** The radial correction (C7) *)
(* ===================================================================== *)

Section RadialCorrection.

Import SatData Convert L1.

Lemma mapM_num2date_Fin (ts : list R) : mapM num2date (map Fin ts) = Ok ts.
Proof.
  induction ts as [|t ts IH]; simpl; [reflexivity|]. rewrite IH. reflexivity.
Qed.

Lemma index_of_inj (a b : string) (l : list string) :
  mem a l = true -> index_of a l = index_of b l -> a = b.
Proof.
  induction l as [|x l IH]; simpl; [discriminate|].
  destruct (String.eqb a x) eqn:Ea; destruct (String.eqb b x) eqn:Eb; simpl;
    intros Hm Hi; try discriminate.
  - apply String.eqb_eq in Ea, Eb. congruence.
  - apply IH; auto.
Qed.

Lemma index_of_lt_mem (k : string) (l : list string) :
  (index_of k l < List.length l)%nat -> mem k l = true.
Proof.
  induction l as [|x l IH]; simpl; [lia|].
  destruct (String.eqb k x); simpl; auto. intro H. apply IH. lia.
Qed.

Lemma zip_with_length (f : npfloat -> npfloat -> npfloat) (a b : array) :
  List.length a = List.length b -> List.length (zip_with f a b) = List.length a.
Proof.
  revert b; induction a as [|x a IH]; intros [|y b] H; simpl in *; try lia.
  rewrite IH; lia.
Qed.

Lemma broadcast2_same_length (f : npfloat -> npfloat -> npfloat) (a b : array) :
  List.length a = List.length b -> broadcast2 f a b = Ok (zip_with f a b).
Proof. unfold broadcast2. intros ->. rewrite Nat.eqb_refl. reflexivity. Qed.

(** The loop of [shift_wind_to_L1] over variables that are all active. *)
Lemma shift_loop (corr : array) (l : list string) :
  forall (d : SatData.t) (lg : list log_record),
    wf d ->
    List.length corr = __len__ d ->
    NoDup l ->
    (forall v, In v l -> mem v (vars d) = true /\ mem v default_keys = true) ->
    exists d',
      for_each l (fun var =>
        cur <- get_self ;;
        x <- lift (__getitem__ cur var) ;;
        y <- lift (broadcast2 fmul x corr) ;;
        __setitem__ var y) (mkWorld d lg) = (Ok tt, mkWorld d' lg) /\
      wf d' /\ vars d' = vars d /\ __len__ d' = __len__ d /\
      h d' = h d /\ pos d' = pos d /\
      forall var row,
        mem var default_keys = true ->
        nth_error (data d) (index_of var default_keys) = Some row ->
        nth_error (data d') (index_of var default_keys) =
        Some (if mem var l then zip_with fmul row corr else row).
Proof.
  induction l as [|v l IH]; intros d lg Hwf Hc Hnd Hin.
  - exists d. simpl. repeat split; auto; apply Hwf.
  - destruct (Hin v (or_introl eq_refl)) as [Hv Hk].
    destruct (getitem_var d v Hwf Hv Hk) as (rowv & Hget & Hrow & Hlen).
    assert (Hzl : List.length (zip_with fmul rowv corr) = __len__ d).
    { rewrite zip_with_length; congruence. }
    destruct (store_row_wf d (index_of v default_keys) _ Hwf
                (index_of_default_keys_lt v Hk) Hzl)
      as (d1 & Hst & Hdata & Hvars & Hh & Hpos & _ & _ & Hlen1 & Hwf1).
    inversion Hnd as [|? ? Hnotin Hnd']; subst.
    destruct (IH d1 lg Hwf1 ltac:(congruence) Hnd') as
        (d' & Hrun & Hwf' & Hvars' & Hlen' & Hh' & Hpos' & Hrows).
    { intros u Hu. rewrite Hvars. apply Hin. right; exact Hu. }
    exists d'. split; [|repeat split; try congruence; try apply Hwf'].
    + cbn [for_each]. unfold bind at 1. unfold bind at 1. unfold get_self at 1.
      cbn [self]. unfold bind at 1. unfold lift at 1. rewrite Hget.
      unfold bind at 1. unfold lift at 1.
      rewrite broadcast2_same_length by congruence.
      unfold __setitem__, bind, get_self, lift, put_self. cbn [self logged].
      rewrite Hv, Hst. exact Hrun.
    + intros var row Hvk Hr.
      destruct (String.eqb var v) eqn:Evar.
      * apply String.eqb_eq in Evar. subst var.
        cbn [mem existsb]. rewrite String.eqb_refl. cbn [orb].
        assert (Hm : mem v l = false).
        { destruct (mem v l) eqn:Em; auto. exfalso. apply Hnotin.
          unfold mem in Em. apply existsb_exists in Em as (u & Hu & Eu).
          apply String.eqb_eq in Eu. subst; auto. }
        rewrite (Hrows v (zip_with fmul rowv corr) Hk).
        -- rewrite Hm. congruence.
        -- rewrite Hdata. apply set_nth_nth_error_same.
           destruct Hwf as [H18 _]. rewrite H18. apply index_of_default_keys_lt; auto.
      * cbn [mem existsb]. rewrite Evar. cbn [orb]. fold (mem var l).
        apply Hrows; auto. rewrite Hdata, set_nth_nth_error_other; auto.
        intro Heq. apply index_of_inj in Heq; auto. subst.
        rewrite String.eqb_refl in Evar. discriminate.
Qed.

End RadialCorrection.

Section RadialCorrectionMain.

Import SatData Convert L1.

Lemma dates_of_finite (d : SatData.t) (times : list R) :
  __getitem__ d "time" = Ok (map Fin times) -> dates_of d = Ok times.
Proof.
  intro H. unfold dates_of. rewrite H. cbn [rbind]. apply mapM_num2date_Fin.
Qed.

Lemma py_div_nonzero (a b : R) : b <> 0 -> py_div a b = Ok (a / b).
Proof. intro H. unfold py_div. destruct (Req_dec_T b 0); [contradiction|reflexivity]. Qed.

(** The L1 position object for a container with position data attached. *)
Lemma l1_position_for_ok (E : externals) (d : SatData.t) (p : PositionData.t)
      (times : list R) (units refframe : string)
      (traj : list (npfloat * npfloat * npfloat)) :
  pos d = Some p ->
  h_str "Units" (PositionData.h p) = Ok units ->
  h_str "ReferenceFrame" (PositionData.h p) = Ok refframe ->
  trajectory E "EARTH" times refframe units "SUN" = Ok traj ->
  AU E <> 0 ->
  exists L1Pos,
    l1_position_for E d times = Ok L1Pos /\
    PositionData.__getitem__ L1Pos "r" =
    Ok (map (fun x => fsub x (Fin (dist_to_L1 E / AU E))) (map fst3 traj)).
Proof.
  intros Hp Hu Hr Ht Hau.
  unfold l1_position_for, pos_attr. rewrite Hp. cbn [rbind].
  rewrite Hu. cbn [rbind]. rewrite Hr. cbn [rbind].
  unfold get_l1_position. rewrite Ht. cbn [rbind].
  rewrite py_div_nonzero by exact Hau. cbn [rbind].
  unfold PositionData.__init__.
  replace (negb (mem (lower "rlonlat") ["xyz"%string; "rlonlat"%string]))
    with false by reflexivity.
  unfold np_asarray2. cbn [forallb].
  rewrite !length_map, !Nat.eqb_refl. cbn [andb rbind].
  eexists; split; [reflexivity|]. reflexivity.
Qed.

End RadialCorrectionMain.

Section RadialExample.

Import SatData.

Lemma ex_monitor_wf : wf ex_monitor.
Proof.
  split; [reflexivity|].
  intros r Hr. simpl in Hr.
  repeat (destruct Hr as [<-|Hr]; [reflexivity|]). destruct Hr.
Qed.

Lemma ex_l1_nonzero : ex_l1 <> 0.
Proof. unfold ex_l1; simpl. lra. Qed.

Lemma ex_AU_nonzero : AU ex_E <> 0.
Proof. simpl. lra. Qed.

End RadialExample.

(* ===================================================================== *)
(** ** L1 corrections without position data (C6) *)
(* ===================================================================== *)

Section PositionsOnDemand.

Import SatData Convert L1.

Lemma combine_columns (traj : list (npfloat * npfloat * npfloat)) :
  combine (combine (map fst3 traj) (map snd3 traj)) (map thd3 traj) = traj.
Proof.
  induction traj as [|[[x y] z] traj IH]; simpl; [reflexivity|].
  rewrite IH. reflexivity.
Qed.

(** [self.load_positions()] on a container whose header names a heliosat
    object: the positions attached and the record logged. *)
Lemma load_positions_default_ok (E : externals) (d : SatData.t)
      (lg : list log_record) (times : list R) (name : string)
      (traj : list (npfloat * npfloat * npfloat)) :
  __getitem__ d "time" = Ok (map Fin times) ->
  h_item "HeliosatObject" (h d) = Ok (HObj name) ->
  trajectory E name times "HEEQ" "AU" "SUN" = Ok traj ->
  exists P,
    load_positions_default E (mkWorld d lg) =
    (Ok tt, mkWorld (set_pos d (Some P))
              (lg ++ [mkLog INFO ("load_positions: Loading position data into "
                                    ++ source_str d ++ " data") []])%list) /\
    PositionData.coors P = ["r"; "lon"; "lat"]%string /\
    PositionData.positions P =
      [map (fun q => fst3 (cart2sphere (fst3 q) (snd3 q) (thd3 q))) traj;
       map (fun q => thd3 (cart2sphere (fst3 q) (snd3 q) (thd3 q))) traj;
       map (fun q => snd3 (cart2sphere (fst3 q) (snd3 q) (thd3 q))) traj].
Proof.
  intros Htime Hobj Htraj.
  unfold load_positions_default, load_positions.
  unfold bind at 1. unfold get_self at 1. cbn [self].
  unfold bind at 1. unfold in_log at 1, logger at 1. cbn [logged self].
  unfold bind at 1. unfold lift at 1. rewrite (dates_of_finite d times Htime).
  unfold bind at 1. unfold lift at 1. rewrite Hobj.
  unfold bind at 1. unfold lift at 1. rewrite Htraj.
  unfold bind at 1. unfold lift at 1.
  unfold bind at 1. unfold lift at 1.
  rewrite combine_columns.
  unfold PositionData.__init__.
  replace (negb (mem (lower "rlonlat") ["xyz"%string; "rlonlat"%string]))
    with false by reflexivity.
  unfold np_asarray2. cbn [forallb].
  rewrite !length_map, !Nat.eqb_refl. cbn [andb rbind].
  unfold put_self. cbn [self logged].
  eexists. split; [reflexivity|]. split; [reflexivity|].
  cbn [PositionData.positions]. rewrite !map_map. reflexivity.
Qed.

(** C6 on the code.  Without position data [shift_wind_to_L1] does not load
    anything: its second statement reads [self.pos.h] and raises an
    AttributeError, with the container and the log left as they were.  The
    time-lag shift is the path that does load on demand: started without
    position data (method 'new'), it logs the warning, runs
    [load_positions] and goes on exactly as it would on the container with
    those positions attached. *)
Theorem shift_wind_to_L1_fails_without_positions :
  forall (E : externals) (d : SatData.t) (lg : list log_record) (times : list R),
    __getitem__ d "time" = Ok (map Fin times) ->
    pos d = None ->
    shift_wind_to_L1 E (mkWorld d lg) =
      (Raise (AttributeError "'NoneType' object has no attribute 'h'"),
       mkWorld d lg) /\
    forall (name : string) (traj : list (npfloat * npfloat * npfloat)) (sun_syn : R),
      h_item "HeliosatObject" (h d) = Ok (HObj name) ->
      trajectory E name times "HEEQ" "AU" "SUN" = Ok traj ->
      exists P,
        PositionData.coors P = ["r"; "lon"; "lat"]%string /\
        shift_time_to_L1 E sun_syn "new" (mkWorld d lg) =
        shift_time_to_L1 E sun_syn "new"
          (mkWorld (set_pos d (Some P))
             (lg ++ [mkLog WARNING
                       "Loading position data (SatData.load_positions()) for shift_time_to_L1()!" [];
                     mkLog INFO ("load_positions: Loading position data into "
                                   ++ source_str d ++ " data") []])%list).
Proof.
  intros E d lg times Htime Hpos. split.
  - unfold shift_wind_to_L1.
    unfold bind at 1. unfold get_self at 1. cbn [self].
    unfold bind at 1. unfold lift at 1. rewrite (dates_of_finite d times Htime).
    unfold bind at 1. unfold lift at 1.
    unfold l1_position_for, pos_attr. rewrite Hpos. reflexivity.
  - intros name traj sun_syn Hobj Htraj.
    destruct (load_positions_default_ok E d
                (lg ++ [mkLog WARNING
                   "Loading position data (SatData.load_positions()) for shift_time_to_L1()!" []])
                times name traj Htime Hobj Htraj) as (P & Hload & Hcoors & _).
    exists P. split; [exact Hcoors|].
    unfold shift_time_to_L1.
    replace (String.eqb "new" "old") with false by reflexivity.
    replace (String.eqb "new" "new") with true by reflexivity.
    unfold bind at 1. unfold get_self at 1. cbn [self].
    rewrite Hpos.
    unfold bind at 1. unfold bind at 1. unfold in_log at 1, logger at 1.
    cbn [logged self]. rewrite Hload.
    rewrite <- app_assoc. cbn [app].
    symmetry.
    unfold bind at 1. unfold get_self at 1. cbn [self pos set_pos].
    unfold bind at 1. unfold ret at 1. reflexivity.
Qed.

End PositionsOnDemand.

(* ===================================================================== *)
(** ** Merging (C8) *)
(* ===================================================================== *)

Section Merge.

Import SatData Convert L1 Resample.

Lemma flt_Fin_true (a b : R) : a < b -> flt (Fin a) (Fin b) = true.
Proof. intro H. simpl. destruct (Rlt_dec a b); [reflexivity|contradiction]. Qed.

(** A declared rate of one hour gives the hourly step, and so does a
    declared rate of one minute: the first test has no absolute value. *)
Lemma merge_timestep_hour_and_minute :
  merge_timestep (h_set "SamplingRate" (HNum (Fin (1 / 24))) empty_header)
    = Ok (Fin (1 / 24)) /\
  merge_timestep (h_set "SamplingRate" (HNum (Fin (1 / 24 / 60))) empty_header)
    = Ok (Fin (1 / 24)).
Proof.
  split; unfold merge_timestep;
    match goal with
    | |- context [h_item ?k ?hd] =>
        let v := eval cbv [h_item h_get h_set empty_header String.eqb Ascii.eqb
                           Bool.eqb] in (h_item k hd) in
        change (h_item k hd) with v
    end; cbn [rbind]; unfold fsub; cbn [fneg fadd];
    rewrite flt_Fin_true by lra; reflexivity.
Qed.

Lemma arange_len_example :
  arange_len (fadd (Fin (10 / 24)) (Fin (1 / 24))) (Fin (20.5 / 24)) (Fin (1 / 24))
  = Ok 10%nat.
Proof.
  unfold arange_len. destruct (Req_dec_T (1 / 24) 0) as [H|_]; [lra|].
  unfold fsub. cbn [fadd fneg]. rewrite fdiv_Fin_nonzero by lra.
  rewrite (Zceil_eq 10) by lra. reflexivity.
Qed.

End Merge.

Section MergeExample.

Import SatData Convert L1 Resample.

(** C8 on the code.  A at hours 0 to 10 and B at hours 5.5 to 20.5, both
    hourly: the merged time axis is A's axis followed by hours 11 to 19,
    and A's values come first, but only 9 points are added, so that the
    merged length is 20, while 10 points of the hourly grid (hours 11 to
    20) lie after A's last sample and up to B's last sample.
    ([n_timesteps] is 10, the length of [arange(11h, 20.5h, 1h)], and
    [np.arange(1, n_timesteps)] has 9 entries.)  For a declared rate of
    one minute the step is an hour again. *)
Theorem merge_Data_adds_too_few_points :
  exists (M : SatData.t) (lg' : list log_record),
    merge_Data ex_E ex_A ex_B None [] = (Ok M, lg') /\
    __getitem__ M "time" =
      Ok (hours ex_A_hours
          ++ map (fun k => fadd (Fin (10 / 24)) (fmul (of_nat k) (Fin (1 / 24))))
                 [1; 2; 3; 4; 5; 6; 7; 8; 9]%nat)%list /\
    __getitem__ M "bx" = Ok (repeat (Fin 1) 11 ++ repeat (Fin 1) 9)%list /\
    __len__ M = 20%nat /\
    continuation_count (10 / 24) (20.5 / 24) (1 / 24) = 10%nat /\
    merge_timestep (h_set "SamplingRate" (HNum (Fin (1 / 24 / 60))) empty_header)
      = Ok (Fin (1 / 24)).
Proof.
  do 2 eexists. split; [|split; [|split; [|split; [|split]]]].
  - unfold merge_Data.
    unfold bind at 1. unfold logger at 1.
    unfold bind at 1.
    replace (nodup string_dec (filter (fun k => mem k (vars ex_B)) (vars ex_A)))
      with ["bx"%string] by reflexivity.
    unfold bind at 1. unfold logger at 1. unfold ret at 1.
    unfold bind at 1.
    replace (check_merge_keys ["bx"%string] (vars ex_B))
      with (@ret (list log_record) unit tt) by reflexivity.
    unfold ret at 1.
    unfold bind at 1. unfold lift at 1.
    replace (h ex_A) with (h_set "SamplingRate" (HNum (Fin (1 / 24))) empty_header)
      by reflexivity.
    rewrite (proj1 merge_timestep_hour_and_minute).
    unfold bind at 1. unfold lift at 1.
    replace (__getitem__ ex_A "time") with (Ok (hours ex_A_hours)) by reflexivity.
    unfold bind at 1. unfold lift at 1.
    replace (last_item (hours ex_A_hours)) with (Ok (Fin (10 / 24))) by reflexivity.
    unfold bind at 1. unfold lift at 1.
    replace (__getitem__ ex_B "time") with (Ok (hours ex_B_hours)) by reflexivity.
    unfold bind at 1. unfold lift at 1.
    replace (last_item (hours ex_B_hours)) with (Ok (Fin (20.5 / 24))) by reflexivity.
    unfold bind at 1. unfold lift at 1.
    rewrite arange_len_example.
    replace (10 - 1)%nat with 9%nat by reflexivity.
    reflexivity.
  - reflexivity.
  - reflexivity.
  - reflexivity.
  - unfold continuation_count.
    rewrite (Zfloor_eq 10) by lra. reflexivity.
  - apply merge_timestep_hour_and_minute.
Qed.

End MergeExample.

(* ===================================================================== *)
(** ** Rotations keep the magnitude (C2): real-number facts *)
(* ===================================================================== *)

Section Rotations.

Import Convert.

Lemma mvec_mmul (p q : mat3) (v : vec3) :
  mvec (mmul p q) v = mvec p (mvec q v).
Proof.
  destruct p as [[[[p00 p01] p02] [[p10 p11] p12]] [[p20 p21] p22]].
  destruct q as [[[[q00 q01] q02] [[q10 q11] q12]] [[q20 q21] q22]].
  destruct v as [[x y] z].
  unfold mvec, mmul, col, dot3. f_equal; [f_equal|]; ring.
Qed.

Lemma keeps_length_mmul (p q : mat3) :
  keeps_length p -> keeps_length q -> keeps_length (mmul p q).
Proof.
  intros Hp Hq v. rewrite mvec_mmul, Hp, Hq. reflexivity.
Qed.

Lemma keeps_length_rot_z (a : R) : keeps_length (rot_z a).
Proof.
  intros [[x y] z]. unfold norm2, mvec, rot_z, dot3.
  pose proof (sin2_cos2 a) as H. unfold Rsqr in H. nsatz.
Qed.

Lemma keeps_length_rot_x (a : R) : keeps_length (rot_x a).
Proof.
  intros [[x y] z]. unfold norm2, mvec, rot_x, dot3.
  pose proof (sin2_cos2 a) as H. unfold Rsqr in H. nsatz.
Qed.

Lemma keeps_length_HEEQ_to_HEE (mjd UT : R) :
  keeps_length (HEEQ_to_HEE_matrix mjd UT).
Proof.
  unfold HEEQ_to_HEE_matrix, S2_theta_of.
  repeat apply keeps_length_mmul;
    first [apply keeps_length_rot_z | apply keeps_length_rot_x].
Qed.

(** A real matrix applied to a finite sample is the real product. *)
Lemma mvec_f_Fin (m : mat3) (x y z : R) :
  mvec_f m (Fin x, Fin y, Fin z) =
  (Fin (fst3 (mvec m (x, y, z))), Fin (snd3 (mvec m (x, y, z))),
   Fin (thd3 (mvec m (x, y, z)))).
Proof.
  destruct m as [[[[m00 m01] m02] [[m10 m11] m12]] [[m20 m21] m22]].
  reflexivity.
Qed.

Lemma sum_squares_nonneg (a b c : R) : 0 <= a * a + b * b + c * c.
Proof. nra. Qed.

Lemma magnitude_Fin (a b c : R) :
  magnitude (Fin a, Fin b, Fin c) = Fin (sqrt (a * a + b * b + c * c)).
Proof.
  unfold magnitude, fsquare. cbn [fmul fadd].
  apply fsqrt_Fin_nonneg. apply sum_squares_nonneg.
Qed.

Lemma norm2_components (v : vec3) :
  norm2 v = fst3 v * fst3 v + snd3 v * snd3 v + thd3 v * thd3 v.
Proof. destruct v as [[x y] z]. reflexivity. Qed.

(** Applying a length-keeping matrix to a finite sample keeps the magnitude;
    so does the change of sign of the first two components. *)
Lemma keeps_length_magnitude (m : mat3) (x y z : R) :
  keeps_length m ->
  magnitude (mvec_f m (Fin x, Fin y, Fin z)) = magnitude (Fin x, Fin y, Fin z).
Proof.
  intro Hm. rewrite mvec_f_Fin, !magnitude_Fin. do 2 f_equal.
  rewrite <- norm2_components, Hm. reflexivity.
Qed.

Lemma keeps_length_magnitude_neg (m : mat3) (x y z : R) :
  keeps_length m ->
  magnitude (let '(hx, hy, hz) := mvec_f m (Fin x, Fin y, Fin z) in
             (fneg hx, fneg hy, hz)) = magnitude (Fin x, Fin y, Fin z).
Proof.
  intro Hm. rewrite mvec_f_Fin. cbn [fneg]. rewrite !magnitude_Fin. do 2 f_equal.
  specialize (Hm (x, y, z)). rewrite norm2_components in Hm.
  unfold norm2, dot3 in Hm. lra.
Qed.

End Rotations.

Section RTNBasis.

Import Convert.

Lemma fnorm_Fin (a b c : R) :
  fnorm (Fin a, Fin b, Fin c) = Fin (sqrt (a * a + b * b + c * c)).
Proof.
  unfold fnorm. cbn [fmul fadd]. apply fsqrt_Fin_nonneg, sum_squares_nonneg.
Qed.

Lemma fvdiv_Fin (a b c s : R) :
  s <> 0 ->
  fvdiv (Fin a, Fin b, Fin c) (Fin s) = (Fin (a / s), Fin (b / s), Fin (c / s)).
Proof. intro H. unfold fvdiv. rewrite !fdiv_Fin_nonzero by exact H. reflexivity. Qed.

Lemma fcross_Fin (a0 a1 a2 b0 b1 b2 : R) :
  fcross (Fin a0, Fin a1, Fin a2) (Fin b0, Fin b1, Fin b2) =
  (Fin (a1 * b2 - a2 * b1), Fin (a2 * b0 - a0 * b2), Fin (a0 * b1 - a1 * b0)).
Proof. reflexivity. Qed.

(** With the spacecraft off the solar rotation axis, the RTN basis is
    orthonormal: the projected sample is finite and as long as the sample. *)
Lemma rtn_basis_project_magnitude (x y z br bt bn : R) :
  0 < x * x + y * y ->
  exists h0 h1 h2 : R,
    rtn_basis_project (Fin x, Fin y, Fin z) (Fin br) (Fin bt) (Fin bn)
      = (Fin h0, Fin h1, Fin h2) /\
    magnitude (Fin h0, Fin h1, Fin h2) = magnitude (Fin br, Fin bt, Fin bn).
Proof.
  intro Hxy. unfold rtn_basis_project, Z_heeq. cbv zeta.
  rewrite fnorm_Fin.
  set (n := sqrt (x * x + y * y + z * z)).
  assert (Hn : 0 < n) by (apply sqrt_lt_R0; nra).
  assert (Hnn : n * n = x * x + y * y + z * z) by (apply sqrt_sqrt; nra).
  rewrite fvdiv_Fin by lra.
  set (a := x / n). set (b := y / n). set (c := z / n).
  assert (Habc : a * a + b * b + c * c = 1).
  { unfold a, b, c. field_simplify_eq; [|lra]. lra. }
  assert (Hab : 0 < a * a + b * b).
  { unfold a, b. replace (x / n * (x / n) + y / n * (y / n))
      with ((x * x + y * y) / (n * n)) by (field; lra).
    apply Rdiv_lt_0_compat; nra. }
  rewrite fcross_Fin, fnorm_Fin.
  set (m := sqrt _).
  assert (Hmm : m * m = a * a + b * b).
  { unfold m. rewrite sqrt_sqrt; [ring|]. apply sum_squares_nonneg. }
  assert (Hm : 0 < m).
  { unfold m. apply sqrt_lt_R0. nra. }
  rewrite fvdiv_Fin by lra.
  rewrite fcross_Fin, fnorm_Fin.
  set (m2 := sqrt _).
  assert (Hm2 : m2 = 1).
  { unfold m2.
    match goal with |- sqrt ?e = 1 => replace e with 1; [apply sqrt_1|] end.
    unfold Rdiv. set (im := / m).
    assert (Him : m * im = 1) by (unfold im; field; lra).
    nsatz. }
  rewrite fvdiv_Fin by lra.
  cbn [fscale fvadd fvdot X_heeq Y_heeq fmul fadd].
  do 3 eexists. split; [reflexivity|].
  rewrite !magnitude_Fin. do 2 f_equal.
  rewrite Hm2. unfold Rdiv. rewrite Rinv_1.
  set (im := / m).
  assert (Him : m * im = 1) by (unfold im; field; lra).
  nsatz.
Qed.

End RTNBasis.

Section DipoleTilt.

Import Convert.

Lemma Qe_z_formula (mjd UT : R) :
  thd3 (Qe_of mjd UT) =
  cos (et2_of (T00_of mjd)) * sin (pgeo_of mjd * PI / 180)
  - sin (et2_of (T00_of mjd)) * cos (pgeo_of mjd * PI / 180)
    * sin (zeta_of (T00_of mjd) UT + lgeo_of mjd * PI / 180).
Proof.
  rewrite sin_plus.
  unfold Qe_of, Qg_of, mvec, mmul, transpose, col, rot_z, rot_x, dot3, thd3.
  cbn [fst snd]. ring.
Qed.

(** Between 1858 and 2132 the z component of the pole vector is positive,
    so that the quotient for the dipole tilt is defined. *)
Lemma Qe_z_positive (mjd UT : R) :
  0 <= mjd <= 100000 -> 0 < thd3 (Qe_of mjd UT).
Proof.
  intro Hm. rewrite Qe_z_formula.
  set (e := et2_of (T00_of mjd)). set (P := pgeo_of mjd * PI / 180).
  set (s := sin (_ + _)).
  pose proof PI_RGT_0 as Hpi.
  assert (He : 23 * (PI / 180) < e < 24 * (PI / 180)).
  { unfold e, et2_of, T00_of.
    replace ((23.439 - 0.013 * ((mjd - 51544.5) / 36525.0)) * PI / 180)
      with ((23.439 - 0.013 * ((mjd - 51544.5) / 36525.0)) * (PI / 180)) by lra.
    split; apply Rmult_lt_compat_r; lra. }
  assert (HP : 73 * (PI / 180) < P < 86 * (PI / 180)).
  { unfold P, pgeo_of.
    replace ((78.8 + 4.283 * ((mjd - 46066) / 365.25) * 0.01) * PI / 180)
      with ((78.8 + 4.283 * ((mjd - 46066) / 365.25) * 0.01) * (PI / 180)) by lra.
    split; apply Rmult_lt_compat_r; lra. }
  assert (Hse : 0 < sin e) by (apply sin_gt_0; lra).
  assert (HcP : 0 < cos P) by (apply cos_gt_0; lra).
  assert (Hd : 0 < sin (P - e)) by (apply sin_gt_0; lra).
  rewrite sin_minus in Hd.
  assert (Hs : s <= 1) by (unfold s; apply SIN_bound).
  assert (Hprod : 0 < sin e * cos P) by (apply Rmult_lt_0_compat; assumption).
  nra.
Qed.

Lemma psigsm_of_defined (mjd UT : R) :
  0 <= mjd <= 100000 -> exists psi, psigsm_of mjd UT = Ok psi.
Proof.
  intro Hm. pose proof (Qe_z_positive mjd UT Hm) as Hz.
  unfold psigsm_of. destruct (Qe_of mjd UT) as [[qx qy] qz]. cbn [thd3 snd] in Hz.
  destruct (Req_dec_T qz 0); [lra|]. eexists; reflexivity.
Qed.

Lemma py_int_nonneg (x : R) : 0 <= x -> 0 <= IZR (py_int x) <= x.
Proof.
  intro H. unfold py_int. destruct (Rle_dec 0 x); [|contradiction].
  pose proof (Zfloor_bound x) as [Hl _]. split; [|exact Hl].
  apply IZR_le. apply Zfloor_lub. simpl. exact H.
Qed.

Lemma mjd_of_range (jd : R) :
  2400000.5 <= jd <= 2500000.5 -> 0 <= mjd_of jd <= 100000.
Proof.
  intro H. unfold mjd_of.
  pose proof (py_int_nonneg (jd - 2400000.5) ltac:(lra)). lra.
Qed.

End DipoleTilt.

(* ===================================================================== *)
(** ** Frame conversions on a container (C2, C4) *)
(* ===================================================================== *)

Section StoreVector.

Import SatData Convert.

(** [d[var] = v] for a default key and a full-length array. *)
Lemma setitem_ok (d : SatData.t) (lg : list log_record) (var : string) (v : array) :
  wf d -> mem var default_keys = true -> List.length v = __len__ d ->
  exists d',
    __setitem__ var v (mkWorld d lg) = (Ok tt, mkWorld d' lg) /\
    data d' = set_nth (data d) (index_of var default_keys) v /\
    mem var (vars d') = true /\
    (forall u, mem u (vars d) = true -> mem u (vars d') = true) /\
    (vars d' = vars d \/ vars d' = (vars d ++ [var])%list) /\
    h d' = h d /\ pos d' = pos d /\ wf d' /\ __len__ d' = __len__ d.
Proof.
  intros Hwf Hk Hv.
  destruct (store_row_wf d _ v Hwf (index_of_default_keys_lt var Hk) Hv)
    as (d1 & Hst & Hdata & Hvars & Hh & Hpos & Hsrc & Hstate & Hlen & Hwf1).
  unfold __setitem__, bind, get_self, lift, put_self. cbn [self logged].
  destruct (mem var (vars d)) eqn:Hm.
  - rewrite Hst. exists d1.
    split; [reflexivity|]. split; [exact Hdata|]. split; [congruence|].
    split; [intros u Hu; congruence|]. split; [left; exact Hvars|].
    auto.
  - rewrite Hk. cbn [andb negb]. rewrite Hst.
    exists (set_vars d1 (vars d1 ++ [var])%list). cbn [logged].
    split; [reflexivity|]. split; [exact Hdata|].
    split.
    { cbn [vars set_vars]. rewrite mem_app. cbn [mem existsb].
      rewrite String.eqb_refl. rewrite orb_true_r; reflexivity. }
    split.
    { intros u Hu. cbn [vars set_vars]. rewrite mem_app, Hvars, Hu. reflexivity. }
    split; [right; cbn [vars set_vars]; congruence|].
    split; [exact Hh|]. split; [exact Hpos|]. split; [exact Hwf1|exact Hlen].
Qed.

Lemma getitem_after_set (d d' : SatData.t) (var : string) (v : array) (i : nat) :
  i = index_of var default_keys ->
  (i < List.length (data d))%nat ->
  data d' = set_nth (data d) i v ->
  mem var (vars d') = true ->
  __getitem__ d' var = Ok v.
Proof.
  intros -> Hi Hdata Hm. unfold __getitem__. rewrite mem_app, Hm. cbn [orb].
  apply item_nth_error. rewrite Hdata. apply set_nth_nth_error_same. exact Hi.
Qed.

Lemma getitem_other_set (d d' : SatData.t) (var u : string) (v row : array) :
  mem u default_keys = true ->
  u <> var ->
  data d' = set_nth (data d) (index_of var default_keys) v ->
  (forall w, mem w (vars d) = true -> mem w (vars d') = true) ->
  __getitem__ d u = Ok row ->
  __getitem__ d' u = Ok row.
Proof.
  intros Hu Hne Hdata Hsub Hget. unfold __getitem__ in *.
  destruct (mem u (vars d ++ ["time"%string])) eqn:Hm; [|discriminate].
  assert (Hm' : mem u (vars d' ++ ["time"%string]) = true).
  { rewrite mem_app in *. apply orb_true_iff in Hm as [Hm|Hm].
    - rewrite (Hsub u Hm). reflexivity.
    - rewrite Hm. apply orb_true_r. }
  rewrite Hm'. apply item_nth_error. apply item_Ok_inv in Hget.
  rewrite Hdata, set_nth_nth_error_other; auto.
  intro Heq. apply Hne. apply (index_of_inj u var default_keys Hu). congruence.
Qed.

(** The three assignments that end both conversions. *)
Lemma store_vector (d : SatData.t) (lg : list log_record) (a b c : array)
      {A : Type} (rest : M world A) :
  wf d ->
  List.length a = __len__ d -> List.length b = __len__ d ->
  List.length c = __len__ d ->
  exists d',
    (__setitem__ "bx" a ;;; __setitem__ "by" b ;;; __setitem__ "bz" c ;;; rest)
      (mkWorld d lg) = rest (mkWorld d' lg) /\
    __getitem__ d' "bx" = Ok a /\ __getitem__ d' "by" = Ok b /\
    __getitem__ d' "bz" = Ok c /\
    h d' = h d /\ pos d' = pos d /\ wf d' /\ __len__ d' = __len__ d /\
    (forall u row, mem u default_keys = true ->
                   u <> "bx"%string -> u <> "by"%string -> u <> "bz"%string ->
                   __getitem__ d u = Ok row -> __getitem__ d' u = Ok row).
Proof.
  intros Hwf Ha Hb Hc.
  destruct (setitem_ok d lg "bx" a Hwf eq_refl Ha)
    as (d1 & R1 & D1 & M1 & S1 & _ & H1 & P1 & W1 & L1).
  destruct (setitem_ok d1 lg "by" b W1 eq_refl ltac:(congruence))
    as (d2 & R2 & D2 & M2 & S2 & _ & H2 & P2 & W2 & L2).
  destruct (setitem_ok d2 lg "bz" c W2 eq_refl ltac:(congruence))
    as (d3 & R3 & D3 & M3 & S3 & _ & H3 & P3 & W3 & L3).
  exists d3.
  assert (G1 : __getitem__ d1 "bx" = Ok a).
  { eapply getitem_after_set; eauto. destruct Hwf as [-> _]. simpl; lia. }
  assert (G2 : __getitem__ d2 "by" = Ok b).
  { eapply getitem_after_set; eauto. destruct W1 as [-> _]. simpl; lia. }
  assert (G3 : __getitem__ d3 "bz" = Ok c).
  { eapply getitem_after_set; eauto. destruct W2 as [-> _]. simpl; lia. }
  split; [|repeat split; try congruence; try apply W3].
  - unfold bind at 1. rewrite R1. unfold bind at 1. rewrite R2.
    unfold bind at 1. rewrite R3. reflexivity.
  - eapply (getitem_other_set d2 d3 "bz" "bx"); eauto; try discriminate.
    eapply (getitem_other_set d1 d2 "by" "bx"); eauto; discriminate.
  - eapply (getitem_other_set d2 d3 "bz" "by"); eauto; discriminate.
  - intros u row Hu N1 N2 N3 Hget.
    eapply (getitem_other_set d2 d3 "bz" u); eauto.
    eapply (getitem_other_set d1 d2 "by" u); eauto.
    eapply (getitem_other_set d d1 "bx" u); eauto.
Qed.

Lemma item_map_Fin (l : list R) (i : nat) :
  (i < List.length l)%nat -> item (map Fin l) i = Ok (Fin (nth i l 0)).
Proof.
  intro H. apply item_nth_error.
  rewrite nth_error_map, (nth_error_nth' l 0 H). reflexivity.
Qed.

Lemma sample_finite (d : SatData.t) (var : string) (l : list R) (i : nat) :
  __getitem__ d var = Ok (map Fin l) -> (i < List.length l)%nat ->
  sample d var i = Ok (Fin (nth i l 0)).
Proof.
  intros Hg Hi. unfold sample. rewrite Hg. cbn [rbind]. apply item_map_Fin; exact Hi.
Qed.

Lemma getitem_length (d : SatData.t) (var : string) (row : array) :
  wf d -> __getitem__ d var = Ok row -> List.length row = __len__ d.
Proof.
  intros Hwf Hg. unfold __getitem__ in Hg.
  destruct (mem var _); [|discriminate].
  apply item_Ok_inv in Hg. apply Hwf. eapply nth_error_In; eauto.
Qed.

End StoreVector.

Section ConversionRuns.

Import SatData Convert.

Lemma nth_map_Fin (l : list R) (i : nat) :
  (i < List.length l)%nat -> nth i (map Fin l) NaN = Fin (nth i l 0).
Proof.
  intro H. rewrite (nth_indep _ NaN (Fin 0)) by (rewrite length_map; exact H).
  apply (map_nth Fin).
Qed.

Lemma sample_at_map_seq (g : nat -> fvec3) (n i : nat) :
  (i < n)%nat ->
  sample_at (map fst3 (map g (seq 0 n))) (map snd3 (map g (seq 0 n)))
            (map thd3 (map g (seq 0 n))) i = g i.
Proof.
  intro H. unfold sample_at. rewrite !map_map, !nth_map_seq by exact H.
  destruct (g i) as [[x y] z]. reflexivity.
Qed.

Lemma sample_at_Fin (a b c : list R) (i : nat) :
  (i < List.length a)%nat -> (i < List.length b)%nat -> (i < List.length c)%nat ->
  sample_at (map Fin a) (map Fin b) (map Fin c) i
  = (Fin (nth i a 0), Fin (nth i b 0), Fin (nth i c 0)).
Proof.
  intros Ha Hb Hc. unfold sample_at. rewrite !nth_map_Fin by assumption. reflexivity.
Qed.

(** A run of [convert_GSE_to_GSM] on finite data dated between the Julian
    dates 2400000.5 and 2500000.5. *)
Lemma convert_GSE_to_GSM_run (E : externals) (d : SatData.t)
      (lg : list log_record) (ts bxs bys bzs : list R) (rf : string) :
  wf d ->
  __getitem__ d "time" = Ok (map Fin ts) ->
  __getitem__ d "bx" = Ok (map Fin bxs) ->
  __getitem__ d "by" = Ok (map Fin bys) ->
  __getitem__ d "bz" = Ok (map Fin bzs) ->
  (forall t, In t ts -> 2400000.5 <= julian_date E t <= 2500000.5) ->
  h_item "ReferenceFrame" (h d) = Ok (HStr rf) ->
  exists d' bx' by' bz',
    convert_GSE_to_GSM E (mkWorld d lg) =
      (Ok tt, mkWorld d' (lg ++ [mkLog INFO "Converting GSE magn. values to GSM" []])%list) /\
    __getitem__ d' "bx" = Ok bx' /\ __getitem__ d' "by" = Ok by' /\
    __getitem__ d' "bz" = Ok bz' /\
    h d' = h d /\
    (forall u row, mem u default_keys = true ->
                   u <> "bx"%string -> u <> "by"%string -> u <> "bz"%string ->
                   __getitem__ d u = Ok row -> __getitem__ d' u = Ok row) /\
    forall i, (i < __len__ d)%nat ->
      magnitude (sample_at bx' by' bz' i)
      = magnitude (sample_at (map Fin bxs) (map Fin bys) (map Fin bzs) i).
Proof.
  intros Hwf Ht Hbx Hby Hbz Hjd Hrf.
  assert (Lt : List.length ts = __len__ d)
    by (rewrite <- (getitem_length d _ _ Hwf Ht), length_map; reflexivity).
  assert (Lx : List.length bxs = __len__ d)
    by (rewrite <- (getitem_length d _ _ Hwf Hbx), length_map; reflexivity).
  assert (Ly : List.length bys = __len__ d)
    by (rewrite <- (getitem_length d _ _ Hwf Hby), length_map; reflexivity).
  assert (Lz : List.length bzs = __len__ d)
    by (rewrite <- (getitem_length d _ _ Hwf Hbz), length_map; reflexivity).
  set (tilt := fun i : nat =>
         match psigsm_of (mjd_of (julian_date E (nth i ts 0)))
                         (ut_hours E (nth i ts 0)) with
         | Ok psi => psi
         | Raise _ => 0
         end).
  set (g := fun i : nat =>
         mvec_f (rot_x (- tilt i))
                (Fin (nth i bxs 0), Fin (nth i bys 0), Fin (nth i bzs 0))).
  assert (Hstep : forall i, In i (seq 0 (List.length (map Fin ts))) ->
                            gse_to_gsm_sample E d i = Ok (g i)).
  { intros i Hi. apply in_seq in Hi. rewrite length_map in Hi.
    unfold gse_to_gsm_sample.
    rewrite (sample_finite d "time" ts i Ht) by lia. cbn [rbind num2date].
    destruct (psigsm_of_defined (mjd_of (julian_date E (nth i ts 0)))
                                (ut_hours E (nth i ts 0))) as [psi Hpsi].
    { apply mjd_of_range, Hjd, nth_In. lia. }
    unfold g, tilt. rewrite Hpsi. cbn [rbind].
    rewrite (sample_finite d "bx" bxs i Hbx) by lia. cbn [rbind].
    rewrite (sample_finite d "by" bys i Hby) by lia. cbn [rbind].
    rewrite (sample_finite d "bz" bzs i Hbz) by lia. cbn [rbind].
    reflexivity. }
  set (out := map g (seq 0 (List.length (map Fin ts)))).
  assert (Lo : List.length out = __len__ d)
    by (unfold out; rewrite length_map, length_seq, length_map; exact Lt).
  destruct (store_vector d
              (lg ++ [mkLog INFO "Converting GSE magn. values to GSM" []])%list
              (map fst3 out) (map snd3 out) (map thd3 out)
              (d' <- get_self ;; lift (replace_reference_frame (h d')))
              Hwf) as (d' & Hrun & Gx & Gy & Gz & Hh & _ & _ & _ & Hother);
    try (rewrite length_map; exact Lo).
  exists d', (map fst3 out), (map snd3 out), (map thd3 out).
  split; [|repeat split; auto].
  - unfold convert_GSE_to_GSM.
    unfold bind at 1. unfold in_log at 1, logger at 1. cbn [logged self].
    unfold bind at 1. unfold get_self at 1. cbn [self].
    unfold bind at 1. unfold lift at 1. rewrite Ht.
    unfold bind at 1. unfold lift at 1. rewrite (mapM_ext_Ok _ g _ Hstep).
    fold out. rewrite Hrun.
    unfold bind, get_self, lift, replace_reference_frame. cbn [self].
    rewrite Hh, Hrf. reflexivity.
  - intros i Hi. unfold out. rewrite length_map, Lt.
    rewrite sample_at_map_seq by exact Hi.
    rewrite sample_at_Fin by lia.
    unfold g. apply keeps_length_magnitude, keeps_length_rot_x.
Qed.

End ConversionRuns.

Section ConversionRunsRTN.

Import SatData Convert.

Lemma combine_map_self {A B : Type} (g : A -> B) (l : list A) :
  combine l (map g l) = map (fun i => (i, g i)) l.
Proof. induction l as [|x l IH]; simpl; [|rewrite IH]; reflexivity. Qed.

(** A run of [convert_RTN_to_GSE] on finite data whose spacecraft positions
    are finite and off the solar rotation axis. *)
Lemma convert_RTN_to_GSE_run (E : externals) (d : SatData.t)
      (lg : list log_record) (pos_obj : list array) (pos_tnum : array)
      (ts brs bts bns : list R) (hd' : header) :
  wf d ->
  __getitem__ d "time" = Ok (map Fin ts) ->
  __getitem__ d "br" = Ok (map Fin brs) ->
  __getitem__ d "bt" = Ok (map Fin bts) ->
  __getitem__ d "bn" = Ok (map Fin bns) ->
  ~ (pos_obj = [] /\ pos_tnum = [] /\ pos d = None) ->
  (forall i, (i < __len__ d)%nat ->
     exists x y z, rtn_position d pos_obj pos_tnum i = Ok (Fin x, Fin y, Fin z) /\
                   0 < x * x + y * y) ->
  append_reference_frame (h d) = Ok hd' ->
  exists d' bx' by' bz',
    convert_RTN_to_GSE E pos_obj pos_tnum (mkWorld d lg) =
      (Ok tt, mkWorld d' (lg ++ [mkLog INFO "Converting RTN magn. values to GSE" []])%list) /\
    __getitem__ d' "bx" = Ok bx' /\ __getitem__ d' "by" = Ok by' /\
    __getitem__ d' "bz" = Ok bz' /\
    h d' = hd' /\
    (forall u row, mem u default_keys = true ->
                   u <> "bx"%string -> u <> "by"%string -> u <> "bz"%string ->
                   __getitem__ d u = Ok row -> __getitem__ d' u = Ok row) /\
    forall i, (i < __len__ d)%nat ->
      magnitude (sample_at bx' by' bz' i)
      = magnitude (sample_at (map Fin brs) (map Fin bts) (map Fin bns) i).
Proof.
  intros Hwf Ht Hbr Hbt Hbn Hguard Hposn Hrf.
  assert (Lt : List.length ts = __len__ d)
    by (rewrite <- (getitem_length d _ _ Hwf Ht), length_map; reflexivity).
  assert (Lr : List.length brs = __len__ d)
    by (rewrite <- (getitem_length d _ _ Hwf Hbr), length_map; reflexivity).
  assert (Ltt : List.length bts = __len__ d)
    by (rewrite <- (getitem_length d _ _ Hwf Hbt), length_map; reflexivity).
  assert (Ln : List.length bns = __len__ d)
    by (rewrite <- (getitem_length d _ _ Hwf Hbn), length_map; reflexivity).
  set (posf := fun i : nat =>
         match rtn_position d pos_obj pos_tnum i with
         | Ok p => p
         | Raise _ => (NaN, NaN, NaN)
         end).
  set (g1 := fun i : nat =>
         rtn_basis_project (posf i) (Fin (nth i brs 0)) (Fin (nth i bts 0))
                           (Fin (nth i bns 0))).
  set (G := (fun ih : nat * fvec3 =>
         let '(hx, hy, hz) :=
           mvec_f (HEEQ_to_HEE_matrix (mjd_of (julian_date E (nth (fst ih) ts 0)))
                                      (ut_hours E (nth (fst ih) ts 0))) (snd ih) in
         (fneg hx, fneg hy, hz)) : nat * fvec3 -> fvec3).
  set (idxs := seq 0 (List.length (map Fin ts))).
  assert (Hidx : forall i, In i idxs -> (i < __len__ d)%nat).
  { intros i Hi. unfold idxs in Hi. apply in_seq in Hi. rewrite length_map in Hi. lia. }
  assert (Hstep1 : forall i, In i idxs ->
                             rtn_to_heeq_sample d pos_obj pos_tnum i = Ok (g1 i)).
  { intros i Hi. apply Hidx in Hi. unfold rtn_to_heeq_sample, g1, posf.
    destruct (Hposn i Hi) as (x & y & z & Hp & _). rewrite Hp. cbn [rbind].
    rewrite (sample_finite d "br" brs i Hbr) by lia. cbn [rbind].
    rewrite (sample_finite d "bt" bts i Hbt) by lia. cbn [rbind].
    rewrite (sample_finite d "bn" bns i Hbn) by lia. cbn [rbind].
    reflexivity. }
  assert (Hstep2 : forall ih, In ih (map (fun i => (i, g1 i)) idxs) ->
                              heeq_to_gse_sample E d (fst ih) (snd ih) = Ok (G ih)).
  { intros ih Hih. apply in_map_iff in Hih as (i & <- & Hi). apply Hidx in Hi.
    cbn [fst snd]. unfold heeq_to_gse_sample, G. cbn [fst snd].
    rewrite (sample_finite d "time" ts i Ht) by lia. cbn [rbind num2date].
    destruct (mvec_f _ (g1 i)) as [[hx hy] hz]. reflexivity. }
  set (out := map G (map (fun i => (i, g1 i)) idxs)).
  assert (Lo : List.length out = __len__ d).
  { unfold out, idxs. rewrite !length_map, length_seq. exact Lt. }
  assert (Hout : out = map (fun i => G (i, g1 i)) (seq 0 (__len__ d))).
  { unfold out, idxs. rewrite map_map, length_map, Lt. reflexivity. }
  destruct (store_vector d
              (lg ++ [mkLog INFO "Converting RTN magn. values to GSE" []])%list
              (map fst3 out) (map snd3 out) (map thd3 out)
              (d' <- get_self ;;
               hd <- lift (append_reference_frame (h d')) ;;
               put_self (set_h d' hd))
              Hwf) as (d' & Hrun & Gx & Gy & Gz & Hh & _ & Hwf' & _ & Hother);
    try (rewrite length_map; exact Lo).
  exists (set_h d' hd'), (map fst3 out), (map snd3 out), (map thd3 out).
  split; [|repeat split; auto].
  - unfold convert_RTN_to_GSE.
    unfold bind at 1. unfold in_log at 1, logger at 1. cbn [logged self].
    unfold bind at 1. unfold get_self at 1. cbn [self].
    unfold bind at 1. unfold lift at 1. rewrite Ht.
    unfold bind at 1.
    assert (Hg : (if Nat.eqb (List.length pos_obj) 0 && Nat.eqb (List.length pos_tnum) 0
                  then match pos d with
                       | None => raise (Exception
                           "Load position data (SatData.load_position_data()) before calling convert_RTN_to_GSE()!")
                       | Some _ => ret tt
                       end
                  else ret tt)
                   (mkWorld d (lg ++ [mkLog INFO "Converting RTN magn. values to GSE" []])%list)
                 = (Ok tt, mkWorld d (lg ++ [mkLog INFO "Converting RTN magn. values to GSE" []])%list)).
    { destruct pos_obj as [|? ?]; [|reflexivity].
      destruct pos_tnum as [|? ?]; [|reflexivity].
      destruct (pos d) eqn:Ep; [reflexivity|]. exfalso. apply Hguard. auto. }
    rewrite Hg.
    unfold bind at 1. unfold lift at 1. fold idxs.
    rewrite (mapM_ext_Ok _ g1 _ Hstep1).
    unfold bind at 1. unfold lift at 1.
    rewrite combine_map_self.
    rewrite (mapM_ext_Ok _ G _ Hstep2). fold out.
    rewrite Hrun.
    unfold bind, get_self, lift, put_self. cbn [self logged].
    rewrite Hh, Hrf. reflexivity.
  - intros i Hi. rewrite Hout.
    rewrite sample_at_map_seq by exact Hi.
    rewrite sample_at_Fin by lia.
    cbn [fst snd]. unfold G. cbn [fst snd].
    destruct (Hposn i Hi) as (x & y & z & Hp & Hxy).
    destruct (rtn_basis_project_magnitude x y z (nth i brs 0) (nth i bts 0)
                                          (nth i bns 0) Hxy)
      as (h0 & h1 & h2 & Hproj & Hmag).
    unfold g1, posf. rewrite Hp, Hproj, <- Hmag.
    apply keeps_length_magnitude_neg, keeps_length_HEEQ_to_HEE.
Qed.

End ConversionRunsRTN.

(* ===================================================================== *)
(** ** Magnitude under the frame conversions (C2) *)
(* ===================================================================== *)

Section Magnitude.

Import SatData Convert.

Lemma h_item_set_same (k : string) (v : hval) (hd : header) :
  h_item k (h_set k v hd) = Ok v.
Proof.
  unfold h_item. induction hd as [|[k' v'] hd IH]; simpl.
  - rewrite String.eqb_refl. reflexivity.
  - destruct (String.eqb k k') eqn:Ek; simpl.
    + rewrite String.eqb_refl. reflexivity.
    + rewrite Ek. exact IH.
Qed.

Lemma append_reference_frame_str (hd : header) (rf : string) :
  h_item "ReferenceFrame" hd = Ok (HStr rf) ->
  append_reference_frame hd =
  Ok (h_set "ReferenceFrame" (HStr (rf ++ "-GSE")) hd).
Proof. intro H. unfold append_reference_frame. rewrite H. reflexivity. Qed.

(** C2.  On a container of finite samples, both conversions keep the
    magnitude sqrt(bx^2 + by^2 + bz^2) of every sample, in real arithmetic.
    [convert_GSE_to_GSM] rotates each sample about the x axis by the dipole
    tilt of its timestamp; the run completes for timestamps between the
    Julian dates 2400000.5 and 2500000.5 (1858 to 2132), where the pole
    vector has a positive z component.  [convert_RTN_to_GSE] projects the
    RTN sample on the orthonormal basis built from the spacecraft position
    (finite and off the solar rotation axis) and applies the rotations S1
    and S2 and the change of sign of two components; the magnitude stored
    under bx, by, bz is the magnitude of (br, bt, bn). *)
Theorem frame_conversions_preserve_magnitude :
  forall (E : externals) (d : SatData.t) (lg : list log_record)
         (ts : list R) (rf : string),
    wf d ->
    __getitem__ d "time" = Ok (map Fin ts) ->
    h_item "ReferenceFrame" (h d) = Ok (HStr rf) ->
    (forall bxs bys bzs : list R,
        __getitem__ d "bx" = Ok (map Fin bxs) ->
        __getitem__ d "by" = Ok (map Fin bys) ->
        __getitem__ d "bz" = Ok (map Fin bzs) ->
        (forall t, In t ts -> 2400000.5 <= julian_date E t <= 2500000.5) ->
        exists d' bx' by' bz',
          convert_GSE_to_GSM E (mkWorld d lg) =
            (Ok tt, mkWorld d' (lg ++ [mkLog INFO "Converting GSE magn. values to GSM" []])%list) /\
          __getitem__ d' "bx" = Ok bx' /\ __getitem__ d' "by" = Ok by' /\
          __getitem__ d' "bz" = Ok bz' /\
          forall i, (i < __len__ d)%nat ->
            magnitude (sample_at bx' by' bz' i)
            = magnitude (sample_at (map Fin bxs) (map Fin bys) (map Fin bzs) i)) /\
    (forall (pos_obj : list array) (pos_tnum : array) (brs bts bns : list R),
        __getitem__ d "br" = Ok (map Fin brs) ->
        __getitem__ d "bt" = Ok (map Fin bts) ->
        __getitem__ d "bn" = Ok (map Fin bns) ->
        ~ (pos_obj = [] /\ pos_tnum = [] /\ pos d = None) ->
        (forall i, (i < __len__ d)%nat ->
           exists x y z, rtn_position d pos_obj pos_tnum i = Ok (Fin x, Fin y, Fin z) /\
                         0 < x * x + y * y) ->
        exists d' bx' by' bz',
          convert_RTN_to_GSE E pos_obj pos_tnum (mkWorld d lg) =
            (Ok tt, mkWorld d' (lg ++ [mkLog INFO "Converting RTN magn. values to GSE" []])%list) /\
          __getitem__ d' "bx" = Ok bx' /\ __getitem__ d' "by" = Ok by' /\
          __getitem__ d' "bz" = Ok bz' /\
          forall i, (i < __len__ d)%nat ->
            magnitude (sample_at bx' by' bz' i)
            = magnitude (sample_at (map Fin brs) (map Fin bts) (map Fin bns) i)).
Proof.
  intros E d lg ts rf Hwf Ht Hrf. split.
  - intros bxs bys bzs Hbx Hby Hbz Hjd.
    destruct (convert_GSE_to_GSM_run E d lg ts bxs bys bzs rf Hwf Ht Hbx Hby Hbz Hjd Hrf)
      as (d' & bx' & by' & bz' & Hrun & Gx & Gy & Gz & _ & _ & Hmag).
    exists d', bx', by', bz'. auto.
  - intros pos_obj pos_tnum brs bts bns Hbr Hbt Hbn Hguard Hposn.
    destruct (convert_RTN_to_GSE_run E d lg pos_obj pos_tnum ts brs bts bns _
                Hwf Ht Hbr Hbt Hbn Hguard Hposn (append_reference_frame_str _ _ Hrf))
      as (d' & bx' & by' & bz' & Hrun & Gx & Gy & Gz & _ & _ & Hmag).
    exists d', bx', by', bz'. auto.
Qed.

End Magnitude.

Section MagnitudeExample.

Import SatData Convert.

Lemma ex_field_wf : wf ex_field.
Proof.
  split; [reflexivity|].
  intros r Hr. simpl in Hr.
  repeat (destruct Hr as [<-|Hr]; [reflexivity|]). destruct Hr.
Qed.

Lemma ex_field_dates :
  forall t, In t [730000; 730001] ->
            2400000.5 <= julian_date ex_E t <= 2500000.5.
Proof. intros t [<-|[<-|[]]]; simpl; lra. Qed.

Lemma ex_field_positions :
  forall i, (i < __len__ ex_field)%nat ->
    exists x y z, rtn_position ex_field [] [] i = Ok (Fin x, Fin y, Fin z) /\
                  0 < x * x + y * y.
Proof.
  intros i Hi. change (__len__ ex_field) with 2%nat in Hi.
  assert (Hp : rtn_position ex_field [] [] i
               = Ok (Fin (149597870.700 / AU_km), Fin (0 / AU_km), Fin (0 / AU_km))).
  { destruct i as [|[|i]]; [| |lia];
      unfold rtn_position; cbn [List.length Nat.ltb Nat.leb andb pos ex_field];
      change (h_item "CoordinateSystem" (PositionData.h ex_pos_xyz))
        with (Ok (HStr "xyz")); cbn [rbind];
      unfold PositionData.column; cbn [PositionData.positions ex_pos_xyz mapM item
                                       nth_error rbind ex_zero2];
      apply f_equal; apply fvdiv_Fin; unfold AU_km; lra. }
  do 3 eexists. split; [exact Hp|]. unfold AU_km. 
  replace (149597870.700 / 149597870.700) with 1 by lra.
  replace (0 / 149597870.700) with 0 by lra. lra.
Qed.

Lemma ex_magnitude_345 : magnitude (Fin 3, Fin 4, Fin 0) = Fin 5.
Proof.
  rewrite magnitude_Fin. f_equal.
  replace (3 * 3 + 4 * 4 + 0 * 0) with (5 * 5) by lra.
  apply sqrt_square. lra.
Qed.

End MagnitudeExample.

Lemma frame_conversions_preserve_magnitude_witness :
  (exists d' bx' by' bz',
      Convert.convert_GSE_to_GSM ex_E (SatData.mkWorld ex_field []) =
        (Ok tt, SatData.mkWorld d' [mkLog INFO "Converting GSE magn. values to GSM" []]) /\
      SatData.__getitem__ d' "bx" = Ok bx' /\ SatData.__getitem__ d' "by" = Ok by' /\
      SatData.__getitem__ d' "bz" = Ok bz' /\
      magnitude (sample_at bx' by' bz' 0) = Fin 5) /\
  (exists d' bx' by' bz',
      Convert.convert_RTN_to_GSE ex_E [] [] (SatData.mkWorld ex_field []) =
        (Ok tt, SatData.mkWorld d' [mkLog INFO "Converting RTN magn. values to GSE" []]) /\
      SatData.__getitem__ d' "bx" = Ok bx' /\ SatData.__getitem__ d' "by" = Ok by' /\
      SatData.__getitem__ d' "bz" = Ok bz' /\
      magnitude (sample_at bx' by' bz' 1) = Fin 5).
Proof.
  destruct (frame_conversions_preserve_magnitude ex_E ex_field [] [730000; 730001]
              "GSE" ex_field_wf eq_refl eq_refl) as [Hgsm Hrtn].
  split.
  - destruct (Hgsm [3; 3] [4; 4] [0; 0] eq_refl eq_refl eq_refl ex_field_dates)
      as (d' & bx' & by' & bz' & Hrun & Gx & Gy & Gz & Hmag).
    exists d', bx', by', bz'. repeat (split; [assumption|]).
    rewrite (Hmag 0%nat) by (apply Nat.ltb_lt; reflexivity). apply ex_magnitude_345.
  - destruct (Hrtn [] [] [3; 3] [4; 4] [0; 0] eq_refl eq_refl eq_refl)
      as (d' & bx' & by' & bz' & Hrun & Gx & Gy & Gz & Hmag).
    + intros (_ & _ & Hnone). discriminate Hnone.
    + exact ex_field_positions.
    + exists d', bx', by', bz'. repeat (split; [assumption|]).
      rewrite (Hmag 1%nat) by (apply Nat.ltb_lt; reflexivity). apply ex_magnitude_345.
Defined.

(* ===================================================================== *)
(** ** The reference-frame label after a conversion (C4) *)
(* ===================================================================== *)

Section ReferenceFrame.

Import SatData Convert.

(** C4 on the code.  [convert_RTN_to_GSE] stores the converted components
    and appends "-GSE" to the label.  [convert_GSE_to_GSM] stores the
    converted components too, but the header is the same after the run as
    before: the string returned by [replace('GSE', 'GSM')] is dropped, so a
    container labelled "GSE" is still labelled "GSE", where the replacement
    gives "GSM". *)
Theorem convert_GSE_to_GSM_keeps_old_frame_label :
  forall (E : externals) (d : SatData.t) (lg : list log_record)
         (ts : list R) (rf : string),
    wf d ->
    __getitem__ d "time" = Ok (map Fin ts) ->
    h_item "ReferenceFrame" (h d) = Ok (HStr rf) ->
    (forall bxs bys bzs : list R,
        __getitem__ d "bx" = Ok (map Fin bxs) ->
        __getitem__ d "by" = Ok (map Fin bys) ->
        __getitem__ d "bz" = Ok (map Fin bzs) ->
        (forall t, In t ts -> 2400000.5 <= julian_date E t <= 2500000.5) ->
        exists d',
          convert_GSE_to_GSM E (mkWorld d lg) =
            (Ok tt, mkWorld d' (lg ++ [mkLog INFO "Converting GSE magn. values to GSM" []])%list) /\
          h d' = h d /\
          h_item "ReferenceFrame" (h d') = Ok (HStr rf)) /\
    (forall (pos_obj : list array) (pos_tnum : array) (brs bts bns : list R),
        __getitem__ d "br" = Ok (map Fin brs) ->
        __getitem__ d "bt" = Ok (map Fin bts) ->
        __getitem__ d "bn" = Ok (map Fin bns) ->
        ~ (pos_obj = [] /\ pos_tnum = [] /\ pos d = None) ->
        (forall i, (i < __len__ d)%nat ->
           exists x y z, rtn_position d pos_obj pos_tnum i = Ok (Fin x, Fin y, Fin z) /\
                         0 < x * x + y * y) ->
        exists d',
          convert_RTN_to_GSE E pos_obj pos_tnum (mkWorld d lg) =
            (Ok tt, mkWorld d' (lg ++ [mkLog INFO "Converting RTN magn. values to GSE" []])%list) /\
          h_item "ReferenceFrame" (h d') = Ok (HStr (rf ++ "-GSE"))) /\
    replace "GSE" "GSM" "GSE" = "GSM"%string.
Proof.
  intros E d lg ts rf Hwf Ht Hrf. split; [|split; [|reflexivity]].
  - intros bxs bys bzs Hbx Hby Hbz Hjd.
    destruct (convert_GSE_to_GSM_run E d lg ts bxs bys bzs rf Hwf Ht Hbx Hby Hbz Hjd Hrf)
      as (d' & bx' & by' & bz' & Hrun & _ & _ & _ & Hh & _).
    exists d'. split; [exact Hrun|]. split; [exact Hh|]. rewrite Hh. exact Hrf.
  - intros pos_obj pos_tnum brs bts bns Hbr Hbt Hbn Hguard Hposn.
    destruct (convert_RTN_to_GSE_run E d lg pos_obj pos_tnum ts brs bts bns _
                Hwf Ht Hbr Hbt Hbn Hguard Hposn (append_reference_frame_str _ _ Hrf))
      as (d' & bx' & by' & bz' & Hrun & _ & _ & _ & Hh & _).
    exists d'. split; [exact Hrun|]. rewrite Hh. apply h_item_set_same.
Qed.

End ReferenceFrame.

Lemma convert_GSE_to_GSM_keeps_old_frame_label_witness :
  (exists d',
      Convert.convert_GSE_to_GSM ex_E (SatData.mkWorld ex_field []) =
        (Ok tt, SatData.mkWorld d' [mkLog INFO "Converting GSE magn. values to GSM" []]) /\
      h_item "ReferenceFrame" (SatData.h d') = Ok (HStr "GSE")) /\
  (exists d',
      Convert.convert_RTN_to_GSE ex_E [] [] (SatData.mkWorld ex_field []) =
        (Ok tt, SatData.mkWorld d' [mkLog INFO "Converting RTN magn. values to GSE" []]) /\
      h_item "ReferenceFrame" (SatData.h d') = Ok (HStr "GSE-GSE")).
Proof.
  destruct (convert_GSE_to_GSM_keeps_old_frame_label ex_E ex_field []
              [730000; 730001] "GSE" ex_field_wf eq_refl eq_refl)
    as (Hgsm & Hrtn & _).
  split.
  - destruct (Hgsm [3; 3] [4; 4] [0; 0] eq_refl eq_refl eq_refl ex_field_dates)
      as (d' & Hrun & _ & Hlabel).
    exists d'. split; assumption.
  - destruct (Hrtn [] [] [3; 3] [4; 4] [0; 0] eq_refl eq_refl eq_refl)
      as (d' & Hrun & Hlabel).
    + intros (_ & _ & Hnone). discriminate Hnone.
    + exact ex_field_positions.
    + exists d'. split; assumption.
Defined.

Lemma shift_wind_to_L1_fails_without_positions_witness :
  L1.shift_wind_to_L1 ex_E (SatData.mkWorld ex_d []) =
  (Raise (AttributeError "'NoneType' object has no attribute 'h'"),
   SatData.mkWorld ex_d []).
Proof.
  exact (proj1 (shift_wind_to_L1_fails_without_positions ex_E ex_d [] [0; 1]
                  eq_refl eq_refl)).
Defined.

(* ===================================================================== *)
(** ** The constructor: validation and what it stores *)
(* ===================================================================== *)

Section ConstructorChecks.

Import SatData.

Lemma check_keys_all_default (ks : list string) :
  (forall k, In k ks -> mem k default_keys = true) -> check_keys ks = Ok tt.
Proof.
  induction ks as [|k ks IH]; intro H; [reflexivity|].
  cbn [check_keys]. rewrite (H k (or_introl eq_refl)). cbn [negb].
  apply IH. intros k' Hk'. apply H. right; exact Hk'.
Qed.

Lemma check_keys_first_unknown (pre post : list string) (k : string) :
  (forall k', In k' pre -> mem k' default_keys = true) ->
  mem k default_keys = false ->
  check_keys (pre ++ k :: post) =
  Raise (NotImplementedError ("Key " ++ k ++ " not implemented in SatData class!")).
Proof.
  intros Hpre Hk. induction pre as [|p pre IH]; cbn [app check_keys].
  - rewrite Hk. reflexivity.
  - rewrite (Hpre p (or_introl eq_refl)). cbn [negb].
    apply IH. intros k' Hk'. apply Hpre. right; exact Hk'.
Qed.

Lemma d_get_mem (k : string) (d : dict) :
  mem k (map fst d) = match d_get k d with Some _ => true | None => false end.
Proof.
  induction d as [|[k' v] d IH]; [reflexivity|].
  cbn [map fst mem existsb d_get]. destruct (String.eqb k k'); [reflexivity|].
  exact IH.
Qed.

Lemma d_get_In (k : string) (d : dict) (a : array) :
  d_get k d = Some a -> In k (map fst d).
Proof.
  induction d as [|[k' v] d IH]; [discriminate|].
  cbn [d_get map fst]. destruct (String.eqb k k') eqn:E.
  - apply String.eqb_eq in E. subst. intros _. left; reflexivity.
  - intro H. right. apply IH; exact H.
Qed.

Lemma mem_In (k : string) (l : list string) : mem k l = true <-> In k l.
Proof.
  unfold mem. rewrite existsb_exists. split.
  - intros (x & Hx & E). apply String.eqb_eq in E. subst; exact Hx.
  - intro H. exists k. split; [exact H|apply String.eqb_refl].
Qed.

Lemma mem_filter (k : string) (p : string -> bool) (l : list string) :
  mem k (filter p l) = mem k l && p k.
Proof.
  destruct (mem k l) eqn:Hm; destruct (p k) eqn:Hp; cbn [andb].
  - apply mem_filter_true; assumption.
  - destruct (mem k (filter p l)) eqn:Hf; [|reflexivity].
    apply mem_In, filter_In in Hf as [_ Hf]. congruence.
  - apply mem_filter_false; assumption.
  - apply mem_filter_false; assumption.
Qed.

Lemma mem_remove_first_other (k x : string) (l : list string) :
  k <> x -> mem k (remove_first x l) = mem k l.
Proof.
  intro Hne. induction l as [|y l IH]; [reflexivity|].
  cbn [remove_first]. destruct (String.eqb x y) eqn:E.
  - apply String.eqb_eq in E. subst y. cbn [mem existsb].
    replace (String.eqb k x) with false; [reflexivity|].
    symmetry. apply String.eqb_neq. exact Hne.
  - cbn [mem existsb]. f_equal. exact IH.
Qed.

Lemma nth_error_map_index_of {B : Type} (f : string -> B) (k : string)
      (l : list string) :
  mem k l = true -> nth_error (map f l) (index_of k l) = Some (f k).
Proof.
  induction l as [|x l IH]; [discriminate|].
  cbn [mem existsb index_of map]. destruct (String.eqb k x) eqn:E.
  - apply String.eqb_eq in E. subst. reflexivity.
  - cbn [orb nth_error]. exact IH.
Qed.

Lemma np_asarray2_same_length (rows : list array) (n : nat) :
  (forall r, In r rows -> List.length r = n) -> np_asarray2 rows = Ok rows.
Proof.
  intro H. unfold np_asarray2. destruct rows as [|r0 rest]; [reflexivity|].
  replace (forallb _ (r0 :: rest)) with true; [reflexivity|].
  symmetry. apply forallb_forall. intros r Hr. apply Nat.eqb_eq.
  rewrite (H r Hr), (H r0 (or_introl eq_refl)). reflexivity.
Qed.

(** The rows the constructor builds, one per default key. *)
Lemma init_rows (input_dict : dict) (n : nat) :
  map (fun x => if mem x (filter (fun x => mem x (map fst input_dict)) default_keys)
                then match d_get x input_dict with
                     | Some a => a
                     | None => []
                     end
                else np_zeros n) default_keys
  = map (fun x => match d_get x input_dict with
                  | Some a => a
                  | None => np_zeros n
                  end) default_keys.
Proof.
  apply map_ext_in. intros x Hx. rewrite mem_filter.
  replace (mem x default_keys) with true by (symmetry; apply mem_In; exact Hx).
  cbn [andb]. rewrite d_get_mem. destruct (d_get x input_dict); reflexivity.
Qed.

(** A successful construction, spelled out. *)
Lemma init_ok (input_dict : dict) (src : option string) (hd : option header)
      (lg : list log_record) (time : array) :
  (forall k, In k (map fst input_dict) -> mem k default_keys = true) ->
  d_get "time" input_dict = Some time ->
  (forall k a, d_get k input_dict = Some a -> List.length a = List.length time) ->
  exists d,
    __init__ input_dict src hd lg =
      (Ok d, if Nat.eqb (List.length time) 0
             then (lg ++ [mkLog WARNING
                    "SatData.__init__: Inititating empty array! Is the data missing?" []])%list
             else lg) /\
    data d = map (fun x => match d_get x input_dict with
                           | Some a => a
                           | None => np_zeros (List.length time)
                           end) default_keys /\
    vars d = remove_first "time"
               (filter (fun x => mem x (map fst input_dict)) default_keys) /\
    h d = match hd with None => empty_header | Some h' => h' end /\
    pos d = None /\ source d = src.
Proof.
  intros Hkeys Htime Hlen.
  unfold __init__.
  unfold bind at 1. unfold lift at 1.
  rewrite (check_keys_all_default _ Hkeys). rewrite Htime.
  rewrite init_rows.
  set (rows := map _ default_keys).
  assert (Hrows : np_asarray2 rows = Ok rows).
  { apply (np_asarray2_same_length rows (List.length time)).
    intros r Hr. unfold rows in Hr. apply in_map_iff in Hr as (x & <- & _).
    destruct (d_get x input_dict) as [a|] eqn:E.
    - eapply Hlen; eauto.
    - unfold np_zeros. apply repeat_length. }
  destruct (Nat.eqb (List.length time) 0);
    unfold bind, logger, ret, lift; rewrite Hrows;
    eexists; (split; [reflexivity|]); repeat split.
Qed.

(** The two checks of the constructor.  It goes through the keys of the
    input dict in order and refuses the first one that is not a default
    key with a NotImplementedError naming it; this comes before the test
    for the time axis.  An input dict of default keys only but without
    ['time'] is refused with the exception that asks for the time
    variable.  In both cases nothing has been logged. *)
Theorem init_validates_keys :
  forall (input_dict : dict) (src : option string) (hd : option header)
         (lg : list log_record),
    (forall (pre post : dict) (k : string) (v : array),
        input_dict = (pre ++ (k, v) :: post)%list ->
        (forall q, In q pre -> mem (fst q) default_keys = true) ->
        mem k default_keys = false ->
        __init__ input_dict src hd lg =
        (Raise (NotImplementedError
                  ("Key " ++ k ++ " not implemented in SatData class!")), lg)) /\
    ((forall k, In k (map fst input_dict) -> mem k default_keys = true) ->
     d_get "time" input_dict = None ->
     __init__ input_dict src hd lg =
     (Raise (Exception "Time variable is required for SatData object!"), lg)).
Proof.
  intros input_dict src hd lg. split.
  - intros pre post k v -> Hpre Hk.
    unfold __init__. unfold bind at 1. unfold lift at 1.
    rewrite map_app. cbn [map fst].
    rewrite check_keys_first_unknown; [reflexivity| |exact Hk].
    intros k' Hk'. apply in_map_iff in Hk' as (q & <- & Hq). apply Hpre; exact Hq.
  - intros Hkeys Htime.
    unfold __init__. unfold bind at 1. unfold lift at 1.
    rewrite (check_keys_all_default _ Hkeys), Htime. reflexivity.
Qed.

(** What a successful construction lets one read back. *)
Lemma init_lookup (input_dict : dict) (src : option string) (hd : option header)
      (lg : list log_record) (time : array) :
  (forall k, In k (map fst input_dict) -> mem k default_keys = true) ->
  d_get "time" input_dict = Some time ->
  (forall k a, d_get k input_dict = Some a -> List.length a = List.length time) ->
  exists d,
    __init__ input_dict src hd lg =
      (Ok d, if Nat.eqb (List.length time) 0
             then (lg ++ [mkLog WARNING
                    "SatData.__init__: Inititating empty array! Is the data missing?" []])%list
             else lg) /\
    wf d /\ __len__ d = List.length time /\
    (forall k a, d_get k input_dict = Some a -> __getitem__ d k = Ok a) /\
    (forall k, mem k default_keys = true -> d_get k input_dict = None ->
       nth (index_of k default_keys) (data d) [] = np_zeros (List.length time) /\
       __getitem__ d k =
         Raise (Exception ("SatData object does not contain data under the key '"
                             ++ k ++ "'!"))) /\
    vars d = remove_first "time"
               (filter (fun x => mem x (map fst input_dict)) default_keys) /\
    h d = match hd with None => empty_header | Some h' => h' end /\
    pos d = None /\ source d = src.
Proof.
  intros Hkeys Htime Hlen.
  destruct (init_ok input_dict src hd lg time Hkeys Htime Hlen)
    as (d & Hrun & Hdata & Hvars & Hh & Hpos & Hsrc).
  exists d. split; [exact Hrun|].
  destruct (init_wf _ _ _ _ _ _ Hrun) as (Hwf & _ & _).
  assert (Hrow : forall k, mem k default_keys = true ->
            nth_error (data d) (index_of k default_keys)
            = Some (match d_get k input_dict with
                    | Some a => a
                    | None => np_zeros (List.length time)
                    end)).
  { intros k Hk. rewrite Hdata.
    apply (nth_error_map_index_of
             (fun x => match d_get x input_dict with
                       | Some a => a
                       | None => np_zeros (List.length time)
                       end) k default_keys Hk). }
  split; [exact Hwf|]. split.
  { unfold __len__. rewrite Hdata. cbn [default_keys map nth]. rewrite Htime.
    reflexivity. }
  split.
  - intros k a Hka.
    assert (Hk : mem k default_keys = true)
      by (apply Hkeys; eapply d_get_In; eauto).
    unfold __getitem__. rewrite Hvars, mem_app.
    destruct (String.eqb k "time") eqn:Et.
    + apply String.eqb_eq in Et. subst k.
      replace (mem "time" ["time"%string]) with true by reflexivity.
      rewrite orb_true_r. apply item_nth_error.
      rewrite (Hrow _ Hk), Hka. reflexivity.
    + apply String.eqb_neq in Et.
      rewrite (mem_remove_first_other k "time" _ Et), mem_filter, Hk, d_get_mem, Hka.
      cbn [andb orb]. apply item_nth_error.
      rewrite (Hrow _ Hk), Hka. reflexivity.
  - split; [|auto].
    intros k Hk Hnone. split.
    + apply nth_error_nth. rewrite (Hrow _ Hk), Hnone. reflexivity.
    + unfold __getitem__. rewrite Hvars, mem_app.
      assert (Et : k <> "time"%string) by (intro; subst; congruence).
      rewrite (mem_remove_first_other k "time" _ Et), mem_filter, Hk, d_get_mem, Hnone.
      cbn [andb orb mem existsb].
      replace (String.eqb k "time") with false
        by (symmetry; apply String.eqb_neq; exact Et).
      reflexivity.
Qed.


(** Construction followed by lookup.  From default keys that include the
    time axis, with every array as long as the time array, the constructor
    returns a well-formed container of that length; every array that was
    passed in is read back unchanged under its key; a default key that was
    not passed in has a row of zeros in [data] but is not readable:
    [d[k]] raises.  An empty time array only adds a warning to the log. *)
Theorem init_then_getitem :
  forall (input_dict : dict) (src : option string) (hd : option header)
         (lg : list log_record) (time : array),
    (forall k, In k (map fst input_dict) -> mem k default_keys = true) ->
    d_get "time" input_dict = Some time ->
    (forall k a, d_get k input_dict = Some a -> List.length a = List.length time) ->
    exists d,
      __init__ input_dict src hd lg =
        (Ok d, if Nat.eqb (List.length time) 0
               then (lg ++ [mkLog WARNING
                      "SatData.__init__: Inititating empty array! Is the data missing?" []])%list
               else lg) /\
      wf d /\ __len__ d = List.length time /\
      (forall k a, d_get k input_dict = Some a -> __getitem__ d k = Ok a) /\
      (forall k, mem k default_keys = true -> d_get k input_dict = None ->
         nth (index_of k default_keys) (data d) [] = np_zeros (List.length time) /\
         __getitem__ d k =
           Raise (Exception ("SatData object does not contain data under the key '"
                               ++ k ++ "'!"))).
Proof.
  intros input_dict src hd lg time Hkeys Htime Hlen.
  destruct (init_lookup input_dict src hd lg time Hkeys Htime Hlen)
    as (d & Hrun & Hwf & Hl & Hget & Hmiss & _).
  exists d. split; [exact Hrun|]. split; [exact Hwf|]. split; [exact Hl|].
  split; [exact Hget|exact Hmiss].
Qed.

End ConstructorChecks.

Lemma init_validates_keys_witness :
  SatData.__init__ [("time", [Fin 0]); ("flux", [Fin 1])]%string None None [] =
    (Raise (NotImplementedError "Key flux not implemented in SatData class!"), []) /\
  SatData.__init__ [("bx", [Fin 3; Fin 3])]%string None None [] =
    (Raise (Exception "Time variable is required for SatData object!"), []).
Proof.
  split.
  - destruct (init_validates_keys [("time", [Fin 0]); ("flux", [Fin 1])]%string
                None None []) as [H _].
    apply (H [("time", [Fin 0])]%string [] "flux"%string [Fin 1]).
    + reflexivity.
    + intros q [<-|[]]. reflexivity.
    + reflexivity.
  - destruct (init_validates_keys [("bx", [Fin 3; Fin 3])]%string None None [])
      as [_ H].
    apply H.
    + intros k [<-|[]]. reflexivity.
    + reflexivity.
Defined.

Lemma init_then_getitem_witness :
  exists d,
    SatData.__init__ ex_dict None None [] = (Ok d, []) /\
    wf d /\ SatData.__len__ d = 2%nat /\
    SatData.__getitem__ d "bx" = Ok [Fin 3; Fin 3] /\
    SatData.__getitem__ d "by" =
      Raise (Exception "SatData object does not contain data under the key 'by'!").
Proof.
  destruct (init_then_getitem ex_dict None None [] [Fin 0; Fin 1])
    as (d & Hrun & Hwf & Hlen & Hget & Hmiss).
  - intros k [<-|[<-|[]]]; reflexivity.
  - reflexivity.
  - intros k a. unfold ex_dict. cbn [SatData.d_get].
    destruct (String.eqb k "time"); [intros [= <-]; reflexivity|].
    destruct (String.eqb k "bx"); [intros [= <-]; reflexivity|discriminate].
  - exists d. split; [exact Hrun|]. split; [exact Hwf|]. split; [exact Hlen|].
    split; [apply Hget; reflexivity|].
    apply (Hmiss "by"%string); reflexivity.
Defined.

(* ===================================================================== *)
(** ** Assignment and lookup by key *)
(* ===================================================================== *)

Section KeyAccess.

Import SatData.

(** The array that [row[...] = value] leaves in a row of length [n]. *)
Lemma assign_row_stored (row value : array) (n : nat) :
  List.length row = n ->
  List.length value = n \/ List.length value = 1%nat ->
  assign_row row value =
  Ok (if Nat.eqb (List.length value) n then value
      else repeat (nth 0 value NaN) n).
Proof.
  intros Hrow Hv. unfold assign_row. rewrite Hrow.
  destruct (Nat.eqb (List.length value) n) eqn:E; [reflexivity|].
  destruct Hv as [Hv|Hv]; [rewrite Hv, Nat.eqb_refl in E; discriminate|].
  destruct value as [|x [|y value]]; try discriminate. reflexivity.
Qed.

Lemma getitem_Ok_default (d : SatData.t) (u : string) (row : array) :
  wf d -> __getitem__ d u = Ok row -> mem u default_keys = true.
Proof.
  intros [H18 _] Hg. unfold __getitem__ in Hg.
  destruct (mem u _); [|discriminate].
  apply item_Ok_inv in Hg.
  apply index_of_lt_mem.
  assert (Hlt : (index_of u default_keys < List.length (data d))%nat)
    by (apply nth_error_Some; congruence).
  rewrite H18 in Hlt. exact Hlt.
Qed.

(** Assignment followed by lookup.  On a well-formed container, storing
    under a default key an array of the container's length (or of one
    element, which is repeated over the row) succeeds, the key then reads
    back what was stored, every other readable key reads as before, the
    key is active afterwards and no other key changes its status; length,
    header and positions stay. *)
Theorem setitem_then_getitem :
  forall (d : SatData.t) (lg : list log_record) (var : string) (v : array),
    wf d ->
    mem var default_keys = true ->
    List.length v = __len__ d \/ List.length v = 1%nat ->
    exists d',
      __setitem__ var v (mkWorld d lg) = (Ok tt, mkWorld d' lg) /\
      __getitem__ d' var =
        Ok (if Nat.eqb (List.length v) (__len__ d) then v
            else repeat (nth 0 v NaN) (__len__ d)) /\
      (forall u row, u <> var -> __getitem__ d u = Ok row ->
                     __getitem__ d' u = Ok row) /\
      mem var (vars d') = true /\
      (vars d' = vars d \/ vars d' = (vars d ++ [var])%list) /\
      wf d' /\ __len__ d' = __len__ d /\ h d' = h d /\ pos d' = pos d.
Proof.
  intros d lg var v Hwf Hk Hv.
  set (stored := if Nat.eqb (List.length v) (__len__ d) then v
                 else repeat (nth 0 v NaN) (__len__ d)).
  assert (Hs : List.length stored = __len__ d).
  { unfold stored. destruct (Nat.eqb _ _) eqn:E.
    - apply Nat.eqb_eq; exact E.
    - apply repeat_length. }
  destruct (wf_row d _ Hwf (index_of_default_keys_lt var Hk)) as (row & Hrow & Hl).
  assert (Hst : store_row d (index_of var default_keys) v
                = store_row d (index_of var default_keys) stored).
  { unfold store_row. rewrite (item_nth_error _ _ _ Hrow). cbn [rbind].
    rewrite (assign_row_stored row v (__len__ d) Hl Hv).
    rewrite (assign_row_same_length row stored) by congruence. reflexivity. }
  destruct (setitem_ok d lg var stored Hwf Hk Hs)
    as (d' & Hrun & Hdata & Hm & Hsub & Hvars & Hh & Hpos & Hwf' & Hlen).
  exists d'. split.
  { rewrite <- Hrun. unfold __setitem__, bind, get_self, lift. cbn [self].
    rewrite Hst. reflexivity. }
  split.
  { eapply getitem_after_set; eauto.
    destruct Hwf as [-> _]. apply index_of_default_keys_lt; exact Hk. }
  split.
  { intros u row' Hne Hg.
    apply (getitem_other_set d d' var u stored row'); auto.
    exact (getitem_Ok_default d u row' Hwf Hg). }
  auto 10.
Qed.

(** A refused assignment leaves the container as it was: a key that is
    neither active nor a default key raises the missing-key exception; an
    array that is neither as long as the container nor of one element
    raises numpy's broadcast error, before the key is activated. *)
Theorem setitem_refusal_changes_nothing :
  forall (d : SatData.t) (lg : list log_record) (var : string) (v : array),
    (mem var (vars d) = false -> mem var default_keys = false ->
     __setitem__ var v (mkWorld d lg) =
     (Raise (Exception ("SatData object does not contain the key '" ++ var ++ "'!")),
      mkWorld d lg)) /\
    (wf d -> mem var default_keys = true ->
     List.length v <> __len__ d -> List.length v <> 1%nat ->
     __setitem__ var v (mkWorld d lg) =
     (Raise (ValueError "could not broadcast input array"), mkWorld d lg)).
Proof.
  intros d lg var v. split.
  - intros Hv Hk. unfold __setitem__, bind, get_self. cbn [self].
    rewrite Hv, Hk. reflexivity.
  - intros Hwf Hk Hn H1.
    destruct (wf_row d _ Hwf (index_of_default_keys_lt var Hk)) as (row & Hrow & Hl).
    assert (Hst : store_row d (index_of var default_keys) v
                  = Raise (ValueError "could not broadcast input array")).
    { unfold store_row. rewrite (item_nth_error _ _ _ Hrow). cbn [rbind].
      unfold assign_row. rewrite Hl.
      replace (Nat.eqb (List.length v) (__len__ d)) with false
        by (symmetry; apply Nat.eqb_neq; exact Hn).
      destruct v as [|x [|y v]]; try reflexivity. exfalso; apply H1; reflexivity. }
    unfold __setitem__, bind, get_self, lift. cbn [self].
    rewrite Hk, Hst. destruct (mem var (vars d)); reflexivity.
Qed.

End KeyAccess.

Lemma setitem_then_getitem_witness :
  exists d',
    SatData.__setitem__ "by" [Fin 7] (SatData.mkWorld ex_d []) =
      (Ok tt, SatData.mkWorld d' []) /\
    SatData.__getitem__ d' "by" = Ok [Fin 7; Fin 7] /\
    SatData.vars d' = ["bx"; "by"]%string.
Proof.
  destruct (setitem_then_getitem ex_d [] "by" [Fin 7] ex_d_wf eq_refl
              (or_intror eq_refl))
    as (d' & Hrun & Hget & _ & _ & Hvars & _).
  exists d'. split; [exact Hrun|]. split; [exact Hget|].
  destruct Hvars as [Hvars|Hvars]; [|exact Hvars].
  exfalso. revert Hrun. unfold SatData.__setitem__, bind, SatData.get_self, lift,
    SatData.put_self. cbn. intros [= <-]. discriminate Hvars.
Defined.

Lemma setitem_refusal_changes_nothing_witness :
  SatData.__setitem__ "flux" [Fin 1; Fin 2] (SatData.mkWorld ex_d []) =
    (Raise (Exception "SatData object does not contain the key 'flux'!"),
     SatData.mkWorld ex_d []) /\
  SatData.__setitem__ "by" [Fin 1; Fin 2; Fin 3] (SatData.mkWorld ex_d []) =
    (Raise (ValueError "could not broadcast input array"), SatData.mkWorld ex_d []).
Proof.
  split.
  - apply (setitem_refusal_changes_nothing ex_d [] "flux" [Fin 1; Fin 2]);
      reflexivity.
  - apply (setitem_refusal_changes_nothing ex_d [] "by" [Fin 1; Fin 2; Fin 3]).
    + exact ex_d_wf.
    + reflexivity.
    + cbn; lia.
    + cbn; lia.
Defined.

(* ===================================================================== *)
(** ** Cutting to a time range; the position at a time *)
(* ===================================================================== *)

Section Cutting.

Import SatData Access.

Lemma item_app_length {A : Type} (pre rest : list A) (x : A) :
  item (pre ++ x :: rest) (List.length pre) = Ok x.
Proof.
  apply item_nth_error. rewrite nth_error_app2 by lia.
  rewrite Nat.sub_diag. reflexivity.
Qed.

(** Picking the columns named by [np.where] of a mask on the time row is
    filtering the row by that mask. *)
Lemma columns_where (keep : npfloat -> bool) (time row pre : array) :
  List.length time = List.length row ->
  mapM (item (pre ++ row)) (where_from (map keep time) (List.length pre))
  = Ok (map snd (filter (fun p => keep (fst p)) (combine time row))).
Proof.
  revert row pre. induction time as [|t time IH]; intros row pre Hl.
  - reflexivity.
  - destruct row as [|x row]; [discriminate|].
    injection Hl as Hl.
    assert (Hrest := IH row (pre ++ [x])%list Hl).
    rewrite <- app_assoc, length_app, Nat.add_comm in Hrest.
    cbn [app List.length Nat.add] in Hrest.
    cbn [map where_from combine filter fst].
    destruct (keep t).
    + cbn [mapM]. rewrite item_app_length. cbn [rbind].
      rewrite Hrest. reflexivity.
    + exact Hrest.
Qed.

Lemma take_columns_kept (keep : npfloat -> bool) (time : array)
      (rows : list array) :
  (forall r, In r rows -> List.length r = List.length time) ->
  take_columns rows (where_from (map keep time) 0)
  = Ok (map (fun row => map snd (filter (fun p => keep (fst p))
                                         (combine time row))) rows).
Proof.
  intro H. unfold take_columns. apply mapM_ext_Ok.
  intros row Hr. apply (columns_where keep time row []).
  symmetry. apply H; exact Hr.
Qed.

Lemma kept_length (s e : option R) (time row : array) :
  List.length row = List.length time ->
  List.length (kept s e time row)
  = List.length (filter (in_range s e) time).
Proof.
  unfold kept. rewrite length_map. revert row.
  induction time as [|t time IH]; intros row Hl; [reflexivity|].
  destruct row as [|x row]; [discriminate|]. injection Hl as Hl.
  cbn [combine filter fst]. destruct (in_range s e t); cbn [List.length];
    rewrite (IH row Hl); reflexivity.
Qed.

Lemma kept_time (s e : option R) (time : array) :
  kept s e time time = filter (in_range s e) time.
Proof.
  unfold kept. induction time as [|t time IH]; [reflexivity|].
  cbn [combine filter fst]. destruct (in_range s e t); cbn [map snd];
    rewrite IH; reflexivity.
Qed.

Lemma kept_unbounded (time row : array) :
  List.length row = List.length time -> kept None None time row = row.
Proof.
  unfold kept, in_range. cbn [andb]. revert row.
  induction time as [|t time IH]; intros row Hl.
  - destruct row; [reflexivity|discriminate].
  - destruct row as [|x row]; [discriminate|]. injection Hl as Hl.
    cbn [combine filter map snd]. rewrite (IH row Hl). reflexivity.
Qed.

Lemma cut_to_run (keep : npfloat -> bool) (s e : option R) (d : SatData.t)
      (lg : list log_record) (time : array) :
  (forall t, keep t = in_range s e t) ->
  wf d -> nth_error (data d) 0 = Some time -> positions_match d ->
  cut_to keep (mkWorld d lg) = (Ok tt, mkWorld (cut_result s e time d) lg).
Proof.
  intros Hkeep Hwf Htime Hpos.
  assert (Hlt : List.length time = __len__ d)
    by (apply Hwf; eapply nth_error_In; eauto).
  assert (Hfun : forall row,
             map snd (filter (fun p => keep (fst p)) (combine time row))
             = kept s e time row).
  { intro row. unfold kept. f_equal. apply filter_ext. intro p. apply Hkeep. }
  unfold cut_to.
  unfold bind at 1. unfold get_self at 1. cbn [self].
  unfold bind at 1. unfold lift at 1. rewrite (item_nth_error _ _ _ Htime).
  unfold bind at 1. unfold lift at 1.
  rewrite (take_columns_kept keep time (data d))
    by (intros r Hr; rewrite Hlt; apply Hwf; exact Hr).
  rewrite (map_ext _ _ Hfun).
  unfold bind at 1. unfold put_self at 1. cbn [self logged].
  unfold cut_result.
  destruct (pos d) as [p|] eqn:Ep.
  - unfold bind at 1. unfold lift at 1.
    rewrite (take_columns_kept keep time (PositionData.positions p))
      by (intros r Hr; rewrite Hlt; apply (Hpos p Ep); exact Hr).
    rewrite (map_ext _ _ Hfun).
    unfold bind, get_self, put_self, set_pos, set_data. cbn. reflexivity.
  - unfold ret, set_data. rewrite Ep. reflexivity.
Qed.

(** [cut] keeps exactly the samples whose time stamp lies in the range
    (start inclusive, end exclusive; a NaN time stamp is dropped by either
    bound), in their order and in every row alike, so the rows stay
    aligned with the time axis; the attached positions are cut the same
    way.  The container stays well formed.  Header, active variables and
    the [state] array are not touched: [state] keeps its old length. *)
Theorem cut_keeps_samples_in_range :
  forall (d : SatData.t) (lg : list log_record) (starttime endtime : option R)
         (time : array),
    wf d ->
    nth_error (data d) 0 = Some time ->
    positions_match d ->
    exists d',
      cut starttime endtime (mkWorld d lg) = (Ok tt, mkWorld d' lg) /\
      data d' = map (kept starttime endtime time) (data d) /\
      nth_error (data d') 0 = Some (filter (in_range starttime endtime) time) /\
      wf d' /\ positions_match d' /\
      (forall p, pos d = Some p ->
         exists p', pos d' = Some p' /\
           PositionData.positions p'
           = map (kept starttime endtime time) (PositionData.positions p)) /\
      vars d' = vars d /\ h d' = h d /\ state d' = state d.
Proof.
  intros d lg s e time Hwf Htime Hpos.
  assert (Hlt : List.length time = __len__ d)
    by (apply Hwf; eapply nth_error_In; eauto).
  assert (Hrun : cut s e (mkWorld d lg)
                 = (Ok tt, mkWorld (cut_result s e time d) lg)).
  { destruct s as [s|], e as [e|]; cbn [cut].
    - apply cut_to_run; auto.
    - apply cut_to_run; auto. intro t. unfold in_range. rewrite andb_true_r.
      reflexivity.
    - apply cut_to_run; auto.
    - unfold ret. f_equal. destruct d as [dat st src hd po vs].
      unfold cut_result. cbn [data state source h pos vars] in *.
      assert (Hdat : map (kept None None time) dat = dat).
      { rewrite <- (map_id dat) at 2. apply map_ext_in. intros r Hr.
        apply kept_unbounded. rewrite Hlt. apply Hwf. exact Hr. }
      assert (Hpo : match po with
                    | Some p => Some (PositionData.mk
                                        (map (kept None None time)
                                             (PositionData.positions p))
                                        (PositionData.h p) (PositionData.coors p))
                    | None => None
                    end = po).
      { destruct po as [[prows ph pc]|]; [|reflexivity].
        cbn [PositionData.positions PositionData.h PositionData.coors].
        do 2 f_equal. rewrite <- (map_id prows) at 2. apply map_ext_in.
        intros r Hr. apply kept_unbounded. rewrite Hlt.
        apply (Hpos _ eq_refl). exact Hr. }
      rewrite Hdat, Hpo. reflexivity. }
  assert (Hrow0 : nth_error (data (cut_result s e time d)) 0
                  = Some (filter (in_range s e) time)).
  { cbn [cut_result data]. rewrite nth_error_map, Htime. cbn [option_map].
    rewrite kept_time. reflexivity. }
  assert (Hlen' : __len__ (cut_result s e time d)
                  = List.length (filter (in_range s e) time)).
  { unfold __len__. f_equal. apply nth_error_nth. exact Hrow0. }
  exists (cut_result s e time d).
  split; [exact Hrun|]. split; [reflexivity|]. split; [exact Hrow0|].
  split.
  { split.
    - cbn [cut_result data]. rewrite length_map. apply Hwf.
    - intros r Hr. rewrite Hlen'. cbn [cut_result data] in Hr.
      apply in_map_iff in Hr as (r0 & <- & Hr0).
      apply kept_length. rewrite Hlt. apply Hwf; exact Hr0. }
  split.
  { intros p' Hp' r Hr. rewrite Hlen'. cbn [cut_result pos] in Hp'.
    destruct (pos d) as [p|] eqn:Ep; [|discriminate].
    injection Hp' as <-. cbn [PositionData.positions] in Hr.
    apply in_map_iff in Hr as (r0 & <- & Hr0).
    apply kept_length. rewrite Hlt. apply (Hpos p Ep); exact Hr0. }
  split.
  { intros p Hp. cbn [cut_result pos]. rewrite Hp.
    eexists; split; reflexivity. }
  repeat split.
Qed.

Lemma where_from_first (f : npfloat -> bool) (pre post : array) (t : npfloat)
      (i : nat) :
  (forall x, In x pre -> f x = false) -> f t = true ->
  exists rest, where_from (map f (pre ++ t :: post)) i
               = (i + List.length pre)%nat :: rest.
Proof.
  revert i. induction pre as [|x pre IH]; intros i Hpre Ht.
  - cbn [app map where_from]. rewrite Ht. rewrite Nat.add_0_r.
    eexists; reflexivity.
  - cbn [app map where_from]. rewrite (Hpre x (or_introl eq_refl)).
    destruct (IH (S i)) as [rest Hrest];
      [intros y Hy; apply Hpre; right; exact Hy|exact Ht|].
    exists rest. rewrite Hrest. cbn [List.length]. f_equal. lia.
Qed.

Lemma where_from_none (f : npfloat -> bool) (a : array) (i : nat) :
  (forall x, In x a -> f x = false) -> where_from (map f a) i = [].
Proof.
  revert i. induction a as [|x a IH]; intros i H; [reflexivity|].
  cbn [map where_from]. rewrite (H x (or_introl eq_refl)).
  apply IH. intros y Hy. apply H. right; exact Hy.
Qed.

(** [get_position] needs position data and says so otherwise.  With
    position data it returns the position column of the first sample whose
    time stamp is strictly later than the given time (the earlier samples
    need not be sorted), and raises an IndexError when no sample is later
    (a NaN time stamp never counts as later). *)
Theorem get_position_first_later_sample :
  forall (d : SatData.t) (timestamp : R),
    (pos d = None ->
     get_position d timestamp =
     Raise (Exception
       "Load position data (SatData.load_position_data()) before calling get_position()!")) /\
    (forall (p : PositionData.t) (pre post : array) (t : npfloat),
       pos d = Some p ->
       nth_error (data d) 0 = Some (pre ++ t :: post)%list ->
       (forall x, In x pre -> flt (Fin timestamp) x = false) ->
       flt (Fin timestamp) t = true ->
       get_position d timestamp = PositionData.column p (List.length pre)) /\
    (forall (p : PositionData.t) (time : array),
       pos d = Some p ->
       nth_error (data d) 0 = Some time ->
       (forall x, In x time -> flt (Fin timestamp) x = false) ->
       get_position d timestamp =
       Raise (IndexError "index 0 is out of bounds for axis 0 with size 0")).
Proof.
  intros d ts. split; [|split].
  - intro Hp. unfold get_position. rewrite Hp. reflexivity.
  - intros p pre post t Hp Htime Hpre Ht.
    unfold get_position. rewrite Hp, (item_nth_error _ _ _ Htime). cbn [rbind].
    unfold first_index_where.
    destruct (where_from_first (fun t => flt (Fin ts) t) pre post t 0 Hpre Ht)
      as [rest ->].
    reflexivity.
  - intros p time Hp Htime Hall.
    unfold get_position. rewrite Hp, (item_nth_error _ _ _ Htime). cbn [rbind].
    unfold first_index_where. rewrite where_from_none by exact Hall.
    reflexivity.
Qed.

End Cutting.

Section CuttingExample.

Import SatData.

Lemma flt_Fin_false (a b : R) : b <= a -> flt (Fin a) (Fin b) = false.
Proof. intro H. simpl. destruct (Rlt_dec a b); [lra|reflexivity]. Qed.

Lemma fle_Fin_true (a b : R) : a <= b -> fle (Fin a) (Fin b) = true.
Proof. intro H. simpl. destruct (Rle_dec a b); [reflexivity|contradiction]. Qed.

Lemma fle_Fin_false (a b : R) : b < a -> fle (Fin a) (Fin b) = false.
Proof. intro H. simpl. destruct (Rle_dec a b); [lra|reflexivity]. Qed.

Lemma ex_monitor_positions : positions_match ex_monitor.
Proof.
  intros p [= <-] r Hr. simpl in Hr.
  repeat (destruct Hr as [<-|Hr]; [reflexivity|]). destruct Hr.
Qed.

Lemma ex_monitor_cut_times :
  filter (in_range (Some 1) None) [Fin 0; Fin 1] = [Fin 1].
Proof.
  unfold in_range. cbn [filter]. rewrite !andb_true_r.
  rewrite (fle_Fin_false 1 0) by lra. rewrite (fle_Fin_true 1 1) by lra.
  reflexivity.
Qed.

End CuttingExample.

Lemma cut_keeps_samples_in_range_witness :
  exists d',
    Access.cut (Some 1) None (SatData.mkWorld ex_monitor []) =
      (Ok tt, SatData.mkWorld d' []) /\
    nth_error (SatData.data d') 0 = Some [Fin 1] /\
    wf d' /\ SatData.state d' = [None; None].
Proof.
  destruct (cut_keeps_samples_in_range ex_monitor [] (Some 1) None [Fin 0; Fin 1]
              ex_monitor_wf eq_refl ex_monitor_positions)
    as (d' & Hrun & _ & Htime & Hwf & _ & _ & _ & _ & Hstate).
  exists d'. split; [exact Hrun|]. split.
  - rewrite Htime, ex_monitor_cut_times. reflexivity.
  - split; [exact Hwf|exact Hstate].
Defined.

Lemma get_position_first_later_sample_witness :
  Access.get_position ex_monitor (1 / 2) = Ok [Fin (2 * ex_l1); Fin 0; Fin 0] /\
  Access.get_position ex_monitor 1 =
    Raise (IndexError "index 0 is out of bounds for axis 0 with size 0") /\
  Access.get_position ex_d 0 =
    Raise (Exception
      "Load position data (SatData.load_position_data()) before calling get_position()!").
Proof.
  split; [|split].
  - destruct (get_position_first_later_sample ex_monitor (1 / 2)) as (_ & H & _).
    rewrite (H ex_pos [Fin 0] [] (Fin 1) eq_refl eq_refl).
    + reflexivity.
    + intros x [<-|[]]. apply flt_Fin_false. lra.
    + apply flt_Fin_true. lra.
  - destruct (get_position_first_later_sample ex_monitor 1) as (_ & _ & H).
    apply (H ex_pos [Fin 0; Fin 1] eq_refl eq_refl).
    intros x [<-|[<-|[]]]; apply flt_Fin_false; lra.
  - destruct (get_position_first_later_sample ex_d 0) as (H & _ & _).
    apply H. reflexivity.
Defined.

(* ===================================================================== *)
(** ** Spherical and Cartesian coordinates *)
(* ===================================================================== *)

Section SphericalCoordinates.

Import Convert L1.

Lemma cart2sphere_Fin (x y z : R) :
  cart2sphere (Fin x) (Fin y) (Fin z) =
  (Fin (sqrt (x * x + y * y + z * z)),
   Fin (atan2 z (sqrt (x * x + y * y))),
   Fin (atan2 y x)).
Proof.
  unfold cart2sphere, fsquare. cbn [fmul fadd].
  rewrite !fsqrt_Fin_nonneg by nra. reflexivity.
Qed.

Lemma sqrt_one_plus_square (a b : R) :
  a <> 0 ->
  sqrt (1 + (b / a)²) = sqrt (a * a + b * b) / Rabs a.
Proof.
  intro Ha.
  assert (Hpos : 0 < Rabs a) by (apply Rabs_pos_lt; exact Ha).
  replace (1 + (b / a)²) with ((a * a + b * b) / (Rabs a * Rabs a)).
  - rewrite sqrt_div_alt by nra. rewrite sqrt_square by lra. reflexivity.
  - unfold Rsqr.
    replace (Rabs a * Rabs a) with (a * a)
      by (unfold Rabs; destruct (Rcase_abs a); ring).
    field. exact Ha.
Qed.

(** The polar angle computed by [arctan2] gives back the point. *)
Lemma atan2_polar (a b : R) :
  sqrt (a * a + b * b) * cos (atan2 b a) = a /\
  sqrt (a * a + b * b) * sin (atan2 b a) = b.
Proof.
  set (rho := sqrt (a * a + b * b)).
  assert (Hrho : 0 <= rho) by apply sqrt_pos.
  assert (Hrr : rho * rho = a * a + b * b) by (apply sqrt_sqrt; nra).
  unfold atan2.
  destruct (Rlt_dec 0 a) as [Hpos|Hnpos].
  - assert (Hr : 0 < rho) by (unfold rho; apply sqrt_lt_R0; nra).
    rewrite cos_atan, sin_atan, sqrt_one_plus_square by lra.
    fold rho. rewrite Rabs_right by lra.
    split; field; lra.
  - destruct (Rlt_dec a 0) as [Hneg|Hnneg].
    + assert (Hr : 0 < rho) by (unfold rho; apply sqrt_lt_R0; nra).
      destruct (Rlt_dec b 0).
      * rewrite cos_minus, sin_minus, cos_PI, sin_PI.
        rewrite cos_atan, sin_atan, sqrt_one_plus_square by lra.
        fold rho. rewrite Rabs_left by lra.
        split; field; lra.
      * rewrite neg_cos, neg_sin.
        rewrite cos_atan, sin_atan, sqrt_one_plus_square by lra.
        fold rho. rewrite Rabs_left by lra.
        split; field; lra.
    + assert (Ha : a = 0) by lra.
      assert (Hb : rho * rho = b * b) by (rewrite Hrr, Ha; ring).
      destruct (Rlt_dec 0 b).
      * rewrite cos_PI2, sin_PI2. split; [lra|]. nra.
      * destruct (Rlt_dec b 0).
        -- rewrite cos_neg, sin_neg, cos_PI2, sin_PI2. split; [lra|]. nra.
        -- rewrite cos_0, sin_0. split; [|lra].
           assert (b = 0) by lra. nra.
Qed.

(** Round trip.  [cart2sphere] returns (r, theta, phi) and [sphere2cart]
    takes (r, phi, theta); fed in that order, the spherical coordinates of
    a finite point give the point back (in real arithmetic), the origin
    and the points of the z axis included. *)
Theorem sphere2cart_inverts_cart2sphere :
  forall x y z : R,
    let '(r, theta, phi) := cart2sphere (Fin x) (Fin y) (Fin z) in
    sphere2cart r phi theta = (Fin x, Fin y, Fin z).
Proof.
  intros x y z. rewrite cart2sphere_Fin. unfold sphere2cart.
  cbn [fcos fsin fmul].
  set (s := sqrt (x * x + y * y)).
  assert (Hs : 0 <= s) by apply sqrt_pos.
  assert (Hss : s * s = x * x + y * y) by (apply sqrt_sqrt; nra).
  destruct (atan2_polar s z) as [Hc Hz].
  destruct (atan2_polar x y) as [Hx Hy].
  fold s in Hx, Hy.
  replace (s * s + z * z) with (x * x + y * y + z * z) in Hc, Hz by lra.
  rewrite Hc, Hz, Hx, Hy. reflexivity.
Qed.

(** What [cart2sphere] returns for a finite point: a distance that is not
    negative, a latitude between -pi/2 and pi/2 and a longitude in the
    half-open interval from -pi (excluded) to pi (included). *)
Theorem cart2sphere_ranges :
  forall x y z : R,
    exists r theta phi : R,
      cart2sphere (Fin x) (Fin y) (Fin z) = (Fin r, Fin theta, Fin phi) /\
      0 <= r /\
      - (PI / 2) <= theta <= PI / 2 /\
      - PI < phi <= PI.
Proof.
  intros x y z. rewrite cart2sphere_Fin.
  do 3 eexists. split; [reflexivity|].
  assert (Hpi := PI_RGT_0).
  split; [apply sqrt_pos|]. split.
  - set (s := sqrt (x * x + y * y)).
    assert (Hs : 0 <= s) by apply sqrt_pos.
    unfold atan2.
    destruct (Rlt_dec 0 s); [destruct (atan_bound (z / s)); lra|].
    destruct (Rlt_dec s 0); [lra|].
    destruct (Rlt_dec 0 z); [lra|]. destruct (Rlt_dec z 0); lra.
  - unfold atan2.
    destruct (Rlt_dec 0 x); [destruct (atan_bound (y / x)); lra|].
    destruct (Rlt_dec x 0) as [Hx|].
    + destruct (Rlt_dec y 0) as [Hy|Hy].
      * assert (H0 : 0 < y / x).
        { replace (y / x) with ((- y) / (- x)) by (field; lra).
          apply Rdiv_lt_0_compat; lra. }
        assert (Hat : atan 0 < atan (y / x)) by (apply atan_increasing; exact H0).
        rewrite atan_0 in Hat. destruct (atan_bound (y / x)). lra.
      * assert (H0 : y / x <= 0).
        { replace (y / x) with (- (y / (- x))) by (field; lra).
          assert (0 <= y / (- x)); [|lra].
          apply Rmult_le_pos; [lra|]. left. apply Rinv_0_lt_compat. lra. }
        assert (Hat : atan (y / x) <= atan 0).
        { destruct H0 as [H0|H0]; [left; apply atan_increasing; exact H0|].
          rewrite H0. lra. }
        rewrite atan_0 in Hat. destruct (atan_bound (y / x)). lra.
    + destruct (Rlt_dec 0 y); [lra|]. destruct (Rlt_dec y 0); lra.
Qed.

End SphericalCoordinates.

(* ===================================================================== *)
(** ** The analogue search: choosing the best window *)
(* ===================================================================== *)

Section BestWindow.

Import SatData Forecast.

Ltac order_cases :=
  repeat match goal with
         | |- context [Rlt_dec ?a ?b] => destruct (Rlt_dec a b)
         | H : context [Rlt_dec ?a ?b] |- _ => destruct (Rlt_dec a b)
         | |- context [Rle_dec ?a ?b] => destruct (Rle_dec a b)
         | H : context [Rle_dec ?a ?b] |- _ => destruct (Rle_dec a b)
         end; try congruence; try lra; auto.

Lemma flt_irrefl (x : npfloat) : flt x x = false.
Proof. destruct x; simpl; order_cases. Qed.

(** [x < b] and [not (y < b)] give [x < y], away from NaN. *)
Lemma flt_below (x y b : npfloat) :
  isnan y = false ->
  flt x b = true -> flt y b = false -> flt x y = true.
Proof. destruct x, y, b; simpl; intros; order_cases. Qed.

Lemma flt_not_below (x y b : npfloat) :
  isnan x = false -> isnan y = false -> isnan b = false ->
  flt x b = true -> flt y b = false -> flt y x = false.
Proof. destruct x, y, b; simpl; intros; order_cases. Qed.

Lemma fle_not_flt_eq (x y : npfloat) :
  isnan x = false -> isnan y = false ->
  fle x y = true -> flt x y = false -> x = y.
Proof.
  destruct x, y; simpl; intros; order_cases.
  f_equal. lra.
Qed.

Lemma argmin_from_nan_best (a : array) (i best : nat) :
  argmin_from a i best NaN = best.
Proof. destruct a; reflexivity. Qed.

(** The scan of [np.argmin] over values that are not NaN: the smallest
    value so far is kept, a later value replaces it only if it is strictly
    smaller. *)
Lemma argmin_from_scan (a pre : array) (best : nat) :
  (forall y, In y (pre ++ a) -> isnan y = false) ->
  (best < List.length pre)%nat ->
  (forall j, (j < List.length pre)%nat ->
             flt (nth j (pre ++ a) NaN) (nth best (pre ++ a) NaN) = false) ->
  (forall j, (j < best)%nat ->
             flt (nth best (pre ++ a) NaN) (nth j (pre ++ a) NaN) = true) ->
  let p := argmin_from a (List.length pre) best (nth best (pre ++ a) NaN) in
  (p < List.length (pre ++ a))%nat /\
  (forall j, (j < List.length (pre ++ a))%nat ->
             flt (nth j (pre ++ a) NaN) (nth p (pre ++ a) NaN) = false) /\
  (forall j, (j < p)%nat ->
             flt (nth p (pre ++ a) NaN) (nth j (pre ++ a) NaN) = true).
Proof.
  revert pre best. induction a as [|x a IH]; intros pre best Hnan Hb Hmin Hfirst.
  - cbn [argmin_from]. rewrite app_nil_r in *. auto.
  - set (l := (pre ++ x :: a)%list) in *.
    assert (Hl : l = ((pre ++ [x]) ++ a)%list)
      by (unfold l; rewrite <- app_assoc; reflexivity).
    assert (Hx : nth (List.length pre) l NaN = x)
      by (unfold l; rewrite app_nth2, Nat.sub_diag by lia; reflexivity).
    assert (Hnx : isnan x = false) by (apply Hnan; apply in_elt).
    assert (Hnth : forall j, (j < List.length l)%nat -> isnan (nth j l NaN) = false)
      by (intros j Hj; apply Hnan, nth_In; exact Hj).
    assert (Hll : (List.length pre < List.length l)%nat)
      by (unfold l; rewrite length_app; cbn [List.length]; lia).
    assert (Hnb : isnan (nth best l NaN) = false) by (apply Hnth; lia).
    cbn [argmin_from]. rewrite Hnb, Hnx. cbn [orb].
    assert (Hlen : List.length (pre ++ [x]) = S (List.length pre))
      by (rewrite length_app; cbn [List.length]; lia).
    destruct (flt x (nth best l NaN)) eqn:E.
    + specialize (IH (pre ++ [x])%list (List.length pre)).
      rewrite <- Hl, Hlen, Hx in IH. apply IH.
      * exact Hnan.
      * lia.
      * intros j Hj. destruct (Nat.eq_dec j (List.length pre)) as [->|Hne].
        -- rewrite Hx. apply flt_irrefl.
        -- apply (flt_not_below x (nth j l NaN) (nth best l NaN)); auto;
             try (apply Hnth; lia); apply Hmin; lia.
      * intros j Hj.
        apply (flt_below x (nth j l NaN) (nth best l NaN)); auto;
          try (apply Hnth; lia); apply Hmin; lia.
    + specialize (IH (pre ++ [x])%list best).
      rewrite <- Hl, Hlen in IH. apply IH.
      * exact Hnan.
      * lia.
      * intros j Hj. destruct (Nat.eq_dec j (List.length pre)) as [->|Hne].
        -- rewrite Hx. exact E.
        -- apply Hmin; lia.
      * exact Hfirst.
Qed.

Lemma argmin_from_first_nan (pre post : array) (i best : nat) (bestv : npfloat) :
  isnan bestv = false ->
  (forall y, In y pre -> isnan y = false) ->
  argmin_from (pre ++ NaN :: post) i best bestv = (i + List.length pre)%nat.
Proof.
  revert i best bestv. induction pre as [|x pre IH]; intros i best bestv Hb Hpre.
  - cbn [app argmin_from]. rewrite Hb. cbn [isnan orb].
    rewrite argmin_from_nan_best. cbn [List.length]. lia.
  - cbn [app argmin_from]. rewrite Hb.
    assert (Hx : isnan x = false) by (apply Hpre; left; reflexivity).
    rewrite Hx. cbn [orb List.length].
    destruct (flt x bestv); rewrite IH; auto; try lia;
      intros y Hy; apply Hpre; right; exact Hy.
Qed.

Lemma fold_left_fmin_NaN (l : array) : fold_left fmin l NaN = NaN.
Proof. induction l as [|x l IH]; [reflexivity|]. cbn [fold_left]. exact IH. Qed.

Lemma fold_left_fmin_In_NaN (l : array) (x : npfloat) :
  In NaN l -> fold_left fmin l x = NaN.
Proof.
  revert x. induction l as [|y l IH]; intros x H; [destruct H|].
  cbn [fold_left]. destruct H as [->|H].
  - replace (fmin x NaN) with NaN; [apply fold_left_fmin_NaN|].
    unfold fmin. destruct (isnan x) eqn:E; [|reflexivity].
    symmetry. apply isnan_true; exact E.
  - apply IH; exact H.
Qed.

Lemma filter_all_true {A : Type} (f : A -> bool) (l : list A) :
  (forall y, In y l -> f y = true) -> filter f l = l.
Proof.
  induction l as [|x l IH]; intro H; [reflexivity|].
  cbn [filter]. rewrite (H x (or_introl eq_refl)). f_equal.
  apply IH. intros y Hy. apply H. right; exact Hy.
Qed.

(** When no distance is NaN, [np.argmin] returns the first position of
    the smallest distance, and both [np.min] and [np.nanmin] return the
    distance found there: the reported minimum and the reported position
    belong together. *)
Theorem argmin_is_first_minimum :
  forall dist : array,
    dist <> [] ->
    (forall y, In y dist -> isnan y = false) ->
    exists p,
      np_argmin dist = Ok p /\
      (p < List.length dist)%nat /\
      (forall j, (j < List.length dist)%nat ->
                 flt (nth j dist NaN) (nth p dist NaN) = false) /\
      (forall j, (j < p)%nat ->
                 flt (nth p dist NaN) (nth j dist NaN) = true) /\
      np_min dist = Ok (nth p dist NaN) /\
      np_nanmin dist = Ok (nth p dist NaN).
Proof.
  intros dist Hne Hnan. destruct dist as [|x a]; [congruence|].
  destruct (argmin_from_scan a [x] 0) as (Hp & Hmin & Hfirst).
  - exact Hnan.
  - cbn; lia.
  - intros j Hj. cbn [List.length] in Hj. assert (j = 0%nat) as -> by lia.
    apply flt_irrefl.
  - intros j Hj; lia.
  - cbn [app List.length nth] in Hp, Hmin, Hfirst.
    set (p := argmin_from a 1 0 x) in *.
    exists p. split; [reflexivity|]. split; [exact Hp|].
    split; [exact Hmin|]. split; [exact Hfirst|].
    assert (Hall : Forall (fun y => isnan y = false) a).
    { apply Forall_forall. intros y Hy. apply Hnan. right; exact Hy. }
    destruct (fold_fmin_spec a x (Hnan x (or_introl eq_refl)) Hall)
      as (Hm & Hin & Hle).
    set (m := fold_left fmin a x) in *.
    assert (Heq : m = nth p (x :: a) NaN).
    { apply fle_not_flt_eq; auto.
      - apply Hnan, nth_In. exact Hp.
      - apply Hle, nth_In. exact Hp.
      - destruct (In_nth _ _ NaN Hin) as (j & Hj & Ej).
        rewrite <- Ej. apply Hmin. exact Hj. }
    split.
    + cbn [np_min]. fold m. rewrite Heq. reflexivity.
    + unfold np_nanmin.
      rewrite (filter_all_true (fun x => negb (isnan x)) (x :: a))
        by (intros y Hy; rewrite (Hnan y Hy); reflexivity).
      fold m. rewrite Heq. reflexivity.
Qed.

(** When some distance is NaN, [np.argmin] returns the position of the
    first NaN.  The selection made with [np.nanmin] then reports a minimum
    that is not NaN (if any distance is not NaN) next to the position of a
    window whose distance is NaN, and takes the predicted values from
    behind that window; the selection made with [np.min] reports NaN. *)
Theorem argmin_picks_first_nan_window :
  forall (pre post : array) (x : npfloat) (omni : SatData.t) (var : string)
         (a : array) (startindex deltat : nat),
    (forall y, In y pre -> isnan y = false) ->
    In x (pre ++ NaN :: post) -> isnan x = false ->
    __getitem__ omni var = Ok a ->
    let dist := (pre ++ NaN :: post)%list in
    let indp := (startindex + List.length pre + deltat)%nat in
    np_argmin dist = Ok (List.length pre) /\
    nth (List.length pre) dist (Fin 0) = NaN /\
    (exists m,
       isnan m = false /\ In m dist /\
       select_nan dist omni var startindex deltat =
       Ok {| maxval := m; maxpos := List.length pre;
             predicted := slice a indp (indp + deltat + 1) |}) /\
    select_b dist omni var startindex deltat =
    Ok {| maxval := NaN; maxpos := List.length pre;
          predicted := slice a indp (indp + deltat + 1) |}.
Proof.
  intros pre post x omni var a startindex deltat Hpre Hin Hx Hget dist indp.
  assert (Harg : np_argmin dist = Ok (List.length pre)).
  { unfold dist. destruct pre as [|y pre].
    - cbn [app np_argmin List.length]. rewrite argmin_from_nan_best. reflexivity.
    - cbn [app np_argmin].
      rewrite argmin_from_first_nan.
      + reflexivity.
      + apply Hpre. left; reflexivity.
      + intros z Hz. apply Hpre. right; exact Hz. }
  split; [exact Harg|]. split.
  { unfold dist. rewrite app_nth2, Nat.sub_diag by lia. reflexivity. }
  split.
  - destruct (np_nanmin_spec dist x Hin Hx) as (m & Hm & Hnm & Hinm & _).
    exists m. split; [exact Hnm|]. split; [exact Hinm|].
    unfold select_nan, select_with. rewrite Hm, Harg, Hget. reflexivity.
  - assert (Hmin : np_min dist = Ok NaN).
    { unfold dist. destruct pre as [|y pre].
      - cbn [app np_min]. rewrite fold_left_fmin_NaN. reflexivity.
      - cbn [app np_min]. rewrite fold_left_fmin_In_NaN; [reflexivity|].
        apply in_elt. }
    unfold select_b, select_with. rewrite Hmin, Harg, Hget. reflexivity.
Qed.

End BestWindow.

Lemma argmin_is_first_minimum_witness :
  exists p,
    Forecast.np_argmin [Fin 2; Fin 1; Fin 1] = Ok p /\
    (p < 3)%nat /\
    Forecast.np_min [Fin 2; Fin 1; Fin 1] = Ok (nth p [Fin 2; Fin 1; Fin 1] NaN).
Proof.
  destruct (argmin_is_first_minimum [Fin 2; Fin 1; Fin 1])
    as (p & H1 & H2 & _ & _ & H3 & _).
  - discriminate.
  - intros y [<-|[<-|[<-|[]]]]; reflexivity.
  - exists p. split; [exact H1|]. split; [exact H2|exact H3].
Defined.

Lemma argmin_picks_first_nan_window_witness :
  Forecast.np_argmin [Fin 1; NaN; Fin 0] = Ok 1%nat /\
  exists m,
    isnan m = false /\
    Forecast.select_nan [Fin 1; NaN; Fin 0] ex_omni "speed" 0 1 =
    Ok {| Forecast.maxval := m; Forecast.maxpos := 1;
          Forecast.predicted := [Fin 0; Fin 0] |}.
Proof.
  destruct (argmin_picks_first_nan_window [Fin 1] [Fin 0] (Fin 0) ex_omni "speed"
              ex_zero4 0 1) as (H1 & _ & (m & Hm & _ & Hsel) & _).
  - intros y [<-|[]]. reflexivity.
  - right; right; left; reflexivity.
  - reflexivity.
  - reflexivity.
  - split; [exact H1|]. exists m. split; [exact Hm|exact Hsel].
Defined.

(* ===================================================================== *)
(** ** The analogue search: the training range and the end of the data *)
(* ===================================================================== *)

Section TrainingRange.

Import SatData Convert Forecast.

Lemma last_index_from_all_false (f : npfloat -> bool) (a : array) (i : nat)
      (found : option nat) :
  (forall x, In x a -> f x = false) -> last_index_from f a i found = found.
Proof.
  revert i found. induction a as [|x a IH]; intros i found H; [reflexivity|].
  cbn [last_index_from]. rewrite (H x (or_introl eq_refl)).
  apply IH. intros y Hy. apply H. right; exact Hy.
Qed.

(** What the left-to-right scan returns: the fallback, if no element
    satisfies [f], and otherwise the last index that does. *)
Lemma last_index_from_spec (f : npfloat -> bool) (a : array) (i : nat)
      (found : option nat) (r : nat) :
  last_index_from f a i found = Some r ->
  (found = Some r /\ forall x, In x a -> f x = false) \/
  (exists k, r = (i + k)%nat /\ (k < List.length a)%nat /\
             f (nth k a NaN) = true /\
             forall j, (k < j < List.length a)%nat -> f (nth j a NaN) = false).
Proof.
  revert i found. induction a as [|x a IH]; intros i found H.
  - left. split; [exact H|]. intros x [].
  - cbn [last_index_from] in H. apply IH in H as [[Hf Hall]|(k & -> & Hk & Hfk & Hlater)].
    + destruct (f x) eqn:E.
      * right. exists 0%nat. injection Hf as <-.
        split; [lia|]. split; [cbn; lia|]. split; [exact E|].
        intros j Hj. destruct j as [|j]; [lia|]. cbn [nth].
        apply Hall. apply nth_In. cbn [List.length] in Hj. lia.
      * left. split; [exact Hf|]. intros y [<-|Hy]; auto.
    + right. exists (S k). split; [lia|]. split; [cbn; lia|].
      split; [exact Hfk|].
      intros j Hj. destruct j as [|j]; [lia|]. cbn [nth].
      apply Hlater. cbn [List.length] in Hj. lia.
Qed.

Lemma last_index_from_found (f : npfloat -> bool) (a : array) (i k : nat) :
  exists r, last_index_from f a i (Some k) = Some r.
Proof.
  revert i k. induction a as [|x a IH]; intros i k.
  - exists k; reflexivity.
  - cbn [last_index_from]. destruct (f x); apply IH.
Qed.

Lemma last_index_from_some_true (f : npfloat -> bool) (a : array) (i : nat)
      (found : option nat) (x : npfloat) :
  In x a -> f x = true -> exists r, last_index_from f a i found = Some r.
Proof.
  revert i found. induction a as [|y a IH]; intros i found Hin Hx; [destruct Hin|].
  cbn [last_index_from]. destruct Hin as [->|Hin].
  - rewrite Hx. apply last_index_from_found.
  - apply IH; assumption.
Qed.

(** The bounds of the training range.  On a time axis that does not
    decrease, [np.max(np.where(bound > time)) + 1] is the number of samples
    strictly before the bound, provided there is one; so the indices from
    [startindex] up to [endindex - 1] are exactly the samples with
    [trainstartnum <= time < trainendnum].  A bound that no sample
    precedes makes the script stop with a ValueError. *)
Theorem training_range_by_time :
  forall (ts : list R),
    (forall i j, (i <= j < List.length ts)%nat -> nth i ts 0 <= nth j ts 0) ->
    (forall bound t0,
        In t0 ts -> t0 < bound ->
        exists n, index_after (Fin bound) (map Fin ts) = Ok n /\
                  (n <= List.length ts)%nat /\
                  forall i, (i < List.length ts)%nat ->
                            ((i < n)%nat <-> nth i ts 0 < bound)) /\
    (forall a b startindex endindex,
        index_after (Fin a) (map Fin ts) = Ok startindex ->
        index_after (Fin b) (map Fin ts) = Ok endindex ->
        forall i, (i < List.length ts)%nat ->
                  ((startindex <= i < endindex)%nat <-> a <= nth i ts 0 < b)) /\
    (forall bound,
        (forall t, In t ts -> bound <= t) ->
        index_after (Fin bound) (map Fin ts) =
        Raise (ValueError "zero-size array to reduction operation maximum")).
Proof.
  intros ts Hsorted.
  assert (Hchar : forall bound n,
             index_after (Fin bound) (map Fin ts) = Ok n ->
             (n <= List.length ts)%nat /\
             forall i, (i < List.length ts)%nat ->
                       ((i < n)%nat <-> nth i ts 0 < bound)).
  { intros bound n H. unfold index_after in H.
    destruct (last_index_from _ _ 0 None) as [r|] eqn:E; [|discriminate].
    injection H as <-.
    apply last_index_from_spec in E as [[? _]|(k & -> & Hk & Hfk & Hlater)];
      [discriminate|].
    rewrite length_map in Hk, Hlater. cbn [Nat.add].
    rewrite nth_map_Fin in Hfk by exact Hk.
    assert (Hkb : nth k ts 0 < bound).
    { cbn [flt] in Hfk. destruct (Rlt_dec (nth k ts 0) bound); [assumption|discriminate]. }
    split; [lia|]. intros i Hi. split.
    - intro Hik. assert (nth i ts 0 <= nth k ts 0) by (apply Hsorted; lia). lra.
    - intro Hib. destruct (Nat.lt_ge_cases i (S k)) as [|Hge]; [assumption|].
      exfalso. assert (Hf := Hlater i ltac:(lia)).
      rewrite nth_map_Fin in Hf by exact Hi. cbn [flt] in Hf.
      destruct (Rlt_dec (nth i ts 0) bound); [discriminate|contradiction]. }
  split; [|split].
  - intros bound t0 Hin Hlt.
    destruct (last_index_from_some_true (fun t => flt t (Fin bound)) (map Fin ts)
                0 None (Fin t0)) as [r Hr].
    + apply in_map; exact Hin.
    + apply flt_Fin_true; exact Hlt.
    + exists (S r).
      assert (Hrun : index_after (Fin bound) (map Fin ts) = Ok (S r))
        by (unfold index_after; rewrite Hr; reflexivity).
      split; [exact Hrun|]. apply Hchar; exact Hrun.
  - intros a b s e Hs He i Hi.
    destruct (Hchar a s Hs) as [_ Ha]. destruct (Hchar b e He) as [_ Hb].
    specialize (Ha i Hi). specialize (Hb i Hi). split.
    + intros [H1 H2]. split.
      * destruct (Rle_lt_dec a (nth i ts 0)); [assumption|].
        exfalso. apply Ha in r. lia.
      * apply Hb; exact H2.
    + intros [H1 H2]. split.
      * destruct (Nat.lt_ge_cases i s) as [Hlt|]; [|assumption].
        apply Ha in Hlt. lra.
      * apply Hb; exact H2.
  - intros bound Hall. unfold index_after.
    rewrite last_index_from_all_false; [reflexivity|].
    intros x Hx. apply in_map_iff in Hx as (t & <- & Ht).
    apply flt_Fin_false. apply Hall; exact Ht.
Qed.

Lemma broadcast2_mismatch (f : npfloat -> npfloat -> npfloat) (a b : array) :
  List.length a <> List.length b ->
  List.length a <> 1%nat -> List.length b <> 1%nat ->
  broadcast2 f a b = Raise (ValueError "operands could not be broadcast together").
Proof.
  intros Hab Ha Hb. unfold broadcast2.
  replace (Nat.eqb (List.length a) (List.length b)) with false
    by (symmetry; apply Nat.eqb_neq; exact Hab).
  destruct a as [|x [|x' a]]; try (exfalso; apply Ha; reflexivity);
    destruct b as [|y [|y' b]]; try (exfalso; apply Hb; reflexivity);
    reflexivity.
Qed.

(** A window that runs past the end of the training data.  The slice
    [inds : inds + deltat + 1] is silently shortened.  If two or more
    samples, but fewer than the now-wind has, are left (or none at all),
    the subtraction raises numpy's broadcast error.  If exactly one sample
    is left, it is broadcast against the whole now-wind and a distance is
    returned without any error. *)
Theorem window_past_the_end :
  forall (now hist : array) (inds deltat : nat),
    List.length now = (deltat + 1)%nat ->
    (1 <= deltat)%nat ->
    (List.length hist < inds + deltat + 1)%nat ->
    ((inds + 1)%nat <> List.length hist ->
     window_distance now hist inds deltat =
     Raise (ValueError "operands could not be broadcast together")) /\
    ((inds + 1)%nat = List.length hist ->
     window_distance now hist inds deltat =
     Ok (fdiv (fsqrt (np_sum (map (fun x => fsquare (fsub x (nth inds hist NaN))) now)))
              (of_nat (List.length now)))).
Proof.
  intros now hist inds deltat Hnow Hd Hshort.
  assert (Hw : List.length (slice hist inds (inds + deltat + 1))
               = (List.length hist - inds)%nat).
  { unfold slice. rewrite length_firstn, length_skipn. lia. }
  split.
  - intro Hne. unfold window_distance.
    rewrite broadcast2_mismatch; [reflexivity| | |]; lia.
  - intro Hone. unfold window_distance.
    assert (Hs : slice hist inds (inds + deltat + 1) = [nth inds hist NaN]).
    { unfold slice.
      assert (Hsk : skipn inds hist = [nth inds hist NaN]).
      { clear - Hone. revert inds Hone.
        induction hist as [|x hist IH]; intros inds Hone; [cbn in Hone; lia|].
        destruct inds as [|inds].
        - destruct hist; [reflexivity|cbn in Hone; lia].
        - cbn [skipn nth]. apply IH. cbn [List.length] in Hone. lia. }
      rewrite Hsk. replace (inds + deltat + 1 - inds)%nat with (S deltat) by lia.
      cbn [firstn]. rewrite firstn_nil. reflexivity. }
    rewrite Hs. unfold broadcast2. cbn [List.length].
    replace (Nat.eqb (List.length now) 1) with false
      by (symmetry; apply Nat.eqb_neq; lia).
    destruct now as [|x [|x' now]]; try (cbn in Hnow; lia).
    cbn [rbind]. rewrite map_map. reflexivity.
Qed.

End TrainingRange.

Lemma training_range_by_time_witness :
  exists n,
    Forecast.index_after (Fin (3 / 2)) (map Fin [0; 1; 2; 3]) = Ok n /\
    (n <= 4)%nat /\
    Forecast.index_after (Fin 0) (map Fin [0; 1; 2; 3]) =
      Raise (ValueError "zero-size array to reduction operation maximum").
Proof.
  assert (Hsorted : forall i j, (i <= j < List.length [0; 1; 2; 3])%nat ->
                                nth i [0; 1; 2; 3] 0 <= nth j [0; 1; 2; 3] 0).
  { intros i j Hij. cbn [List.length] in Hij.
    destruct i as [|[|[|[|i]]]]; destruct j as [|[|[|[|j]]]];
      cbn [nth]; try lia; lra. }
  destruct (training_range_by_time [0; 1; 2; 3] Hsorted) as (H1 & _ & H3).
  destruct (H1 (3 / 2) 1) as (n & Hn & Hle & _).
  - right; left; reflexivity.
  - lra.
  - exists n. split; [exact Hn|]. split; [exact Hle|].
    apply H3. intros t [<-|[<-|[<-|[<-|[]]]]]; lra.
Defined.

Lemma window_past_the_end_witness :
  Forecast.window_distance [Fin 1; Fin 1] [Fin 0; Fin 0; Fin 0] 3 1 =
    Raise (ValueError "operands could not be broadcast together") /\
  Forecast.window_distance [Fin 1; Fin 1] [Fin 0; Fin 0; Fin 5] 2 1 =
    Ok (fdiv (fsqrt (np_sum (map (fun x => fsquare (fsub x (Fin 5)))
                                 [Fin 1; Fin 1])))
             (of_nat 2)).
Proof.
  split.
  - apply (window_past_the_end [Fin 1; Fin 1] [Fin 0; Fin 0; Fin 0] 3 1);
      cbn; lia.
  - apply (window_past_the_end [Fin 1; Fin 1] [Fin 0; Fin 0; Fin 5] 2 1);
      cbn; lia.
Defined.

(* ===================================================================== *)
(** ** The module-level conversion functions and the methods *)
(* ===================================================================== *)

Section FunctionsAndMethods.

Import SatData Convert.

Lemma mapM_ext {A B : Type} (f g : A -> result B) (l : list A) :
  (forall x, In x l -> f x = g x) -> mapM f l = mapM g l.
Proof.
  induction l as [|x l IH]; intro H; [reflexivity|].
  cbn [mapM]. rewrite (H x (or_introl eq_refl)).
  rewrite IH by (intros y Hy; apply H; right; exact Hy). reflexivity.
Qed.

Lemma mapM_length {A B : Type} (f : A -> result B) (l : list A) (out : list B) :
  mapM f l = Ok out -> List.length out = List.length l.
Proof.
  revert out. induction l as [|x l IH]; intros out H.
  - injection H as <-. reflexivity.
  - cbn [mapM] in H. destruct (f x) as [y|]; [|discriminate].
    cbn [rbind] in H. destruct (mapM f l) as [ys|]; [|discriminate].
    injection H as <-. cbn [List.length]. f_equal. apply IH. reflexivity.
Qed.

Lemma mapM_nth {A B : Type} (f : A -> result B) (l : list A) (out : list B)
      (i : nat) (da : A) (db : B) :
  mapM f l = Ok out -> (i < List.length l)%nat ->
  f (nth i l da) = Ok (nth i out db).
Proof.
  revert out i. induction l as [|x l IH]; intros out i H Hi; [cbn in Hi; lia|].
  cbn [mapM] in H. destruct (f x) as [y|] eqn:Ey; [|discriminate].
  cbn [rbind] in H. destruct (mapM f l) as [ys|]; [|discriminate].
  injection H as <-. destruct i as [|i]; [exact Ey|].
  cbn [nth]. apply IH; [reflexivity|]. cbn [List.length] in Hi. lia.
Qed.

Lemma gse_step_is_sample (E : externals) (d : SatData.t)
      (time bx by_ bz : array) (i : nat) :
  __getitem__ d "time" = Ok time -> __getitem__ d "bx" = Ok bx ->
  __getitem__ d "by" = Ok by_ -> __getitem__ d "bz" = Ok bz ->
  gse_to_gsm_sample E d i = Standalone.gse_to_gsm_step E bx by_ bz time i.
Proof.
  intros Ht Hx Hy Hz. unfold gse_to_gsm_sample, Standalone.gse_to_gsm_step, sample.
  rewrite Ht, Hx, Hy, Hz. reflexivity.
Qed.

(** The method and the module-level function of the same name compute
    the same thing: on a well-formed container the method stores under
    bx, by, bz exactly the three arrays that the function returns for the
    container's arrays, and when the function raises, the method raises
    the same exception with the container unchanged (only the opening info
    record is logged).  The header is left as it was. *)
Theorem convert_GSE_to_GSM_method_matches_function :
  forall (E : externals) (d : SatData.t) (lg : list log_record)
         (time bx by_ bz : array) (rf : string),
    wf d ->
    __getitem__ d "time" = Ok time -> __getitem__ d "bx" = Ok bx ->
    __getitem__ d "by" = Ok by_ -> __getitem__ d "bz" = Ok bz ->
    h_item "ReferenceFrame" (h d) = Ok (HStr rf) ->
    let lg' := (lg ++ [mkLog INFO "Converting GSE magn. values to GSM" []])%list in
    match Standalone.convert_GSE_to_GSM E bx by_ bz time with
    | Ok (a, b, c) =>
        exists d',
          Convert.convert_GSE_to_GSM E (mkWorld d lg) = (Ok tt, mkWorld d' lg') /\
          __getitem__ d' "bx" = Ok a /\ __getitem__ d' "by" = Ok b /\
          __getitem__ d' "bz" = Ok c /\ h d' = h d
    | Raise e =>
        Convert.convert_GSE_to_GSM E (mkWorld d lg) = (Raise e, mkWorld d lg')
    end.
Proof.
  intros E d lg time bx by_ bz rf Hwf Ht Hx Hy Hz Hrf lg'.
  assert (Hm : mapM (gse_to_gsm_sample E d) (seq 0 (List.length time))
               = mapM (Standalone.gse_to_gsm_step E bx by_ bz time)
                      (seq 0 (List.length time))).
  { apply mapM_ext. intros i _. apply gse_step_is_sample; assumption. }
  assert (Hstart : forall out_or,
            mapM (gse_to_gsm_sample E d) (seq 0 (List.length time)) = out_or ->
            Convert.convert_GSE_to_GSM E (mkWorld d lg) =
            (out <- lift out_or ;;
             __setitem__ "bx" (map fst3 out) ;;;
             __setitem__ "by" (map snd3 out) ;;;
             __setitem__ "bz" (map thd3 out) ;;;
             d' <- get_self ;;
             lift (replace_reference_frame (h d'))) (mkWorld d lg')).
  { intros out_or <-. unfold Convert.convert_GSE_to_GSM.
    unfold bind at 1. unfold in_log at 1, logger at 1. cbn [logged self].
    unfold bind at 1. unfold get_self at 1. cbn [self].
    unfold bind at 1. unfold lift at 1. rewrite Ht. reflexivity. }
  unfold Standalone.convert_GSE_to_GSM.
  destruct (mapM (Standalone.gse_to_gsm_step E bx by_ bz time) _) as [out|e] eqn:Eo;
    cbn [rbind]; rewrite (Hstart _ Hm).
  - assert (Lo : List.length out = __len__ d).
    { rewrite (mapM_length _ _ _ Eo), length_seq.
      apply (getitem_length d "time"); assumption. }
    unfold bind at 1. unfold lift at 1.
    destruct (store_vector d lg' (map fst3 out) (map snd3 out) (map thd3 out)
                (d' <- get_self ;; lift (replace_reference_frame (h d'))) Hwf)
      as (d' & Hrun & Gx & Gy & Gz & Hh & _);
      try (rewrite length_map; exact Lo).
    exists d'. rewrite Hrun.
    unfold bind, get_self, lift, replace_reference_frame. cbn [self].
    rewrite Hh, Hrf. cbn [rbind]. auto.
  - reflexivity.
Qed.

(** The rotation is about the x axis, but it is carried out as a matrix
    product in floating point: the x component of a sample comes out as
    it went in only if the sample's y and z components are finite; a NaN
    or an infinity in y or z turns the x component into NaN as well. *)
Theorem convert_GSE_to_GSM_x_component :
  forall (E : externals) (bx by_ bz time a b c : array),
    Standalone.convert_GSE_to_GSM E bx by_ bz time = Ok (a, b, c) ->
    List.length a = List.length time /\
    forall i, (i < List.length time)%nat ->
      ((exists y z, nth i by_ NaN = Fin y /\ nth i bz NaN = Fin z) ->
       nth i a NaN = nth i bx NaN) /\
      ((forall y, nth i by_ NaN <> Fin y) \/ (forall z, nth i bz NaN <> Fin z) ->
       nth i a NaN = NaN).
Proof.
  intros E bx by_ bz time a b c H. unfold Standalone.convert_GSE_to_GSM in H.
  destruct (mapM _ _) as [out|] eqn:Eo; [|discriminate].
  cbn [rbind] in H. injection H as <- <- <-.
  assert (Lo := mapM_length _ _ _ Eo). rewrite length_seq in Lo.
  change (@List.length (npfloat * npfloat * npfloat) out = List.length time) in Lo.
  split; [rewrite length_map; exact Lo|].
  intros i Hi.
  assert (Hstep := mapM_nth _ _ _ i 0%nat (NaN, NaN, NaN) Eo
                            ltac:(rewrite length_seq; exact Hi)).
  rewrite seq_nth in Hstep by exact Hi. cbn [Nat.add] in Hstep.
  unfold Standalone.gse_to_gsm_step in Hstep.
  destruct (item time i) as [t|]; [|discriminate]. cbn [rbind] in Hstep.
  destruct (num2date t) as [tnum|]; [|discriminate]. cbn [rbind] in Hstep.
  destruct (psigsm_of _ _) as [psi|]; [|discriminate]. cbn [rbind] in Hstep.
  destruct (item bx i) as [x|] eqn:Ex; [|discriminate]. cbn [rbind] in Hstep.
  destruct (item by_ i) as [y|] eqn:Ey; [|discriminate]. cbn [rbind] in Hstep.
  destruct (item bz i) as [z|] eqn:Ez; [|discriminate]. cbn [rbind] in Hstep.
  apply item_Ok_inv in Ex, Ey, Ez.
  rewrite (nth_error_nth _ _ NaN Ex), (nth_error_nth _ _ NaN Ey),
    (nth_error_nth _ _ NaN Ez).
  assert (Ha : nth i (map fst3 out) NaN
               = fadd (fadd (fmul (Fin 1) x) (fmul (Fin 0) y)) (fmul (Fin 0) z)).
  { rewrite (nth_indep _ NaN (fst3 (NaN, NaN, NaN)))
      by (rewrite length_map; lia).
    rewrite map_nth. injection Hstep as <-. reflexivity. }
  rewrite Ha. split.
  - intros (y0 & z0 & -> & ->). cbn [fmul].
    destruct x as [x| | |]; cbn [fmul fadd by_sign].
    + f_equal. ring.
    + unfold by_sign. destruct (Rlt_dec 0 1); [reflexivity|lra].
    + unfold by_sign. destruct (Rlt_dec 0 1); [reflexivity|lra].
    + reflexivity.
  - assert (Hzero : forall v, (forall r, v <> Fin r) -> fmul (Fin 0) v = NaN).
    { intros v Hv. destruct v as [r| | |]; [exfalso; apply (Hv r); reflexivity| | |];
        cbn [fmul]; unfold by_sign;
        try (destruct (Rlt_dec 0 0); [lra|reflexivity]); reflexivity. }
    intros [Hy|Hz].
    + rewrite (Hzero y Hy), fadd_NaN_r. reflexivity.
    + rewrite (Hzero z Hz). apply fadd_NaN_r.
Qed.

End FunctionsAndMethods.

Section FunctionRuns.

Import SatData Convert.

(** On finite samples dated between the Julian dates 2400000.5 and
    2500000.5 the module-level function returns. *)
Lemma standalone_gse_runs (E : externals) (ts bxs bys bzs : list R) :
  List.length bxs = List.length ts -> List.length bys = List.length ts ->
  List.length bzs = List.length ts ->
  (forall t, In t ts -> 2400000.5 <= julian_date E t <= 2500000.5) ->
  exists a b c,
    Standalone.convert_GSE_to_GSM E (map Fin bxs) (map Fin bys) (map Fin bzs)
                                  (map Fin ts) = Ok (a, b, c).
Proof.
  intros Lx Ly Lz Hjd.
  set (tilt := fun i : nat =>
         match psigsm_of (mjd_of (julian_date E (nth i ts 0)))
                         (ut_hours E (nth i ts 0)) with
         | Ok psi => psi
         | Raise _ => 0
         end).
  set (g := fun i : nat =>
         mvec_f (rot_x (- tilt i))
                (Fin (nth i bxs 0), Fin (nth i bys 0), Fin (nth i bzs 0))).
  assert (Hstep : forall i, In i (seq 0 (List.length (map Fin ts))) ->
            Standalone.gse_to_gsm_step E (map Fin bxs) (map Fin bys) (map Fin bzs)
                                       (map Fin ts) i = Ok (g i)).
  { intros i Hi. apply in_seq in Hi. rewrite length_map in Hi.
    unfold Standalone.gse_to_gsm_step.
    rewrite !item_map_Fin by lia. cbn [rbind num2date].
    destruct (psigsm_of_defined (mjd_of (julian_date E (nth i ts 0)))
                                (ut_hours E (nth i ts 0))) as [psi Hpsi].
    { apply mjd_of_range, Hjd, nth_In. lia. }
    unfold g, tilt. rewrite Hpsi. reflexivity. }
  unfold Standalone.convert_GSE_to_GSM.
  rewrite (mapM_ext_Ok _ g _ Hstep). cbn [rbind]. do 3 eexists. reflexivity.
Qed.

End FunctionRuns.

Lemma convert_GSE_to_GSM_method_matches_function_witness :
  match Standalone.convert_GSE_to_GSM ex_E [Fin 3; Fin 3] [Fin 4; Fin 4] ex_zero2
                                      [Fin 730000; Fin 730001] with
  | Ok (a, b, c) =>
      exists d',
        Convert.convert_GSE_to_GSM ex_E (SatData.mkWorld ex_field []) =
          (Ok tt, SatData.mkWorld d'
                    [mkLog INFO "Converting GSE magn. values to GSM" []]) /\
        SatData.__getitem__ d' "bx" = Ok a /\ SatData.__getitem__ d' "by" = Ok b /\
        SatData.__getitem__ d' "bz" = Ok c /\ SatData.h d' = SatData.h ex_field
  | Raise e =>
      Convert.convert_GSE_to_GSM ex_E (SatData.mkWorld ex_field []) =
        (Raise e, SatData.mkWorld ex_field
                    [mkLog INFO "Converting GSE magn. values to GSM" []])
  end.
Proof.
  apply (convert_GSE_to_GSM_method_matches_function ex_E ex_field []
           [Fin 730000; Fin 730001] [Fin 3; Fin 3] [Fin 4; Fin 4] ex_zero2 "GSE"
           ex_field_wf eq_refl eq_refl eq_refl eq_refl eq_refl).
Defined.

Lemma convert_GSE_to_GSM_x_component_witness :
  exists a b c,
    Standalone.convert_GSE_to_GSM ex_E [Fin 3; Fin 3] [Fin 4; Fin 4] ex_zero2
                                  [Fin 730000; Fin 730001] = Ok (a, b, c) /\
    nth 0 a NaN = Fin 3 /\ nth 1 a NaN = Fin 3.
Proof.
  destruct (standalone_gse_runs ex_E [730000; 730001] [3; 3] [4; 4] [0; 0]
              eq_refl eq_refl eq_refl ex_field_dates) as (a & b & c & Hrun).
  exists a, b, c. split; [exact Hrun|].
  destruct (convert_GSE_to_GSM_x_component ex_E _ _ _ _ a b c Hrun) as [_ Hx].
  split.
  - apply (Hx 0%nat); [cbn; lia|]. exists 4, 0. split; reflexivity.
  - apply (Hx 1%nat); [cbn; lia|]. exists 4, 0. split; reflexivity.
Defined.

Section FunctionsAndMethodsRTN.

Import SatData Convert.

Lemma rtn_step_is_sample (d : SatData.t) (time br bt bn : array)
      (pos_obj : list array) (pos_tnum : array) (i : nat) :
  __getitem__ d "time" = Ok time -> __getitem__ d "br" = Ok br ->
  __getitem__ d "bt" = Ok bt -> __getitem__ d "bn" = Ok bn ->
  pos_obj <> [] -> pos_tnum <> [] ->
  rtn_to_heeq_sample d pos_obj pos_tnum i
  = Standalone.rtn_to_heeq_step br bt bn time pos_obj pos_tnum i.
Proof.
  intros Ht Hr Hb Hn Ho Hp.
  unfold rtn_to_heeq_sample, Standalone.rtn_to_heeq_step, rtn_position, sample.
  rewrite Ht, Hr, Hb, Hn.
  replace (Nat.ltb 0 (List.length pos_obj) && Nat.ltb 0 (List.length pos_tnum))
    with true
    by (destruct pos_obj; [congruence|]; destruct pos_tnum; [congruence|];
        reflexivity).
  cbn [rbind].
  repeat match goal with
         | |- context [rbind ?r _] =>
             match r with
             | Ok _ => fail 1
             | _ => destruct r; cbn [rbind]; [|reflexivity]
             end
         end.
  reflexivity.
Qed.

Lemma gse_step_of_heeq_is_sample (E : externals) (d : SatData.t) (time : array)
      (i : nat) (heeq : fvec3) :
  __getitem__ d "time" = Ok time ->
  heeq_to_gse_sample E d i heeq = Standalone.heeq_to_gse_step E time i heeq.
Proof.
  intro Ht. unfold heeq_to_gse_sample, Standalone.heeq_to_gse_step, sample.
  rewrite Ht. reflexivity.
Qed.

(** The method [convert_RTN_to_GSE], called with position arrays, and
    the module-level function [convert_RTN_to_GSE_sta_l1] agree: the
    method stores under bx, by, bz exactly the arrays that the function
    returns for the container's br, bt, bn and time, and appends ['-GSE']
    to the frame label; when the function raises, the method raises the
    same exception and leaves the container unchanged. *)
Theorem convert_RTN_to_GSE_method_matches_function :
  forall (E : externals) (d : SatData.t) (lg : list log_record)
         (time br bt bn : array) (pos_obj : list array) (pos_tnum : array)
         (hd' : header),
    wf d ->
    __getitem__ d "time" = Ok time -> __getitem__ d "br" = Ok br ->
    __getitem__ d "bt" = Ok bt -> __getitem__ d "bn" = Ok bn ->
    pos_obj <> [] -> pos_tnum <> [] ->
    append_reference_frame (h d) = Ok hd' ->
    let lg' := (lg ++ [mkLog INFO "Converting RTN magn. values to GSE" []])%list in
    match Standalone.convert_RTN_to_GSE_sta_l1 E br bt bn time pos_obj pos_tnum with
    | Ok (a, b, c) =>
        exists d',
          convert_RTN_to_GSE E pos_obj pos_tnum (mkWorld d lg)
            = (Ok tt, mkWorld d' lg') /\
          __getitem__ d' "bx" = Ok a /\ __getitem__ d' "by" = Ok b /\
          __getitem__ d' "bz" = Ok c /\ h d' = hd'
    | Raise e =>
        convert_RTN_to_GSE E pos_obj pos_tnum (mkWorld d lg)
          = (Raise e, mkWorld d lg')
    end.
Proof.
  intros E d lg time br bt bn pos_obj pos_tnum hd' Hwf Ht Hr Hb Hn Ho Hp Hrf lg'.
  set (idxs := seq 0 (List.length time)).
  assert (Hm1 : mapM (rtn_to_heeq_sample d pos_obj pos_tnum) idxs
                = mapM (Standalone.rtn_to_heeq_step br bt bn time pos_obj pos_tnum)
                       idxs).
  { apply mapM_ext. intros i _. apply rtn_step_is_sample; assumption. }
  assert (Hm2 : forall heeq,
            mapM (fun ih => heeq_to_gse_sample E d (fst ih) (snd ih))
                 (combine idxs heeq)
            = mapM (fun ih => Standalone.heeq_to_gse_step E time (fst ih) (snd ih))
                   (combine idxs heeq)).
  { intro heeq. apply mapM_ext. intros ih _.
    apply gse_step_of_heeq_is_sample; assumption. }
  assert (Hstart :
            convert_RTN_to_GSE E pos_obj pos_tnum (mkWorld d lg) =
            (heeq <- lift (mapM (rtn_to_heeq_sample d pos_obj pos_tnum) idxs) ;;
             gse <- lift (mapM (fun ih => heeq_to_gse_sample E d (fst ih) (snd ih))
                               (combine idxs heeq)) ;;
             __setitem__ "bx" (map fst3 gse) ;;;
             __setitem__ "by" (map snd3 gse) ;;;
             __setitem__ "bz" (map thd3 gse) ;;;
             d' <- get_self ;;
             hd <- lift (append_reference_frame (h d')) ;;
             put_self (set_h d' hd)) (mkWorld d lg')).
  { unfold convert_RTN_to_GSE.
    unfold bind at 1. unfold in_log at 1, logger at 1. cbn [logged self].
    unfold bind at 1. unfold get_self at 1. cbn [self].
    unfold bind at 1. unfold lift at 1. rewrite Ht.
    unfold bind at 1.
    replace (Nat.eqb (List.length pos_obj) 0) with false
      by (destruct pos_obj; [congruence|reflexivity]).
    cbn [andb]. unfold ret at 1. reflexivity. }
  unfold Standalone.convert_RTN_to_GSE_sta_l1. fold idxs.
  destruct (mapM (Standalone.rtn_to_heeq_step br bt bn time pos_obj pos_tnum) idxs)
    as [heeq|e] eqn:E1; cbn [rbind].
  2:{ rewrite Hstart, Hm1. reflexivity. }
  destruct (mapM (fun ih => Standalone.heeq_to_gse_step E time (fst ih) (snd ih))
                 (combine idxs heeq)) as [gse|e] eqn:E2; cbn [rbind].
  2:{ rewrite Hstart, Hm1. unfold bind at 1. unfold lift at 1.
      rewrite Hm2, E2. reflexivity. }
  assert (Lg : @List.length (npfloat * npfloat * npfloat) gse = __len__ d).
  { assert (L2 := mapM_length _ _ _ E2). assert (L1 := mapM_length _ _ _ E1).
    rewrite length_combine, L1 in L2. unfold idxs in L2.
    rewrite length_seq, Nat.min_id in L2.
    rewrite <- (getitem_length d "time" time Hwf Ht). exact L2. }
  destruct (store_vector d lg' (map fst3 gse) (map snd3 gse) (map thd3 gse)
              (d' <- get_self ;;
               hd <- lift (append_reference_frame (h d')) ;;
               put_self (set_h d' hd)) Hwf)
    as (d' & Hrun & Gx & Gy & Gz & Hh & _);
    try (rewrite length_map; exact Lg).
  exists (set_h d' hd').
  rewrite Hstart, Hm1. unfold bind at 1. unfold lift at 1.
  rewrite Hm2, E2. unfold bind at 1. unfold lift at 1.
  rewrite Hrun.
  unfold bind, get_self, lift, put_self. cbn [self logged].
  rewrite Hh, Hrf. auto.
Qed.

(** One position argument without the other.  The guard at the top of
    [convert_RTN_to_GSE] only fires when both position arguments are
    empty; with exactly one of them given and no position data attached,
    the loop falls into the branch that reads [self.pos.h] and the call
    fails with an AttributeError on the first sample instead of the
    descriptive exception; the container is unchanged. *)
Theorem convert_RTN_to_GSE_one_position_argument :
  forall (E : externals) (d : SatData.t) (lg : list log_record)
         (pos_obj : list array) (pos_tnum : array),
    wf d -> (0 < __len__ d)%nat -> pos d = None ->
    (pos_obj = [] /\ pos_tnum <> []) \/ (pos_obj <> [] /\ pos_tnum = []) ->
    convert_RTN_to_GSE E pos_obj pos_tnum (mkWorld d lg) =
    (Raise (AttributeError "'NoneType' object has no attribute 'h'"),
     mkWorld d (lg ++ [mkLog INFO "Converting RTN magn. values to GSE" []])%list).
Proof.
  intros E d lg pos_obj pos_tnum Hwf Hlen Hpos Hone.
  destruct (getitem_time d Hwf) as (time & Ht & _ & Hl).
  unfold convert_RTN_to_GSE.
  unfold bind at 1. unfold in_log at 1, logger at 1. cbn [logged self].
  unfold bind at 1. unfold get_self at 1. cbn [self].
  unfold bind at 1. unfold lift at 1. rewrite Ht.
  unfold bind at 1.
  assert (Hguard : Nat.eqb (List.length pos_obj) 0
                   && Nat.eqb (List.length pos_tnum) 0 = false).
  { destruct Hone as [[-> H]|[H ->]].
    - destruct pos_tnum; [congruence|reflexivity].
    - destruct pos_obj; [congruence|reflexivity]. }
  assert (Hbranch : Nat.ltb 0 (List.length pos_obj)
                    && Nat.ltb 0 (List.length pos_tnum) = false).
  { destruct Hone as [[-> H]|[H ->]]; [reflexivity|apply andb_false_r]. }
  rewrite Hguard. unfold ret at 1.
  unfold bind at 1. unfold lift at 1.
  destruct (List.length time) as [|n] eqn:En; [lia|].
  cbn [seq mapM]. unfold rtn_to_heeq_sample at 1, rtn_position at 1.
  rewrite Hbranch, Hpos. reflexivity.
Qed.

End FunctionsAndMethodsRTN.

Lemma convert_RTN_to_GSE_method_matches_function_witness :
  match Standalone.convert_RTN_to_GSE_sta_l1 ex_E [Fin 3; Fin 3] [Fin 4; Fin 4]
          ex_zero2 [Fin 730000; Fin 730001]
          [[Fin 1; Fin 1]; ex_zero2; ex_zero2] [Fin 0; Fin 1] with
  | Ok (a, b, c) =>
      exists d',
        Convert.convert_RTN_to_GSE ex_E [[Fin 1; Fin 1]; ex_zero2; ex_zero2]
                                   [Fin 0; Fin 1] (SatData.mkWorld ex_field [])
          = (Ok tt, SatData.mkWorld d'
                      [mkLog INFO "Converting RTN magn. values to GSE" []]) /\
        SatData.__getitem__ d' "bx" = Ok a /\ SatData.__getitem__ d' "by" = Ok b /\
        SatData.__getitem__ d' "bz" = Ok c /\
        SatData.h d' = h_set "ReferenceFrame" (HStr "GSE-GSE") (SatData.h ex_field)
  | Raise e =>
      Convert.convert_RTN_to_GSE ex_E [[Fin 1; Fin 1]; ex_zero2; ex_zero2]
                                 [Fin 0; Fin 1] (SatData.mkWorld ex_field [])
        = (Raise e, SatData.mkWorld ex_field
                      [mkLog INFO "Converting RTN magn. values to GSE" []])
  end.
Proof.
  apply (convert_RTN_to_GSE_method_matches_function ex_E ex_field []
           [Fin 730000; Fin 730001] [Fin 3; Fin 3] [Fin 4; Fin 4] ex_zero2
           [[Fin 1; Fin 1]; ex_zero2; ex_zero2] [Fin 0; Fin 1]
           (h_set "ReferenceFrame" (HStr "GSE-GSE") (SatData.h ex_field))
           ex_field_wf eq_refl eq_refl eq_refl eq_refl).
  - discriminate.
  - discriminate.
  - reflexivity.
Defined.

Lemma convert_RTN_to_GSE_one_position_argument_witness :
  Convert.convert_RTN_to_GSE ex_E [] [Fin 0] (SatData.mkWorld ex_d []) =
  (Raise (AttributeError "'NoneType' object has no attribute 'h'"),
   SatData.mkWorld ex_d [mkLog INFO "Converting RTN magn. values to GSE" []]).
Proof.
  apply (convert_RTN_to_GSE_one_position_argument ex_E ex_d [] [] [Fin 0] ex_d_wf).
  - apply Nat.ltb_lt. reflexivity.
  - reflexivity.
  - left. split; [reflexivity|discriminate].
Defined.

(* ===================================================================== *)
(** ** The RTN basis *)
(* ===================================================================== *)

Section RTNProjection.

Import Convert.

Lemma sqrt_unique_square (m t : R) : 0 <= m -> 0 <= t -> m * m = t * t -> m = t.
Proof. intros Hm Ht H. nra. Qed.

(** The projection of an RTN sample in closed form.  With the spacecraft
    at (x, y, z), off the solar rotation axis, the radial unit vector is
    the position over its length [n], the tangential one is
    (-y, x, 0) over [s = sqrt(x^2 + y^2)] and the normal one is
    (-x z, -y z, s^2) over [n s]; the HEEQ components are the sample's
    combination of these three. *)
Theorem rtn_projection_closed_form :
  forall x y z br bt bn : R,
    0 < x * x + y * y ->
    let n := sqrt (x * x + y * y + z * z) in
    let s := sqrt (x * x + y * y) in
    rtn_basis_project (Fin x, Fin y, Fin z) (Fin br) (Fin bt) (Fin bn) =
    (Fin (br * (x / n) + bt * (- y / s) + bn * (- (x * z) / (n * s))),
     Fin (br * (y / n) + bt * (x / s) + bn * (- (y * z) / (n * s))),
     Fin (br * (z / n) + bn * (s / n))).
Proof.
  intros x y z br bt bn Hxy n s.
  assert (Hn : 0 < n) by (apply sqrt_lt_R0; nra).
  assert (Hnn : n * n = x * x + y * y + z * z) by (apply sqrt_sqrt; nra).
  assert (Hs : 0 < s) by (apply sqrt_lt_R0; nra).
  assert (Hss : s * s = x * x + y * y) by (apply sqrt_sqrt; nra).
  unfold rtn_basis_project, Z_heeq. cbv zeta.
  rewrite fnorm_Fin. fold n.
  rewrite fvdiv_Fin by lra.
  set (a := x / n). set (b := y / n). set (c := z / n).
  rewrite fcross_Fin, fnorm_Fin.
  set (m := sqrt _).
  assert (Hmm : m * m = a * a + b * b).
  { unfold m. rewrite sqrt_sqrt; [ring|]. apply sum_squares_nonneg. }
  assert (Hm : m = s / n).
  { apply sqrt_unique_square.
    - apply sqrt_pos.
    - apply Rlt_le, Rdiv_lt_0_compat; assumption.
    - rewrite Hmm. unfold a, b. field_simplify_eq; [|lra]. nra. }
  assert (Hm0 : 0 < m) by (rewrite Hm; apply Rdiv_lt_0_compat; assumption).
  rewrite fvdiv_Fin by lra.
  rewrite fcross_Fin, fnorm_Fin.
  set (m2 := sqrt _).
  assert (Hm2 : m2 = 1).
  { unfold m2.
    match goal with |- sqrt ?e = 1 => replace e with 1; [apply sqrt_1|] end.
    unfold Rdiv. set (im := / m).
    assert (Him : m * im = 1) by (unfold im; field; lra).
    assert (Habc : a * a + b * b + c * c = 1).
    { unfold a, b, c. field_simplify_eq; [|lra]. lra. }
    nsatz. }
  rewrite fvdiv_Fin by lra.
  cbn [fscale fvadd fvdot X_heeq Y_heeq fmul fadd].
  rewrite Hm2, Hm. unfold a, b, c.
  f_equal; [f_equal|]; f_equal; field_simplify_eq; try lra.
  replace (s ^ 2) with (x * x + y * y) by (rewrite <- Hss; ring). ring.
Qed.

Lemma fmul_NaN_r (x : npfloat) : fmul x NaN = NaN.
Proof. destruct x; reflexivity. Qed.

(** On the solar rotation axis there is no tangential direction: the
    cross product with the axis vanishes, its normalisation is 0/0, and
    every component that the projection returns is NaN, whatever the
    sample. *)
Theorem rtn_projection_on_rotation_axis :
  forall (z : R) (br bt bn : npfloat),
    rtn_basis_project (Fin 0, Fin 0, Fin z) br bt bn = (NaN, NaN, NaN).
Proof.
  intros z br bt bn.
  assert (Hdiv00 : fdiv (Fin 0) (Fin 0) = NaN).
  { cbn [fdiv]. destruct (Req_dec_T 0 0); [|lra]. unfold by_sign.
    destruct (Rlt_dec 0 0); [lra|reflexivity]. }
  assert (Hy : forall X : fvec3,
             (exists a b c, X = (Fin a, Fin b, Fin c) /\ a = 0 /\ b = 0)
             \/ X = (NaN, NaN, NaN) ->
             fvdiv (fcross Z_heeq X) (fnorm (fcross Z_heeq X)) = (NaN, NaN, NaN)).
  { intros X [(a & b & c & -> & -> & ->)| ->].
    - unfold Z_heeq. rewrite fcross_Fin, fnorm_Fin.
      replace (0 * c - 1 * 0) with 0 by ring.
      replace (1 * 0 - 0 * c) with 0 by ring.
      replace (0 * 0 - 0 * 0) with 0 by ring.
      replace (0 * 0 + 0 * 0 + 0 * 0) with 0 by ring.
      rewrite sqrt_0. unfold fvdiv. rewrite Hdiv00. reflexivity.
    - reflexivity. }
  unfold rtn_basis_project. cbv zeta.
  set (X := fvdiv (Fin 0, Fin 0, Fin z) (fnorm (Fin 0, Fin 0, Fin z))).
  assert (HX : (exists a b c, X = (Fin a, Fin b, Fin c) /\ a = 0 /\ b = 0)
               \/ X = (NaN, NaN, NaN)).
  { unfold X. rewrite fnorm_Fin.
    destruct (Req_dec_T (sqrt (0 * 0 + 0 * 0 + z * z)) 0) as [H0|H0].
    - right. rewrite H0.
      assert (z = 0).
      { apply sqrt_eq_0 in H0; nra. }
      subst z. unfold fvdiv. rewrite Hdiv00. reflexivity.
    - left. rewrite fvdiv_Fin by exact H0.
      do 3 eexists. split; [reflexivity|]. split; unfold Rdiv; ring. }
  rewrite (Hy X HX).
  destruct X as [[x0 x1] x2].
  cbn [fcross fnorm fvdiv fscale fvadd fvdot X_heeq Y_heeq Z_heeq].
  rewrite !fmul_NaN_r. cbn [fsub fneg fadd fmul fsqrt fdiv].
  rewrite !fadd_NaN_r. reflexivity.
Qed.

End RTNProjection.

Lemma rtn_projection_closed_form_witness :
  Convert.rtn_basis_project (Fin 1, Fin 0, Fin 0) (Fin 3) (Fin 4) (Fin 0)
  = (Fin 3, Fin 4, Fin 0).
Proof.
  rewrite (rtn_projection_closed_form 1 0 0 3 4 0) by lra.
  replace (1 * 1 + 0 * 0 + 0 * 0) with 1 by ring.
  replace (1 * 1 + 0 * 0) with 1 by ring.
  rewrite sqrt_1.
  f_equal; [f_equal|]; f_equal; field.
Defined.

(* ===================================================================== *)
(** ** The time lag with respect to Earth *)
(* ===================================================================== *)

Section TimeLag.

Import SatData Convert L1.
Local Open Scope string_scope.

Lemma atan2_abs_le_PI (y x : R) : Rabs (atan2 y x) <= PI.
Proof.
  destruct (cart2sphere_ranges x y 0) as (r & theta & phi & Hc & _ & _ & Hphi).
  rewrite cart2sphere_Fin in Hc. injection Hc as _ _ <-.
  apply Rabs_le. lra.
Qed.

(** The lags for one of the two STEREO spacecraft at a finite position. *)
Lemma get_time_lag_value (E : externals) (timestamp : R) (v_mean : npfloat)
      (sun_syn : R) (sat : string) (x y z : R)
      (rest : list (npfloat * npfloat * npfloat)) :
  sat = "STEREO-A" \/ sat = "STEREO-B" ->
  0 < sun_syn ->
  trajectory E sat [timestamp] "HEEQ" "AU" "SUN"
    = Ok ((Fin x, Fin y, Fin z) :: rest) ->
  exists lag_l1 lag_diff_r,
    get_time_lag_wrt_earth E timestamp (Some sat) v_mean sun_syn
      = Ok (Fin lag_l1, lag_diff_r) /\
    lag_l1 = Rabs (atan2 y x) / (2 * PI) * sun_syn /\
    0 <= lag_l1 <= sun_syn / 2.
Proof.
  intros Hsat Hsyn Htraj.
  assert (Hpi := PI_RGT_0).
  unfold get_time_lag_wrt_earth.
  assert (Hsel : match sat with
                 | "STEREO-A" => Ok "STEREO-A"
                 | "STEREO-B" => Ok "STEREO-B"
                 | _ => Raise (Exception "Not a valid satellite name to find position!")
                 end = Ok sat)
    by (destruct Hsat as [-> | ->]; reflexivity).
  rewrite Hsel. cbn [rbind]. rewrite Htraj. cbn [rbind item nth_error].
  cbn [fst3 snd3 thd3 fst snd]. rewrite cart2sphere_Fin.
  rewrite (py_div_nonzero 360 sun_syn) by lra. cbn [rbind].
  rewrite (py_div_nonzero 360 (sun_syn * 86400)) by lra. cbn [rbind].
  cbn [fmul]. rewrite (fdiv_Fin_nonzero _ PI) by lra. cbn [fabs].
  rewrite fdiv_Fin_nonzero
    by (intro H0; apply Rmult_integral_contrapositive_currified in H0;
        [exact H0|lra|apply Rinv_neq_0_compat; lra]).
  do 2 eexists. split; [reflexivity|].
  assert (Hab := atan2_abs_le_PI y x).
  assert (H0 := Rabs_pos (atan2 y x)).
  assert (Heq : Rabs (atan2 y x * 180 / PI) / (360 / sun_syn)
                = Rabs (atan2 y x) / (2 * PI) * sun_syn).
  { replace (atan2 y x * 180 / PI) with (atan2 y x * (180 / PI))
      by (field; lra).
    rewrite Rabs_mult, (Rabs_right (180 / PI))
      by (apply Rle_ge, Rlt_le, Rdiv_lt_0_compat; lra).
    field. lra. }
  split; [exact Heq|]. rewrite Heq.
  split.
  - apply Rmult_le_pos; [|lra].
    apply Rmult_le_pos; [lra|]. apply Rlt_le, Rinv_0_lt_compat. lra.
  - replace (sun_syn / 2) with (PI / (2 * PI) * sun_syn) by (field; lra).
    apply Rmult_le_compat_r; [lra|].
    apply Rmult_le_compat_r; [|exact Hab].
    apply Rlt_le, Rinv_0_lt_compat. lra.
Qed.

(** [get_time_lag_wrt_earth] knows the two STEREO spacecraft only and
    refuses any other name before it looks up a trajectory.  For a
    positive synodic rotation period and a finite spacecraft position the
    lag of the longitude is the absolute HEEQ longitude as a fraction of
    a full turn times the rotation period: it is never negative and never
    more than half a rotation period. *)
Theorem get_time_lag_wrt_earth_bounds :
  forall (E : externals) (timestamp : R) (v_mean : npfloat) (sun_syn : R),
    (forall satname,
        satname <> Some "STEREO-A" -> satname <> Some "STEREO-B" ->
        get_time_lag_wrt_earth E timestamp satname v_mean sun_syn =
        Raise (Exception "Not a valid satellite name to find position!")) /\
    (forall (sat : string) (x y z : R) rest,
        sat = "STEREO-A" \/ sat = "STEREO-B" ->
        0 < sun_syn ->
        trajectory E sat [timestamp] "HEEQ" "AU" "SUN"
          = Ok ((Fin x, Fin y, Fin z) :: rest) ->
        exists lag_l1 lag_diff_r,
          get_time_lag_wrt_earth E timestamp (Some sat) v_mean sun_syn
            = Ok (Fin lag_l1, lag_diff_r) /\
          lag_l1 = Rabs (atan2 y x) / (2 * PI) * sun_syn /\
          0 <= lag_l1 <= sun_syn / 2).
Proof.
  intros E timestamp v_mean sun_syn. split.
  - intros satname HA HB. unfold get_time_lag_wrt_earth.
    destruct satname as [s|]; [|reflexivity].
    assert (Hsel : match s with
                   | "STEREO-A" => Ok "STEREO-A"
                   | "STEREO-B" => Ok "STEREO-B"
                   | _ => Raise (Exception "Not a valid satellite name to find position!")
                   end
                   = (Raise (Exception "Not a valid satellite name to find position!")
                      : result string)).
    { repeat (destruct s as [|[[] [] [] [] [] [] [] []] s]; try reflexivity);
        exfalso; (apply HA; reflexivity) || (apply HB; reflexivity). }
    rewrite Hsel. reflexivity.
  - intros sat x y z rest. apply get_time_lag_value.
Qed.

End TimeLag.

Lemma get_time_lag_wrt_earth_bounds_witness :
  exists lag_l1 lag_diff_r,
    L1.get_time_lag_wrt_earth ex_E 0 (Some "STEREO-A"%string) (Fin 400) 26.24
      = Ok (Fin lag_l1, lag_diff_r) /\
    0 <= lag_l1 <= 26.24 / 2.
Proof.
  destruct (get_time_lag_wrt_earth_bounds ex_E 0 (Fin 400) 26.24) as [_ H].
  destruct (H "STEREO-A"%string 1 0 0 [] (or_introl eq_refl))
    as (l & r & Hrun & _ & Hb).
  - lra.
  - reflexivity.
  - exists l, r. split; [exact Hrun|exact Hb].
Defined.

Section TimeShift.

Import SatData Convert L1.
Local Open Scope string_scope.

Lemma getitem_time_row0 (d : SatData.t) :
  __getitem__ d "time" = item (data d) 0.
Proof.
  unfold __getitem__. rewrite mem_app.
  replace (mem "time" ["time"]) with true by reflexivity.
  rewrite orb_true_r. reflexivity.
Qed.

Lemma index_of_default_keys_zero (u : string) :
  index_of u default_keys = 0%nat -> u = "time".
Proof.
  unfold default_keys. cbn [index_of].
  destruct (String.eqb u "time") eqn:E; [|discriminate].
  intros _. apply String.eqb_eq. exact E.
Qed.

(** The time shift with method 'old' moves the whole time axis by one
    lag: every time stamp gets the same two numbers added (the longitude
    lag and the Parker-spiral lag that [get_time_lag_wrt_earth] returns
    for the last time stamp and the mean speed), so the spacing of the
    samples is kept; no other row, no variable and no position data is
    touched, and one info record reports the lag in hours.  With a method
    name that is neither 'old' nor 'new' the call changes nothing, logs
    nothing and does not raise. *)
Theorem shift_time_to_L1_old_is_uniform :
  forall (E : externals) (d : SatData.t) (lg : list log_record) (sun_syn : R),
    (forall (time speed : array) (tlast : R) (lag_l1 lag_r : npfloat),
        wf d ->
        __getitem__ d "time" = Ok time ->
        last_item time = Ok (Fin tlast) ->
        __getitem__ d "speed" = Ok speed ->
        get_time_lag_wrt_earth E tlast (source d) (np_nanmean speed) sun_syn
          = Ok (lag_l1, lag_r) ->
        exists d',
          shift_time_to_L1 E sun_syn "old" (mkWorld d lg) =
            (Ok tt, mkWorld d'
               (lg ++ [mkLog INFO "shift_time_to_L1: Shifting time by {:.2f} hours"
                         [fmul (fadd lag_l1 lag_r) (Fin 24)]])%list) /\
          __getitem__ d' "time"
            = Ok (map (fun t => fadd (fadd t lag_l1) lag_r) time) /\
          (forall u row, u <> "time" -> __getitem__ d u = Ok row ->
                         __getitem__ d' u = Ok row) /\
          vars d' = vars d /\ pos d' = pos d /\ h d' = h d) /\
    (forall method,
        method <> "old" -> method <> "new" ->
        shift_time_to_L1 E sun_syn method (mkWorld d lg) = (Ok tt, mkWorld d lg)).
Proof.
  intros E d lg sun_syn. split.
  - intros time speed tlast lag_l1 lag_r Hwf Ht Hlast Hspeed Hlag.
    assert (Hrow0 : item (data d) 0 = Ok time)
      by (rewrite <- getitem_time_row0; exact Ht).
    set (shifted := map (fun t => fadd (fadd t lag_l1) lag_r) time).
    assert (Hlen : List.length shifted = __len__ d).
    { unfold shifted. rewrite length_map.
      apply (getitem_length d "time"); assumption. }
    destruct (store_row_wf d 0 shifted Hwf ltac:(lia) Hlen)
      as (d' & Hst & Hdata & Hvars & Hh & Hpos & _ & _ & _ & Hwf').
    exists d'. split.
    { unfold shift_time_to_L1.
      replace (String.eqb "old" "old") with true by reflexivity.
      unfold bind at 1. unfold get_self at 1. cbn [self].
      unfold bind at 1. unfold lift at 1. rewrite Ht.
      unfold bind at 1. unfold lift at 1. rewrite Hlast.
      unfold bind at 1. unfold lift at 1. cbn [num2date].
      unfold bind at 1. unfold lift at 1. rewrite Hspeed.
      unfold bind at 1. unfold lift at 1. rewrite Hlag.
      unfold bind at 1. unfold in_log at 1, logger at 1. cbn [logged self].
      unfold bind at 1. unfold lift at 1. rewrite Hrow0.
      unfold store_time, bind, get_self, lift, put_self. cbn [self logged].
      fold shifted. rewrite Hst. reflexivity. }
    split.
    { rewrite getitem_time_row0. apply item_nth_error. rewrite Hdata.
      apply set_nth_nth_error_same. destruct Hwf as [-> _]. lia. }
    split.
    { intros u row Hu Hg. unfold __getitem__ in *. rewrite Hvars.
      destruct (mem u (vars d ++ ["time"])); [|discriminate].
      apply item_nth_error. apply item_Ok_inv in Hg.
      rewrite Hdata, set_nth_nth_error_other; [exact Hg|].
      intro H0. apply Hu. apply index_of_default_keys_zero. symmetry. exact H0. }
    auto.
  - intros method Ho Hn. unfold shift_time_to_L1.
    replace (String.eqb method "old") with false
      by (symmetry; apply String.eqb_neq; exact Ho).
    replace (String.eqb method "new") with false
      by (symmetry; apply String.eqb_neq; exact Hn).
    reflexivity.
Qed.

End TimeShift.

Lemma shift_time_to_L1_old_is_uniform_witness :
  exists d' lag_l1 lag_r,
    L1.shift_time_to_L1 ex_E 26.24 "old" (SatData.mkWorld ex_monitor []) =
      (Ok tt, SatData.mkWorld d'
         [mkLog INFO "shift_time_to_L1: Shifting time by {:.2f} hours"
            [fmul (fadd lag_l1 lag_r) (Fin 24)]]) /\
    SatData.__getitem__ d' "time"
      = Ok [fadd (fadd (Fin 0) lag_l1) lag_r; fadd (fadd (Fin 1) lag_l1) lag_r] /\
    SatData.__getitem__ d' "speed" = Ok [Fin 400; Fin 400].
Proof.
  destruct (get_time_lag_value ex_E 1 (L1.np_nanmean [Fin 400; Fin 400]) 26.24
              "STEREO-A" 1 0 0 [] (or_introl eq_refl))
    as (l & r & Hlag & _); [lra|reflexivity|].
  destruct (shift_time_to_L1_old_is_uniform ex_E ex_monitor [] 26.24) as [H _].
  destruct (H [Fin 0; Fin 1] [Fin 400; Fin 400] 1 (Fin l) r ex_monitor_wf
              eq_refl eq_refl eq_refl Hlag)
    as (d' & Hrun & Htime & Hother & _).
  exists d', (Fin l), r. split; [exact Hrun|]. split; [exact Htime|].
  apply Hother; [discriminate|reflexivity].
Defined.

(* ===================================================================== *)
(** ** Merging: requested keys and the time step *)
(* ===================================================================== *)

Section MergeChecks.

Import SatData Convert L1 Resample.
Local Open Scope string_scope.

Lemma check_merge_keys_first_missing (pre post vars2 : list string) (k : string)
      (lg : list log_record) :
  (forall q, In q pre -> mem q vars2 = true) ->
  mem k vars2 = false ->
  check_merge_keys (pre ++ k :: post) vars2 lg =
  (Raise (Exception ("Dataset1 contains key (" ++ k
                       ++ ") not available in Dataset2!")),
   (lg ++ [mkLog ERROR ("merge_Data: Dataset1 contains key (" ++ k
                          ++ ") not available in Dataset2!") []])%list).
Proof.
  intros Hpre Hk. induction pre as [|p pre IH]; cbn [app check_merge_keys].
  - rewrite Hk. reflexivity.
  - rewrite (Hpre p (or_introl eq_refl)). cbn [negb].
    apply IH. intros q Hq. apply Hpre. right; exact Hq.
Qed.

(** [merge_Data] with a list of keys checks every key against the
    variables of the second data set before it builds anything: the first
    requested key that the second data set does not hold is reported with
    an error record and raised as an exception that names it. *)
Theorem merge_Data_refuses_missing_key :
  forall (E : externals) (satdata1 satdata2 : SatData.t) (lg : list log_record)
         (pre post : list string) (k : string),
    (forall q, In q pre -> mem q (vars satdata2) = true) ->
    mem k (vars satdata2) = false ->
    merge_Data E satdata1 satdata2 (Some (pre ++ k :: post)%list) lg =
    (Raise (Exception ("Dataset1 contains key (" ++ k
                         ++ ") not available in Dataset2!")),
     (lg ++ [mkLog INFO ("merge_Data: Will merge data from "
                           ++ source_str satdata1 ++ " and "
                           ++ source_str satdata2 ++ "...") [];
             mkLog ERROR ("merge_Data: Dataset1 contains key (" ++ k
                            ++ ") not available in Dataset2!") []])%list).
Proof.
  intros E s1 s2 lg pre post k Hpre Hk. unfold merge_Data.
  unfold bind at 1. unfold logger at 1.
  unfold bind at 1. unfold ret at 1.
  unfold bind at 1.
  rewrite (check_merge_keys_first_missing pre post (vars s2) k _ Hpre Hk).
  rewrite <- app_assoc. reflexivity.
Qed.

(** The time step of a merge.  The declared sampling rate is compared
    with an hour without taking the absolute value of the difference, so
    every finite rate below one hour plus 0.0001 days gives the hourly
    step, every rate from there on is used as it is, and the test for a
    rate of one minute is never reached with a value that passes it: the
    step is never 1/24/60. *)
Theorem merge_timestep_is_hour_or_declared :
  forall (h1 : header) (x : npfloat),
    h_item "SamplingRate" h1 = Ok (HNum x) ->
    (forall r, x = Fin r -> r < 1 / 24 + 0.0001 ->
               merge_timestep h1 = Ok (Fin (1 / 24))) /\
    (forall r, x = Fin r -> 1 / 24 + 0.0001 <= r ->
               merge_timestep h1 = Ok (Fin r)) /\
    merge_timestep h1 <> Ok (Fin (1 / 24 / 60)).
Proof.
  intros h1 x Hx. unfold merge_timestep. rewrite Hx. cbn [rbind].
  split; [|split].
  - intros r -> Hr. cbn [fsub fneg fadd].
    rewrite flt_Fin_true by lra. reflexivity.
  - intros r -> Hr. cbn [fsub fneg fadd].
    rewrite !flt_Fin_false by lra. reflexivity.
  - destruct x as [r| | |]; cbn [fsub fneg fadd flt].
    + destruct (Rlt_dec (r + - (1 / 24)) 0.0001).
      * intros [= H]. lra.
      * destruct (Rlt_dec (r + - (1 / 24 / 60)) 0.0001); [lra|].
        intros [= H]. lra.
    + discriminate.
    + intros [= H]. lra.
    + discriminate.
Qed.

End MergeChecks.

Lemma merge_Data_refuses_missing_key_witness :
  Resample.merge_Data ex_E ex_A ex_B (Some ["bx"; "by"]%string) [] =
  (Raise (Exception "Dataset1 contains key (by) not available in Dataset2!"),
   [mkLog INFO "merge_Data: Will merge data from A and B..." [];
    mkLog ERROR "merge_Data: Dataset1 contains key (by) not available in Dataset2!" []]).
Proof.
  apply (merge_Data_refuses_missing_key ex_E ex_A ex_B [] ["bx"%string] []
                                        "by"%string).
  - intros q [<-|[]]. reflexivity.
  - reflexivity.
Defined.

Lemma merge_timestep_is_hour_or_declared_witness :
  Resample.merge_timestep
    (h_set "SamplingRate" (HNum (Fin (1 / 24 / 60))) SatData.empty_header)
  = Ok (Fin (1 / 24)).
Proof.
  destruct (merge_timestep_is_hour_or_declared
              (h_set "SamplingRate" (HNum (Fin (1 / 24 / 60))) SatData.empty_header)
              (Fin (1 / 24 / 60)) eq_refl) as (H & _ & _).
  apply (H (1 / 24 / 60) eq_refl). lra.
Defined.

(* ===================================================================== *)
(** ** Interpolation over NaNs *)
(* ===================================================================== *)

Section InterpNans.

Import SatData Convert L1 Resample.
Local Open Scope string_scope.

Lemma mask_fill_length (a : array) (mask : list bool) (vals : array) :
  List.length (mask_fill a mask vals) = List.length a.
Proof.
  revert mask vals. induction a as [|x a IH]; intros mask vals.
  - destruct mask; reflexivity.
  - destruct mask as [|b mask]; [reflexivity|].
    cbn [mask_fill]. destruct b; [destruct vals|]; cbn [List.length];
      rewrite IH; reflexivity.
Qed.

Lemma mask_fill_isnan_keeps (a vals : array) (i : nat) :
  isnan (nth i a NaN) = false ->
  nth i (mask_fill a (map isnan a) vals) NaN = nth i a NaN.
Proof.
  revert vals i. induction a as [|x a IH]; intros vals i H.
  - destruct i; discriminate.
  - cbn [map mask_fill]. destruct i as [|i].
    + cbn [nth] in H. rewrite H. reflexivity.
    + cbn [nth] in H. destruct (isnan x); [destruct vals|]; cbn [nth];
        apply IH; exact H.
Qed.

Lemma nonzero_from_length (mask : list bool) (i : nat) :
  List.length (nonzero_from mask i) = List.length (filter (fun b => b) mask).
Proof.
  revert i. induction mask as [|b mask IH]; intro i; [reflexivity|].
  cbn [nonzero_from filter]. destruct b; cbn [List.length]; rewrite IH; reflexivity.
Qed.

Lemma select_valid_nonempty (a : array) (x : npfloat) :
  In x a -> isnan x = false -> select a (map negb (map isnan a)) <> [].
Proof.
  induction a as [|y a IH]; intros Hin Hx; [destruct Hin|].
  cbn [map select]. destruct (isnan y) eqn:Ey; cbn [negb]; [|discriminate].
  destruct Hin as [->|Hin]; [congruence|]. apply IH; assumption.
Qed.

Lemma keeps_valid_samples_refl (d : SatData.t) : keeps_valid_samples d d.
Proof. intros idx row H. exists row. auto. Qed.

Lemma keeps_valid_samples_trans (d1 d2 d3 : SatData.t) :
  keeps_valid_samples d1 d2 -> keeps_valid_samples d2 d3 ->
  keeps_valid_samples d1 d3.
Proof.
  intros H12 H23 idx row H.
  destruct (H12 idx row H) as (row2 & H2 & L2 & K2).
  destruct (H23 idx row2 H2) as (row3 & H3 & L3 & K3).
  exists row3. split; [exact H3|]. split; [congruence|].
  intros i Hi. rewrite <- (K2 i Hi). apply K3. rewrite (K2 i Hi). exact Hi.
Qed.

Lemma valid_sample_kept (row row' : array) (x : npfloat) :
  List.length row' = List.length row ->
  (forall i, isnan (nth i row NaN) = false -> nth i row' NaN = nth i row NaN) ->
  In x row -> isnan x = false -> In x row'.
Proof.
  intros Hl Hk Hin Hx. destruct (In_nth _ _ NaN Hin) as (i & Hi & Ei).
  rewrite <- Ei, <- (Hk i) by (rewrite Ei; exact Hx).
  apply nth_In. lia.
Qed.

(** The loop of [interp_nans] over keys whose rows hold at least one
    sample that is not NaN. *)
Lemma interp_nans_loop_keeps (E : externals) (ks : list string) :
  interp_one_per_point E ->
  forall (d : SatData.t) (lg : list log_record),
    wf d ->
    (forall k, In k ks ->
       mem k (vars d) = true /\ mem k default_keys = true /\
       exists row x, nth_error (data d) (index_of k default_keys) = Some row /\
                     In x row /\ isnan x = false) ->
    exists d',
      interp_nans_loop E ks (mkWorld d lg) = (Ok tt, mkWorld d' lg) /\
      wf d' /\ __len__ d' = __len__ d /\ vars d' = vars d /\ h d' = h d /\
      pos d' = pos d /\ keeps_valid_samples d d'.
Proof.
  intro Hint. induction ks as [|k rest IH]; intros d lg Hwf Hks.
  - exists d. split; [reflexivity|]. repeat split; auto; try apply Hwf.
    apply keeps_valid_samples_refl.
  - destruct (Hks k (or_introl eq_refl)) as (Hv & Hk & a & x & Ha & Hin & Hx).
    set (idx := index_of k default_keys) in *.
    assert (Hidx : (idx < 18)%nat) by (apply index_of_default_keys_lt; exact Hk).
    assert (Hla : List.length a = __len__ d)
      by (apply Hwf; eapply nth_error_In; eauto).
    set (inds := map isnan a).
    destruct (Hint (nonzero_from inds 0) (nonzero_from (map negb inds) 0)
                   (select a (map negb inds))
                   (select_valid_nonempty a x Hin Hx)) as (y & Hy & Ly).
    set (a' := mask_fill a inds y).
    assert (Hla' : List.length a' = __len__ d)
      by (unfold a'; rewrite mask_fill_length; exact Hla).
    destruct (store_row_wf d idx a' Hwf Hidx Hla')
      as (d1 & Hst & Hdata & Hvars & Hh & Hpos & _ & _ & Hlen1 & Hwf1).
    assert (Hd1 : set_data d (set_nth (data d) idx a') = d1).
    { unfold store_row in Hst. rewrite (item_nth_error _ _ _ Ha) in Hst.
      cbn [rbind] in Hst.
      rewrite assign_row_same_length in Hst by congruence.
      cbn [rbind] in Hst. injection Hst as Hst. exact Hst. }
    assert (Hkeep1 : keeps_valid_samples d d1).
    { intros j row Hrow. destruct (Nat.eq_dec j idx) as [->|Hne].
      - exists a'. rewrite Hdata.
        split; [apply set_nth_nth_error_same; destruct Hwf as [-> _]; exact Hidx|].
        assert (row = a) by congruence. subst row.
        split; [unfold a'; apply mask_fill_length|].
        intros i Hi. unfold a', inds. apply mask_fill_isnan_keeps. exact Hi.
      - exists row. rewrite Hdata, set_nth_nth_error_other by auto. auto. }
    destruct (IH d1 lg Hwf1) as (d' & Hrun & Hwf' & Hlen' & Hvars' & Hh' & Hpos' & Hkeep').
    { intros k' Hk'. destruct (Hks k' (or_intror Hk'))
        as (Hv' & Hkd' & row & x' & Hrow & Hin' & Hx').
      split; [congruence|]. split; [exact Hkd'|].
      destruct (Hkeep1 _ _ Hrow) as (row' & Hrow' & Hl' & Hk1).
      exists row', x'. split; [exact Hrow'|]. split; [|exact Hx'].
      eapply valid_sample_kept; eauto. }
    exists d'. split.
    { cbn [interp_nans_loop].
      unfold bind at 1. unfold get_self at 1. cbn [self].
      unfold bind at 1. unfold lift at 1.
      unfold __getitem__ at 1. rewrite mem_app, Hv. cbn [orb]. fold idx.
      rewrite (item_nth_error _ _ _ Ha). fold inds.
      replace (Nat.eqb (List.length inds) 0) with false.
      2:{ symmetry. apply Nat.eqb_neq. unfold inds. rewrite length_map.
          destruct a; [destruct Hin|discriminate]. }
      unfold bind at 1. unfold lift at 1. rewrite Hy.
      unfold bind at 1. unfold lift at 1.
      unfold mask_assign. rewrite Ly, nonzero_from_length, Nat.eqb_refl.
      fold a'. unfold bind at 1. unfold put_self at 1. cbn [self logged].
      rewrite Hd1. exact Hrun. }
    repeat split; try congruence; try apply Hwf'.
    eapply keeps_valid_samples_trans; eauto.
Qed.

(** [interp_nans] never alters a sample that is not NaN.  Provided
    [np.interp] returns one value per requested point and every row that
    is walked holds at least one valid sample, the call succeeds on a
    well-formed container, logs one info record, keeps the container well
    formed with its length, variables, header and positions, and leaves
    every sample that was not NaN exactly where and what it was; only NaN
    places receive what [np.interp] returned. *)
Theorem interp_nans_keeps_valid_samples :
  forall (E : externals) (d : SatData.t) (lg : list log_record)
         (keys : option (list string)),
    interp_one_per_point E ->
    wf d ->
    (forall k, In k (interp_nans_keys d keys) ->
       mem k (vars d) = true /\ mem k default_keys = true /\
       exists row x, nth_error (data d) (index_of k default_keys) = Some row /\
                     In x row /\ isnan x = false) ->
    exists d',
      interp_nans E keys (mkWorld d lg) =
        (Ok tt, mkWorld d'
           (lg ++ [mkLog INFO ("interp_nans: Interpolating nans in "
                                 ++ source_str d ++ " data") []])%list) /\
      wf d' /\ __len__ d' = __len__ d /\ vars d' = vars d /\ h d' = h d /\
      pos d' = pos d /\ keeps_valid_samples d d'.
Proof.
  intros E d lg keys Hint Hwf Hks.
  destruct (interp_nans_loop_keeps E (interp_nans_keys d keys) Hint d
              (lg ++ [mkLog INFO ("interp_nans: Interpolating nans in "
                                    ++ source_str d ++ " data") []])%list Hwf Hks)
    as (d' & Hrun & Hrest).
  exists d'. split; [|exact Hrest].
  unfold interp_nans, bind, get_self, in_log, logger. cbn [self logged].
  exact Hrun.
Qed.

End InterpNans.

Section InterpNansExample.

Import SatData.

Lemma ex_omni_gap_wf : wf ex_omni_gap.
Proof.
  split; [reflexivity|].
  intros r Hr. simpl in Hr.
  repeat (destruct Hr as [<-|Hr]; [reflexivity|]). destruct Hr.
Qed.

Lemma ex_E_interp : interp_one_per_point ex_E.
Proof.
  intros x xp fp Hfp. cbn [np_interp ex_E]. unfold ex_np_interp.
  destruct fp as [|y fp]; [congruence|].
  eexists. split; [reflexivity|]. apply length_map.
Qed.

End InterpNansExample.

Lemma interp_nans_keeps_valid_samples_witness :
  exists d' row',
    Resample.interp_nans ex_E (Some ["speed"%string]) (SatData.mkWorld ex_omni_gap [])
      = (Ok tt, SatData.mkWorld d'
                  [mkLog INFO "interp_nans: Interpolating nans in OMNI2 data" []]) /\
    nth_error (SatData.data d') 1 = Some row' /\
    List.length row' = 2%nat /\ nth 1 row' NaN = Fin 400.
Proof.
  destruct (interp_nans_keeps_valid_samples ex_E ex_omni_gap []
              (Some ["speed"%string]) ex_E_interp ex_omni_gap_wf)
    as (d' & Hrun & _ & _ & _ & _ & _ & Hkeep).
  - intros k [<-|[]]. split; [reflexivity|]. split; [reflexivity|].
    exists [NaN; Fin 400], (Fin 400).
    split; [reflexivity|]. split; [right; left; reflexivity|reflexivity].
  - destruct (Hkeep 1%nat [NaN; Fin 400] eq_refl) as (row' & Hrow & Hlen & Hk).
    exists d', row'. split; [exact Hrun|]. split; [exact Hrow|].
    split; [exact Hlen|]. apply (Hk 1%nat). reflexivity.
Defined.

(* ===================================================================== *)
(** ** Interpolation to a new time axis *)
(* ===================================================================== *)

Section InterpToTime.

Import SatData Convert L1 Resample.
Local Open Scope string_scope.

Lemma d_get_d_set (k k' : string) (v : array) (acc : dict) :
  d_get k (d_set k' v acc) = if String.eqb k k' then Some v else d_get k acc.
Proof.
  induction acc as [|[k0 v0] acc IH]; cbn [d_set d_get].
  - destruct (String.eqb k k'); reflexivity.
  - destruct (String.eqb k' k0) eqn:E0.
    + apply String.eqb_eq in E0. subst k0. cbn [d_get].
      destruct (String.eqb k k'); reflexivity.
    + cbn [d_get]. destruct (String.eqb k k0) eqn:E1.
      * apply String.eqb_eq in E1. subst k0.
        rewrite String.eqb_sym in E0. rewrite E0. reflexivity.
      * exact IH.
Qed.

Lemma interp_to_time_dict_spec (E : externals) (d : SatData.t) (tarray : array)
      (ks : list string) :
  interp_one_per_point E ->
  wf d -> (0 < __len__ d)%nat ->
  (forall k, In k ks -> mem k (vars d) = true /\ mem k default_keys = true) ->
  forall acc,
  exists dict,
    interp_to_time_dict E d tarray ks acc = Ok dict /\
    (forall k, d_get k dict = if mem k ks then Some (interpolated E d tarray k)
                              else d_get k acc) /\
    (forall k, mem k ks = true ->
               List.length (interpolated E d tarray k) = List.length tarray).
Proof.
  intros Hint Hwf Hlen. induction ks as [|k ks IH]; intros Hks acc.
  - exists acc. split; [reflexivity|]. split; [reflexivity|].
    intros k Hk. discriminate.
  - destruct (Hks k (or_introl eq_refl)) as [Hv Hk].
    destruct (getitem_time d Hwf) as (time & Ht & _ & Hlt).
    destruct (getitem_var d k Hwf Hv Hk) as (a & Ha & _ & Hla).
    destruct (Hint tarray time a) as (na & Hna & Lna).
    { destruct a; [cbn in Hla; lia|discriminate]. }
    assert (Hval : interpolated E d tarray k = na)
      by (unfold interpolated; rewrite Ht, Ha, Hna; reflexivity).
    destruct (IH (fun k' Hk' => Hks k' (or_intror Hk')) (d_set k na acc))
      as (dict & Hrun & Hget & Hl).
    exists dict. split.
    { cbn [interp_to_time_dict]. rewrite Ht, Ha. cbn [rbind]. rewrite Hna.
      exact Hrun. }
    split.
    + intro k'. rewrite Hget, d_get_d_set.
      change (mem k' (k :: ks)) with (String.eqb k' k || mem k' ks).
      destruct (mem k' ks) eqn:Em.
      * rewrite orb_true_r. reflexivity.
      * rewrite orb_false_r. destruct (String.eqb k' k) eqn:Ek; [|reflexivity].
        apply String.eqb_eq in Ek. subst k'. rewrite Hval. reflexivity.
    + intros k' Hk'.
      change (mem k' (k :: ks)) with (String.eqb k' k || mem k' ks) in Hk'.
      destruct (String.eqb k' k) eqn:Ek.
      * apply String.eqb_eq in Ek. subst k'. rewrite Hval. exact Lna.
      * apply Hl. exact Hk'.
Qed.

End InterpToTime.

Section InterpToTimeShape.

Import SatData Convert L1 Resample.
Local Open Scope string_scope.

Lemma item_nth_lt {A : Type} (l : list A) (i : nat) (dflt : A) :
  (i < List.length l)%nat -> item l i = Ok (nth i l dflt).
Proof. intro H. apply item_nth_error. apply nth_error_nth'. exact H. Qed.

(** [interp_to_time] needs two points of the new time axis to read the
    resolution from and fails with an IndexError on a shorter one.  On a
    well-formed, non-empty container without position data whose active
    variables are default keys other than the time axis, and with an
    [np.interp] that returns one value per requested point, it returns a
    new well-formed container that is as long as the new time axis, has
    that axis as its time row, holds under every active variable the
    interpolation of that variable, has the same active variables, and
    carries the old header with the sampling rate replaced by the
    difference of the first two new time stamps.  Nothing is logged. *)
Theorem interp_to_time_shape :
  forall (E : externals) (d : SatData.t) (tarray : array) (lg : list log_record),
    ((List.length tarray < 2)%nat ->
     interp_to_time E d tarray lg = (Raise (IndexError "index out of bounds"), lg)) /\
    (interp_one_per_point E ->
     wf d -> (0 < __len__ d)%nat ->
     (forall k, In k (vars d) -> mem k default_keys = true) ->
     mem "time" (vars d) = false ->
     pos d = None ->
     (2 <= List.length tarray)%nat ->
     exists d',
       interp_to_time E d tarray lg = (Ok d', lg) /\
       wf d' /\ __len__ d' = List.length tarray /\
       __getitem__ d' "time" = Ok tarray /\
       (forall k, mem k (vars d) = true ->
                  __getitem__ d' k = Ok (interpolated E d tarray k)) /\
       (forall k, mem k (vars d') = mem k (vars d)) /\
       h d' = h_set "SamplingRate"
                (HNum (fsub (nth 1 tarray NaN) (nth 0 tarray NaN))) (h d) /\
       pos d' = None /\ source d' = source d).
Proof.
  intros E d tarray lg. split.
  - intro Hshort. unfold interp_to_time. unfold bind at 1. unfold lift at 1.
    replace (item tarray 1) with (Raise (IndexError "index out of bounds")
                                  : result npfloat); [reflexivity|].
    unfold item. replace (nth_error tarray 1) with (@None npfloat); [reflexivity|].
    symmetry. apply nth_error_None. lia.
  - intros Hint Hwf Hlen Hdef Htime Hpos Hlong.
    destruct (getitem_time d Hwf) as (time & Ht & _ & Hlt).
    destruct (interp_to_time_dict_spec E d tarray (vars d) Hint Hwf Hlen)
      with (acc := [("time", tarray)]) as (dict & Hdict & Hget & Hl).
    { intros k Hk. split; [apply mem_In; exact Hk|apply Hdef; exact Hk]. }
    assert (Hkeys : forall k, In k (map fst dict) -> mem k default_keys = true).
    { intros k Hk. apply mem_In in Hk. rewrite d_get_mem, Hget in Hk.
      destruct (mem k (vars d)) eqn:Em.
      - apply Hdef. apply mem_In. exact Em.
      - cbn [d_get] in Hk. destruct (String.eqb k "time") eqn:Ek; [|discriminate].
        apply String.eqb_eq in Ek. subst k. reflexivity. }
    assert (Htd : d_get "time" dict = Some tarray)
      by (rewrite Hget, Htime; reflexivity).
    assert (Hlens : forall k a, d_get k dict = Some a ->
                                List.length a = List.length tarray).
    { intros k a Hka. rewrite Hget in Hka. destruct (mem k (vars d)) eqn:Em.
      - injection Hka as <-. apply Hl. exact Em.
      - cbn [d_get] in Hka. destruct (String.eqb k "time"); [|discriminate].
        injection Hka as <-. reflexivity. }
    destruct (init_lookup dict (source d) (Some (h d)) lg tarray Hkeys Htd Hlens)
      as (d0 & Hrun & Hwf0 & Hlen0 & Hget0 & _ & Hvars0 & Hh0 & Hpos0 & Hsrc0).
    replace (Nat.eqb (List.length tarray) 0) with false in Hrun
      by (symmetry; apply Nat.eqb_neq; lia).
    exists (set_h d0 (h_set "SamplingRate"
                        (HNum (fsub (nth 1 tarray NaN) (nth 0 tarray NaN))) (h d0))).
    split.
    { unfold interp_to_time.
      unfold bind at 1. unfold lift at 1.
      rewrite (item_nth_lt tarray 1 NaN) by lia.
      unfold bind at 1. unfold lift at 1.
      rewrite (item_nth_lt tarray 0 NaN) by lia.
      unfold bind at 1. unfold lift at 1. rewrite Ht.
      unfold bind at 1. unfold lift at 1.
      rewrite (item_nth_lt time 0 NaN) by lia.
      unfold bind at 1. unfold lift at 1. rewrite Hdict.
      unfold bind at 1. rewrite Hrun. rewrite Hpos. reflexivity. }
    split; [exact Hwf0|]. split; [exact Hlen0|].
    split; [apply (Hget0 "time"); exact Htd|].
    split.
    { intros k Hk. apply (Hget0 k). rewrite Hget, Hk. reflexivity. }
    split.
    { intro k. cbn [vars set_h]. rewrite Hvars0.
      destruct (String.eqb k "time") eqn:Ek.
      - apply String.eqb_eq in Ek. subst k.
        rewrite remove_first_time_filter, Htime. reflexivity.
      - apply String.eqb_neq in Ek.
        rewrite (mem_remove_first_other k "time" _ Ek), mem_filter, d_get_mem, Hget.
        destruct (mem k (vars d)) eqn:Em.
        + rewrite (Hdef k) by (apply mem_In; exact Em). reflexivity.
        + cbn [d_get].
          replace (String.eqb k "time") with false
            by (symmetry; apply String.eqb_neq; exact Ek).
          apply andb_false_r. }
    split; [cbn [h set_h]; rewrite Hh0; reflexivity|].
    split; [exact Hpos0|exact Hsrc0].
Qed.

End InterpToTimeShape.

Lemma interp_to_time_shape_witness :
  Resample.interp_to_time ex_E ex_d [Fin 0] [] =
    (Raise (IndexError "index out of bounds"), []) /\
  exists d',
    Resample.interp_to_time ex_E ex_d [Fin 0; Fin (1 / 2); Fin 1] [] = (Ok d', []) /\
    wf d' /\ SatData.__len__ d' = 3%nat /\
    SatData.__getitem__ d' "time" = Ok [Fin 0; Fin (1 / 2); Fin 1].
Proof.
  split.
  - apply (interp_to_time_shape ex_E ex_d [Fin 0] []). cbn; lia.
  - destruct (interp_to_time_shape ex_E ex_d [Fin 0; Fin (1 / 2); Fin 1] [])
      as [_ H].
    destruct H as (d' & Hrun & Hwf & Hlen & Htime & _).
    + exact ex_E_interp.
    + exact ex_d_wf.
    + apply Nat.ltb_lt. reflexivity.
    + intros k [<-|[]]. reflexivity.
    + reflexivity.
    + reflexivity.
    + cbn; lia.
    + exists d'. split; [exact Hrun|]. split; [exact Hwf|].
      split; [exact Hlen|exact Htime].
Defined.

(* ===================================================================== *)
(** ** Hourly data *)
(* ===================================================================== *)

Section Hourly.

Import SatData Convert L1 Resample Products.
Local Open Scope string_scope.

(** The time axis of [make_hourly_data].  It starts at the full hour at
    or before the first sample (the first time stamp is rounded down, not
    to the nearest hour), steps by one hour and has as many points as the
    number of hours to the last sample, rounded up; the result is what
    [interp_to_time] returns for this axis.  When the last sample is not
    more than an hour after that start, the axis has fewer than two points
    and the call fails with the IndexError of [interp_to_time]. *)
Theorem make_hourly_data_grid :
  forall (E : externals) (seconds_between : R -> R -> R) (d : SatData.t)
         (lg : list log_record) (time : array) (t0 tl : R),
    __getitem__ d "time" = Ok time ->
    item time 0 = Ok (Fin t0) ->
    last_item time = Ok (Fin tl) ->
    let stime := IZR (Zfloor (t0 * 24)) / 24 in
    let n := Z.to_nat (Zceil (seconds_between tl stime / 60 / 60)) in
    stime <= t0 < stime + 1 / 24 /\
    make_hourly_data E seconds_between d lg =
      interp_to_time E d
        (map (fun k => Fin (stime + INR k * (1 / 24))) (seq 0 n)) lg /\
    (seconds_between tl stime <= 3600 ->
     make_hourly_data E seconds_between d lg =
       (Raise (IndexError "index out of bounds"), lg)).
Proof.
  intros E sb d lg time t0 tl Ht H0 Hl stime n.
  assert (Hfloor := Zfloor_bound (t0 * 24)).
  assert (Hstime : fsub (Fin t0) (fmod (Fin t0) (1 / 24)) = Fin stime).
  { cbn [fmod fsub fneg fadd]. unfold np_mod, stime. f_equal.
    replace (t0 / (1 / 24)) with (t0 * 24) by field. field. }
  assert (Hrun : make_hourly_data E sb d lg =
                 interp_to_time E d
                   (map (fun k => Fin (stime + INR k * (1 / 24))) (seq 0 n)) lg).
  { unfold make_hourly_data.
    unfold bind at 1. unfold lift at 1. rewrite Ht.
    unfold bind at 1. unfold lift at 1. rewrite H0.
    rewrite Hstime.
    unfold bind at 1. unfold lift at 1. rewrite Hl.
    unfold bind at 1. unfold lift at 1. cbn [num2date].
    unfold bind at 1. unfold lift at 1.
    unfold bind at 1. unfold lift at 1.
    unfold arange_len. destruct (Req_dec_T 1 0) as [H1|_]; [lra|].
    cbn [fsub fneg fadd]. rewrite fdiv_Fin_nonzero by lra.
    replace ((sb tl stime / 60 / 60 + - 0) / 1) with (sb tl stime / 60 / 60)
      by field.
    fold n. reflexivity. }
  split; [unfold stime; lra|]. split; [exact Hrun|].
  intro Hshort. rewrite Hrun.
  assert (Hn : (n <= 1)%nat).
  { unfold n.
    assert (Hc : (Zceil (sb tl stime / 60 / 60) <= 1)%Z).
    { assert (Hb := Zceil_bound (sb tl stime / 60 / 60)).
      apply Z.lt_succ_r. apply lt_IZR. rewrite succ_IZR. lra. }
    lia. }
  unfold interp_to_time. unfold bind at 1. unfold lift at 1.
  replace (item (map (fun k => Fin (stime + INR k * (1 / 24))) (seq 0 n)) 1)
    with (Raise (IndexError "index out of bounds") : result npfloat);
    [reflexivity|].
  unfold item.
  replace (nth_error (map (fun k => Fin (stime + INR k * (1 / 24))) (seq 0 n)) 1)
    with (@None npfloat); [reflexivity|].
  symmetry. apply nth_error_None. rewrite length_map, length_seq. exact Hn.
Qed.

End Hourly.

Lemma make_hourly_data_grid_witness :
  Products.make_hourly_data ex_E (fun a b => (a - b) * 86400)
                            (ex_hourly "A" [0; 1]) [] =
  (Raise (IndexError "index out of bounds"), []).
Proof.
  destruct (make_hourly_data_grid ex_E (fun a b => (a - b) * 86400)
              (ex_hourly "A" [0; 1]) [] [Fin (0 / 24); Fin (1 / 24)]
              (0 / 24) (1 / 24) eq_refl eq_refl eq_refl) as (_ & _ & H).
  apply H.
  replace (0 / 24 * 24) with (IZR 0) by (simpl; field).
  rewrite ZfloorZ. lra.
Defined.

(* ===================================================================== *)
(** ** The auroral power prediction *)
(* ===================================================================== *)

Section AuroraPower.

Import SatData Convert L1 Resample Products.
Local Open Scope string_scope.

Lemma clip_negative_not_below_zero (a : array) (x : npfloat) :
  In x (clip_negative a) -> flt x (Fin 0) = false.
Proof.
  unfold clip_negative. intro H. apply in_map_iff in H as (y & <- & _).
  destruct (flt y (Fin 0)) eqn:E; [|exact E].
  apply flt_Fin_false. lra.
Qed.

(** [make_aurora_power_prediction] rounds the model output to two
    decimals and sets every value below zero to zero: the container it
    returns holds no negative auroral power (a NaN stays a NaN).  The new
    container has the time axis of the input, 'aurora' as its only active
    variable, and a declared sampling rate of one hour whatever the rate
    of the input. *)
Theorem aurora_power_is_never_negative :
  forall (model : array -> array -> array -> array -> array -> result array)
         (d : SatData.t) (lg : list log_record)
         (btot by_ bz speed density p : array),
    wf d ->
    __getitem__ d "btot" = Ok btot -> __getitem__ d "by" = Ok by_ ->
    __getitem__ d "bz" = Ok bz -> __getitem__ d "speed" = Ok speed ->
    __getitem__ d "density" = Ok density ->
    model btot by_ bz speed density = Ok p ->
    List.length p = __len__ d ->
    exists d' time,
      make_aurora_power_prediction model d lg =
        (Ok d',
         if Nat.eqb (__len__ d) 0
         then (lg ++ [mkLog INFO "Making auroral power prediction" [];
                      mkLog WARNING
                        "SatData.__init__: Inititating empty array! Is the data missing?" []])%list
         else (lg ++ [mkLog INFO "Making auroral power prediction" []])%list) /\
      __getitem__ d "time" = Ok time /\ __getitem__ d' "time" = Ok time /\
      __getitem__ d' "aurora" = Ok (clip_negative (map (round_to 2) p)) /\
      (forall x, In x (clip_negative (map (round_to 2) p)) ->
                 flt x (Fin 0) = false) /\
      vars d' = ["aurora"] /\
      h_item "SamplingRate" (h d') = Ok (HNum (Fin (1 / 24))).
Proof.
  intros model d lg btot by_ bz speed density p Hwf Hb Hy Hz Hs Hn Hp Lp.
  destruct (getitem_time d Hwf) as (time & Ht & _ & Hlt).
  set (aurora := clip_negative (map (round_to 2) p)).
  assert (La : List.length aurora = List.length time)
    by (unfold aurora, clip_negative; rewrite !length_map; congruence).
  destruct (init_lookup [("time", time); ("aurora", aurora)] None None
              (lg ++ [mkLog INFO "Making auroral power prediction" []])%list time)
    as (d0 & Hrun & Hwf0 & Hlen0 & Hget0 & _ & Hvars0 & Hh0 & _).
  { intros k [<-|[<-|[]]]; reflexivity. }
  { reflexivity. }
  { intros k a. cbn [d_get].
    destruct (String.eqb k "time"); [intros [= <-]; reflexivity|].
    destruct (String.eqb k "aurora"); [intros [= <-]; exact La|discriminate]. }
  eexists. exists time. split.
  { unfold make_aurora_power_prediction.
    unfold bind at 1. unfold logger at 1.
    unfold bind at 1. unfold lift at 1. rewrite Hb.
    unfold bind at 1. unfold lift at 1. rewrite Hy.
    unfold bind at 1. unfold lift at 1. rewrite Hz.
    unfold bind at 1. unfold lift at 1. rewrite Hs.
    unfold bind at 1. unfold lift at 1. rewrite Hn.
    unfold bind at 1. unfold lift at 1. rewrite Hp.
    unfold bind at 1. unfold lift at 1. rewrite Ht.
    unfold bind at 1. fold aurora. rewrite Hrun. unfold ret.
    rewrite Hlt, <- app_assoc. reflexivity. }
  split; [exact Ht|].
  split; [apply (Hget0 "time"); reflexivity|].
  split; [apply (Hget0 "aurora"); reflexivity|].
  split; [intros x Hx; eapply clip_negative_not_below_zero; exact Hx|].
  split; [cbn [vars set_h]; rewrite Hvars0; reflexivity|].
  cbn [h set_h]. apply h_item_set_same.
Qed.

End AuroraPower.

Lemma aurora_power_is_never_negative_witness :
  exists d',
    Products.make_aurora_power_prediction
      (fun _ _ _ _ _ => Ok [Fin (-1); NaN]) ex_omni_gap [] =
      (Ok d', [mkLog INFO "Making auroral power prediction" []]) /\
    SatData.__getitem__ d' "aurora"
      = Ok (Products.clip_negative (map (L1.round_to 2) [Fin (-1); NaN])) /\
    SatData.vars d' = ["aurora"%string].
Proof.
  destruct (aurora_power_is_never_negative (fun _ _ _ _ _ => Ok [Fin (-1); NaN])
              ex_omni_gap [] ex_zero2 ex_zero2 ex_zero2 [NaN; Fin 400] ex_zero2
              [Fin (-1); NaN] ex_omni_gap_wf eq_refl eq_refl eq_refl eq_refl
              eq_refl eq_refl eq_refl)
    as (d' & time & Hrun & _ & _ & Ha & _ & Hv & _).
  exists d'. split; [exact Hrun|]. split; [exact Ha|exact Hv].
Defined.

(* ===================================================================== *)
(** ** Rounding a datetime to the hour *)
(* ===================================================================== *)

Section RoundToHour.

Import TimeTools.

(** On a valid datetime the comparison with the half hour only looks at
    the minute. *)
Lemma dt_geb_half_hour (dt : datetime) :
  valid_datetime dt ->
  dt_geb dt (replace_minute dt 30) = negb (Z.ltb (minute dt) 30).
Proof.
  intros (_ & _ & _ & Hs & Hu).
  unfold dt_geb, dt_key, replace_minute.
  cbn [lex_geb ordinal hour minute second microsecond].
  rewrite !Z.ltb_irrefl.
  destruct (Z.ltb_spec 30 (minute dt)), (Z.ltb_spec (minute dt) 30);
    cbn [negb]; try reflexivity; try lia.
  destruct (Z.ltb_spec 0 (second dt)); [reflexivity|].
  destruct (Z.ltb_spec (second dt) 0); [lia|].
  destruct (Z.ltb_spec 0 (microsecond dt)); [reflexivity|].
  destruct (Z.ltb_spec (microsecond dt) 0); [lia|reflexivity].
Qed.

(** [round_to_hour] returns the full hour nearest to a datetime, a half
    hour going up: the result has no minutes, seconds or microseconds, the
    datetime lies from 30 minutes before the result (included) to 30
    minutes after it (excluded), and rounding the result again gives the
    result.  The only datetimes it fails on are those in the last half
    hour of the last representable day, where the addition overflows. *)
Theorem round_to_hour_is_nearest_hour :
  forall dt : datetime,
    valid_datetime dt ->
    match round_to_hour dt with
    | DtOk r =>
        valid_datetime r /\
        minute r = 0%Z /\ second r = 0%Z /\ microsecond r = 0%Z /\
        (to_microseconds r - 1800000000 <= to_microseconds dt
         < to_microseconds r + 1800000000)%Z /\
        round_to_hour r = DtOk r
    | OverflowError _ =>
        ordinal dt = max_ordinal /\ hour dt = 23%Z /\ (30 <= minute dt)%Z
    end.
Proof.
  intros dt Hv. pose proof Hv as (Ho & Hh & Hm & Hs & Hu).
  unfold round_to_hour. rewrite (dt_geb_half_hour dt Hv).
  assert (Hidem : forall r, valid_datetime r -> minute r = 0%Z ->
                            second r = 0%Z -> microsecond r = 0%Z ->
                            round_to_hour r = DtOk r).
  { intros r Hr Hm0 Hs0 Hu0. unfold round_to_hour.
    rewrite (dt_geb_half_hour r Hr), Hm0. cbn [Z.ltb Z.compare negb].
    destruct r as [o hh mi se us]. cbn in Hm0, Hs0, Hu0. subst.
    reflexivity. }
  destruct (Z.ltb_spec (minute dt) 30) as [Hlt|Hge]; cbn [negb].
  - assert (Hr : valid_datetime (replace_minute dt 0))
      by (unfold valid_datetime, replace_minute; cbn; lia).
    split; [exact Hr|]. split; [reflexivity|]. split; [reflexivity|].
    split; [reflexivity|]. split.
    + unfold to_microseconds, replace_minute. cbn. lia.
    + apply Hidem; auto.
  - unfold add_hour, replace_minute. cbn [ordinal hour minute second microsecond].
    destruct (Z.ltb_spec (hour dt) 23) as [H23|H23].
    + set (r := mkDatetime (ordinal dt) (hour dt + 1) 0 0 0).
      assert (Hr : valid_datetime r) by (unfold valid_datetime, r; cbn; lia).
      split; [exact Hr|]. split; [reflexivity|]. split; [reflexivity|].
      split; [reflexivity|]. split.
      * unfold to_microseconds, r. cbn. lia.
      * apply Hidem; auto.
    + destruct (Z.ltb_spec (ordinal dt) max_ordinal) as [Hmax|Hmax].
      * set (r := mkDatetime (ordinal dt + 1) 0 0 0 0).
        assert (Hr : valid_datetime r) by (unfold valid_datetime, r; cbn; lia).
        split; [exact Hr|]. split; [reflexivity|]. split; [reflexivity|].
        split; [reflexivity|]. split.
        -- unfold to_microseconds, r. cbn. lia.
        -- apply Hidem; auto.
      * split; [lia|]. split; lia.
Qed.

End RoundToHour.

Lemma round_to_hour_is_nearest_hour_witness :
  match TimeTools.round_to_hour (TimeTools.mkDatetime 737000 23 30 0 0) with
  | TimeTools.DtOk r =>
      valid_datetime r /\
      TimeTools.minute r = 0%Z /\ TimeTools.second r = 0%Z /\
      TimeTools.microsecond r = 0%Z /\
      (to_microseconds r - 1800000000
       <= to_microseconds (TimeTools.mkDatetime 737000 23 30 0 0)
       < to_microseconds r + 1800000000)%Z /\
      TimeTools.round_to_hour r = TimeTools.DtOk r
  | TimeTools.OverflowError _ => False
  end.
Proof.
  assert (H := round_to_hour_is_nearest_hour
                 (TimeTools.mkDatetime 737000 23 30 0 0)).
  assert (Hv : valid_datetime (TimeTools.mkDatetime 737000 23 30 0 0))
    by (unfold valid_datetime, TimeTools.max_ordinal; cbn; lia).
  specialize (H Hv).
  change (TimeTools.round_to_hour (TimeTools.mkDatetime 737000 23 30 0 0))
    with (TimeTools.DtOk (TimeTools.mkDatetime 737001 0 0 0 0)) in *.
  exact H.
Defined.

(* ===================================================================== *)
(** ** Satellite names *)
(* ===================================================================== *)

Section SatelliteNames.

Import Ascii TimeTools.
Local Open Scope string_scope.

Lemma replace_fuel_single (c : Ascii.ascii) (s : string) (fuel : nat) :
  (String.length s <= fuel)%nat ->
  replace_fuel fuel (String c "") "" s = remove_char c s.
Proof.
  revert fuel. induction s as [|a s IH]; intros fuel Hf.
  - destruct fuel; reflexivity.
  - destruct fuel as [|fuel]; [cbn in Hf; lia|].
    cbn [replace_fuel starts_with remove_char String.length drop].
    rewrite andb_true_r. cbn [String.length] in Hf.
    destruct (Ascii.eqb c a).
    + cbn [append]. apply IH. lia.
    + f_equal. apply IH. lia.
Qed.

Lemma replace_single (c : Ascii.ascii) (s : string) :
  replace (String c "") "" s = remove_char c s.
Proof. unfold replace. apply replace_fuel_single. lia. Qed.

Lemma remove_char_app (c : Ascii.ascii) (s1 s2 : string) :
  remove_char c (s1 ++ s2) = remove_char c s1 ++ remove_char c s2.
Proof.
  induction s1 as [|a s1 IH]; [reflexivity|].
  cbn [append remove_char]. destruct (Ascii.eqb c a); [exact IH|].
  cbn [append]. f_equal. exact IH.
Qed.

Lemma lower_ascii_idem (a : Ascii.ascii) :
  lower_ascii (lower_ascii a) = lower_ascii a.
Proof. destruct a as [[] [] [] [] [] [] [] []]; reflexivity. Qed.

Lemma lower_idem (s : string) : lower (lower s) = lower s.
Proof.
  induction s as [|a s IH]; [reflexivity|].
  cbn [lower]. rewrite lower_ascii_idem, IH. reflexivity.
Qed.

Lemma eqb_separator_lower (c a : Ascii.ascii) :
  c = "-"%char \/ c = "_"%char \/ c = " "%char ->
  Ascii.eqb c (lower_ascii a) = Ascii.eqb c a.
Proof.
  intros [-> | [-> | ->]];
    destruct a as [[] [] [] [] [] [] [] []]; reflexivity.
Qed.

Lemma remove_char_lower (c : Ascii.ascii) (s : string) :
  c = "-"%char \/ c = "_"%char \/ c = " "%char ->
  remove_char c (lower s) = lower (remove_char c s).
Proof.
  intro Hc. induction s as [|a s IH]; [reflexivity|].
  cbn [lower remove_char]. rewrite (eqb_separator_lower c a Hc).
  destruct (Ascii.eqb c a); [exact IH|]. cbn [lower]. f_equal. exact IH.
Qed.

(** The string that [parse_satellite_name] compares with its lists. *)
Lemma parse_satellite_name_key (s : string) :
  parse_satellite_name s =
  let key := lower (remove_char " "%char
                      (remove_char "_"%char (remove_char "-"%char s))) in
  if mem key ["sta"; "stereoa"; "stereoahead"] then Some "stereo-ahead"
  else if mem key ["stb"; "stereob"; "stereobehind"] then Some "stereo-behind"
       else None.
Proof.
  unfold parse_satellite_name.
  change "-" with (String "-"%char "").
  change "_" with (String "_"%char "").
  change " " with (String " "%char "").
  rewrite !replace_single. reflexivity.
Qed.

(** [parse_satellite_name] ignores hyphens, underscores, blanks and the
    case of ASCII letters: putting one of the three separators anywhere
    into a name, or lowering the name, does not change what is returned
    (the canonical name of one of the two STEREO spacecraft, or nothing). *)
Theorem parse_satellite_name_ignores_separators_and_case :
  forall s1 s2 : string,
    parse_satellite_name (s1 ++ "-" ++ s2) = parse_satellite_name (s1 ++ s2) /\
    parse_satellite_name (s1 ++ "_" ++ s2) = parse_satellite_name (s1 ++ s2) /\
    parse_satellite_name (s1 ++ " " ++ s2) = parse_satellite_name (s1 ++ s2) /\
    parse_satellite_name (lower s1) = parse_satellite_name s1.
Proof.
  intros s1 s2. rewrite !parse_satellite_name_key. cbv zeta.
  repeat split.
  - rewrite !(remove_char_app "-"%char). reflexivity.
  - rewrite !(remove_char_app "-"%char), !(remove_char_app "_"%char). reflexivity.
  - rewrite !(remove_char_app "-"%char), !(remove_char_app "_"%char),
      !(remove_char_app " "%char).
    reflexivity.
  - rewrite !remove_char_lower by auto. rewrite lower_idem. reflexivity.
Qed.

End SatelliteNames.

(* ===================================================================== *)
(** ** Position data *)
(* ===================================================================== *)

Section PositionObjects.

Import Access.
Local Open Scope string_scope.

(** The coordinate type of a position object is checked without regard
    to case but interpreted with it.  A type that is neither 'xyz' nor
    'rlonlat' in lower case is refused.  A type that is 'xyz' only up to
    case (such as 'XYZ') is accepted and recorded in the header in lower
    case, but the coordinate names become r, lon, lat: the object then
    says 'xyz' in its header and has no component x. *)
Theorem position_postype_case :
  forall (posdata : list array) (postype : string) (hd : option header),
    (mem (lower postype) ["xyz"; "rlonlat"] = false ->
     PositionData.__init__ posdata postype hd =
     Raise (Exception
       "PositionData __init__: postype must be either 'xyz' or 'rlonlat'!")) /\
    (forall rows,
       np_asarray2 posdata = Ok rows ->
       lower postype = "xyz" -> postype <> "xyz" ->
       exists p,
         PositionData.__init__ posdata postype hd = Ok p /\
         PositionData.positions p = rows /\
         PositionData.coors p = ["r"; "lon"; "lat"] /\
         h_item "CoordinateSystem" (PositionData.h p) = Ok (HStr "xyz") /\
         PositionData.__getitem__ p "x" =
           Raise (Exception
             "PositionData object does not contain data under the key 'x'!")).
Proof.
  intros posdata postype hd. split.
  - intro H. unfold PositionData.__init__. rewrite H. reflexivity.
  - intros rows Hrows Hl Hne. unfold PositionData.__init__.
    rewrite Hl, Hrows. cbn [mem existsb String.eqb negb orb rbind].
    replace (String.eqb postype "xyz") with false
      by (symmetry; apply String.eqb_neq; exact Hne).
    eexists. split; [reflexivity|]. split; [reflexivity|].
    split; [reflexivity|]. split; [apply h_item_set_same|reflexivity].
Qed.

(** Assignment and lookup on a position object: a component that the
    object names can be overwritten with an array of the same length and
    then reads back that array, while the other components, the names and
    the header stay as they were; a name that the object does not have is
    refused on assignment. *)
Theorem pos_setitem_then_getitem :
  forall (p : PositionData.t) (var : string) (v : array),
    (forall row,
       mem var (PositionData.coors p) = true ->
       nth_error (PositionData.positions p)
                 (index_of var (PositionData.coors p)) = Some row ->
       List.length v = List.length row ->
       exists p',
         pos_setitem p var v = Ok p' /\
         PositionData.__getitem__ p' var = Ok v /\
         PositionData.coors p' = PositionData.coors p /\
         PositionData.h p' = PositionData.h p /\
         forall u, u <> var ->
                   PositionData.__getitem__ p' u = PositionData.__getitem__ p u) /\
    (mem var (PositionData.coors p) = false ->
     pos_setitem p var v =
     Raise (Exception ("PositionData object does not contain the key '"
                         ++ var ++ "'!"))).
Proof.
  intros p var v. split.
  - intros row Hm Hrow Hlen.
    assert (Hlt : (index_of var (PositionData.coors p)
                   < List.length (PositionData.positions p))%nat)
      by (apply nth_error_Some; congruence).
    eexists. split.
    { unfold pos_setitem. rewrite Hm, (item_nth_error _ _ _ Hrow). cbn [rbind].
      rewrite (assign_row_same_length row v Hlen). reflexivity. }
    split.
    { unfold PositionData.__getitem__. cbn [PositionData.coors PositionData.positions].
      rewrite Hm. apply item_nth_error. apply set_nth_nth_error_same. exact Hlt. }
    split; [reflexivity|]. split; [reflexivity|].
    intros u Hu. unfold PositionData.__getitem__.
    cbn [PositionData.coors PositionData.positions].
    destruct (mem u (PositionData.coors p)) eqn:Eu; [|reflexivity].
    unfold item. rewrite set_nth_nth_error_other; [reflexivity|].
    intro Heq. apply Hu. symmetry.
    apply (index_of_inj var u (PositionData.coors p) Hm). exact Heq.
  - intro Hm. unfold pos_setitem. rewrite Hm. reflexivity.
Qed.

End PositionObjects.

Lemma position_postype_case_witness :
  PositionData.__init__ [ex_zero2; ex_zero2; ex_zero2] "sph" None =
    Raise (Exception
      "PositionData __init__: postype must be either 'xyz' or 'rlonlat'!") /\
  exists p,
    PositionData.__init__ [ex_zero2; ex_zero2; ex_zero2] "XYZ" None = Ok p /\
    PositionData.coors p = ["r"; "lon"; "lat"]%string /\
    h_item "CoordinateSystem" (PositionData.h p) = Ok (HStr "xyz").
Proof.
  split.
  - apply (position_postype_case [ex_zero2; ex_zero2; ex_zero2] "sph" None).
    reflexivity.
  - destruct (position_postype_case [ex_zero2; ex_zero2; ex_zero2] "XYZ" None)
      as [_ H].
    destruct (H [ex_zero2; ex_zero2; ex_zero2] eq_refl eq_refl)
      as (p & Hrun & _ & Hc & Hh & _); [discriminate|].
    exists p. split; [exact Hrun|]. split; [exact Hc|exact Hh].
Defined.

Lemma pos_setitem_then_getitem_witness :
  exists p',
    Access.pos_setitem ex_pos "lon" [Fin 1; Fin 2] = Ok p' /\
    PositionData.__getitem__ p' "lon" = Ok [Fin 1; Fin 2] /\
    PositionData.__getitem__ p' "lat" = Ok ex_zero2.
Proof.
  destruct (pos_setitem_then_getitem ex_pos "lon" [Fin 1; Fin 2]) as [H _].
  destruct (H ex_zero2 eq_refl eq_refl eq_refl) as (p' & Hrun & Hget & _ & _ & Hother).
  exists p'. split; [exact Hrun|]. split; [exact Hget|].
  rewrite (Hother "lat"%string); [reflexivity|discriminate].
Defined.

(* ===================================================================== *)
(** ** The radial correction, sample by sample (C7) *)
(* ===================================================================== *)

Section RadialCorrectionPointwise.

Import SatData Convert L1.
Local Open Scope string_scope.

(** The run of [shift_wind_to_L1] on a container with position data, in
    terms of the arrays that the code builds. *)
Lemma shift_wind_to_L1_run :
  forall (E : externals) (d : SatData.t) (lg : list log_record)
         (p : PositionData.t) (times : list R) (units refframe : string)
         (traj : list (npfloat * npfloat * npfloat)) (rs : array),
    wf d ->
    pos d = Some p ->
    __getitem__ d "time" = Ok (map Fin times) ->
    h_str "Units" (PositionData.h p) = Ok units ->
    h_str "ReferenceFrame" (PositionData.h p) = Ok refframe ->
    trajectory E "EARTH" times refframe units "SUN" = Ok traj ->
    AU E <> 0 ->
    PositionData.__getitem__ p "r" = Ok rs ->
    List.length traj = __len__ d ->
    List.length rs = __len__ d ->
    let l1_r := map (fun x => fsub x (Fin (dist_to_L1 E / AU E))) (map fst3 traj) in
    let corr_factor := map fpow_neg2 (zip_with fdiv l1_r rs) in
    exists d',
      shift_wind_to_L1 E (mkWorld d lg) =
      (Ok tt, mkWorld d' (lg ++ [mkLog INFO
         "shift_wind_to_L1: Extrapolated B and density values to L1 distance" []])%list) /\
      vars d' = vars d /\
      forall var row,
        __getitem__ d var = Ok row ->
        __getitem__ d' var =
        Ok (if mem var shift_var_list then zip_with fmul row corr_factor else row).
Proof.
  intros E d lg p times units refframe traj rs Hwf Hp Htime Hu Hr Ht Hau Hrs
         Hlt Hlr l1_r corr_factor.
  destruct (l1_position_for_ok E d p times units refframe traj Hp Hu Hr Ht Hau)
    as (L1Pos & HL1 & HL1r).
  assert (Hlc : List.length corr_factor = __len__ d).
  { unfold corr_factor, l1_r. rewrite length_map, zip_with_length;
      rewrite !length_map; congruence. }
  set (shift_vars := filter (fun v => mem v (vars d)) shift_var_list).
  assert (Hnd : NoDup shift_vars).
  { apply NoDup_filter. unfold shift_var_list.
    repeat (constructor; [simpl; intuition discriminate|]). constructor. }
  assert (Hin : forall v, In v shift_vars ->
                          mem v (vars d) = true /\ mem v default_keys = true).
  { intros v Hv. apply filter_In in Hv as [Hv Hm]. split; auto.
    simpl in Hv. repeat (destruct Hv as [<-|Hv]; [reflexivity|]). destruct Hv. }
  destruct (shift_loop corr_factor shift_vars d lg Hwf Hlc Hnd Hin)
    as (d' & Hrun & Hwf' & Hvars' & Hlen' & Hh' & Hpos' & Hrows).
  exists d'. split; [|split; [exact Hvars'|]].
  + unfold shift_wind_to_L1.
    unfold bind at 1. unfold get_self at 1. cbn [self].
    unfold bind at 1. unfold lift at 1. rewrite (dates_of_finite d times Htime).
    unfold bind at 1. unfold lift at 1. rewrite HL1.
    unfold bind at 1. unfold lift at 1. rewrite HL1r.
    unfold bind at 1. unfold lift at 1. unfold pos_attr. rewrite Hp.
    unfold bind at 1. unfold lift at 1. rewrite Hrs.
    unfold bind at 1. unfold lift at 1.
    rewrite broadcast2_same_length by (rewrite !length_map; congruence).
    unfold bind at 1. fold l1_r. fold corr_factor. fold shift_vars.
    rewrite Hrun. reflexivity.
  + intros var row Hget.
    unfold __getitem__ in Hget |- *. rewrite Hvars'.
    destruct (mem var (vars d ++ ["time"%string])) eqn:Hmem; [|discriminate].
    apply item_Ok_inv in Hget.
    assert (Hk : mem var default_keys = true).
    { apply index_of_lt_mem. destruct Hwf as [H18 _].
      change (List.length default_keys) with 18%nat. rewrite <- H18.
      apply nth_error_Some. congruence. }
    apply item_nth_error. rewrite (Hrows var row Hk Hget).
    f_equal. unfold shift_vars.
    destruct (mem var shift_var_list) eqn:Es.
    * rewrite mem_filter_true; auto.
      rewrite mem_app in Hmem. apply orb_true_iff in Hmem as [Hm|Hm]; auto.
      cbn [mem existsb] in Hm. rewrite orb_false_r in Hm.
      apply String.eqb_eq in Hm. subst var. discriminate Es.
    * rewrite mem_filter_false; auto.
Qed.

Lemma zip_with_nth (f : npfloat -> npfloat -> npfloat) (a b : array) (i : nat) :
  (i < List.length a)%nat -> (i < List.length b)%nat ->
  nth i (zip_with f a b) NaN = f (nth i a NaN) (nth i b NaN).
Proof.
  revert b i. induction a as [|x a IH]; intros [|y b] i Ha Hb;
    cbn in Ha, Hb; try lia.
  destruct i as [|i]; [reflexivity|]. cbn [zip_with nth]. apply IH; lia.
Qed.

Lemma nth_map_in_range {A : Type} (f : A -> npfloat) (l : list A) (i : nat) (dflt : A) :
  (i < List.length l)%nat -> nth i (map f l) NaN = f (nth i l dflt).
Proof.
  intro H. rewrite (nth_indep _ NaN (f dflt)) by (rewrite length_map; exact H).
  apply map_nth.
Qed.

(** The factor at one sample, for finite distances other than zero. *)
Lemma corr_factor_sample (x c r : R) :
  r <> 0 -> x - c <> 0 ->
  fpow_neg2 (fdiv (fsub (Fin x) (Fin c)) (Fin r)) = Fin (powerRZ ((x - c) / r) (-2)).
Proof.
  intros Hr Hx. cbn [fsub fneg fadd].
  rewrite fdiv_Fin_nonzero by exact Hr.
  unfold fpow_neg2. cbn [fmul].
  assert (Hq : (x + - c) / r <> 0).
  { intro H0. apply Hx. apply Rmult_eq_compat_r with (r := r) in H0.
    unfold Rdiv in H0. rewrite Rmult_assoc, Rinv_l, Rmult_1_r, Rmult_0_l in H0 by exact Hr.
    lra. }
  rewrite fdiv_Fin_nonzero by (apply Rmult_integral_contrapositive_currified; exact Hq).
  f_equal. cbn [powerRZ]. change (Pos.to_nat 2) with 2%nat.
  field. split; [exact Hr|lra].
Qed.

(** The first coordinate of a position against its distance. *)
Lemma first_coordinate_below_norm (x y z : R) :
  (y = 0 -> z = 0 -> 0 <= x -> sqrt (x * x + y * y + z * z) = x) /\
  (y <> 0 \/ z <> 0 -> x < sqrt (x * x + y * y + z * z)).
Proof.
  split.
  - intros -> -> Hx. replace (x * x + 0 * 0 + 0 * 0) with (x * x) by ring.
    apply sqrt_square. exact Hx.
  - intro Hyz.
    assert (Hpos : 0 < y * y + z * z) by (destruct Hyz; nra).
    destruct (Rle_dec 0 x) as [Hx|Hx].
    + rewrite <- (sqrt_square x Hx) at 1. apply sqrt_lt_1_alt. nra.
    + apply Rlt_le_trans with 0; [lra|]. apply sqrt_pos.
Qed.

End RadialCorrectionPointwise.

Section RadialCorrectionClaim.

Import SatData Convert L1.
Local Open Scope string_scope.

(** C7.  With position data attached and finite distances other than
    zero, [shift_wind_to_L1] multiplies every sample of each active
    variable among btot, br, bt, bn, bx, by, bz and density by
    (l1 / r) ** -2, where [r] is the distance of the monitor at that sample
    and [l1] is what [get_l1_position] takes for the distance of L1: the
    first coordinate of Earth's trajectory less [dist_to_L1 / AU].  Every
    other variable, the speeds among them, and the list of active variables
    stay as they were.  The first coordinate is Earth's distance only when
    Earth lies on the positive first axis of the frame; there, with
    positions in AU, the factor is (L1 distance / monitor distance) ** -2.
    Off that axis the first coordinate is smaller than Earth's distance,
    and so is [l1] than the distance of L1. *)
Theorem shift_wind_to_L1_scales_by_earth_x_ratio :
  forall (E : externals) (d : SatData.t) (lg : list log_record)
         (p : PositionData.t) (times : list R) (units refframe : string)
         (earth : list vec3) (rs : list R),
    wf d ->
    pos d = Some p ->
    __getitem__ d "time" = Ok (map Fin times) ->
    h_str "Units" (PositionData.h p) = Ok units ->
    h_str "ReferenceFrame" (PositionData.h p) = Ok refframe ->
    trajectory E "EARTH" times refframe units "SUN" = Ok (map finite3 earth) ->
    AU E <> 0 ->
    PositionData.__getitem__ p "r" = Ok (map Fin rs) ->
    List.length earth = __len__ d ->
    List.length rs = __len__ d ->
    let c := dist_to_L1 E / AU E in
    let earth_x := fun i => fst3 (nth i earth (0, 0, 0)) in
    (forall i, (i < __len__ d)%nat -> nth i rs 0 <> 0 /\ earth_x i - c <> 0) ->
    exists d',
      shift_wind_to_L1 E (mkWorld d lg) =
      (Ok tt, mkWorld d' (lg ++ [mkLog INFO
         "shift_wind_to_L1: Extrapolated B and density values to L1 distance" []])%list) /\
      vars d' = vars d /\
      (forall var row,
         In var ["btot"; "br"; "bt"; "bn"; "bx"; "by"; "bz"; "density"] ->
         __getitem__ d var = Ok row ->
         exists row',
           __getitem__ d' var = Ok row' /\
           List.length row' = List.length row /\
           forall i v, (i < __len__ d)%nat -> nth i row NaN = Fin v ->
             nth i row' NaN =
             Fin (v * powerRZ ((earth_x i - c) / nth i rs 0) (-2))) /\
      (forall var row,
         ~ In var ["btot"; "br"; "bt"; "bn"; "bx"; "by"; "bz"; "density"] ->
         __getitem__ d var = Ok row ->
         __getitem__ d' var = Ok row) /\
      (units = "AU" ->
       forall i x y z,
         nth i earth (0, 0, 0) = (x, y, z) ->
         (y = 0 -> z = 0 -> 0 <= x -> earth_x i - c = l1_distance E (x, y, z)) /\
         (y <> 0 \/ z <> 0 -> earth_x i - c < l1_distance E (x, y, z))).
Proof.
  intros E d lg p times units refframe earth rs Hwf Hp Htime Hu Hr Ht Hau Hrs
         Hle Hlr c earth_x Hnz.
  destruct (shift_wind_to_L1_run E d lg p times units refframe (map finite3 earth)
              (map Fin rs) Hwf Hp Htime Hu Hr Ht Hau Hrs)
    as (d' & Hrun & Hvars & Hrows); try (rewrite length_map; assumption).
  fold c in Hrows.
  exists d'. split; [exact Hrun|]. split; [exact Hvars|].
  split; [|split].
  - intros var row Hin Hget.
    assert (Hm : mem var shift_var_list = true).
    { cbn [In] in Hin.
      repeat (destruct Hin as [<-|Hin]; [reflexivity|]). destruct Hin. }
    pose proof (getitem_length d var row Hwf Hget) as Hlrow.
    eexists. split; [rewrite (Hrows var row Hget), Hm; reflexivity|].
    assert (Hlc : List.length
                    (map fpow_neg2
                       (zip_with fdiv
                          (map (fun x => fsub x (Fin c)) (map fst3 (map finite3 earth)))
                          (map Fin rs))) = __len__ d).
    { rewrite length_map, zip_with_length; rewrite !length_map; congruence. }
    split; [rewrite zip_with_length; congruence|].
    intros i v Hi Hv.
    rewrite zip_with_nth by congruence. rewrite Hv.
    rewrite (nth_map_in_range fpow_neg2 _ i NaN)
      by (rewrite zip_with_length; rewrite !length_map; congruence).
    rewrite zip_with_nth by (rewrite !length_map; congruence).
    rewrite (nth_map_in_range Fin rs i 0) by congruence.
    rewrite (nth_map_in_range (fun x => fsub x (Fin c)) _ i NaN)
      by (rewrite !length_map; congruence).
    rewrite (nth_map_in_range fst3 _ i (NaN, NaN, NaN))
      by (rewrite length_map; congruence).
    rewrite (nth_indep _ (NaN, NaN, NaN) (finite3 (0, 0, 0)))
      by (rewrite length_map; congruence).
    rewrite (map_nth finite3).
    destruct (Hnz i Hi) as [Hri Hxi]. unfold earth_x in *.
    destruct (nth i earth (0, 0, 0)) as [[x y] z]. cbn [finite3 fst3 fst] in *.
    rewrite corr_factor_sample by assumption. reflexivity.
  - intros var row Hnin Hget.
    rewrite (Hrows var row Hget).
    destruct (mem var shift_var_list) eqn:Hm; [|reflexivity].
    exfalso. apply Hnin. unfold mem, shift_var_list in Hm.
    apply existsb_exists in Hm as (w & Hw & Ew).
    apply String.eqb_eq in Ew. subst w. exact Hw.
  - intros _ i x y z Hi. unfold earth_x. rewrite Hi. cbn [fst3 fst l1_distance].
    destruct (first_coordinate_below_norm x y z) as [Hon Hoff].
    split.
    + intros Hy Hz Hx. rewrite (Hon Hy Hz Hx). reflexivity.
    + intro Hyz. specialize (Hoff Hyz). unfold c. lra.
Qed.

End RadialCorrectionClaim.

Section LoadedDistances.

Import SatData Convert L1.
Local Open Scope string_scope.

(** [self.load_positions()] on finite trajectory rows: the distance stored
    under ['r'] is the Euclidean length of the row, and the header of the
    position object names AU and HEEQ. *)
Lemma load_positions_default_distances (E : externals) (d : SatData.t)
      (lg : list log_record) (times : list R) (name : string)
      (mon : list vec3) :
  __getitem__ d "time" = Ok (map Fin times) ->
  h_item "HeliosatObject" (h d) = Ok (HObj name) ->
  trajectory E name times "HEEQ" "AU" "SUN" = Ok (map finite3 mon) ->
  exists P,
    load_positions_default E (mkWorld d lg) =
    (Ok tt, mkWorld (set_pos d (Some P))
              (lg ++ [mkLog INFO ("load_positions: Loading position data into "
                                    ++ source_str d ++ " data") []])%list) /\
    PositionData.__getitem__ P "r" = Ok (map (fun m => Fin (norm3 m)) mon) /\
    h_str "Units" (PositionData.h P) = Ok "AU" /\
    h_str "ReferenceFrame" (PositionData.h P) = Ok "HEEQ".
Proof.
  intros Htime Hobj Htraj.
  unfold load_positions_default, load_positions.
  unfold bind at 1. unfold get_self at 1. cbn [self].
  unfold bind at 1. unfold in_log at 1, logger at 1. cbn [logged self].
  unfold bind at 1. unfold lift at 1. rewrite (dates_of_finite d times Htime).
  unfold bind at 1. unfold lift at 1. rewrite Hobj.
  unfold bind at 1. unfold lift at 1. rewrite Htraj.
  unfold bind at 1. unfold lift at 1.
  unfold bind at 1. unfold lift at 1.
  rewrite combine_columns.
  unfold PositionData.__init__.
  replace (negb (mem (lower "rlonlat") ["xyz"%string; "rlonlat"%string]))
    with false by reflexivity.
  unfold np_asarray2. cbn [forallb].
  rewrite !length_map, !Nat.eqb_refl. cbn [andb rbind].
  unfold put_self. cbn [self logged].
  eexists. split; [reflexivity|].
  split; [|split; reflexivity].
  unfold PositionData.__getitem__. cbn [PositionData.coors PositionData.positions].
  cbn [mem existsb String.eqb Ascii.eqb Bool.eqb orb index_of item nth_error rbind].
  f_equal. rewrite !map_map. apply map_ext. intros [[x y] z].
  cbn [finite3 fst3 snd3 thd3 fst snd norm3]. rewrite cart2sphere_Fin. reflexivity.
Qed.

End LoadedDistances.

Section RadialExampleTilted.

Import SatData.

Lemma ex_monitor_b_wf : wf ex_monitor_b.
Proof.
  split; [reflexivity|].
  intros r Hr. simpl in Hr.
  repeat (destruct Hr as [<-|Hr]; [reflexivity|]). destruct Hr.
Qed.

Lemma ex_l1_bounds : 0.98 < ex_l1 < 0.99.
Proof. unfold ex_l1. cbn [dist_to_L1 AU ex_E]. lra. Qed.

(** Earth is 1 AU from the Sun, so the distance of L1 is [ex_l1]; the
    monitor is at twice that distance. *)
Lemma ex_earth_l1_distance : l1_distance ex_E_tilted ex_earth = ex_l1.
Proof.
  unfold l1_distance, ex_earth, ex_l1. cbn [dist_to_L1 AU ex_E_tilted ex_E].
  replace (144 / 145 * (144 / 145) + 0 * 0 + 17 / 145 * (17 / 145)) with 1 by lra.
  rewrite sqrt_1. reflexivity.
Qed.

Lemma ex_far_distance : norm3 ex_far = 2 * ex_l1.
Proof.
  pose proof ex_l1_bounds as H. unfold norm3, ex_far.
  replace (2 * ex_l1 * (144 / 145) * (2 * ex_l1 * (144 / 145)) + 0 * 0
           + 2 * ex_l1 * (17 / 145) * (2 * ex_l1 * (17 / 145)))
    with ((2 * ex_l1) * (2 * ex_l1)) by field.
  apply sqrt_square. lra.
Qed.

Lemma two_samples (row : array) (f : nat -> npfloat) :
  List.length row = 2%nat ->
  (forall i, (i < 2)%nat -> nth i row NaN = f i) ->
  row = [f 0%nat; f 1%nat].
Proof.
  intros Hl Hf. destruct row as [|r0 [|r1 [|r2 row]]]; try discriminate Hl.
  rewrite <- (Hf 0%nat), <- (Hf 1%nat) by lia. reflexivity.
Qed.

End RadialExampleTilted.

Lemma shift_wind_to_L1_scales_by_earth_x_ratio_witness :
  exists (P : PositionData.t) (d' : SatData.t) (k : R),
    let loaded := mkLog INFO "load_positions: Loading position data into STEREO-A data" [] in
    L1.load_positions_default ex_E_tilted (SatData.mkWorld ex_monitor_b []) =
    (Ok tt, SatData.mkWorld (SatData.set_pos ex_monitor_b (Some P)) [loaded]) /\
    PositionData.__getitem__ P "r" = Ok [Fin (2 * ex_l1); Fin (2 * ex_l1)] /\
    l1_distance ex_E_tilted ex_earth = ex_l1 /\
    L1.shift_wind_to_L1 ex_E_tilted
      (SatData.mkWorld (SatData.set_pos ex_monitor_b (Some P)) [loaded]) =
    (Ok tt, SatData.mkWorld d' [loaded; mkLog INFO
       "shift_wind_to_L1: Extrapolated B and density values to L1 distance" []]) /\
    4 < k /\
    SatData.__getitem__ d' "density" = Ok [Fin (10 * k); Fin (10 * k)] /\
    SatData.__getitem__ d' "btot" = Ok [Fin (5 * k); Fin (5 * k)] /\
    SatData.__getitem__ d' "speed" = Ok [Fin 400; Fin 400].
Proof.
  pose proof ex_l1_bounds as Hl1.
  set (c := dist_to_L1 ex_E / AU ex_E).
  assert (Hc : c = 1 - ex_l1) by (unfold c, ex_l1; ring).
  destruct (load_positions_default_distances ex_E_tilted ex_monitor_b []
              [730000; 730001] "STEREO-A" [ex_far; ex_far] eq_refl eq_refl eq_refl)
    as (P & Hload & Hr & Hunits & Hframe).
  cbn [map] in Hr. rewrite ex_far_distance in Hr.
  set (loaded := mkLog INFO "load_positions: Loading position data into STEREO-A data" []).
  destruct (shift_wind_to_L1_scales_by_earth_x_ratio ex_E_tilted
              (SatData.set_pos ex_monitor_b (Some P)) [loaded]
              P [730000; 730001] "AU" "HEEQ"
              [ex_earth; ex_earth] [2 * ex_l1; 2 * ex_l1]
              ex_monitor_b_wf eq_refl eq_refl Hunits Hframe eq_refl
              ex_AU_nonzero Hr eq_refl eq_refl)
    as (d' & Hrun & _ & Hscaled & Hother & _).
  { intros i Hi. change (dist_to_L1 ex_E_tilted / AU ex_E_tilted) with c.
    rewrite Hc.
    destruct i as [|[|i]]; [| |cbn in Hi; lia];
      cbn [nth Convert.fst3 fst ex_earth]; split; lra. }
  set (k := powerRZ ((144 / 145 - c) / (2 * ex_l1)) (-2)).
  exists P, d', k. intro loaded'. subst loaded'.
  split; [exact Hload|]. split; [exact Hr|].
  split; [exact ex_earth_l1_distance|]. split; [exact Hrun|].
  assert (Hrow : forall (var : string) (v : R),
             In var ["btot"; "br"; "bt"; "bn"; "bx"; "by"; "bz"; "density"]%string ->
             SatData.__getitem__ (SatData.set_pos ex_monitor_b (Some P)) var
               = Ok [Fin v; Fin v] ->
             SatData.__getitem__ d' var = Ok [Fin (v * k); Fin (v * k)]).
  { intros var v Hin Hget.
    destruct (Hscaled var _ Hin Hget) as (row' & Hget' & Hlen & Hval).
    rewrite Hget'. f_equal.
    apply (two_samples row' (fun _ => Fin (v * k)) Hlen).
    intros i Hi. rewrite (Hval i v) by (destruct i as [|[|i]]; [| |lia]; auto).
    destruct i as [|[|i]]; [reflexivity|reflexivity|lia]. }
  split.
  - unfold k. cbn [powerRZ]. change (Pos.to_nat 2) with 2%nat. rewrite Hc.
    assert (Hq : 0 < (144 / 145 - (1 - ex_l1)) / (2 * ex_l1) < 1 / 2).
    { split.
      - apply Rdiv_lt_0_compat; lra.
      - apply Rmult_lt_reg_r with (2 * ex_l1); [lra|].
        unfold Rdiv at 1. rewrite Rmult_assoc, Rinv_l by lra. lra. }
    set (q := (144 / 145 - (1 - ex_l1)) / (2 * ex_l1)) in *.
    assert (Hq2 : 0 < q ^ 2 < 1 / 4) by (split; nra).
    apply Rmult_lt_reg_r with (q ^ 2); [lra|].
    rewrite Rinv_l by lra. lra.
  - split; [apply (Hrow "density"%string 10); [cbn; tauto|reflexivity]|].
    split; [apply (Hrow "btot"%string 5); [cbn; tauto|reflexivity]|].
    apply Hother; [|reflexivity].
    cbn [In]. intros [H|[H|[H|[H|[H|[H|[H|[H|[]]]]]]]]]; discriminate H.
Defined.

(* ===================================================================== *)
(** ** Assignment to the time key (C10) *)
(* ===================================================================== *)

Section TimeKeyLists.

Import SatData Convert L1 Resample.
Local Open Scope string_scope.

Lemma nonzero_from_filter (mask : list bool) (k : nat) :
  nonzero_from mask k =
  map of_nat (filter (fun i => nth (i - k) mask false)
                     (seq k (List.length mask))).
Proof.
  revert k. induction mask as [|b mask IH]; intro k; [reflexivity|].
  assert (Hext : filter (fun i => nth (i - k) (b :: mask) false)
                        (seq (S k) (List.length mask))
                 = filter (fun i => nth (i - S k) mask false)
                          (seq (S k) (List.length mask))).
  { apply filter_ext_in. intros i Hi. apply in_seq in Hi.
    replace (i - k)%nat with (S (i - S k)) by lia. reflexivity. }
  cbn [nonzero_from List.length seq filter].
  rewrite Hext, Nat.sub_diag. cbn [nth].
  destruct b; cbn [map]; rewrite IH; reflexivity.
Qed.

Lemma nonzero_valid_places (a : array) :
  nonzero_from (map negb (map isnan a)) 0 = valid_places a.
Proof.
  rewrite nonzero_from_filter. unfold valid_places.
  rewrite !length_map. f_equal. apply filter_ext. intro i.
  rewrite Nat.sub_0_r.
  change false with (negb (isnan NaN)).
  rewrite (map_nth negb), (map_nth isnan). reflexivity.
Qed.

Lemma select_valid_values (a : array) :
  select a (map negb (map isnan a)) = valid_values a.
Proof.
  unfold valid_values. induction a as [|x a IH]; [reflexivity|].
  cbn [map select filter]. destruct (isnan x); cbn [negb]; rewrite IH; reflexivity.
Qed.

Lemma mask_fill_interpolant (f : npfloat -> npfloat) (a : array) :
  forall (k i : nat),
    (i < List.length a)%nat ->
    nth i (mask_fill a (map isnan a)
                     (map f (nonzero_from (map isnan a) k))) NaN =
    if isnan (nth i a NaN) then f (of_nat (k + i)) else nth i a NaN.
Proof.
  induction a as [|x a IH]; intros k i Hi; [cbn in Hi; lia|].
  cbn [map mask_fill nonzero_from].
  destruct (isnan x) eqn:Ex.
  - cbn [map]. destruct i as [|i].
    + cbn [nth]. rewrite Ex, Nat.add_0_r. reflexivity.
    + cbn [nth]. rewrite IH by (cbn in Hi; lia).
      replace (S k + i)%nat with (k + S i)%nat by lia. reflexivity.
  - destruct i as [|i].
    + cbn [nth]. rewrite Ex. reflexivity.
    + cbn [nth]. rewrite IH by (cbn in Hi; lia).
      replace (S k + i)%nat with (k + S i)%nat by lia. reflexivity.
Qed.

Lemma interp_by_one_per_point (E : externals)
      (g : array -> array -> npfloat -> npfloat) :
  interp_by E g -> interp_one_per_point E.
Proof.
  intros Hg x xp fp Hfp. exists (map (g xp fp) x).
  split; [apply Hg; exact Hfp|apply length_map].
Qed.

End TimeKeyLists.

Section TimeKeyRuns.

Import SatData Convert L1 Resample.
Local Open Scope string_scope.

Lemma nans_filled_keeps_valid (g : array -> array -> npfloat -> npfloat)
      (a a' : array) (x : npfloat) :
  nans_filled g a a' -> In x a -> isnan x = false -> In x a'.
Proof.
  intros [Hl Hf] Hin Hx.
  apply (valid_sample_kept a a' x Hl); auto.
  intros i Hi. destruct (Nat.lt_ge_cases i (List.length a)) as [Hlt|Hge].
  - rewrite (Hf i Hlt), Hi. reflexivity.
  - rewrite nth_overflow in Hi by exact Hge. discriminate.
Qed.

(** One pass of the loop of [interp_nans] over an active key whose row
    holds a sample that is not NaN. *)
Lemma interp_nans_loop_step (E : externals)
      (g : array -> array -> npfloat -> npfloat)
      (k : string) (rest : list string) (d : SatData.t)
      (lg : list log_record) (a : array) :
  interp_by E g ->
  wf d -> mem k (vars d) = true -> mem k default_keys = true ->
  nth_error (data d) (index_of k default_keys) = Some a ->
  (exists x, In x a /\ isnan x = false) ->
  exists a',
    nans_filled g a a' /\
    interp_nans_loop E (k :: rest) (mkWorld d lg) =
    interp_nans_loop E rest
      (mkWorld (set_data d (set_nth (data d) (index_of k default_keys) a')) lg) /\
    wf (set_data d (set_nth (data d) (index_of k default_keys) a')).
Proof.
  intros Hg Hwf Hv Hk Ha (x & Hin & Hx).
  set (idx := index_of k default_keys) in *.
  assert (Hidx : (idx < 18)%nat) by (apply index_of_default_keys_lt; exact Hk).
  assert (Hla : List.length a = __len__ d)
    by (apply Hwf; eapply nth_error_In; eauto).
  set (inds := map isnan a).
  set (f := g (nonzero_from (map negb inds) 0) (select a (map negb inds))).
  set (a' := mask_fill a inds (map f (nonzero_from inds 0))).
  assert (Hla' : List.length a' = __len__ d)
    by (unfold a'; rewrite mask_fill_length; exact Hla).
  destruct (store_row_wf d idx a' Hwf Hidx Hla')
    as (d1 & Hst & Hdata & Hvars & Hh & Hpos & _ & _ & Hlen1 & Hwf1).
  assert (Hd1 : set_data d (set_nth (data d) idx a') = d1).
  { unfold store_row in Hst. rewrite (item_nth_error _ _ _ Ha) in Hst.
    cbn [rbind] in Hst.
    rewrite assign_row_same_length in Hst by congruence.
    cbn [rbind] in Hst. injection Hst as Hst. exact Hst. }
  exists a'. split; [|split].
  - split; [unfold a'; apply mask_fill_length|].
    intros i Hi. unfold a', inds, f.
    rewrite (mask_fill_interpolant _ a 0 i Hi). cbn [Nat.add].
    unfold inds. rewrite nonzero_valid_places, select_valid_values. reflexivity.
  - cbn [interp_nans_loop].
    unfold bind at 1. unfold get_self at 1. cbn [self].
    unfold bind at 1. unfold lift at 1.
    unfold __getitem__ at 1. rewrite mem_app, Hv. cbn [orb]. fold idx.
    rewrite (item_nth_error _ _ _ Ha). fold inds.
    replace (Nat.eqb (List.length inds) 0) with false.
    2:{ symmetry. apply Nat.eqb_neq. unfold inds. rewrite length_map.
        destruct a; [destruct Hin|discriminate]. }
    unfold bind at 1. unfold lift at 1.
    rewrite (Hg _ _ _ (select_valid_nonempty a x Hin Hx)). fold f.
    unfold bind at 1. unfold lift at 1.
    unfold mask_assign.
    rewrite length_map, nonzero_from_length, Nat.eqb_refl.
    fold a'. unfold bind at 1. unfold put_self at 1. cbn [self logged].
    reflexivity.
  - rewrite Hd1. exact Hwf1.
Qed.

(** The loop of [interp_nans] over keys other than ['time'] leaves the
    time row alone, whatever follows in the list of keys. *)
Lemma interp_nans_loop_prefix (E : externals)
      (g : array -> array -> npfloat -> npfloat) (rest : list string) :
  interp_by E g ->
  forall (ks : list string) (d : SatData.t) (lg : list log_record),
    wf d ->
    (forall k, In k ks ->
       k <> "time" /\ mem k (vars d) = true /\ mem k default_keys = true /\
       exists row x, nth_error (data d) (index_of k default_keys) = Some row /\
                     In x row /\ isnan x = false) ->
    exists d1,
      interp_nans_loop E (ks ++ rest) (mkWorld d lg) =
      interp_nans_loop E rest (mkWorld d1 lg) /\
      wf d1 /\ vars d1 = vars d /\ source d1 = source d /\
      nth_error (data d1) 0 = nth_error (data d) 0.
Proof.
  intro Hg. induction ks as [|k ks IH]; intros d lg Hwf Hks.
  - exists d. repeat split; auto; apply Hwf.
  - destruct (Hks k (or_introl eq_refl)) as (Hne & Hv & Hk & a & x & Ha & Hin & Hx).
    destruct (interp_nans_loop_step E g k (ks ++ rest) d lg a Hg Hwf Hv Hk Ha
                (ex_intro _ x (conj Hin Hx))) as (a' & Hfill & Hrun & Hwf1).
    set (idx := index_of k default_keys) in *.
    set (d1 := set_data d (set_nth (data d) idx a')) in *.
    assert (Hidx0 : idx <> 0%nat).
    { intro H0. apply Hne. apply index_of_default_keys_zero. exact H0. }
    destruct (IH d1 lg Hwf1) as (d2 & Hrun2 & Hwf2 & Hvars2 & Hsrc2 & Hrow2).
    { intros k' Hk'.
      destruct (Hks k' (or_intror Hk')) as (Hne' & Hv' & Hkd' & row & x' & Hrow & Hin' & Hx').
      split; [exact Hne'|]. split; [exact Hv'|]. split; [exact Hkd'|].
      destruct (Nat.eq_dec (index_of k' default_keys) idx) as [He|Hd].
      - exists a', x'. unfold d1. cbn [data set_data]. rewrite He.
        split; [apply set_nth_nth_error_same; destruct Hwf as [-> _];
                apply index_of_default_keys_lt; exact Hk|].
        split; [|exact Hx'].
        rewrite He in Hrow. assert (row = a) by congruence. subst row.
        eapply nans_filled_keeps_valid; eauto.
      - exists row, x'. unfold d1. cbn [data set_data].
        rewrite set_nth_nth_error_other by auto. auto. }
    exists d2. split; [|split; [exact Hwf2|split; [exact Hvars2|split; [exact Hsrc2|]]]].
    + cbn [app]. rewrite Hrun. exact Hrun2.
    + rewrite Hrow2. unfold d1. cbn [data set_data].
      apply set_nth_nth_error_other. exact Hidx0.
Qed.

End TimeKeyRuns.

Section TimeKey.

Import SatData Convert L1 Resample.
Local Open Scope string_scope.

(** [d['time'] = v] on any well-formed container: which branch is taken
    depends on whether ['time'] is listed already. *)
Lemma setitem_time_any (d : SatData.t) (lg : list log_record) (v : array) :
  wf d -> List.length v = __len__ d ->
  exists d',
    __setitem__ "time" v (mkWorld d lg) = (Ok tt, mkWorld d' lg) /\
    data d' = set_nth (data d) 0 v /\
    vars d' = (if mem "time" (vars d) then vars d
               else (vars d ++ ["time"])%list) /\
    h d' = h d /\ pos d' = pos d /\ source d' = source d /\
    wf d' /\ __len__ d' = __len__ d.
Proof.
  intros Hwf Hv.
  destruct (store_row_wf d 0 v Hwf ltac:(lia) Hv)
    as (d1 & Hst & Hdata & Hvars & Hh & Hpos & Hsrc & Hstate & Hlen & Hwf1).
  unfold __setitem__, bind, get_self, lift, put_self. cbn [self logged].
  change (index_of "time" default_keys) with 0%nat.
  destruct (mem "time" (vars d)) eqn:Hm.
  - rewrite Hst. exists d1. repeat split; auto; apply Hwf1.
  - replace (mem "time" default_keys) with true by reflexivity.
    cbn [andb negb]. rewrite Hst.
    exists (set_vars d1 (vars d1 ++ ["time"])%list). cbn [logged].
    split; [reflexivity|]. split; [exact Hdata|].
    split; [cbn [vars set_vars]; rewrite Hvars; reflexivity|].
    split; [exact Hh|]. split; [exact Hpos|]. split; [exact Hsrc|].
    split; [|exact Hlen].
    split; [apply Hwf1|]. intros r Hr. apply Hwf1. exact Hr.
Qed.

(** C10.  The constructor returns a container on which ['time'] is not
    an active variable.  On every well-formed container the assignment
    [d['time'] = v] with [v] as long as the container does not raise and
    overwrites the time row; every other key reads as before.  It appends
    ['time'] to [d.vars] when the key is not listed there (the activating
    branch, taken on every container that comes from the constructor) and
    leaves [d.vars] as it is when the key is listed already (the first
    branch, taken by a second assignment).  Once listed, ['time'] is a data
    variable for the walks over [d.vars]: [interp_nans], which does not
    touch the time row of a fresh container, now replaces each NaN of the
    time row by the interpolation over the place numbers of the other time
    stamps, and [interp_to_time] returns a container whose time row is the
    old time row interpolated against itself at the requested points, in
    place of the requested points. *)
Theorem setitem_time_overwrites_and_activates_once :
  (forall (input_dict : dict) (src : option string) (hd : option header)
          (lg0 lg1 : list log_record) (d : SatData.t),
      __init__ input_dict src hd lg0 = (Ok d, lg1) ->
      wf d /\ mem "time" (vars d) = false) /\
  (forall (d : SatData.t) (lg : list log_record) (v : array),
      wf d ->
      List.length v = __len__ d ->
      exists d',
        __setitem__ "time" v (mkWorld d lg) = (Ok tt, mkWorld d' lg) /\
        wf d' /\
        __getitem__ d' "time" = Ok v /\
        vars d' = (if mem "time" (vars d) then vars d
                   else (vars d ++ ["time"])%list) /\
        (forall u row, u <> "time" -> __getitem__ d u = Ok row ->
                       __getitem__ d' u = Ok row)) /\
  (forall (E : externals) (g : array -> array -> npfloat -> npfloat)
          (d : SatData.t) (lg : list log_record) (v : array),
      interp_by E g ->
      wf d ->
      mem "time" (vars d) = false ->
      (forall k, In k (vars d) ->
         mem k default_keys = true /\
         exists row x, nth_error (data d) (index_of k default_keys) = Some row /\
                       In x row /\ isnan x = false) ->
      List.length v = __len__ d ->
      (exists x, In x v /\ isnan x = false) ->
      let info := mkLog INFO ("interp_nans: Interpolating nans in "
                                ++ source_str d ++ " data") [] in
      (exists d0,
         interp_nans E None (mkWorld d lg) = (Ok tt, mkWorld d0 (lg ++ [info])%list) /\
         __getitem__ d0 "time" = __getitem__ d "time") /\
      (exists d' d'' row,
         __setitem__ "time" v (mkWorld d lg) = (Ok tt, mkWorld d' lg) /\
         interp_nans E None (mkWorld d' lg)
           = (Ok tt, mkWorld d'' (lg ++ [info])%list) /\
         __getitem__ d'' "time" = Ok row /\
         nans_filled g v row)) /\
  (forall (E : externals) (g : array -> array -> npfloat -> npfloat)
          (d : SatData.t) (lg : list log_record) (v tarray : array),
      interp_by E g ->
      wf d -> (0 < __len__ d)%nat ->
      mem "time" (vars d) = false ->
      (forall k, In k (vars d) -> mem k default_keys = true) ->
      pos d = None ->
      List.length v = __len__ d ->
      (2 <= List.length tarray)%nat ->
      exists d' d2,
        __setitem__ "time" v (mkWorld d lg) = (Ok tt, mkWorld d' lg) /\
        interp_to_time E d' tarray lg = (Ok d2, lg) /\
        __getitem__ d2 "time" = Ok (map (g v v) tarray) /\
        mem "time" (vars d2) = false).
Proof.
  split; [|split; [|split]].
  - intros input_dict src hd lg0 lg1 d Hinit.
    destruct (init_wf _ _ _ _ _ _ Hinit) as (Hwf & Hfresh & _). auto.
  - intros d lg v Hwf Hlen.
    destruct (setitem_time_any d lg v Hwf Hlen)
      as (d' & Hset & Hdata & Hvars & _ & _ & _ & Hwf' & _).
    exists d'. split; [exact Hset|]. split; [exact Hwf'|].
    split; [|split; [exact Hvars|]].
    + rewrite getitem_time_row0. apply item_nth_error. rewrite Hdata.
      apply set_nth_nth_error_same. destruct Hwf as [-> _]. lia.
    + intros u row Hne Hget.
      apply (getitem_other_set d d' "time" u v row); auto.
      * exact (getitem_Ok_default d u row Hwf Hget).
      * intros w Hw. rewrite Hvars. destruct (mem "time" (vars d)); [exact Hw|].
        rewrite mem_app, Hw. reflexivity.
  - intros E g d lg v Hg Hwf Hfresh Hks Hlen Hvalid info.
    assert (Hnt : forall k, In k (vars d) -> k <> "time").
    { intros k Hk ->. apply mem_In in Hk. congruence. }
    split.
    + destruct (interp_nans_loop_prefix E g [] Hg (vars d) d (lg ++ [info])%list Hwf)
        as (d0 & Hrun & _ & _ & _ & Hrow).
      { intros k Hk. destruct (Hks k Hk) as (Hd & Hrowk).
        split; [apply Hnt; exact Hk|]. split; [apply mem_In; exact Hk|].
        split; assumption. }
      exists d0. split.
      * unfold interp_nans, bind, get_self, in_log, logger, interp_nans_keys.
        cbn [self logged]. fold info.
        rewrite app_nil_r in Hrun. exact Hrun.
      * rewrite !getitem_time_row0. unfold item. rewrite Hrow. reflexivity.
    + destruct (setitem_time_any d lg v Hwf Hlen)
        as (d' & Hset & Hdata & Hvars & _ & _ & Hsrc & Hwf' & _).
      rewrite Hfresh in Hvars.
      assert (Hrow0 : nth_error (data d') 0 = Some v).
      { rewrite Hdata. apply set_nth_nth_error_same. destruct Hwf as [-> _]. lia. }
      destruct (interp_nans_loop_prefix E g ["time"] Hg (vars d) d'
                  (lg ++ [info])%list Hwf')
        as (d1 & Hrun1 & Hwf1 & Hvars1 & _ & Hrow1).
      { intros k Hk. destruct (Hks k Hk) as (Hd & row & x & Hrow & Hin & Hx).
        split; [apply Hnt; exact Hk|].
        split; [rewrite Hvars, mem_app; apply orb_true_iff; left;
                apply mem_In; exact Hk|].
        split; [exact Hd|]. exists row, x. split; [|split; assumption].
        rewrite Hdata, set_nth_nth_error_other; [exact Hrow|].
        intro H0. apply (Hnt k Hk). apply index_of_default_keys_zero. auto. }
      rewrite Hrow0 in Hrow1.
      destruct (interp_nans_loop_step E g "time" [] d1 (lg ++ [info])%list v Hg Hwf1)
        as (row & Hfill & Hrun2 & Hwf2); auto.
      { rewrite Hvars1, Hvars, mem_app. apply orb_true_r. }
      exists d', (set_data d1 (set_nth (data d1) (index_of "time" default_keys) row)), row.
      split; [exact Hset|]. split; [|split; [|exact Hfill]].
      * unfold interp_nans, bind, get_self, in_log, logger, interp_nans_keys.
        cbn [self logged]. unfold source_str. rewrite Hsrc.
        fold (source_str d). fold info.
        rewrite Hvars, Hrun1, Hrun2. reflexivity.
      * rewrite getitem_time_row0. apply item_nth_error. cbn [data set_data].
        apply set_nth_nth_error_same. destruct Hwf1 as [-> _].
        change (index_of "time" default_keys) with 0%nat. lia.
  - intros E g d lg v tarray Hg Hwf Hpos0 Hfresh Hdef Hpos Hlen Hlong.
    destruct (setitem_time_any d lg v Hwf Hlen)
      as (d' & Hset & Hdata & Hvars & Hh & Hpos' & Hsrc & Hwf' & Hlen').
    rewrite Hfresh in Hvars.
    assert (Ht : __getitem__ d' "time" = Ok v).
    { rewrite getitem_time_row0. apply item_nth_error. rewrite Hdata.
      apply set_nth_nth_error_same. destruct Hwf as [-> _]. lia. }
    assert (Hdef' : forall k, In k (vars d') -> mem k default_keys = true).
    { intros k Hk. rewrite Hvars in Hk. apply in_app_or in Hk as [Hk|[<-|[]]];
        [apply Hdef; exact Hk|reflexivity]. }
    assert (Hv0 : v <> []) by (destruct v; [cbn in Hlen; lia|discriminate]).
    assert (Hit : interpolated E d' tarray "time" = map (g v v) tarray).
    { unfold interpolated. rewrite Ht, (Hg tarray v v Hv0). reflexivity. }
    destruct (interp_to_time_dict_spec E d' tarray (vars d')
                (interp_by_one_per_point E g Hg) Hwf' ltac:(lia))
      with (acc := [("time", tarray)]) as (dict & Hdict & Hget & Hl).
    { intros k Hk. split; [apply mem_In; exact Hk|apply Hdef'; exact Hk]. }
    assert (Hmt : mem "time" (vars d') = true)
      by (rewrite Hvars, mem_app; apply orb_true_r).
    assert (Hkeys : forall k, In k (map fst dict) -> mem k default_keys = true).
    { intros k Hk. apply mem_In in Hk. rewrite d_get_mem, Hget in Hk.
      destruct (mem k (vars d')) eqn:Em.
      - apply Hdef'. apply mem_In. exact Em.
      - cbn [d_get] in Hk. destruct (String.eqb k "time") eqn:Ek; [|discriminate].
        apply String.eqb_eq in Ek. subst k. reflexivity. }
    assert (Htd : d_get "time" dict = Some (map (g v v) tarray))
      by (rewrite Hget, Hmt, Hit; reflexivity).
    assert (Hlens : forall k a, d_get k dict = Some a ->
                      List.length a = List.length (map (g v v) tarray)).
    { intros k a Hka. rewrite length_map. rewrite Hget in Hka.
      destruct (mem k (vars d')) eqn:Em.
      - injection Hka as <-. apply Hl. exact Em.
      - cbn [d_get] in Hka. destruct (String.eqb k "time"); [|discriminate].
        injection Hka as <-. reflexivity. }
    destruct (init_lookup dict (source d') (Some (h d')) lg _ Hkeys Htd Hlens)
      as (d0 & Hrun & Hwf0 & Hlen0 & Hget0 & _ & Hvars0 & Hh0 & Hpos0' & Hsrc0).
    rewrite length_map in Hrun.
    replace (Nat.eqb (List.length tarray) 0) with false in Hrun
      by (symmetry; apply Nat.eqb_neq; lia).
    exists d', (set_h d0 (h_set "SamplingRate"
                  (HNum (fsub (nth 1 tarray NaN) (nth 0 tarray NaN))) (h d0))).
    split; [exact Hset|]. split; [|split].
    + unfold interp_to_time.
      unfold bind at 1. unfold lift at 1.
      rewrite (item_nth_lt tarray 1 NaN) by lia.
      unfold bind at 1. unfold lift at 1.
      rewrite (item_nth_lt tarray 0 NaN) by lia.
      unfold bind at 1. unfold lift at 1. rewrite Ht.
      unfold bind at 1. unfold lift at 1.
      rewrite (item_nth_lt v 0 NaN) by lia.
      unfold bind at 1. unfold lift at 1. rewrite Hdict.
      unfold bind at 1. rewrite Hrun. rewrite Hpos', Hpos. reflexivity.
    + apply (Hget0 "time"). exact Htd.
    + cbn [vars set_h]. rewrite Hvars0. apply remove_first_time_filter.
Qed.

End TimeKey.

Section TimeKeyExample.

Import SatData.

(** The stand-in interpolation of the examples repeats the first data
    value at every requested point. *)
Lemma ex_E_interp_by : interp_by ex_E (fun _ fp _ => hd NaN fp).
Proof.
  intros x xp fp Hfp. cbn [np_interp ex_E]. unfold ex_np_interp.
  destruct fp as [|y fp]; [congruence|reflexivity].
Qed.

Lemma ex_d_rows_valid (k : string) :
  In k (vars ex_d) ->
  mem k default_keys = true /\
  exists row x, nth_error (data ex_d) (index_of k default_keys) = Some row /\
                In x row /\ isnan x = false.
Proof.
  intros [<-|[]]. split; [reflexivity|].
  exists [Fin 3; Fin 3], (Fin 3). split; [reflexivity|].
  split; [left; reflexivity|reflexivity].
Qed.

End TimeKeyExample.

(** C10, as stated, fails on a container whose time key has been assigned
    before: the second assignment goes through the first branch of
    [__setitem__], overwrites the time row and appends nothing, so the key
    is listed once. *)
Lemma second_time_assignment_appends_nothing :
  exists d1 d2 : SatData.t,
    SatData.__setitem__ "time" [Fin 5; Fin 6] (SatData.mkWorld ex_d []) =
      (Ok tt, SatData.mkWorld d1 []) /\
    SatData.vars d1 = ["bx"; "time"]%string /\
    SatData.__setitem__ "time" [Fin 7; Fin 8] (SatData.mkWorld d1 []) =
      (Ok tt, SatData.mkWorld d2 []) /\
    SatData.__getitem__ d2 "time" = Ok [Fin 7; Fin 8] /\
    SatData.vars d2 = ["bx"; "time"]%string /\
    SatData.vars d2 <> (SatData.vars d1 ++ ["time"%string])%list.
Proof.
  eexists. eexists.
  split; [reflexivity|]. split; [reflexivity|].
  split; [reflexivity|]. split; [reflexivity|].
  split; [reflexivity|discriminate].
Qed.

Lemma setitem_time_overwrites_and_activates_once_witness :
  (exists d' d'' : SatData.t,
     SatData.__setitem__ "time" [Fin 7; NaN] (SatData.mkWorld ex_d []) =
       (Ok tt, SatData.mkWorld d' []) /\
     SatData.vars d' = ["bx"; "time"]%string /\
     Resample.interp_nans ex_E None (SatData.mkWorld d' []) =
       (Ok tt, SatData.mkWorld d''
                 [mkLog INFO "interp_nans: Interpolating nans in None data" []]) /\
     SatData.__getitem__ d'' "time" = Ok [Fin 7; Fin 7]) /\
  (exists d' d2 : SatData.t,
     SatData.__setitem__ "time" [Fin 7; Fin 9] (SatData.mkWorld ex_d []) =
       (Ok tt, SatData.mkWorld d' []) /\
     Resample.interp_to_time ex_E d' [Fin 0; Fin 1] [] = (Ok d2, []) /\
     SatData.__getitem__ d2 "time" = Ok [Fin 7; Fin 7]).
Proof.
  destruct setitem_time_overwrites_and_activates_once
    as (_ & Hset & Hnans & Htime).
  split.
  - destruct (Hnans ex_E _ ex_d [] [Fin 7; NaN] ex_E_interp_by ex_d_wf eq_refl
                ex_d_rows_valid eq_refl)
      as (_ & d' & d'' & row & H1 & H2 & H3 & Hlen & Hfill).
    { exists (Fin 7). split; [left; reflexivity|reflexivity]. }
    destruct (Hset ex_d [] [Fin 7; NaN] ex_d_wf eq_refl)
      as (d1 & H1' & _ & _ & Hvars & _).
    rewrite H1 in H1'. injection H1' as <-.
    exists d', d''. split; [exact H1|]. split; [exact Hvars|].
    split; [exact H2|]. rewrite H3. f_equal.
    destruct row as [|r0 [|r1 [|r2 row]]]; try discriminate Hlen.
    pose proof (Hfill 0%nat ltac:(cbn; lia)) as F0.
    pose proof (Hfill 1%nat ltac:(cbn; lia)) as F1.
    cbn in F0, F1. subst r0 r1. reflexivity.
  - destruct (Htime ex_E _ ex_d [] [Fin 7; Fin 9] [Fin 0; Fin 1] ex_E_interp_by
                ex_d_wf ltac:(cbn; lia) eq_refl
                (fun k Hk => proj1 (ex_d_rows_valid k Hk)) eq_refl eq_refl
                ltac:(cbn; lia))
      as (d' & d2 & H1 & H2 & H3 & _).
    exists d', d2. split; [exact H1|]. split; [exact H2|exact H3].
Defined.
